(** * Workout timer: phase-sequence builders and timer state machines

    A shallow embedding of the timer engine of the workout-timer web app:
    the full variant (interval, head-to-head, stopwatch and breathing
    modes) and the sequence builder of the older single-mode [script.js].

    Modelling conventions.
    - Numbers read from the form come from [parseInt(..) || default]: they
      are integers, modelled as [Z]; [NaN] is [None].  Phase durations and
      counts are such integers.
    - The clocks [timeRemaining], [elapsedTime], [lapStartTime] and
      [breathingTimeRemaining] are stepped by the literal [0.01]; they are
      exact rationals [Q] here, so [timeRemaining - 0.01] is the exact
      difference (binary64 rounding is abstracted away).  On such clocks a
      phase of [d] seconds reaches zero with its tick number [100 d]; on
      binary64 clocks the rounding can cost one more tick.  The theorems
      on whole phases and runs therefore name no tick and no moment: they
      are invariants of every moment, or say that a moment exists.
    - [sequence.push(x)] appends at the end of a list.
    - [playBeep], [vibrate], [alert], [confirm] and the console line of the
      phase loaders are recorded in an event log.  [setTimeout] and
      [setInterval] register entries in a timer table, and an explicit
      event loop with a millisecond clock fires them; timers that are due
      in the same millisecond run in the order of the table, in which an
      interval keeps its place when it is armed again.  Rendering
      ([updateDisplay], button visibility, wake lock) does not touch the
      engine state and is left out, as is the display-only [workoutName]. *)

From Stdlib Require Import ZArith QArith Qround List Bool Lia Lqa String Ascii.
Import ListNotations.
Open Scope Z_scope.

(* ================================================================== *)
(** * Data model                                                        *)
(* ================================================================== *)

Inductive PhaseType := setup | warmup | work | rest | longRest.

Definition PhaseType_eqb (a b : PhaseType) : bool :=
  match a, b with
  | setup, setup | warmup, warmup | work, work
  | rest, rest | longRest, longRest => true
  | _, _ => false
  end.

(** A phase object.  [nextSet] exists on rest phases only and [person] on
    head-to-head phases only; an absent property is [None]. *)
Module phase.
Record t := mk {
  type : PhaseType;
  duration : Z;
  round : Z;
  set : Z;
  nextSet : option Z;
  person : option Z
}.
End phase.
Definition Phase : Type := phase.t.

(** [workoutState.config].  Each form loader writes 0 into the fields that
    the other mode does not use. *)
Module config.
Record t := mk {
  setupDuration : Z;
  warmupDuration : Z;
  workDuration : Z;
  restDuration : Z;
  longRestDuration : Z;
  setsPerRound : Z;
  numberOfRounds : Z;
  numberOfPeople : Z
}.
End config.
Definition Config : Type := config.t.

Inductive BreathingPhaseType := breathIn | inhaledHold | breathOut | exhaledHold.

Module bphase.
Record t := mk { type : BreathingPhaseType; duration : Z }.
End bphase.
Definition BreathingPhase : Type := bphase.t.

Module breathingConfig.
Record t := mk { breathIn : Z; inhaledHold : Z; breathOut : Z; exhaledHold : Z }.
End breathingConfig.
Definition BreathingConfig : Type := breathingConfig.t.

(** The [.value] strings of the form inputs. *)
Module elements.
Record t := mk {
  setupDuration : string;
  warmupDuration : string;
  workDuration : string;
  restDuration : string;
  longRestDuration : string;
  setsPerRound : string;
  numberOfRounds : string;
  numberOfPeople : string;
  workDurationHeadToHead : string;
  setupDurationHeadToHead : string;
  numberOfRoundsHeadToHead : string;
  breathInTime : string;
  inhaledHoldTime : string;
  breathOutTime : string;
  exhaledHoldTime : string
}.
End elements.
Definition Elements : Type := elements.t.

Inductive WorkoutMode := normal | headToHead | stopwatch.

Definition WorkoutMode_eqb (a b : WorkoutMode) : bool :=
  match a, b with
  | normal, normal | headToHead, headToHead | stopwatch, stopwatch => true
  | _, _ => false
  end.

(** [workoutState.currentPhase]: ['ready'], a phase type, or ['complete']. *)
Inductive PhaseName := ready | inPhase (t : PhaseType) | complete.

(** [workoutState.currentBreathingPhase]. *)
Inductive BreathingPhaseName := breathingReady | inBreathingPhase (t : BreathingPhaseType).

Record LapRecord := mkLap { lapNumber : Z; time : Q; lapDuration : Q }.

(** The functions handed to [setInterval] and [setTimeout].  The two
    advance closures capture [nextIndex] at the moment they are created. *)
Inductive Callback :=
  | cbUpdateTimer
  | cbAdvancePhase (nextIndex : Z)
  | cbCompletionPrompt
  | cbRestart
  | cbUpdateBreathingTimer
  | cbAdvanceBreathingPhase (nextIndex : Z).

Record Timer := mkTimer {
  timerId : Z;
  due : Z;
  every : option Z;
  callback : Callback
}.

Inductive BeepType := beepStart | beepEnd | beepRoundStart | beepComplete.

Inductive Event :=
  | playBeep (b : BeepType)
  | vibrate (pattern : list Z)
  | alert (msg : string)
  | confirm (msg : string)
  | phaseLoaded (index : Z) (p : Phase)
  | breathingPhaseLoaded (index : Z) (p : BreathingPhase).

(** The timer half of the global [workoutState] object.  Every field has a
    setter that rebuilds the record from the projections, so that a run of
    assignments reads as a run of [set_] calls. *)
Record WorkoutState := mkWorkoutState {
  config : Config;
  workoutMode : WorkoutMode;
  currentPhase : PhaseName;
  currentRound : Z;
  currentSet : Z;
  nextSet : Z;
  currentPerson : Z;
  timeRemaining : Q;
  totalWorkoutTime : Z;
  elapsedTime : Q;
  lapTimes : list LapRecord;
  lapStartTime : Q;
  intervalId : option Z;
  isPaused : bool;
  isRunning : bool;
  isCompleting : bool;
  isTransitioning : bool;
  phaseSequence : list Phase;
  currentPhaseIndex : Z
}.

Definition set_config (v : Config) (s : WorkoutState) : WorkoutState :=
  mkWorkoutState v (workoutMode s) (currentPhase s) (currentRound s)
    (currentSet s) (nextSet s) (currentPerson s) (timeRemaining s)
    (totalWorkoutTime s) (elapsedTime s) (lapTimes s) (lapStartTime s)
    (intervalId s) (isPaused s) (isRunning s) (isCompleting s)
    (isTransitioning s) (phaseSequence s) (currentPhaseIndex s).

Definition set_workoutMode (v : WorkoutMode) (s : WorkoutState) : WorkoutState :=
  mkWorkoutState (config s) v (currentPhase s) (currentRound s) (currentSet
    s) (nextSet s) (currentPerson s) (timeRemaining s) (totalWorkoutTime s)
    (elapsedTime s) (lapTimes s) (lapStartTime s) (intervalId s) (isPaused
    s) (isRunning s) (isCompleting s) (isTransitioning s) (phaseSequence s)
    (currentPhaseIndex s).

Definition set_currentPhase (v : PhaseName) (s : WorkoutState) : WorkoutState :=
  mkWorkoutState (config s) (workoutMode s) v (currentRound s) (currentSet
    s) (nextSet s) (currentPerson s) (timeRemaining s) (totalWorkoutTime s)
    (elapsedTime s) (lapTimes s) (lapStartTime s) (intervalId s) (isPaused
    s) (isRunning s) (isCompleting s) (isTransitioning s) (phaseSequence s)
    (currentPhaseIndex s).

Definition set_currentRound (v : Z) (s : WorkoutState) : WorkoutState :=
  mkWorkoutState (config s) (workoutMode s) (currentPhase s) v (currentSet
    s) (nextSet s) (currentPerson s) (timeRemaining s) (totalWorkoutTime s)
    (elapsedTime s) (lapTimes s) (lapStartTime s) (intervalId s) (isPaused
    s) (isRunning s) (isCompleting s) (isTransitioning s) (phaseSequence s)
    (currentPhaseIndex s).

Definition set_currentSet (v : Z) (s : WorkoutState) : WorkoutState :=
  mkWorkoutState (config s) (workoutMode s) (currentPhase s) (currentRound
    s) v (nextSet s) (currentPerson s) (timeRemaining s) (totalWorkoutTime
    s) (elapsedTime s) (lapTimes s) (lapStartTime s) (intervalId s)
    (isPaused s) (isRunning s) (isCompleting s) (isTransitioning s)
    (phaseSequence s) (currentPhaseIndex s).

Definition set_nextSet (v : Z) (s : WorkoutState) : WorkoutState :=
  mkWorkoutState (config s) (workoutMode s) (currentPhase s) (currentRound
    s) (currentSet s) v (currentPerson s) (timeRemaining s)
    (totalWorkoutTime s) (elapsedTime s) (lapTimes s) (lapStartTime s)
    (intervalId s) (isPaused s) (isRunning s) (isCompleting s)
    (isTransitioning s) (phaseSequence s) (currentPhaseIndex s).

Definition set_currentPerson (v : Z) (s : WorkoutState) : WorkoutState :=
  mkWorkoutState (config s) (workoutMode s) (currentPhase s) (currentRound
    s) (currentSet s) (nextSet s) v (timeRemaining s) (totalWorkoutTime s)
    (elapsedTime s) (lapTimes s) (lapStartTime s) (intervalId s) (isPaused
    s) (isRunning s) (isCompleting s) (isTransitioning s) (phaseSequence s)
    (currentPhaseIndex s).

Definition set_timeRemaining (v : Q) (s : WorkoutState) : WorkoutState :=
  mkWorkoutState (config s) (workoutMode s) (currentPhase s) (currentRound
    s) (currentSet s) (nextSet s) (currentPerson s) v (totalWorkoutTime s)
    (elapsedTime s) (lapTimes s) (lapStartTime s) (intervalId s) (isPaused
    s) (isRunning s) (isCompleting s) (isTransitioning s) (phaseSequence s)
    (currentPhaseIndex s).

Definition set_totalWorkoutTime (v : Z) (s : WorkoutState) : WorkoutState :=
  mkWorkoutState (config s) (workoutMode s) (currentPhase s) (currentRound
    s) (currentSet s) (nextSet s) (currentPerson s) (timeRemaining s) v
    (elapsedTime s) (lapTimes s) (lapStartTime s) (intervalId s) (isPaused
    s) (isRunning s) (isCompleting s) (isTransitioning s) (phaseSequence s)
    (currentPhaseIndex s).

Definition set_elapsedTime (v : Q) (s : WorkoutState) : WorkoutState :=
  mkWorkoutState (config s) (workoutMode s) (currentPhase s) (currentRound
    s) (currentSet s) (nextSet s) (currentPerson s) (timeRemaining s)
    (totalWorkoutTime s) v (lapTimes s) (lapStartTime s) (intervalId s)
    (isPaused s) (isRunning s) (isCompleting s) (isTransitioning s)
    (phaseSequence s) (currentPhaseIndex s).

Definition set_lapTimes (v : list LapRecord) (s : WorkoutState) : WorkoutState :=
  mkWorkoutState (config s) (workoutMode s) (currentPhase s) (currentRound
    s) (currentSet s) (nextSet s) (currentPerson s) (timeRemaining s)
    (totalWorkoutTime s) (elapsedTime s) v (lapStartTime s) (intervalId s)
    (isPaused s) (isRunning s) (isCompleting s) (isTransitioning s)
    (phaseSequence s) (currentPhaseIndex s).

Definition set_lapStartTime (v : Q) (s : WorkoutState) : WorkoutState :=
  mkWorkoutState (config s) (workoutMode s) (currentPhase s) (currentRound
    s) (currentSet s) (nextSet s) (currentPerson s) (timeRemaining s)
    (totalWorkoutTime s) (elapsedTime s) (lapTimes s) v (intervalId s)
    (isPaused s) (isRunning s) (isCompleting s) (isTransitioning s)
    (phaseSequence s) (currentPhaseIndex s).

Definition set_intervalId (v : option Z) (s : WorkoutState) : WorkoutState :=
  mkWorkoutState (config s) (workoutMode s) (currentPhase s) (currentRound
    s) (currentSet s) (nextSet s) (currentPerson s) (timeRemaining s)
    (totalWorkoutTime s) (elapsedTime s) (lapTimes s) (lapStartTime s) v
    (isPaused s) (isRunning s) (isCompleting s) (isTransitioning s)
    (phaseSequence s) (currentPhaseIndex s).

Definition set_isPaused (v : bool) (s : WorkoutState) : WorkoutState :=
  mkWorkoutState (config s) (workoutMode s) (currentPhase s) (currentRound
    s) (currentSet s) (nextSet s) (currentPerson s) (timeRemaining s)
    (totalWorkoutTime s) (elapsedTime s) (lapTimes s) (lapStartTime s)
    (intervalId s) v (isRunning s) (isCompleting s) (isTransitioning s)
    (phaseSequence s) (currentPhaseIndex s).

Definition set_isRunning (v : bool) (s : WorkoutState) : WorkoutState :=
  mkWorkoutState (config s) (workoutMode s) (currentPhase s) (currentRound
    s) (currentSet s) (nextSet s) (currentPerson s) (timeRemaining s)
    (totalWorkoutTime s) (elapsedTime s) (lapTimes s) (lapStartTime s)
    (intervalId s) (isPaused s) v (isCompleting s) (isTransitioning s)
    (phaseSequence s) (currentPhaseIndex s).

Definition set_isCompleting (v : bool) (s : WorkoutState) : WorkoutState :=
  mkWorkoutState (config s) (workoutMode s) (currentPhase s) (currentRound
    s) (currentSet s) (nextSet s) (currentPerson s) (timeRemaining s)
    (totalWorkoutTime s) (elapsedTime s) (lapTimes s) (lapStartTime s)
    (intervalId s) (isPaused s) (isRunning s) v (isTransitioning s)
    (phaseSequence s) (currentPhaseIndex s).

Definition set_isTransitioning (v : bool) (s : WorkoutState) : WorkoutState :=
  mkWorkoutState (config s) (workoutMode s) (currentPhase s) (currentRound
    s) (currentSet s) (nextSet s) (currentPerson s) (timeRemaining s)
    (totalWorkoutTime s) (elapsedTime s) (lapTimes s) (lapStartTime s)
    (intervalId s) (isPaused s) (isRunning s) (isCompleting s) v
    (phaseSequence s) (currentPhaseIndex s).

Definition set_phaseSequence (v : list Phase) (s : WorkoutState) : WorkoutState :=
  mkWorkoutState (config s) (workoutMode s) (currentPhase s) (currentRound
    s) (currentSet s) (nextSet s) (currentPerson s) (timeRemaining s)
    (totalWorkoutTime s) (elapsedTime s) (lapTimes s) (lapStartTime s)
    (intervalId s) (isPaused s) (isRunning s) (isCompleting s)
    (isTransitioning s) v (currentPhaseIndex s).

Definition set_currentPhaseIndex (v : Z) (s : WorkoutState) : WorkoutState :=
  mkWorkoutState (config s) (workoutMode s) (currentPhase s) (currentRound
    s) (currentSet s) (nextSet s) (currentPerson s) (timeRemaining s)
    (totalWorkoutTime s) (elapsedTime s) (lapTimes s) (lapStartTime s)
    (intervalId s) (isPaused s) (isRunning s) (isCompleting s)
    (isTransitioning s) (phaseSequence s) v.

(** The breathing half of [workoutState]. *)
Record BreathingState := mkBreathingState {
  breathingConfig : BreathingConfig;
  currentBreathingPhase : BreathingPhaseName;
  breathingTimeRemaining : Q;
  breathingPhaseSequence : list BreathingPhase;
  currentBreathingPhaseIndex : Z;
  breathingIntervalId : option Z;
  breathingIsPaused : bool;
  breathingIsRunning : bool;
  breathingIsTransitioning : bool
}.

Definition set_breathingConfig (v : BreathingConfig) (s : BreathingState) : BreathingState :=
  mkBreathingState v (currentBreathingPhase s) (breathingTimeRemaining s)
    (breathingPhaseSequence s) (currentBreathingPhaseIndex s)
    (breathingIntervalId s) (breathingIsPaused s) (breathingIsRunning s)
    (breathingIsTransitioning s).

Definition set_currentBreathingPhase (v : BreathingPhaseName) (s : BreathingState) : BreathingState :=
  mkBreathingState (breathingConfig s) v (breathingTimeRemaining s)
    (breathingPhaseSequence s) (currentBreathingPhaseIndex s)
    (breathingIntervalId s) (breathingIsPaused s) (breathingIsRunning s)
    (breathingIsTransitioning s).

Definition set_breathingTimeRemaining (v : Q) (s : BreathingState) : BreathingState :=
  mkBreathingState (breathingConfig s) (currentBreathingPhase s) v
    (breathingPhaseSequence s) (currentBreathingPhaseIndex s)
    (breathingIntervalId s) (breathingIsPaused s) (breathingIsRunning s)
    (breathingIsTransitioning s).

Definition set_breathingPhaseSequence (v : list BreathingPhase) (s : BreathingState) : BreathingState :=
  mkBreathingState (breathingConfig s) (currentBreathingPhase s)
    (breathingTimeRemaining s) v (currentBreathingPhaseIndex s)
    (breathingIntervalId s) (breathingIsPaused s) (breathingIsRunning s)
    (breathingIsTransitioning s).

Definition set_currentBreathingPhaseIndex (v : Z) (s : BreathingState) : BreathingState :=
  mkBreathingState (breathingConfig s) (currentBreathingPhase s)
    (breathingTimeRemaining s) (breathingPhaseSequence s) v
    (breathingIntervalId s) (breathingIsPaused s) (breathingIsRunning s)
    (breathingIsTransitioning s).

Definition set_breathingIntervalId (v : option Z) (s : BreathingState) : BreathingState :=
  mkBreathingState (breathingConfig s) (currentBreathingPhase s)
    (breathingTimeRemaining s) (breathingPhaseSequence s)
    (currentBreathingPhaseIndex s) v (breathingIsPaused s)
    (breathingIsRunning s) (breathingIsTransitioning s).

Definition set_breathingIsPaused (v : bool) (s : BreathingState) : BreathingState :=
  mkBreathingState (breathingConfig s) (currentBreathingPhase s)
    (breathingTimeRemaining s) (breathingPhaseSequence s)
    (currentBreathingPhaseIndex s) (breathingIntervalId s) v
    (breathingIsRunning s) (breathingIsTransitioning s).

Definition set_breathingIsRunning (v : bool) (s : BreathingState) : BreathingState :=
  mkBreathingState (breathingConfig s) (currentBreathingPhase s)
    (breathingTimeRemaining s) (breathingPhaseSequence s)
    (currentBreathingPhaseIndex s) (breathingIntervalId s)
    (breathingIsPaused s) v (breathingIsTransitioning s).

Definition set_breathingIsTransitioning (v : bool) (s : BreathingState) : BreathingState :=
  mkBreathingState (breathingConfig s) (currentBreathingPhase s)
    (breathingTimeRemaining s) (breathingPhaseSequence s)
    (currentBreathingPhaseIndex s) (breathingIntervalId s)
    (breathingIsPaused s) (breathingIsRunning s) v.

(** Everything the handlers can see: the state object, the form, the
    answer the user gives to a [confirm] dialog, the browser's timer table
    with its millisecond clock, and the events emitted so far. *)
Record World := mkWorld {
  state : WorkoutState;
  breathing : BreathingState;
  dom : Elements;
  userConfirms : bool;
  timers : list Timer;
  nextTimerId : Z;
  clock : Z;
  log : list Event
}.

Definition set_state (v : WorkoutState) (s : World) : World :=
  mkWorld v (breathing s) (dom s) (userConfirms s) (timers s) (nextTimerId
    s) (clock s) (log s).

Definition set_breathing (v : BreathingState) (s : World) : World :=
  mkWorld (state s) v (dom s) (userConfirms s) (timers s) (nextTimerId s)
    (clock s) (log s).

Definition set_dom (v : Elements) (s : World) : World :=
  mkWorld (state s) (breathing s) v (userConfirms s) (timers s) (nextTimerId
    s) (clock s) (log s).

Definition set_userConfirms (v : bool) (s : World) : World :=
  mkWorld (state s) (breathing s) (dom s) v (timers s) (nextTimerId s)
    (clock s) (log s).

Definition set_timers (v : list Timer) (s : World) : World :=
  mkWorld (state s) (breathing s) (dom s) (userConfirms s) v (nextTimerId s)
    (clock s) (log s).

Definition set_nextTimerId (v : Z) (s : World) : World :=
  mkWorld (state s) (breathing s) (dom s) (userConfirms s) (timers s) v
    (clock s) (log s).

Definition set_clock (v : Z) (s : World) : World :=
  mkWorld (state s) (breathing s) (dom s) (userConfirms s) (timers s)
    (nextTimerId s) v (log s).

Definition set_log (v : list Event) (s : World) : World :=
  mkWorld (state s) (breathing s) (dom s) (userConfirms s) (timers s)
    (nextTimerId s) (clock s) v.

(* ================================================================== *)
(** * Arrays, loops and JavaScript helpers                              *)
(* ================================================================== *)

Definition push {A} (arr : list A) (x : A) : list A := arr ++ [x].

(** [arr.length] *)
Definition len {A} (arr : list A) : Z := Z.of_nat (List.length arr).

(** [arr[i]]; [None] is [undefined]. *)
Definition index {A} (arr : list A) (i : Z) : option A :=
  if i <? 0 then None else nth_error arr (Z.to_nat i).

(** [for (let i = ..; i <= hi; i++) acc = body i acc], with the number of
    iterations still allowed as the structural argument. *)
Fixpoint for_loop {A} (fuel : nat) (i hi : Z) (body : Z -> A -> A) (acc : A) : A :=
  match fuel with
  | O => acc
  | S fuel' =>
      if i <=? hi then for_loop fuel' (i + 1) hi body (body i acc) else acc
  end.

(** [for (let i = 1; i <= hi; i++)]: the loop makes [max 0 hi] iterations,
    so that much fuel never runs out. *)
Definition for_upto {A} (hi : Z) (body : Z -> A -> A) (acc : A) : A :=
  for_loop (Z.to_nat hi) 1 hi body acc.

(** [sequence.reduce((sum, phase) => sum + phase.duration, 0)] *)
Definition reduce_duration (sequence : list Phase) : Z :=
  fold_left (fun sum p => sum + phase.duration p) sequence 0.

Definition Qlt_bool (x y : Q) : bool := negb (Qle_bool y x).

(** ** [parseInt] on ASCII strings, radix argument absent *)

Definition isWhiteSpace (c : ascii) : bool :=
  match nat_of_ascii c with
  | 9%nat | 10%nat | 11%nat | 12%nat | 13%nat | 32%nat => true
  | _ => false
  end.

Fixpoint trimStart (s : string) : string :=
  match s with
  | EmptyString => s
  | String c s' => if isWhiteSpace c then trimStart s' else s
  end.

Definition digitValue (c : ascii) : option Z :=
  let n := Z.of_nat (nat_of_ascii c) in
  if (48 <=? n) && (n <=? 57) then Some (n - 48)
  else if (97 <=? n) && (n <=? 122) then Some (n - 87)
  else if (65 <=? n) && (n <=? 90) then Some (n - 55)
  else None.

(** Value of the longest prefix of radix-[R] digits; [acc] is the value
    read so far, [None] while no digit has been read. *)
Fixpoint readDigits (R : Z) (s : string) (acc : option Z) : option Z :=
  match s with
  | EmptyString => acc
  | String c s' =>
      match digitValue c with
      | Some d =>
          if d <? R
          then readDigits R s'
                 (Some (R * match acc with Some a => a | None => 0 end + d))
          else acc
      | None => acc
      end
  end.

(** [parseInt(s)]; [None] is [NaN].  [-0] and [+0] are both [Some 0]. *)
Definition parseInt (s : string) : option Z :=
  let str := trimStart s in
  let sign := match str with String "-"%char _ => -1 | _ => 1 end in
  let str :=
    match str with
    | String "-"%char r | String "+"%char r => r
    | _ => str
    end in
  let '(R, str) :=
    match str with
    | String "0"%char (String "x"%char r)
    | String "0"%char (String "X"%char r) => (16, r)
    | _ => (10, str)
    end in
  match readDigits R str None with
  | None => None
  | Some mathInt => Some (sign * mathInt)
  end.

(** [v || d] for a number [v]: [NaN] and zero are falsy. *)
Definition orDefault (v : option Z) (d : Z) : Z :=
  match v with
  | None => d
  | Some 0 => d
  | Some z => z
  end.

(* ================================================================== *)
(** * Sequence builders                                                 *)
(* ================================================================== *)

(** The array that [buildPhaseSequence] fills (full variant). *)
Definition intervalSequence (config : Config) : list Phase :=
  let sequence := [] in
  let sequence :=
    if 0 <? config.setupDuration config
    then push sequence (phase.mk setup (config.setupDuration config) 0 0 None None)
    else sequence in
  let sequence :=
    if 0 <? config.warmupDuration config
    then push sequence (phase.mk warmup (config.warmupDuration config) 0 0 None None)
    else sequence in
  for_upto (config.numberOfRounds config) (fun round sequence =>
    let sequence :=
      for_upto (config.setsPerRound config) (fun set sequence =>
        let sequence :=
          push sequence
            (phase.mk work (config.workDuration config) round set None None) in
        if (set <? config.setsPerRound config) && (0 <? config.restDuration config)
        then push sequence
               (phase.mk rest (config.restDuration config) round set
                  (Some (set + 1)) None)
        else sequence) sequence in
    if (round <? config.numberOfRounds config)
       && (0 <? config.longRestDuration config)
    then push sequence
           (phase.mk longRest (config.longRestDuration config) round 0 None None)
    else sequence) sequence.

(** The array that [buildHeadToHeadSequence] fills. *)
Definition headToHeadSequence (config : Config) : list Phase :=
  let sequence := [] in
  let sequence :=
    if 0 <? config.setupDuration config
    then push sequence
           (phase.mk setup (config.setupDuration config) 0 0 None (Some 0))
    else sequence in
  for_upto (config.numberOfRounds config) (fun round sequence =>
    for_upto (config.numberOfPeople config) (fun person sequence =>
      push sequence
        (phase.mk work (config.workDuration config) round 0 None (Some person)))
      sequence) sequence.

(** The array that [buildBreathingSequence] fills. *)
Definition breathingSequence (config : BreathingConfig) : list BreathingPhase :=
  let sequence := [] in
  let sequence :=
    if 0 <? breathingConfig.breathIn config
    then push sequence (bphase.mk breathIn (breathingConfig.breathIn config))
    else sequence in
  let sequence :=
    if 0 <? breathingConfig.inhaledHold config
    then push sequence (bphase.mk inhaledHold (breathingConfig.inhaledHold config))
    else sequence in
  let sequence :=
    if 0 <? breathingConfig.breathOut config
    then push sequence (bphase.mk breathOut (breathingConfig.breathOut config))
    else sequence in
  let sequence :=
    if 0 <? breathingConfig.exhaledHold config
    then push sequence (bphase.mk exhaledHold (breathingConfig.exhaledHold config))
    else sequence in
  sequence.

Module Legacy.
(** [buildPhaseSequence] of the single-mode [script.js]: there is no setup
    phase; the rest is the same loop. *)
Definition intervalSequence (config : Config) : list Phase :=
  let sequence := [] in
  let sequence :=
    if 0 <? config.warmupDuration config
    then push sequence (phase.mk warmup (config.warmupDuration config) 0 0 None None)
    else sequence in
  for_upto (config.numberOfRounds config) (fun round sequence =>
    let sequence :=
      for_upto (config.setsPerRound config) (fun set sequence =>
        let sequence :=
          push sequence
            (phase.mk work (config.workDuration config) round set None None) in
        if (set <? config.setsPerRound config) && (0 <? config.restDuration config)
        then push sequence
               (phase.mk rest (config.restDuration config) round set
                  (Some (set + 1)) None)
        else sequence) sequence in
    if (round <? config.numberOfRounds config)
       && (0 <? config.longRestDuration config)
    then push sequence
           (phase.mk longRest (config.longRestDuration config) round 0 None None)
    else sequence) sequence.

(** What the function leaves in the state object. *)
Definition buildPhaseSequence (s : WorkoutState) : WorkoutState :=
  let sequence := intervalSequence (config s) in
  let s := set_phaseSequence sequence s in
  let s := set_currentPhaseIndex 0 s in
  set_totalWorkoutTime (reduce_duration sequence) s.
End Legacy.

(** [buildPhaseSequence], [buildHeadToHeadSequence] and
    [buildBreathingSequence] as state transformers. *)
Definition buildPhaseSequence (s : WorkoutState) : WorkoutState :=
  let sequence := intervalSequence (config s) in
  let s := set_phaseSequence sequence s in
  let s := set_currentPhaseIndex 0 s in
  set_totalWorkoutTime (reduce_duration sequence) s.

Definition buildHeadToHeadSequence (s : WorkoutState) : WorkoutState :=
  let sequence := headToHeadSequence (config s) in
  let s := set_phaseSequence sequence s in
  let s := set_currentPhaseIndex 0 s in
  set_totalWorkoutTime (reduce_duration sequence) s.

Definition buildBreathingSequence (b : BreathingState) : BreathingState :=
  let sequence := breathingSequence (breathingConfig b) in
  let b := set_breathingPhaseSequence sequence b in
  set_currentBreathingPhaseIndex 0 b.

(* ================================================================== *)
(** * Effects: event log and browser timers                             *)
(* ================================================================== *)

(** An assignment to a field of [workoutState]. *)
Definition upd (f : WorkoutState -> WorkoutState) (w : World) : World :=
  set_state (f (state w)) w.

Definition updB (f : BreathingState -> BreathingState) (w : World) : World :=
  set_breathing (f (breathing w)) w.

Definition emit (e : Event) (w : World) : World :=
  set_log (push (log w) e) w.

(** [setTimeout(cb, delay)] *)
Definition setTimeout (cb : Callback) (delay : Z) (w : World) : World :=
  let t := mkTimer (nextTimerId w) (clock w + delay) None cb in
  set_nextTimerId (nextTimerId w + 1) (set_timers (push (timers w) t) w).

(** [setInterval(cb, period)]; the identifier it returns is the value of
    [nextTimerId] before the call. *)
Definition setInterval (cb : Callback) (period : Z) (w : World) : World :=
  let t := mkTimer (nextTimerId w) (clock w + period) (Some period) cb in
  set_nextTimerId (nextTimerId w + 1) (set_timers (push (timers w) t) w).

(** [clearInterval(id)] *)
Definition clearInterval (id : Z) (w : World) : World :=
  set_timers (filter (fun t => negb (timerId t =? id)) (timers w)) w.

(* ================================================================== *)
(** * Workout timer engine                                              *)
(* ================================================================== *)

(** [loadConfigFromForm] *)
Definition loadConfigFromForm (w : World) : World :=
  let e := dom w in
  if WorkoutMode_eqb (workoutMode (state w)) headToHead then
    upd (set_config {|
      config.setupDuration :=
        orDefault (parseInt (elements.setupDurationHeadToHead e)) 10;
      config.workDuration :=
        orDefault (parseInt (elements.workDurationHeadToHead e)) 30;
      config.numberOfPeople := orDefault (parseInt (elements.numberOfPeople e)) 3;
      config.numberOfRounds :=
        orDefault (parseInt (elements.numberOfRoundsHeadToHead e)) 1;
      config.warmupDuration := 0;
      config.restDuration := 0;
      config.longRestDuration := 0;
      config.setsPerRound := 0 |}) w
  else
    upd (set_config {|
      config.setupDuration := orDefault (parseInt (elements.setupDuration e)) 10;
      config.warmupDuration := orDefault (parseInt (elements.warmupDuration e)) 0;
      config.workDuration := orDefault (parseInt (elements.workDuration e)) 30;
      config.restDuration := orDefault (parseInt (elements.restDuration e)) 0;
      config.longRestDuration :=
        orDefault (parseInt (elements.longRestDuration e)) 0;
      config.setsPerRound := orDefault (parseInt (elements.setsPerRound e)) 1;
      config.numberOfRounds := orDefault (parseInt (elements.numberOfRounds e)) 1;
      config.numberOfPeople := 0 |}) w.

(** [resetTimer] *)
Definition resetTimer (w : World) : World :=
  let w :=
    match intervalId (state w) with
    | Some id => upd (set_intervalId None) (clearInterval id w)
    | None => w
    end in
  let w := upd (set_isRunning false) w in
  let w := upd (set_isPaused false) w in
  let w := upd (set_isCompleting false) w in
  let w := upd (set_isTransitioning false) w in
  let w := upd (set_currentPhase ready) w in
  let w := upd (set_currentPhaseIndex 0) w in
  let w := upd (set_currentRound 0) w in
  let w := upd (set_currentSet 0) w in
  let w := upd (set_nextSet 0) w in
  let w := upd (set_currentPerson 0) w in
  let w := upd (set_timeRemaining 0%Q) w in
  let w := upd (set_elapsedTime 0%Q) w in
  let w := upd (set_lapTimes []) w in
  upd (set_lapStartTime 0%Q) w.

(** [completeWorkout] *)
Definition completeWorkout (w : World) : World :=
  if isCompleting (state w) then w else
  let w := upd (set_isCompleting true) w in
  let w :=
    match intervalId (state w) with
    | Some id => upd (set_intervalId None) (clearInterval id w)
    | None => w
    end in
  let w := upd (set_isRunning false) w in
  let w := upd (set_currentPhase complete) w in
  let w := emit (playBeep beepComplete) w in
  let w := emit (vibrate [300; 100; 300; 100; 300]) w in
  setTimeout cbCompletionPrompt 1000 w.

(** [loadCurrentPhase].  [phase.set || 0] is [phase.set]; an absent
    [nextSet] or [person] gives 0. *)
Definition loadCurrentPhase (w : World) : World :=
  let s := state w in
  if (currentPhaseIndex s <? 0) || (len (phaseSequence s) <=? currentPhaseIndex s)
  then completeWorkout w
  else
    match index (phaseSequence s) (currentPhaseIndex s) with
    | None => completeWorkout w
    | Some p =>
        let w := upd (set_currentPhase (inPhase (phase.type p))) w in
        let w := upd (set_timeRemaining (inject_Z (phase.duration p))) w in
        let w := upd (set_currentRound (phase.round p)) w in
        let w := upd (set_currentSet (phase.set p)) w in
        let w := upd (set_nextSet (orDefault (phase.nextSet p) 0)) w in
        let w := upd (set_currentPerson (orDefault (phase.person p) 0)) w in
        emit (phaseLoaded (currentPhaseIndex s) p) w
    end.

(** [startStopwatch] *)
Definition startStopwatch (w : World) : World :=
  let w := upd (set_isRunning true) w in
  let w := upd (set_isPaused false) w in
  let w := upd (fun s => set_lapStartTime (elapsedTime s) s) w in
  let id := nextTimerId w in
  let w := setInterval cbUpdateTimer 10 w in
  let w := upd (set_intervalId (Some id)) w in
  let w := emit (playBeep beepStart) w in
  emit (vibrate [100]) w.

(** The part of [startTimer] that follows a successful validation. *)
Definition startValidated (w : World) : World :=
  let w :=
    if WorkoutMode_eqb (workoutMode (state w)) headToHead
    then upd buildHeadToHeadSequence w
    else upd buildPhaseSequence w in
  if len (phaseSequence (state w)) =? 0
  then emit (alert "Invalid workout configuration") w
  else
    let w := upd (set_isRunning true) w in
    let w := upd (set_isPaused false) w in
    let w := upd (set_currentPhaseIndex 0) w in
    let w := upd (set_elapsedTime 0%Q) w in
    let w := loadCurrentPhase w in
    let id := nextTimerId w in
    let w := setInterval cbUpdateTimer 10 w in
    let w := upd (set_intervalId (Some id)) w in
    let w := emit (playBeep beepStart) w in
    emit (vibrate [100]) w.

(** [startTimer] *)
Definition startTimer (w : World) : World :=
  if WorkoutMode_eqb (workoutMode (state w)) stopwatch then startStopwatch w
  else
    let w := loadConfigFromForm w in
    let c := config (state w) in
    if WorkoutMode_eqb (workoutMode (state w)) headToHead then
      if config.workDuration c <=? 0
      then emit (alert "Work duration must be greater than 0") w
      else if (config.numberOfPeople c <=? 0) || (config.numberOfRounds c <=? 0)
      then emit (alert "Number of people and number of rounds must be greater than 0") w
      else startValidated w
    else
      if config.workDuration c <=? 0
      then emit (alert "Work duration must be greater than 0") w
      else if (config.setsPerRound c <=? 0) || (config.numberOfRounds c <=? 0)
      then emit (alert "Sets per round and number of rounds must be greater than 0") w
      else startValidated w.

(** [updateTimer], the function the 10 ms interval calls. *)
Definition updateTimer (w : World) : World :=
  let s := state w in
  if negb (isRunning s) || isPaused s || isTransitioning s then w
  else if WorkoutMode_eqb (workoutMode s) stopwatch then
    upd (set_elapsedTime (elapsedTime s + 0.01)%Q) w
  else
    let wasComplete := Qle_bool (timeRemaining s) 0 in
    let w :=
      if negb wasComplete then
        let w := upd (set_timeRemaining (timeRemaining s - 0.01)%Q) w in
        upd (set_elapsedTime (elapsedTime s + 0.01)%Q) w
      else w in
    let w :=
      if Qlt_bool (timeRemaining (state w)) 0
      then upd (set_timeRemaining 0%Q) w
      else w in
    if negb wasComplete && Qle_bool (timeRemaining (state w)) 0 then
      let w := upd (set_isTransitioning true) w in
      let w := emit (playBeep beepEnd) w in
      let w := emit (vibrate [100]) w in
      let nextIndex := currentPhaseIndex (state w) + 1 in
      setTimeout (cbAdvancePhase nextIndex) 500 w
    else w.

(** The arrow function that [updateTimer] hands to [setTimeout]. *)
Definition advancePhase (nextIndex : Z) (w : World) : World :=
  if negb (isRunning (state w)) then upd (set_isTransitioning false) w
  else
    let w := upd (set_currentPhaseIndex nextIndex) w in
    let w := upd (set_isTransitioning false) w in
    let s := state w in
    if currentPhaseIndex s <? len (phaseSequence s) then
      match index (phaseSequence s) (currentPhaseIndex s) with
      | None => completeWorkout w
      | Some nextPhase =>
          let w :=
            if WorkoutMode_eqb (workoutMode s) headToHead
               && PhaseType_eqb (phase.type nextPhase) work
            then emit (vibrate [100]) (emit (playBeep beepEnd) w)
            else if WorkoutMode_eqb (workoutMode s) normal then
              if PhaseType_eqb (phase.type nextPhase) work
                 && (phase.set nextPhase =? 1)
                 && (currentRound s <? phase.round nextPhase)
              then emit (vibrate [200; 100; 200]) (emit (playBeep beepRoundStart) w)
              else w
            else w in
          loadCurrentPhase w
      end
    else completeWorkout w.

(** The arrow function that [completeWorkout] hands to [setTimeout]. *)
Definition completionPrompt (w : World) : World :=
  let w := emit (confirm "Workout Complete! Would you like to start again?") w in
  let shouldRestart := userConfirms w in
  let w := upd (set_isCompleting false) w in
  if shouldRestart
  then setTimeout cbRestart 100 (resetTimer w)
  else resetTimer w.

(** [pauseTimer], [resumeTimer] *)
Definition pauseTimer (w : World) : World :=
  if negb (isRunning (state w)) then w else upd (set_isPaused true) w.

Definition resumeTimer (w : World) : World :=
  if negb (isRunning (state w)) then w else upd (set_isPaused false) w.

(** [recordLap] *)
Definition recordLap (w : World) : World :=
  let s := state w in
  if negb (WorkoutMode_eqb (workoutMode s) stopwatch) || negb (isRunning s) then w
  else
    let lapNumber := len (lapTimes s) + 1 in
    let lapTime := elapsedTime s in
    let lapDuration := (lapTime - lapStartTime s)%Q in
    let w := upd (set_lapTimes (push (lapTimes s) (mkLap lapNumber lapTime lapDuration))) w in
    let w := upd (set_lapStartTime lapTime) w in
    let w := emit (playBeep beepEnd) w in
    emit (vibrate [50]) w.

(* ================================================================== *)
(** * Breathing timer engine                                            *)
(* ================================================================== *)

(** [loadBreathingConfigFromForm] *)
Definition loadBreathingConfigFromForm (w : World) : World :=
  let e := dom w in
  updB (set_breathingConfig {|
    breathingConfig.breathIn := orDefault (parseInt (elements.breathInTime e)) 4;
    breathingConfig.inhaledHold :=
      orDefault (parseInt (elements.inhaledHoldTime e)) 0;
    breathingConfig.breathOut := orDefault (parseInt (elements.breathOutTime e)) 4;
    breathingConfig.exhaledHold :=
      orDefault (parseInt (elements.exhaledHoldTime e)) 0 |}) w.

(** [resetBreathingTimer] *)
Definition resetBreathingTimer (w : World) : World :=
  let w :=
    match breathingIntervalId (breathing w) with
    | Some id => updB (set_breathingIntervalId None) (clearInterval id w)
    | None => w
    end in
  let w := updB (set_breathingIsRunning false) w in
  let w := updB (set_breathingIsPaused false) w in
  let w := updB (set_breathingIsTransitioning false) w in
  let w := updB (set_currentBreathingPhase breathingReady) w in
  let w := updB (set_currentBreathingPhaseIndex 0) w in
  updB (set_breathingTimeRemaining 0%Q) w.

(** [loadBreathingPhase] *)
Definition loadBreathingPhase (w : World) : World :=
  let w :=
    if (currentBreathingPhaseIndex (breathing w) <? 0)
       || (len (breathingPhaseSequence (breathing w))
           <=? currentBreathingPhaseIndex (breathing w))
    then updB (set_currentBreathingPhaseIndex 0) w
    else w in
  let b := breathing w in
  match index (breathingPhaseSequence b) (currentBreathingPhaseIndex b) with
  | None => resetBreathingTimer w
  | Some p =>
      let w := updB (set_currentBreathingPhase (inBreathingPhase (bphase.type p))) w in
      let w := updB (set_breathingTimeRemaining (inject_Z (bphase.duration p))) w in
      emit (breathingPhaseLoaded (currentBreathingPhaseIndex b) p) w
  end.

(** [startBreathingTimer] *)
Definition startBreathingTimer (w : World) : World :=
  let w := loadBreathingConfigFromForm w in
  let c := breathingConfig (breathing w) in
  if (breathingConfig.breathIn c <=? 0) && (breathingConfig.breathOut c <=? 0)
  then emit (alert "Breath in or breath out time must be greater than 0") w
  else
    let w := updB buildBreathingSequence w in
    if len (breathingPhaseSequence (breathing w)) =? 0
    then emit (alert "Invalid breathing configuration") w
    else
      let w := updB (set_breathingIsRunning true) w in
      let w := updB (set_breathingIsPaused false) w in
      let w := updB (set_currentBreathingPhaseIndex 0) w in
      let w := updB (set_breathingIsTransitioning false) w in
      let w := loadBreathingPhase w in
      let id := nextTimerId w in
      let w := setInterval cbUpdateBreathingTimer 10 w in
      let w := updB (set_breathingIntervalId (Some id)) w in
      let w := emit (playBeep beepStart) w in
      emit (vibrate [100]) w.

(** [updateBreathingTimer].  [%] is [Z.rem]: the index is non-negative and
    the length positive wherever a started run reaches the branch.  (On an
    empty array JavaScript gives [NaN] and [Z.rem] gives the dividend;
    the loader finds no phase either way and resets.) *)
Definition updateBreathingTimer (w : World) : World :=
  let b := breathing w in
  if negb (breathingIsRunning b) || breathingIsPaused b || breathingIsTransitioning b
  then w
  else
    let wasComplete := Qle_bool (breathingTimeRemaining b) 0 in
    let w :=
      if negb wasComplete
      then updB (set_breathingTimeRemaining (breathingTimeRemaining b - 0.01)%Q) w
      else w in
    let w :=
      if Qlt_bool (breathingTimeRemaining (breathing w)) 0
      then updB (set_breathingTimeRemaining 0%Q) w
      else w in
    if negb wasComplete && Qle_bool (breathingTimeRemaining (breathing w)) 0 then
      let w := updB (set_breathingIsTransitioning true) w in
      let w := emit (playBeep beepEnd) w in
      let w := emit (vibrate [100]) w in
      let nextIndex :=
        Z.rem (currentBreathingPhaseIndex (breathing w) + 1)
              (len (breathingPhaseSequence (breathing w))) in
      setTimeout (cbAdvanceBreathingPhase nextIndex) 500 w
    else w.

(** The arrow function that [updateBreathingTimer] hands to [setTimeout]. *)
Definition advanceBreathingPhase (nextIndex : Z) (w : World) : World :=
  if negb (breathingIsRunning (breathing w))
  then updB (set_breathingIsTransitioning false) w
  else
    let w := updB (set_currentBreathingPhaseIndex nextIndex) w in
    let w := updB (set_breathingIsTransitioning false) w in
    loadBreathingPhase w.

(** [pauseBreathingTimer], [resumeBreathingTimer] *)
Definition pauseBreathingTimer (w : World) : World :=
  if negb (breathingIsRunning (breathing w)) then w
  else updB (set_breathingIsPaused true) w.

Definition resumeBreathingTimer (w : World) : World :=
  if negb (breathingIsRunning (breathing w)) then w
  else updB (set_breathingIsPaused false) w.

(* ================================================================== *)
(** * The event loop                                                    *)
(* ================================================================== *)

Definition runCallback (cb : Callback) (w : World) : World :=
  match cb with
  | cbUpdateTimer => updateTimer w
  | cbAdvancePhase nextIndex => advancePhase nextIndex w
  | cbCompletionPrompt => completionPrompt w
  | cbRestart => startTimer w
  | cbUpdateBreathingTimer => updateBreathingTimer w
  | cbAdvanceBreathingPhase nextIndex => advanceBreathingPhase nextIndex w
  end.

Definition findTimer (id : Z) (w : World) : option Timer :=
  find (fun t => timerId t =? id) (timers w).

(** Take a timer that is about to run out of the table: a timeout is
    dropped, an interval is armed again one period later. *)
Definition rearm (t : Timer) (w : World) : World :=
  set_timers
    (flat_map (fun u =>
       if timerId u =? timerId t then
         match every u with
         | Some period => [mkTimer (timerId u) (due u + period) (every u) (callback u)]
         | None => []
         end
       else [u]) (timers w)) w.

(** Run, in registration order, the timers that were due when the clock
    reached its present value; one that an earlier callback has cleared
    in the meantime is skipped. *)
Fixpoint fire (ids : list Z) (w : World) : World :=
  match ids with
  | [] => w
  | id :: ids' =>
      match findTimer id w with
      | None => fire ids' w
      | Some t => fire ids' (runCallback (callback t) (rearm t w))
      end
  end.

(** One millisecond passes. *)
Definition step_ms (w : World) : World :=
  let w := set_clock (clock w + 1) w in
  fire (map timerId (filter (fun t => due t <=? clock w) (timers w))) w.

Fixpoint elapse (ms : nat) (w : World) : World :=
  match ms with
  | O => w
  | S ms' => elapse ms' (step_ms w)
  end.

(** [n] consecutive calls of a handler. *)
Fixpoint repeat_call (f : World -> World) (n : nat) (w : World) : World :=
  match n with
  | O => w
  | S n' => repeat_call f n' (f w)
  end.

(** The state object as the script creates it, and a page that has just
    been loaded. *)
Definition initialState : WorkoutState := {|
  config := config.mk 10 0 30 10 60 4 1 0;
  workoutMode := normal;
  currentPhase := ready;
  currentRound := 0;
  currentSet := 0;
  nextSet := 0;
  currentPerson := 0;
  timeRemaining := 0%Q;
  totalWorkoutTime := 0;
  elapsedTime := 0%Q;
  lapTimes := [];
  lapStartTime := 0%Q;
  intervalId := None;
  isPaused := false;
  isRunning := false;
  isCompleting := false;
  isTransitioning := false;
  phaseSequence := [];
  currentPhaseIndex := 0
|}.

Definition initialBreathing : BreathingState := {|
  breathingConfig := breathingConfig.mk 4 0 4 0;
  currentBreathingPhase := breathingReady;
  breathingTimeRemaining := 0%Q;
  breathingPhaseSequence := [];
  currentBreathingPhaseIndex := 0;
  breathingIntervalId := None;
  breathingIsPaused := false;
  breathingIsRunning := false;
  breathingIsTransitioning := false
|}.

Definition page (mode : WorkoutMode) (e : Elements) : World := {|
  state := set_workoutMode mode initialState;
  breathing := initialBreathing;
  dom := e;
  userConfirms := false;
  timers := [];
  nextTimerId := 1;
  clock := 0;
  log := []
|}.

(* ================================================================== *)
(** * Vocabulary of the properties                                      *)
(* ================================================================== *)

(** The integers [lo, lo+1, ..., lo+n-1]. *)
Fixpoint zrange (lo : Z) (n : nat) : list Z :=
  match n with
  | O => []
  | S n' => lo :: zrange (lo + 1) n'
  end.

(** Number of phases of one kind. *)
Definition count_type (t : PhaseType) (sequence : list Phase) : Z :=
  len (filter (fun p => PhaseType_eqb (phase.type p) t) sequence).

Fixpoint sum_durations (sequence : list Phase) : Z :=
  match sequence with
  | [] => 0
  | p :: tl => phase.duration p + sum_durations tl
  end.

(** A duration contributes only when it is switched on. *)
Definition whenPositive (d : Z) : Z := if 0 <? d then d else 0.

(** The interval ordering as the design document words it:
    [[setup?] -> [warmup?] -> for round in 1..R: (for set in 1..S:
    work(set) -> [rest(set, nextSet = set+1) if set < S and rest > 0])
    -> [longRest if round < R and longRest > 0]]. *)
Definition optionalPhase (t : PhaseType) (d : Z) (person : option Z) : list Phase :=
  if 0 <? d then [phase.mk t d 0 0 None person] else [].

Definition roundOrdering (c : Config) (r : Z) : list Phase :=
  flat_map (fun s =>
    phase.mk work (config.workDuration c) r s None None ::
    (if (s <? config.setsPerRound c) && (0 <? config.restDuration c)
     then [phase.mk rest (config.restDuration c) r s (Some (s + 1)) None]
     else []))
    (zrange 1 (Z.to_nat (config.setsPerRound c)))
  ++ (if (r <? config.numberOfRounds c) && (0 <? config.longRestDuration c)
      then [phase.mk longRest (config.longRestDuration c) r 0 None None]
      else []).

Definition roundsOrdering (c : Config) : list Phase :=
  flat_map (roundOrdering c) (zrange 1 (Z.to_nat (config.numberOfRounds c))).

Definition intervalOrdering (c : Config) : list Phase :=
  optionalPhase setup (config.setupDuration c) None
  ++ optionalPhase warmup (config.warmupDuration c) None
  ++ roundsOrdering c.

(** The head-to-head ordering as the design document words it:
    [[setup?] -> for round in 1..R: for person in 1..P: work(person)]. *)
Definition headToHeadOrdering (c : Config) : list Phase :=
  optionalPhase setup (config.setupDuration c) (Some 0)
  ++ flat_map (fun r =>
       map (fun p => phase.mk work (config.workDuration c) r 0 None (Some p))
           (zrange 1 (Z.to_nat (config.numberOfPeople c))))
       (zrange 1 (Z.to_nat (config.numberOfRounds c))).

(** What [startTimer]'s validation lets through, per mode. *)
Definition acceptedInterval (c : Config) : Prop :=
  0 < config.workDuration c /\ 0 < config.setsPerRound c
  /\ 0 < config.numberOfRounds c.

Definition acceptedHeadToHead (c : Config) : Prop :=
  0 < config.workDuration c /\ 0 < config.numberOfPeople c
  /\ 0 < config.numberOfRounds c.

(** Occurrences of an event in the log. *)
Definition isPhaseComplete (e : Event) : bool :=
  match e with
  | playBeep beepEnd => true
  | _ => false
  end.

Definition count_events (p : Event -> bool) (l : list Event) : nat :=
  List.length (filter p l).

(** A sum over a sequence of a weight that looks at the kind and the
    duration of a phase only; counting a kind and adding the durations are
    both of this form. *)
Fixpoint weigh (omega : PhaseType -> Z -> Z) (sequence : list Phase) : Z :=
  match sequence with
  | [] => 0
  | p :: tl => omega (phase.type p) (phase.duration p) + weigh omega tl
  end.

(** The duration the configuration gives to each kind of phase. *)
Definition configuredDuration (c : Config) (t : PhaseType) : Z :=
  match t with
  | setup => config.setupDuration c
  | warmup => config.warmupDuration c
  | work => config.workDuration c
  | rest => config.restDuration c
  | longRest => config.longRestDuration c
  end.

Definition configuredBreath (c : BreathingConfig) (t : BreathingPhaseType) : Z :=
  match t with
  | breathIn => breathingConfig.breathIn c
  | inhaledHold => breathingConfig.inhaledHold c
  | breathOut => breathingConfig.breathOut c
  | exhaledHold => breathingConfig.exhaledHold c
  end.

(** The checks of [startTimer], per mode, as one proposition, and the
    array the accepted configuration is turned into. *)
Definition accepted (mode : WorkoutMode) (c : Config) : Prop :=
  match mode with
  | headToHead => acceptedHeadToHead c
  | _ => acceptedInterval c
  end.

Definition builtSequence (mode : WorkoutMode) (c : Config) : list Phase :=
  match mode with
  | headToHead => headToHeadSequence c
  | _ => intervalSequence c
  end.

(** A phase is well timed when it lasts what the configuration says for
    its kind, and that is a positive time. *)
Definition wellTimed (c : Config) (p : Phase) : Prop :=
  0 < phase.duration p
  /\ phase.duration p = configuredDuration c (phase.type p).

(** People 3, rounds 2, work 20, setup 5. *)
Definition headToHeadExample : Config := config.mk 5 0 20 0 0 0 2 3.

(** The countdown modes: the machine runs, is not paused, is not in the
    settle delay, and is not the stopwatch. *)
Definition ticking (w : World) : Prop :=
  isRunning (state w) = true /\ isPaused (state w) = false
  /\ isTransitioning (state w) = false /\ workoutMode (state w) <> stopwatch.

(** The state with its two clocks blanked: what a tick must not touch. *)
Definition frame (s : WorkoutState) : WorkoutState :=
  set_timeRemaining 0%Q (set_elapsedTime 0%Q s).

(** [k] ticks, as a time. *)
Definition ticks (k : nat) : Q := (inject_Z (Z.of_nat k) * 0.01)%Q.

(** The world with the two workout clocks blanked. *)
Definition wframe (w : World) : World := set_state (frame (state w)) w.

(** A filled-in form: interval 10/0/30/10/60 with 3 sets and 2 rounds,
    head-to-head 3 people, work 20, setup 5, 2 rounds, breathing 4/0/4/0. *)
Definition exampleForm : Elements := {|
  elements.setupDuration := "10";
  elements.warmupDuration := "0";
  elements.workDuration := "30";
  elements.restDuration := "10";
  elements.longRestDuration := "60";
  elements.setsPerRound := "3";
  elements.numberOfRounds := "2";
  elements.numberOfPeople := "3";
  elements.workDurationHeadToHead := "20";
  elements.setupDurationHeadToHead := "5";
  elements.numberOfRoundsHeadToHead := "2";
  elements.breathInTime := "4";
  elements.inhaledHoldTime := "0";
  elements.breathOutTime := "4";
  elements.exhaledHoldTime := "0"
|}.

(** An interval run that has just been started from the example form:
    the 10 s setup phase is loaded. *)
Definition startedExample : World := startTimer (page normal exampleForm).

(** A running stopwatch whose [timeRemaining] field holds 5. *)
Definition stopwatchWithTime : World :=
  upd (set_timeRemaining 5%Q) (startTimer (page stopwatch exampleForm)).

(** The example form with a negative work duration typed in. *)
Definition negativeWorkForm : Elements := {|
  elements.setupDuration := "10";
  elements.warmupDuration := "0";
  elements.workDuration := "-5";
  elements.restDuration := "10";
  elements.longRestDuration := "60";
  elements.setsPerRound := "3";
  elements.numberOfRounds := "2";
  elements.numberOfPeople := "3";
  elements.workDurationHeadToHead := "-5";
  elements.setupDurationHeadToHead := "5";
  elements.numberOfRoundsHeadToHead := "2";
  elements.breathInTime := "-1";
  elements.inhaledHoldTime := "0";
  elements.breathOutTime := "-1";
  elements.exhaledHoldTime := "0"
|}.

(** Let [ms] milliseconds pass. *)
Definition after (ms : Z) (w : World) : World := elapse (Z.to_nat ms) w.

(** Equality of two lists of clock values, as rationals. *)
Fixpoint Qlist_eqb (a b : list Q) : bool :=
  match a, b with
  | [], [] => true
  | x :: a', y :: b' => Qeq_bool x y && Qlist_eqb a' b'
  | _, _ => false
  end.

(** The stopwatch at the moment its elapsed time reads [t], and a lap
    taken at that moment.  (Between two laps the ticks of a running
    stopwatch change [elapsedTime] only.) *)
Definition lapAt (t : Q) (w : World) : World :=
  recordLap (upd (set_elapsedTime t) w).

(** A stopwatch started on a fresh page, with laps taken when the
    elapsed time is 12.3 s, 27.0 s and 40.5 s. *)
Definition threeLaps : World :=
  lapAt 40.5 (lapAt 27.0 (lapAt 12.3 (startTimer (page stopwatch exampleForm)))).

(** The breathing start ended in its first rejection. *)
Definition breathingRejected (w : World) : Prop :=
  log (startBreathingTimer w)
  = log w ++ [alert "Breath in or breath out time must be greater than 0"].

(** A form whose breathing fields hold a zero and something that is not a
    number. *)
Definition zeroBreathForm : Elements := {|
  elements.setupDuration := "10";
  elements.warmupDuration := "0";
  elements.workDuration := "30";
  elements.restDuration := "10";
  elements.longRestDuration := "60";
  elements.setsPerRound := "3";
  elements.numberOfRounds := "2";
  elements.numberOfPeople := "3";
  elements.workDurationHeadToHead := "20";
  elements.setupDurationHeadToHead := "5";
  elements.numberOfRoundsHeadToHead := "2";
  elements.breathInTime := "0";
  elements.inhaledHoldTime := "0";
  elements.breathOutTime := "abc";
  elements.exhaledHoldTime := ""
|}.

(** The example form with a setup phase of 1 s and breathing phases of
    1 s, for runs that are followed millisecond by millisecond. *)
Definition shortForm : Elements := {|
  elements.setupDuration := "1";
  elements.warmupDuration := "0";
  elements.workDuration := "30";
  elements.restDuration := "10";
  elements.longRestDuration := "60";
  elements.setsPerRound := "3";
  elements.numberOfRounds := "2";
  elements.numberOfPeople := "3";
  elements.workDurationHeadToHead := "20";
  elements.setupDurationHeadToHead := "5";
  elements.numberOfRoundsHeadToHead := "2";
  elements.breathInTime := "1";
  elements.inhaledHoldTime := "0";
  elements.breathOutTime := "1";
  elements.exhaledHoldTime := "0"
|}.

(** A head-to-head form: two people, one round, 1 s of work each, and a
    negative setup entry, which switches the setup phase off. *)
Definition duelForm : Elements := {|
  elements.setupDuration := "10";
  elements.warmupDuration := "0";
  elements.workDuration := "30";
  elements.restDuration := "10";
  elements.longRestDuration := "60";
  elements.setsPerRound := "3";
  elements.numberOfRounds := "2";
  elements.numberOfPeople := "2";
  elements.workDurationHeadToHead := "1";
  elements.setupDurationHeadToHead := "-1";
  elements.numberOfRoundsHeadToHead := "1";
  elements.breathInTime := "4";
  elements.inhaledHoldTime := "0";
  elements.breathOutTime := "4";
  elements.exhaledHoldTime := "0"
|}.

(** A reset during the settle delay, followed by a new start before the
    delay is over.  The first run reaches the end of its 1 s setup phase
    at 1000 ms, so its advance is due at 1500 ms; the reset comes at
    1100 ms and the new start at 1300 ms. *)
Definition atBoundary : World := after 1000 (startTimer (page normal shortForm)).
Definition resetInSettle : World := resetTimer (after 100 atBoundary).
Definition restarted : World := startTimer (after 200 resetInSettle).
Definition settleOver : World := after 200 restarted.








(** The breathing machine is running on the sequence [seq]. *)
Definition breathingAlive (seq : list BreathingPhase) (w : World) : Prop :=
  breathingIsRunning (breathing w) = true
  /\ breathingPhaseSequence (breathing w) = seq.

(** The breathing run started from the example form (4/0/4/0). *)
Definition breathingExample : World :=
  startBreathingTimer (page normal exampleForm).




(* ================================================================== *)
(** * Numbers as text                                                   *)
(* ================================================================== *)

(** The decimal digit [d] as a character. *)
Definition digitChar (d : Z) : ascii := ascii_of_nat (Z.to_nat (48 + d)).

(** The decimal digits of [n >= 0] in front of [acc], least significant
    digit first; [fuel] bounds the number of digits. *)
Fixpoint digitsOf (fuel : nat) (n : Z) (acc : string) : string :=
  match fuel with
  | O => acc
  | S fuel' =>
      let acc := String (digitChar (n mod 10)) acc in
      if n <? 10 then acc else digitsOf fuel' (n / 10) acc
  end.

(** [String(n)] for an integer [n], which is also what an assignment of
    [n] to an input's [.value] stores.  A number has no more decimal than
    binary digits, so the fuel never runs out. *)
Definition numberToString (n : Z) : string :=
  if n <? 0
  then String "-" (digitsOf (S (Z.to_nat (Z.log2 (- n)))) (- n) EmptyString)
  else digitsOf (S (Z.to_nat (Z.log2 n))) n EmptyString.

(** [s.padStart(2, '0')] *)
Definition padStart2 (s : string) : string :=
  match s with
  | EmptyString => "00"
  | String _ EmptyString => String "0" s
  | _ => s
  end.

(** The value held by the accumulator of [readDigits]. *)
Definition accValue (acc : option Z) : Z :=
  match acc with
  | Some a => a
  | None => 0
  end.

(** The text of a non-negative number starts with a digit, and with a
    digit again if it goes on. *)
Inductive digitString : string -> Prop :=
  | digitString_one d : 0 <= d < 10 -> digitString (String (digitChar d) EmptyString)
  | digitString_more d s :
      0 <= d < 10 -> digitString s -> digitString (String (digitChar d) s).

(** [Number.MAX_SAFE_INTEGER]: up to here integers and their decimal
    text are exact in JavaScript. *)
Definition MAX_SAFE_INTEGER : Z := 9007199254740991.

Definition safeInteger (n : Z) : Prop := Z.abs n <= MAX_SAFE_INTEGER.

(** Every number of a configuration is a safe integer. *)
Definition safeConfig (c : Config) : Prop :=
  safeInteger (config.setupDuration c) /\ safeInteger (config.warmupDuration c)
  /\ safeInteger (config.workDuration c) /\ safeInteger (config.restDuration c)
  /\ safeInteger (config.longRestDuration c)
  /\ safeInteger (config.setsPerRound c) /\ safeInteger (config.numberOfRounds c)
  /\ safeInteger (config.numberOfPeople c).

(* ================================================================== *)
(** * Person colours                                                    *)
(* ================================================================== *)

Definition PERSON_COLORS : list string :=
  ["#4CAF50"; "#2196F3"; "#FF9800"; "#9C27B0"; "#F44336";
   "#009688"; "#E91E63"; "#FFC107"; "#3F51B5"; "#00BCD4"]%string.

(** [getPersonColor]; [None] would be [undefined]. *)
Definition getPersonColor (personNumber : Z) : option string :=
  if personNumber <? 1 then index PERSON_COLORS 0
  else index PERSON_COLORS (Z.rem (personNumber - 1) (len PERSON_COLORS)).

(* ================================================================== *)
(** * Time as text                                                      *)
(* ================================================================== *)

(** Rounding towards zero. *)
Definition Qtrunc (x : Q) : Z := if Qle_bool 0 x then Qfloor x else Qceiling x.

(** [x % m] on numbers: the remainder takes the sign of [x]. *)
Definition Qrem (x m : Q) : Q := (x - m * inject_Z (Qtrunc (x / m)))%Q.

(** [formatTimeWithMilliseconds] *)
Definition formatTimeWithMilliseconds (seconds : Q) : string :=
  let totalSeconds := if Qle_bool seconds 0 then 0%Q else seconds in
  let mins := Qfloor (totalSeconds / 60) in
  let secs := Qfloor (Qrem totalSeconds 60) in
  let centiseconds := Qfloor (Qrem totalSeconds 1 * 100) in
  (padStart2 (numberToString mins) ++ ":" ++ padStart2 (numberToString secs)
   ++ "." ++ padStart2 (numberToString centiseconds))%string.

(* ================================================================== *)
(** * The timer display                                                 *)
(* ================================================================== *)

(** What [updateDisplay] writes: text contents, the class name of the
    timer section, two style properties and the width of the progress
    bar in percent. *)
Module display.
Record t := mk {
  timerDisplay : string;
  phaseIndicator : string;
  timerSectionClass : string;
  backgroundColor : string;
  currentPersonDisplay : string;
  currentPersonText : string;
  roundInfo : string;
  setInfo : string;
  progressBarWidth : Q
}.
End display.
Definition Display : Type := display.t.

(** The string a phase type is in the script. *)
Definition phaseTypeName (t : PhaseType) : string :=
  match t with
  | setup => "setup"
  | warmup => "warmup"
  | work => "work"
  | rest => "rest"
  | longRest => "longRest"
  end.

(** [phaseLabels[currentPhase] || 'Ready'] *)
Definition phaseLabel (p : PhaseName) : string :=
  match p with
  | ready => "Ready"
  | inPhase setup => "Setup"
  | inPhase warmup => "Warm-up"
  | inPhase work => "Work"
  | inPhase rest => "Rest"
  | inPhase longRest => "Long Rest"
  | complete => "Complete"
  end.

Definition isPhase (p : PhaseName) (t : PhaseType) : bool :=
  match p with
  | inPhase u => PhaseType_eqb u t
  | _ => false
  end.

Definition isComplete (p : PhaseName) : bool :=
  match p with complete => true | _ => false end.

Definition isReady (p : PhaseName) : bool :=
  match p with ready => true | _ => false end.

(** [updateProgressBar]: the width in percent. *)
Definition updateProgressBar (s : WorkoutState) : Q :=
  if totalWorkoutTime s =? 0 then 0%Q
  else
    let progress := (elapsedTime s / inject_Z (totalWorkoutTime s) * 100)%Q in
    if Qle_bool progress 100 then progress else 100%Q.

(** [updateDisplay]: the display it leaves, given the one it found.  A
    field that a branch does not assign keeps what it held. *)
Definition updateDisplay (s : WorkoutState) (d : Display) : Display :=
  if WorkoutMode_eqb (workoutMode s) stopwatch then
    {| display.timerDisplay := formatTimeWithMilliseconds (elapsedTime s);
       display.phaseIndicator := "Stopwatch";
       display.timerSectionClass := "timer-section phase-stopwatch";
       display.backgroundColor := display.backgroundColor d;
       display.currentPersonDisplay := "none";
       display.currentPersonText := display.currentPersonText d;
       display.roundInfo := "";
       display.setInfo := "";
       display.progressBarWidth := 0%Q |}
  else
    let timerDisplay :=
      if isReady (currentPhase s) || isComplete (currentPhase s)
      then "00:00.00"%string
      else formatTimeWithMilliseconds (timeRemaining s) in
    let phaseIndicator := phaseLabel (currentPhase s) in
    let timerSectionClass :=
      match currentPhase s with
      | inPhase t => ("timer-section" ++ " " ++ "phase-" ++ phaseTypeName t)%string
      | _ => "timer-section"%string
      end in
    let ofRounds :=
      ("Round " ++ numberToString (currentRound s) ++ " of "
       ++ numberToString (config.numberOfRounds (config s)))%string in
    if WorkoutMode_eqb (workoutMode s) headToHead then
      let personShown := isPhase (currentPhase s) work && (0 <? currentPerson s) in
      let backgroundColor :=
        if personShown then
          match getPersonColor (currentPerson s) with
          | Some personColor => personColor
          | None => display.backgroundColor d
          end
        else ""%string in
      let currentPersonDisplay := if personShown then "block"%string else "none"%string in
      let currentPersonText :=
        if personShown
        then ("Person " ++ numberToString (currentPerson s))%string
        else display.currentPersonText d in
      let '(roundInfo, setInfo) :=
        if isComplete (currentPhase s) then ("Workout Complete!"%string, ""%string)
        else if 0 <? currentRound s then
          (ofRounds,
           if 0 <? currentPerson s
           then ("Person " ++ numberToString (currentPerson s) ++ " of "
                 ++ numberToString (config.numberOfPeople (config s)))%string
           else ""%string)
        else (""%string, ""%string) in
      {| display.timerDisplay := timerDisplay;
         display.phaseIndicator := phaseIndicator;
         display.timerSectionClass := timerSectionClass;
         display.backgroundColor := backgroundColor;
         display.currentPersonDisplay := currentPersonDisplay;
         display.currentPersonText := currentPersonText;
         display.roundInfo := roundInfo;
         display.setInfo := setInfo;
         display.progressBarWidth := updateProgressBar s |}
    else
      let ofSets :=
        (" of " ++ numberToString (config.setsPerRound (config s)))%string in
      let currentPhaseObj := index (phaseSequence s) (currentPhaseIndex s) in
      let '(roundInfo, setInfo) :=
        if isPhase (currentPhase s) setup || isPhase (currentPhase s) warmup
        then (""%string, ""%string)
        else if isComplete (currentPhase s)
        then ("Workout Complete!"%string, ""%string)
        else if 0 <? currentRound s then
          (ofRounds,
           if isPhase (currentPhase s) work then
             let displaySet :=
               match currentPhaseObj with
               | Some p => phase.set p
               | None => currentSet s
               end in
             ("Set " ++ numberToString displaySet ++ ofSets)%string
           else if isPhase (currentPhase s) rest then
             let nextSet :=
               match currentPhaseObj with
               | Some p => orDefault (phase.nextSet p) (nextSet s)
               | None => nextSet s
               end in
             if (0 <? nextSet) && (nextSet <=? config.setsPerRound (config s))
             then ("Rest before Set " ++ numberToString nextSet ++ ofSets)%string
             else ("Set " ++ numberToString (currentSet s) ++ " - Rest")%string
           else if isPhase (currentPhase s) longRest then "Rest between rounds"%string
           else ""%string)
        else (display.roundInfo d, display.setInfo d) in
      {| display.timerDisplay := timerDisplay;
         display.phaseIndicator := phaseIndicator;
         display.timerSectionClass := timerSectionClass;
         display.backgroundColor := display.backgroundColor d;
         display.currentPersonDisplay := "none";
         display.currentPersonText := display.currentPersonText d;
         display.roundInfo := roundInfo;
         display.setInfo := setInfo;
         display.progressBarWidth := updateProgressBar s |}.

(* ================================================================== *)
(** * The breathing circle                                              *)
(* ================================================================== *)

(** What [updateBreathingGraphic] gives the circle: the label, the width
    (and height) in pixels and the background colour. *)
Module graphic.
Record t := mk { label : string; circleSize : Q; color : string }.
End graphic.
Definition Graphic : Type := graphic.t.

(** [updateBreathingGraphic] *)
Definition updateBreathingGraphic (b : BreathingState) : Graphic :=
  let phase := currentBreathingPhase b in
  let maxSize := 280%Q in
  let minSize := 130%Q in
  let phaseDuration :=
    orDefault
      (option_map bphase.duration
         (index (breathingPhaseSequence b) (currentBreathingPhaseIndex b))) 4 in
  let progress := (1 - breathingTimeRemaining b / inject_Z phaseDuration)%Q in
  let circleSize :=
    match phase with
    | inBreathingPhase breathIn => (minSize + (maxSize - minSize) * progress)%Q
    | inBreathingPhase inhaledHold => maxSize
    | inBreathingPhase breathOut => (maxSize - (maxSize - minSize) * progress)%Q
    | inBreathingPhase exhaledHold => minSize
    | breathingReady => 130%Q
    end in
  {| graphic.label :=
       match phase with
       | breathingReady => "Ready"
       | inBreathingPhase breathIn => "Breathe In"
       | inBreathingPhase inhaledHold => "Hold"
       | inBreathingPhase breathOut => "Breathe Out"
       | inBreathingPhase exhaledHold => "Hold"
       end;
     graphic.circleSize := circleSize;
     graphic.color :=
       match phase with
       | breathingReady => "#C8A8E9"
       | inBreathingPhase breathIn => "#2196F3"
       | inBreathingPhase inhaledHold => "#4CAF50"
       | inBreathingPhase breathOut => "#FF9800"
       | inBreathingPhase exhaledHold => "#9C27B0"
       end |}.

(* ================================================================== *)
(** * Forms and presets                                                 *)
(* ================================================================== *)

(** A configuration object as it comes back from storage: a preset or the
    last configuration.  [None] is a property the object does not have. *)
Module stored.
Record t := mk {
  setupDuration : option Z;
  warmupDuration : option Z;
  workDuration : option Z;
  restDuration : option Z;
  longRestDuration : option Z;
  setsPerRound : option Z;
  numberOfRounds : option Z;
  numberOfPeople : option Z;
  mode : option WorkoutMode
}.
End stored.
Definition StoredConfig : Type := stored.t.

(** The object literal [{ ...workoutState.config, mode:
    workoutState.workoutMode }] of [savePreset]: the numbers of the
    configuration and the mode ([workoutName], which the spread copies as
    well, is display only and left out like in [Config]). *)
Definition presetOf (c : Config) (mode : WorkoutMode) : StoredConfig := {|
  stored.setupDuration := Some (config.setupDuration c);
  stored.warmupDuration := Some (config.warmupDuration c);
  stored.workDuration := Some (config.workDuration c);
  stored.restDuration := Some (config.restDuration c);
  stored.longRestDuration := Some (config.longRestDuration c);
  stored.setsPerRound := Some (config.setsPerRound c);
  stored.numberOfRounds := Some (config.numberOfRounds c);
  stored.numberOfPeople := Some (config.numberOfPeople c);
  stored.mode := Some mode
|}.

(** [v !== undefined ? v : d] *)
Definition orUndefined (v : option Z) (d : Z) : Z :=
  match v with
  | Some z => z
  | None => d
  end.

(** [populateFormFromConfig]: the [.value]s of the form afterwards. *)
Definition populateFormFromConfig (config : StoredConfig) (mode : WorkoutMode)
           (e : Elements) : Elements :=
  if WorkoutMode_eqb mode headToHead then
    {| elements.setupDuration := elements.setupDuration e;
       elements.warmupDuration := elements.warmupDuration e;
       elements.workDuration := elements.workDuration e;
       elements.restDuration := elements.restDuration e;
       elements.longRestDuration := elements.longRestDuration e;
       elements.setsPerRound := elements.setsPerRound e;
       elements.numberOfRounds := elements.numberOfRounds e;
       elements.numberOfPeople :=
         numberToString (orDefault (stored.numberOfPeople config) 3);
       elements.workDurationHeadToHead :=
         numberToString (orDefault (stored.workDuration config) 30);
       elements.setupDurationHeadToHead :=
         numberToString (orUndefined (stored.setupDuration config) 10);
       elements.numberOfRoundsHeadToHead :=
         numberToString (orDefault (stored.numberOfRounds config) 1);
       elements.breathInTime := elements.breathInTime e;
       elements.inhaledHoldTime := elements.inhaledHoldTime e;
       elements.breathOutTime := elements.breathOutTime e;
       elements.exhaledHoldTime := elements.exhaledHoldTime e |}
  else
    {| elements.setupDuration :=
         numberToString (orUndefined (stored.setupDuration config) 10);
       elements.warmupDuration :=
         numberToString (orDefault (stored.warmupDuration config) 0);
       elements.workDuration :=
         numberToString (orDefault (stored.workDuration config) 30);
       elements.restDuration :=
         numberToString (orDefault (stored.restDuration config) 0);
       elements.longRestDuration :=
         numberToString (orDefault (stored.longRestDuration config) 0);
       elements.setsPerRound :=
         numberToString (orDefault (stored.setsPerRound config) 1);
       elements.numberOfRounds :=
         numberToString (orDefault (stored.numberOfRounds config) 1);
       elements.numberOfPeople := elements.numberOfPeople e;
       elements.workDurationHeadToHead := elements.workDurationHeadToHead e;
       elements.setupDurationHeadToHead := elements.setupDurationHeadToHead e;
       elements.numberOfRoundsHeadToHead := elements.numberOfRoundsHeadToHead e;
       elements.breathInTime := elements.breathInTime e;
       elements.inhaledHoldTime := elements.inhaledHoldTime e;
       elements.breathOutTime := elements.breathOutTime e;
       elements.exhaledHoldTime := elements.exhaledHoldTime e |}.

(** [loadPreset(name)], given what [presets[name]] holds. *)
Definition loadPreset (found : option StoredConfig) (w : World) : World :=
  match found with
  | None => emit (alert "Preset not found") w
  | Some preset =>
      let load (w : World) : World :=
        let presetMode :=
          match stored.mode preset with
          | Some m => m
          | None => normal
          end in
        let w := upd (set_workoutMode presetMode) w in
        let w := set_dom (populateFormFromConfig preset presetMode (dom w)) w in
        loadConfigFromForm w in
      if isRunning (state w) then
        let w :=
          emit (confirm "A workout is in progress. Loading a preset will reset the timer. Continue?") w in
        if userConfirms w then load (resetTimer w) else w
      else load w
  end.

(** The object that [loadPresetsFromStorage] parses from the storage and
    [savePreset] writes back: the presets under their names, in the order
    of their keys.  [presets[name]] is the entry under [name]; an
    assignment replaces it where it stands, or adds one at the end. *)
Definition Presets : Type := list (string * StoredConfig).

Fixpoint getPreset (name : string) (presets : Presets) : option StoredConfig :=
  match presets with
  | [] => None
  | (k, v) :: tl => if String.eqb k name then Some v else getPreset name tl
  end.

Fixpoint setPreset (name : string) (v : StoredConfig) (presets : Presets) : Presets :=
  match presets with
  | [] => [(name, v)]
  | (k, v') :: tl =>
      if String.eqb k name then (k, v) :: tl else (k, v') :: setPreset name v tl
  end.

(** The double quote of the template [`Preset "${workoutName}" saved!`]. *)
Definition quote : string := String (ascii_of_nat 34) EmptyString.

(** [savePreset()], on the presets that the storage holds, for a storage
    that takes the write ([setItem] does not throw).  [workoutName] is the
    trimmed name field, which [loadConfigFromForm] reads next to the
    numbers.  The result is the presets the storage holds afterwards and
    the world; the list of presets on the page, which [loadPresets]
    redraws, is rendering. *)
Definition savePreset (workoutName : string) (presets : Presets) (w : World)
  : Presets * World :=
  let w := loadConfigFromForm w in
  if String.eqb workoutName EmptyString then
    (presets, emit (alert "Please enter a workout name to save as preset") w)
  else
    let presets :=
      setPreset workoutName (presetOf (config (state w)) (workoutMode (state w)))
        presets in
    (presets,
     emit (alert ("Preset " ++ quote ++ workoutName ++ quote ++ " saved!")) w).

(** A breathing preset: a built-in one, or a custom one from storage. *)
Inductive Category := Calming | Focus | Energizing | Sleep.

Module bpreset.
Record t := mk {
  category : option Category;
  name : string;
  breathIn : option Z;
  inhaledHold : option Z;
  breathOut : option Z;
  exhaledHold : option Z;
  description : string;
  useCase : string
}.
End bpreset.
Definition BreathingPreset : Type := bpreset.t.

Definition builtIn (c : Category) (name : string) (i h o x : Z)
           (description useCase : string) : BreathingPreset :=
  bpreset.mk (Some c) name (Some i) (Some h) (Some o) (Some x) description useCase.

(** [BUILT_IN_BREATHING_PRESETS[category]] *)
Definition BUILT_IN_BREATHING_PRESETS (c : Category) : list BreathingPreset :=
  match c with
  | Calming =>
      [builtIn Calming "Box Breathing" 4 4 4 4
         "Stress reduction, emotional control" "Anxiety, grounding";
       builtIn Calming "Relaxed Box" 5 5 5 5
         "Deep calming" "Meditation, nervous system reset";
       builtIn Calming "4-6 Breathing" 4 0 6 0
         "Relaxation" "Mild stress, beginners";
       builtIn Calming "Extended Exhale" 4 0 8 0
         "Strong calming" "Panic, acute stress"]
  | Focus =>
      [builtIn Focus "Focus Box" 5 5 5 5
         "Concentration" "Work, studying";
       builtIn Focus "Tactical Focus" 4 4 6 2
         "Calm alertness" "Performance, decision-making";
       builtIn Focus "Equal Breathing" 6 0 6 0
         "Mental balance" "Sustained focus"]
  | Energizing =>
      [builtIn Energizing "Stimulating Breath" 6 0 4 0
         "Increased energy" "Fatigue, low motivation";
       builtIn Energizing "Wake-Up Rhythm" 4 2 4 0
         "Gentle activation" "Morning use";
       builtIn Energizing "Power Breathing" 5 5 3 2
         "Readiness, alertness" "Pre-task activation"]
  | Sleep =>
      [builtIn Sleep "4-7-8 Breathing" 4 7 8 0
         "Sleep induction" "Falling asleep";
       builtIn Sleep "Slow Drift" 6 2 8 2
         "Deep relaxation" "Wind-down, meditation";
       builtIn Sleep "Long Exhale Sleep" 4 0 10 0
         "Nervous system downshift" "Insomnia, racing mind"]
  end.

(** [getBuiltInBreathingPresets(category)] for the categories the page
    offers; [None] is the empty string. *)
Definition getBuiltInBreathingPresets (category : option Category) : list BreathingPreset :=
  match category with
  | None =>
      List.concat (map BUILT_IN_BREATHING_PRESETS [Calming; Focus; Energizing; Sleep])
  | Some c => BUILT_IN_BREATHING_PRESETS c
  end.

(** [populateBreathingFormFromPreset] *)
Definition populateBreathingFormFromPreset (preset : BreathingPreset)
           (e : Elements) : Elements :=
  {| elements.setupDuration := elements.setupDuration e;
     elements.warmupDuration := elements.warmupDuration e;
     elements.workDuration := elements.workDuration e;
     elements.restDuration := elements.restDuration e;
     elements.longRestDuration := elements.longRestDuration e;
     elements.setsPerRound := elements.setsPerRound e;
     elements.numberOfRounds := elements.numberOfRounds e;
     elements.numberOfPeople := elements.numberOfPeople e;
     elements.workDurationHeadToHead := elements.workDurationHeadToHead e;
     elements.setupDurationHeadToHead := elements.setupDurationHeadToHead e;
     elements.numberOfRoundsHeadToHead := elements.numberOfRoundsHeadToHead e;
     elements.breathInTime := numberToString (orDefault (bpreset.breathIn preset) 4);
     elements.inhaledHoldTime :=
       numberToString (orDefault (bpreset.inhaledHold preset) 0);
     elements.breathOutTime := numberToString (orDefault (bpreset.breathOut preset) 4);
     elements.exhaledHoldTime :=
       numberToString (orDefault (bpreset.exhaledHold preset) 0) |}.

(** [loadBreathingPreset(name)], given the preset object: the argument
    itself for a built-in preset, [presets[name]] for a custom one. *)
Definition loadBreathingPreset (found : option BreathingPreset) (w : World) : World :=
  match found with
  | None => emit (alert "Preset not found") w
  | Some preset =>
      let load (w : World) : World :=
        let w := set_dom (populateBreathingFormFromPreset preset (dom w)) w in
        loadBreathingConfigFromForm w in
      if breathingIsRunning (breathing w) then
        let w :=
          emit (confirm "A breathing session is in progress. Loading a preset will reset the timer. Continue?") w in
        if userConfirms w then load (resetBreathingTimer w) else w
      else load w
  end.

(* ================================================================== *)
(** * Event handlers                                                    *)
(* ================================================================== *)

(** The [change] handlers of the three mode buttons. *)
Definition selectMode (mode : WorkoutMode) (w : World) : World :=
  if isRunning (state w) then
    let w := emit (confirm "Switching modes will reset the timer. Continue?") w in
    if userConfirms w then upd (set_workoutMode mode) (resetTimer w) else w
  else upd (set_workoutMode mode) w.

(** The [click] handlers of the pause, lap and reset buttons. *)
Definition pauseClick (w : World) : World :=
  if isPaused (state w) then resumeTimer w else pauseTimer w.

Definition resetClick (w : World) : World :=
  if isRunning (state w) then
    let w := emit (confirm "Reset the timer? Current progress will be lost.") w in
    if userConfirms w then resetTimer w else w
  else resetTimer w.

Definition breathingPauseClick (w : World) : World :=
  if breathingIsPaused (breathing w) then resumeBreathingTimer w
  else pauseBreathingTimer w.

Definition breathingResetClick (w : World) : World :=
  if breathingIsRunning (breathing w) then
    let w :=
      emit (confirm "Reset the breathing timer? Current progress will be lost.") w in
    if userConfirms w then resetBreathingTimer w else w
  else resetBreathingTimer w.

(** [switchTab]; the [breathingMode] flag it sets is read nowhere. *)
Inductive Tab := workoutTab | breathingTab.

Definition switchTab (tab : Tab) (w : World) : World :=
  match tab with
  | breathingTab =>
      if isRunning (state w) then
        let w :=
          emit (confirm "Switching to breathing will stop the workout timer. Continue?") w in
        if userConfirms w then resetTimer w else w
      else w
  | workoutTab =>
      if breathingIsRunning (breathing w) then
        let w :=
          emit (confirm "Switching to workout timer will stop the breathing timer. Continue?") w in
        if userConfirms w then resetBreathingTimer w else w
      else w
  end.

(* ================================================================== *)
(** * Vocabulary of the further properties                              *)
(* ================================================================== *)

(** The six assignments of [loadCurrentPhase] for the phase [p]. *)
Definition withPhase (p : Phase) (s : WorkoutState) : WorkoutState :=
  set_currentPerson (orDefault (phase.person p) 0)
    (set_nextSet (orDefault (phase.nextSet p) 0)
      (set_currentSet (phase.set p)
        (set_currentRound (phase.round p)
          (set_timeRemaining (inject_Z (phase.duration p))
            (set_currentPhase (inPhase (phase.type p)) s))))).

(** The state in which the advance leaves phase [p], loaded at index [i]. *)
Definition loaded (s : WorkoutState) (i : Z) (p : Phase) : WorkoutState :=
  withPhase p (set_isTransitioning false (set_currentPhaseIndex i s)).

(** The two builders as one, and the state a successful [startTimer]
    leaves: [p0] is the first phase and [id] the identifier of the new
    interval. *)
Definition built (s : WorkoutState) : WorkoutState :=
  let sequence := builtSequence (workoutMode s) (config s) in
  set_totalWorkoutTime (reduce_duration sequence)
    (set_currentPhaseIndex 0 (set_phaseSequence sequence s)).

Definition started (s : WorkoutState) (p0 : Phase) (id : Z) : WorkoutState :=
  set_intervalId (Some id)
    (withPhase p0
      (set_elapsedTime 0%Q
        (set_currentPhaseIndex 0
          (set_isPaused false (set_isRunning true (built s)))))).

(** A world that differs from [base] in the workout state, the clock, the
    timer table, the next timer identifier and the log. *)
Definition wworld (base : World) (s : WorkoutState) (t : Z)
           (ts : list Timer) (nid : Z) (lg : list Event) : World :=
  mkWorld s (breathing base) (dom base) (userConfirms base) ts nid t lg.

(** The workout interval, due at [d]. *)
Definition workoutInterval (id d : Z) : Timer :=
  mkTimer id d (Some 10) cbUpdateTimer.

(** The state counts down: running, not paused, not in the settle delay,
    and not the stopwatch. *)
Definition tickingS (s : WorkoutState) : Prop :=
  isRunning s = true /\ isPaused s = false /\ isTransitioning s = false
  /\ workoutMode s <> stopwatch.

(** The cue the advance plays before it loads [nextPhase]: the end beep
    for the next person in head-to-head mode, the double beep for the
    first set of a later round in interval mode. *)
Definition transitionCue (mode : WorkoutMode) (currentRound : Z)
           (nextPhase : Phase) : list Event :=
  if WorkoutMode_eqb mode headToHead && PhaseType_eqb (phase.type nextPhase) work
  then [playBeep beepEnd; vibrate [100]]
  else if WorkoutMode_eqb mode normal then
    if PhaseType_eqb (phase.type nextPhase) work && (phase.set nextPhase =? 1)
       && (currentRound <? phase.round nextPhase)
    then [playBeep beepRoundStart; vibrate [200; 100; 200]]
    else []
  else [].

(** On clocks that count in exact hundredths a phase of [d] seconds
    reaches zero with its tick number [100 d]; these are then the
    milliseconds from the load of a phase to the load of the next one,
    and those a whole sequence takes.  They serve the proofs that follow
    a run through its phases; no theorem on a run states them. *)
Definition phaseSpan (p : Phase) : Z := 1000 * phase.duration p + 500.

Fixpoint runLength (sequence : list Phase) : Z :=
  match sequence with
  | [] => 0
  | p :: tl => phaseSpan p + runLength tl
  end.

(** The phases the log records as loaded, with their indices. *)
Definition loadedPhases (l : list Event) : list (Z * Phase) :=
  flat_map (fun e => match e with
                     | phaseLoaded i p => [(i, p)]
                     | _ => []
                     end) l.

(** A sequence with its indices. *)
Definition numbered (from : Z) (sequence : list Phase) : list (Z * Phase) :=
  combine (zrange from (List.length sequence)) sequence.

Definition isWorkoutComplete (e : Event) : bool :=
  match e with
  | playBeep beepComplete => true
  | _ => false
  end.

(** The state [completeWorkout] leaves. *)
Definition completed (s : WorkoutState) : WorkoutState :=
  set_currentPhase complete
    (set_isRunning false (set_intervalId None (set_isCompleting true s))).

(** A run at the start of phase [i] of the sequence [sequence]: the phase
    has just been loaded, the machine counts down from its full duration,
    the durations of the phases before it have elapsed, and only its own
    10 ms interval is registered, due 10 ms from now.  At the start of a
    workout ([i = 0]) no time has elapsed. *)
Definition phaseFresh (sequence : list Phase) (w : World) (i : Z) : Prop :=
  let s := state w in
  tickingS s /\ isCompleting s = false
  /\ phaseSequence s = sequence /\ currentPhaseIndex s = i
  /\ totalWorkoutTime s = sum_durations sequence
  /\ (forall p, In p sequence -> 0 < phase.duration p)
  /\ (exists p, index sequence i = Some p
                /\ timeRemaining s = inject_Z (phase.duration p)
                /\ currentPhase s = inPhase (phase.type p)
                /\ currentRound s = phase.round p)
  /\ (elapsedTime s == inject_Z (sum_durations (firstn (Z.to_nat i) sequence)))%Q
  /\ (exists id, intervalId s = Some id
                 /\ timers w = [workoutInterval id (clock w + 10)]
                 /\ id < nextTimerId w).

(** The end of a run through the sequence [sequence] on clocks that count
    in exact hundredths: the machine has stopped in the complete state
    with nothing left on the clock and the whole workout time elapsed,
    and the completion dialog is the one entry of the timer table, due in
    a second. *)
Definition finished (sequence : list Phase) (w : World) : Prop :=
  let s := state w in
  currentPhase s = complete /\ isRunning s = false /\ isCompleting s = true
  /\ intervalId s = None
  /\ (timeRemaining s == 0)%Q
  /\ (elapsedTime s == inject_Z (totalWorkoutTime s))%Q
  /\ totalWorkoutTime s = sum_durations sequence
  /\ phaseSequence s = sequence
  /\ timers w
     = [mkTimer (nextTimerId w - 1) (clock w + 1000) None cbCompletionPrompt].

(** A workout that has run through the sequence [sequence], whatever the
    ticks it took: the machine has stopped in the complete state with
    nothing left on the countdown, and the completion dialog is
    scheduled, due in a second. *)
Definition completedRun (sequence : list Phase) (w : World) : Prop :=
  let s := state w in
  currentPhase s = complete /\ isRunning s = false /\ isCompleting s = true
  /\ intervalId s = None
  /\ (timeRemaining s == 0)%Q
  /\ totalWorkoutTime s = sum_durations sequence
  /\ phaseSequence s = sequence
  /\ exists id,
       In (mkTimer id (clock w + 1000) None cbCompletionPrompt) (timers w).

(** The countdowns that come to an end on the clocks of the program: a
    binary64 number below [2^47] changes when [0.01] is taken from it, a
    larger one need not. *)
Definition longestCountdown : Z := 2 ^ 47.

Definition countsDown (sequence : list Phase) : Prop :=
  forall p, In p sequence -> phase.duration p < longestCountdown.

(** The hypotheses of a run that is followed from its start: a countdown
    mode, an accepted form, no timer pending and no flag left set. *)
Definition readyToRun (w : World) : Prop :=
  workoutMode (state w) <> stopwatch
  /\ accepted (workoutMode (state w)) (config (state (loadConfigFromForm w)))
  /\ timers w = []
  /\ isCompleting (state w) = false /\ isTransitioning (state w) = false.

(** The sequence [startTimer] builds from the form of [w]. *)
Definition sequenceOf (w : World) : list Phase :=
  builtSequence (workoutMode (state w)) (config (state (loadConfigFromForm w))).

(** The click handler of the start button: it hands [startTimer] to
    [setTimeout] with 50 ms, as the restart does with 100 ms. *)
Definition startClick (w : World) : World := setTimeout cbRestart 50 w.

(** ** Laps *)

(** Laps that follow each other: numbered from [n] on, each one lasting
    from the mark of the lap before it ([start] for the first) to its own
    mark. *)
Fixpoint consecutiveLaps (start : Q) (n : Z) (laps : list LapRecord) : Prop :=
  match laps with
  | [] => True
  | l :: tl =>
      lapNumber l = n /\ (start <= time l)%Q
      /\ (lapDuration l == time l - start)%Q
      /\ consecutiveLaps (time l) (n + 1) tl
  end.

(** The mark of the last lap, [start] when there is none. *)
Definition lastMark (start : Q) (laps : list LapRecord) : Q :=
  fold_left (fun _ l => time l) laps start.

Fixpoint sumLapDurations (laps : list LapRecord) : Q :=
  match laps with
  | [] => 0%Q
  | l :: tl => (lapDuration l + sumLapDurations tl)%Q
  end.

(** What happens to a stopwatch between its start and its reset: the
    pause button, the lap button, and time passing. *)
Inductive StopwatchAction :=
  | pressPause
  | pressLap
  | letPass (ms : nat).

Definition stopwatchStep (w : World) (a : StopwatchAction) : World :=
  match a with
  | pressPause => pauseClick w
  | pressLap => recordLap w
  | letPass ms => elapse ms w
  end.

Definition stopwatchRun (actions : list StopwatchAction) (w : World) : World :=
  fold_left stopwatchStep actions w.

Definition isPressLap (a : StopwatchAction) : bool :=
  match a with
  | pressLap => true
  | _ => false
  end.

(** A running stopwatch whose laps are in order: they are numbered from 1
    and follow each other from [start], the start of the next lap is the
    mark of the last one and not after the present reading, and only the
    stopwatch's own ticks are registered. *)
Definition stopwatchRunning (start : Q) (w : World) : Prop :=
  let s := state w in
  workoutMode s = stopwatch /\ isRunning s = true
  /\ consecutiveLaps start 1 (lapTimes s)
  /\ lapStartTime s = lastMark start (lapTimes s)
  /\ (lapStartTime s <= elapsedTime s)%Q
  /\ (forall u, In u (timers w) -> callback u = cbUpdateTimer).

(** The callbacks of the workout timer that a stopped machine ignores. *)
Definition isTickOrAdvance (cb : Callback) : Prop :=
  cb = cbUpdateTimer \/ exists n, cb = cbAdvancePhase n.

(** ** Two intervals *)

(** One tick of the countdown, and a tick that happens when [b] holds. *)
Definition countdownTick (s : WorkoutState) : WorkoutState :=
  set_elapsedTime (elapsedTime s + 0.01)%Q
    (set_timeRemaining (timeRemaining s - 0.01)%Q s).

Definition tickIf (b : bool) (s : WorkoutState) : WorkoutState :=
  if b then countdownTick s else s.

(** 1 when a timer due at [d] has run by [t], else 0. *)
Definition dueBy (d t : Z) : Z := if d <=? t then 1 else 0.

(** ** Sessions *)

(** What a user does on the workout tab: the start (the moment the
    deferred [startTimer] runs), the pause, lap and reset buttons, the
    choice of a mode, the choice of a preset (given what the storage holds
    under its name), the switch to the breathing tab, an edit of the
    form, the answer given to the dialogs from now on, and waiting. *)
Inductive UserAction :=
  | startRuns
  | clickPause
  | clickLap
  | clickReset
  | chooseMode (mode : WorkoutMode)
  | choosePreset (found : option StoredConfig)
  | openBreathingTab
  | editForm (e : Elements)
  | answerDialogs (yes : bool)
  | wait (ms : nat).

Definition act (w : World) (a : UserAction) : World :=
  match a with
  | startRuns => startTimer w
  | clickPause => pauseClick w
  | clickLap => recordLap w
  | clickReset => resetClick w
  | chooseMode mode => selectMode mode w
  | choosePreset found => loadPreset found w
  | openBreathingTab => switchTab breathingTab w
  | editForm e => set_dom e w
  | answerDialogs yes => set_userConfirms yes w
  | wait ms => elapse ms w
  end.

Definition session (actions : list UserAction) (w : World) : World :=
  fold_left act actions w.

(** The callbacks of the workout timer. *)
Definition workoutCallback (cb : Callback) : Prop :=
  match cb with
  | cbUpdateBreathingTimer | cbAdvanceBreathingPhase _ => False
  | _ => True
  end.

(** Neither clock is negative, every phase of the sequence lasts, and
    only callbacks of the workout timer are registered. *)
Definition soundClocks (w : World) : Prop :=
  (0 <= timeRemaining (state w))%Q /\ (0 <= elapsedTime (state w))%Q
  /\ (forall p, In p (phaseSequence (state w)) -> 0 < phase.duration p)
  /\ (forall u, In u (timers w) -> workoutCallback (callback u)).

(** The callbacks of the breathing timer that a stopped machine ignores. *)
Definition isBreathingTickOrAdvance (cb : Callback) : Prop :=
  cb = cbUpdateBreathingTimer \/ exists n, cb = cbAdvanceBreathingPhase n.
(* ================================================================== *)
(** * Loops as folds                                                    *)
(* ================================================================== *)

Section Loops.
Context {A : Type}.

Lemma for_loop_fold (body : Z -> A -> A) (hi : Z) :
  forall fuel i acc,
    Z.of_nat fuel = hi - i + 1 ->
    for_loop fuel i hi body acc
    = fold_left (fun a k => body k a) (zrange i fuel) acc.
Proof.
  induction fuel as [|fuel IH]; intros i acc Hfuel; simpl; [reflexivity|].
  destruct (Z.leb_spec i hi) as [_|Hlt]; [|lia].
  apply IH. lia.
Qed.

Lemma for_upto_fold (body : Z -> A -> A) (hi : Z) (acc : A) :
  for_upto hi body acc
  = fold_left (fun a k => body k a) (zrange 1 (Z.to_nat hi)) acc.
Proof.
  unfold for_upto.
  destruct (Z_le_gt_dec 0 hi) as [Hpos|Hneg].
  - apply for_loop_fold. lia.
  - replace (Z.to_nat hi) with O by lia. reflexivity.
Qed.
End Loops.

(** A body that only appends makes the loop a [flat_map]. *)
Lemma fold_left_append {A B} (f : B -> list A) (l : list B) (acc : list A) :
  fold_left (fun a k => a ++ f k) l acc = acc ++ flat_map f l.
Proof.
  revert acc; induction l as [|k l IH]; intros acc; simpl.
  - now rewrite app_nil_r.
  - now rewrite IH, app_assoc.
Qed.

Lemma for_upto_append {A} (f : Z -> list A) (body : Z -> list A -> list A)
      (hi : Z) (acc : list A) :
  (forall k a, body k a = a ++ f k) ->
  for_upto hi body acc = acc ++ flat_map f (zrange 1 (Z.to_nat hi)).
Proof.
  intros Hbody. rewrite for_upto_fold, <- fold_left_append.
  revert acc. induction (zrange 1 (Z.to_nat hi)) as [|k l IH]; intros acc; simpl.
  - reflexivity.
  - now rewrite Hbody, IH.
Qed.


Lemma zrange_length lo n : List.length (zrange lo n) = n.
Proof. revert lo; induction n; intros; simpl; auto. Qed.

Lemma zrange_In lo n k : In k (zrange lo n) <-> lo <= k < lo + Z.of_nat n.
Proof.
  revert lo; induction n as [|n IH]; intros lo; simpl.
  - lia.
  - rewrite IH. lia.
Qed.

Lemma zrange_snoc lo n : zrange lo (S n) = zrange lo n ++ [lo + Z.of_nat n].
Proof.
  revert lo; induction n as [|n IH]; intros lo.
  - simpl. now rewrite Z.add_0_r.
  - change (zrange lo (S (S n))) with (lo :: zrange (lo + 1) (S n)).
    rewrite IH. simpl. do 3 f_equal. lia.
Qed.

(* ================================================================== *)
(** * The builders follow the documented orderings                      *)
(* ================================================================== *)

Lemma roundsLoop_ordering (c : Config) (acc : list Phase) :
  for_upto (config.numberOfRounds c) (fun round sequence =>
    let sequence :=
      for_upto (config.setsPerRound c) (fun set sequence =>
        let sequence :=
          push sequence
            (phase.mk work (config.workDuration c) round set None None) in
        if (set <? config.setsPerRound c) && (0 <? config.restDuration c)
        then push sequence
               (phase.mk rest (config.restDuration c) round set
                  (Some (set + 1)) None)
        else sequence) sequence in
    if (round <? config.numberOfRounds c)
       && (0 <? config.longRestDuration c)
    then push sequence
           (phase.mk longRest (config.longRestDuration c) round 0 None None)
    else sequence) acc
  = acc ++ roundsOrdering c.
Proof.
  unfold roundsOrdering.
  apply for_upto_append. intros r a. cbv zeta.
  rewrite (for_upto_append (fun s =>
    phase.mk work (config.workDuration c) r s None None ::
    (if (s <? config.setsPerRound c) && (0 <? config.restDuration c)
     then [phase.mk rest (config.restDuration c) r s (Some (s + 1)) None]
     else []))).
  - unfold roundOrdering, push.
    destruct ((r <? config.numberOfRounds c) && (0 <? config.longRestDuration c));
      now rewrite ?app_nil_r, <- ?app_assoc.
  - intros s b. unfold push.
    destruct ((s <? config.setsPerRound c) && (0 <? config.restDuration c));
      now rewrite <- ?app_assoc.
Qed.

Lemma intervalSequence_ordering (c : Config) :
  intervalSequence c = intervalOrdering c.
Proof.
  unfold intervalSequence, intervalOrdering, optionalPhase, push.
  cbv zeta. rewrite roundsLoop_ordering.
  destruct (0 <? config.setupDuration c), (0 <? config.warmupDuration c);
    simpl; reflexivity.
Qed.

Lemma legacy_intervalSequence_ordering (c : Config) :
  Legacy.intervalSequence c
  = optionalPhase warmup (config.warmupDuration c) None ++ roundsOrdering c.
Proof.
  unfold Legacy.intervalSequence, optionalPhase, push.
  cbv zeta. rewrite roundsLoop_ordering.
  destruct (0 <? config.warmupDuration c); reflexivity.
Qed.

Lemma headToHeadSequence_ordering (c : Config) :
  headToHeadSequence c = headToHeadOrdering c.
Proof.
  unfold headToHeadSequence, headToHeadOrdering, optionalPhase. cbv zeta.
  rewrite (for_upto_append (fun r =>
    map (fun p => phase.mk work (config.workDuration c) r 0 None (Some p))
        (zrange 1 (Z.to_nat (config.numberOfPeople c))))).
  - unfold push. destruct (0 <? config.setupDuration c); reflexivity.
  - intros r a.
    rewrite (for_upto_append (fun p =>
      [phase.mk work (config.workDuration c) r 0 None (Some p)])).
    + f_equal; induction (zrange 1 (Z.to_nat (config.numberOfPeople c)));
        simpl; congruence.
    + reflexivity.
Qed.

(* ================================================================== *)
(** * Counting phases and adding durations                              *)
(* ================================================================== *)

Section Weigh.
Variable omega : PhaseType -> Z -> Z.

Lemma weigh_app a b : weigh omega (a ++ b) = weigh omega a + weigh omega b.
Proof. induction a as [|p a IH]; simpl; lia. Qed.

Lemma weigh_flat_map_const {B} (g : B -> list Phase) (l : list B) (k : Z) :
  (forall x, In x l -> weigh omega (g x) = k) ->
  weigh omega (flat_map g l) = len l * k.
Proof.
  unfold len. induction l as [|x l IH]; intros Hg.
  - reflexivity.
  - cbn [flat_map List.length]. rewrite weigh_app.
    rewrite Hg by (simpl; auto).
    rewrite IH by (intros y Hy; apply Hg; simpl; auto). lia.
Qed.

(** A loop over [1..n] whose last turn differs from the others. *)
Lemma weigh_flat_map_last (g : Z -> list Phase) (n k kLast : Z) :
  0 < n ->
  (forall x, 1 <= x < n -> weigh omega (g x) = k) ->
  weigh omega (g n) = kLast ->
  weigh omega (flat_map g (zrange 1 (Z.to_nat n))) = (n - 1) * k + kLast.
Proof.
  intros Hn Hk Hlast.
  replace (Z.to_nat n) with (S (Z.to_nat (n - 1))) by lia.
  rewrite zrange_snoc, flat_map_app, weigh_app. cbn [flat_map].
  rewrite app_nil_r.
  replace (1 + Z.of_nat (Z.to_nat (n - 1))) with n by lia.
  rewrite Hlast, (weigh_flat_map_const g _ k).
  - unfold len. rewrite zrange_length, Z2Nat.id by lia. reflexivity.
  - intros x Hx. apply zrange_In in Hx. apply Hk. lia.
Qed.

Lemma weigh_optionalPhase t d person :
  weigh omega (optionalPhase t d person) = if 0 <? d then omega t d else 0.
Proof. unfold optionalPhase. destruct (0 <? d); simpl; lia. Qed.

Variable c : Config.
Hypothesis sets_pos : 0 < config.setsPerRound c.
Hypothesis rounds_pos : 0 < config.numberOfRounds c.

Let perRest : Z :=
  if 0 <? config.restDuration c then omega rest (config.restDuration c) else 0.
Let perLongRest : Z :=
  if 0 <? config.longRestDuration c
  then omega longRest (config.longRestDuration c) else 0.
Let perRound : Z :=
  (config.setsPerRound c - 1) * (omega work (config.workDuration c) + perRest)
  + omega work (config.workDuration c).

Lemma weigh_sets (r : Z) :
  weigh omega
    (flat_map (fun s =>
       phase.mk work (config.workDuration c) r s None None ::
       (if (s <? config.setsPerRound c) && (0 <? config.restDuration c)
        then [phase.mk rest (config.restDuration c) r s (Some (s + 1)) None]
        else []))
       (zrange 1 (Z.to_nat (config.setsPerRound c))))
  = perRound.
Proof.
  unfold perRound, perRest.
  apply weigh_flat_map_last; [exact sets_pos | |].
  - intros s Hs. destruct (Z.ltb_spec s (config.setsPerRound c)); [|lia].
    destruct (0 <? config.restDuration c); simpl; lia.
  - rewrite Z.ltb_irrefl. simpl. lia.
Qed.

Lemma weigh_round (r : Z) :
  weigh omega (roundOrdering c r)
  = perRound + (if r <? config.numberOfRounds c then perLongRest else 0).
Proof.
  unfold roundOrdering. rewrite weigh_app, weigh_sets. unfold perLongRest.
  destruct (r <? config.numberOfRounds c), (0 <? config.longRestDuration c);
    simpl; lia.
Qed.

Lemma weigh_rounds :
  weigh omega (roundsOrdering c)
  = config.numberOfRounds c * perRound
    + (config.numberOfRounds c - 1) * perLongRest.
Proof.
  unfold roundsOrdering.
  rewrite (weigh_flat_map_last _ _ (perRound + perLongRest) perRound rounds_pos).
  - lia.
  - intros r Hr. rewrite weigh_round.
    destruct (Z.ltb_spec r (config.numberOfRounds c)); lia.
  - rewrite weigh_round, Z.ltb_irrefl. lia.
Qed.

End Weigh.

Lemma count_type_weigh t l :
  count_type t l = weigh (fun u _ => if PhaseType_eqb u t then 1 else 0) l.
Proof.
  unfold count_type, len. induction l as [|p l IH]; [reflexivity|].
  cbn [filter weigh]. destruct (PhaseType_eqb (phase.type p) t);
    cbn [List.length]; lia.
Qed.

Lemma sum_durations_weigh l : sum_durations l = weigh (fun _ d => d) l.
Proof. induction l as [|p l IH]; simpl; congruence. Qed.

Lemma reduce_duration_sum l : reduce_duration l = sum_durations l.
Proof.
  unfold reduce_duration.
  assert (H : forall a, fold_left (fun sum p => sum + phase.duration p) l a
                        = a + sum_durations l).
  { induction l as [|p l IH]; intros a; simpl; [lia|]. rewrite IH. lia. }
  now rewrite H.
Qed.

(** The counts and the total of the rounds, and of the whole sequence. *)
Lemma roundsOrdering_facts (c : Config) :
  0 < config.setsPerRound c -> 0 < config.numberOfRounds c ->
  count_type work (roundsOrdering c)
    = config.numberOfRounds c * config.setsPerRound c
  /\ count_type rest (roundsOrdering c)
    = (if 0 <? config.restDuration c
       then config.numberOfRounds c * (config.setsPerRound c - 1) else 0)
  /\ count_type longRest (roundsOrdering c)
    = (if 0 <? config.longRestDuration c then config.numberOfRounds c - 1 else 0)
  /\ count_type setup (roundsOrdering c) = 0
  /\ count_type warmup (roundsOrdering c) = 0
  /\ sum_durations (roundsOrdering c)
    = config.numberOfRounds c * config.setsPerRound c * config.workDuration c
      + config.numberOfRounds c * (config.setsPerRound c - 1)
        * whenPositive (config.restDuration c)
      + (config.numberOfRounds c - 1) * whenPositive (config.longRestDuration c).
Proof.
  intros HS HR. unfold whenPositive.
  rewrite !count_type_weigh, sum_durations_weigh, !weigh_rounds by assumption.
  cbn [PhaseType_eqb].
  destruct (0 <? config.restDuration c), (0 <? config.longRestDuration c);
    repeat split; nia.
Qed.

(* ================================================================== *)
(** * Properties of the sequence builders                               *)
(* ================================================================== *)

(** Setup 10, no warm-up, work 30, rest 10, long rest 60, 3 sets and
    2 rounds: 10 + (30+10+30+10+30) + 60 + (30+10+30+10+30) seconds. *)
Example interval_example_total :
  totalWorkoutTime
    (buildPhaseSequence (set_config (config.mk 10 0 30 10 60 3 2 0) initialState))
  = 290.
Proof. reflexivity. Qed.

Example interval_example_kinds :
  map phase.type (intervalSequence (config.mk 10 0 30 10 60 3 2 0))
  = [setup; work; rest; work; rest; work; longRest;
     work; rest; work; rest; work].
Proof. reflexivity. Qed.

Lemma intervalOrdering_facts (c : Config) :
  0 < config.setsPerRound c -> 0 < config.numberOfRounds c ->
  0 < config.restDuration c ->
  let sequence := intervalOrdering c in
  count_type work sequence = config.numberOfRounds c * config.setsPerRound c
  /\ count_type rest sequence
     = config.numberOfRounds c * (config.setsPerRound c - 1)
  /\ count_type setup sequence = (if 0 <? config.setupDuration c then 1 else 0)
  /\ count_type warmup sequence = (if 0 <? config.warmupDuration c then 1 else 0)
  /\ count_type longRest sequence
     = (if 0 <? config.longRestDuration c then config.numberOfRounds c - 1 else 0)
  /\ sum_durations sequence
     = whenPositive (config.setupDuration c)
       + whenPositive (config.warmupDuration c)
       + config.numberOfRounds c * config.setsPerRound c * config.workDuration c
       + config.numberOfRounds c * (config.setsPerRound c - 1)
         * config.restDuration c
       + (config.numberOfRounds c - 1) * whenPositive (config.longRestDuration c).
Proof.
  intros HS HR Hrest sequence. subst sequence. unfold intervalOrdering.
  destruct (roundsOrdering_facts c HS HR) as (Hw & Hr & Hl & Hs & Hu & Hsum).
  rewrite !count_type_weigh, sum_durations_weigh in *.
  rewrite !weigh_app, !weigh_optionalPhase, Hw, Hr, Hl, Hs, Hu, Hsum.
  unfold whenPositive. cbn [PhaseType_eqb].
  destruct (Z.ltb_spec 0 (config.restDuration c)); [|lia].
  destruct (0 <? config.setupDuration c), (0 <? config.warmupDuration c);
    repeat split; lia.
Qed.

Lemma legacyOrdering_facts (c : Config) :
  0 < config.setsPerRound c -> 0 < config.numberOfRounds c ->
  0 < config.restDuration c ->
  let sequence :=
    optionalPhase warmup (config.warmupDuration c) None ++ roundsOrdering c in
  count_type work sequence = config.numberOfRounds c * config.setsPerRound c
  /\ count_type rest sequence
     = config.numberOfRounds c * (config.setsPerRound c - 1)
  /\ count_type setup sequence = 0
  /\ count_type warmup sequence = (if 0 <? config.warmupDuration c then 1 else 0)
  /\ count_type longRest sequence
     = (if 0 <? config.longRestDuration c then config.numberOfRounds c - 1 else 0)
  /\ sum_durations sequence
     = whenPositive (config.warmupDuration c)
       + config.numberOfRounds c * config.setsPerRound c * config.workDuration c
       + config.numberOfRounds c * (config.setsPerRound c - 1)
         * config.restDuration c
       + (config.numberOfRounds c - 1) * whenPositive (config.longRestDuration c).
Proof.
  intros HS HR Hrest sequence. subst sequence.
  destruct (roundsOrdering_facts c HS HR) as (Hw & Hr & Hl & Hs & Hu & Hsum).
  rewrite !count_type_weigh, sum_durations_weigh in *.
  rewrite !weigh_app, !weigh_optionalPhase, Hw, Hr, Hl, Hs, Hu, Hsum.
  unfold whenPositive. cbn [PhaseType_eqb].
  destruct (Z.ltb_spec 0 (config.restDuration c)); [|lia].
  destruct (0 <? config.warmupDuration c); repeat split; lia.
Qed.

(** C5.  For an interval configuration with S > 0 sets per round, R > 0
    rounds and a rest duration > 0, [buildPhaseSequence] leaves a sequence
    with exactly R*S work phases and R*(S-1) rest phases, one setup phase
    when the setup duration is positive and none otherwise, likewise for
    the warm-up, and R-1 long rests when the long-rest duration is
    positive and none otherwise; [totalWorkoutTime] is the sum of the
    durations of the phases of that sequence, which is the sum of the
    durations of exactly those phases.  The same holds for the builder of
    [script.js], which never emits a setup phase. *)
Theorem buildPhaseSequence_counts (s : WorkoutState) :
  let c := config s in
  let S := config.setsPerRound c in
  let R := config.numberOfRounds c in
  0 < S -> 0 < R -> 0 < config.restDuration c ->
  let sequence := phaseSequence (buildPhaseSequence s) in
  let legacy := phaseSequence (Legacy.buildPhaseSequence s) in
  (count_type work sequence = R * S
   /\ count_type rest sequence = R * (S - 1)
   /\ count_type setup sequence = (if 0 <? config.setupDuration c then 1 else 0)
   /\ count_type setup sequence <= 1
   /\ count_type warmup sequence = (if 0 <? config.warmupDuration c then 1 else 0)
   /\ count_type warmup sequence <= 1
   /\ count_type longRest sequence
      = (if 0 <? config.longRestDuration c then R - 1 else 0)
   /\ totalWorkoutTime (buildPhaseSequence s) = sum_durations sequence
   /\ sum_durations sequence
      = whenPositive (config.setupDuration c)
        + whenPositive (config.warmupDuration c)
        + R * S * config.workDuration c
        + R * (S - 1) * config.restDuration c
        + (R - 1) * whenPositive (config.longRestDuration c))
  /\
  (count_type work legacy = R * S
   /\ count_type rest legacy = R * (S - 1)
   /\ count_type setup legacy = 0
   /\ count_type warmup legacy = (if 0 <? config.warmupDuration c then 1 else 0)
   /\ count_type warmup legacy <= 1
   /\ count_type longRest legacy
      = (if 0 <? config.longRestDuration c then R - 1 else 0)
   /\ totalWorkoutTime (Legacy.buildPhaseSequence s) = sum_durations legacy
   /\ sum_durations legacy
      = whenPositive (config.warmupDuration c)
        + R * S * config.workDuration c
        + R * (S - 1) * config.restDuration c
        + (R - 1) * whenPositive (config.longRestDuration c)).
Proof.
  intros c S R HS HR Hrest sequence legacy.
  assert (Eseq : sequence = intervalOrdering c)
    by (subst sequence; cbn; apply intervalSequence_ordering).
  assert (Eleg : legacy
                 = optionalPhase warmup (config.warmupDuration c) None
                   ++ roundsOrdering c)
    by (subst legacy; cbn; apply legacy_intervalSequence_ordering).
  assert (Etot : totalWorkoutTime (buildPhaseSequence s) = sum_durations sequence)
    by (subst sequence; cbn; apply reduce_duration_sum).
  assert (Etot' : totalWorkoutTime (Legacy.buildPhaseSequence s)
                  = sum_durations legacy)
    by (subst legacy; cbn; apply reduce_duration_sum).
  destruct (intervalOrdering_facts c HS HR Hrest) as (A1 & A2 & A3 & A4 & A5 & A6).
  destruct (legacyOrdering_facts c HS HR Hrest) as (B1 & B2 & B3 & B4 & B5 & B6).
  rewrite Etot, Etot', Eseq, Eleg. cbv zeta in *.
  rewrite A1, A2, A3, A4, A5, A6, B1, B2, B3, B4, B5, B6.
  destruct (0 <? config.setupDuration c), (0 <? config.warmupDuration c);
    repeat split; lia.
Qed.

Lemma buildPhaseSequence_counts_witness :
  let s := set_config (config.mk 10 0 30 10 60 3 2 0) initialState in
  count_type work (phaseSequence (buildPhaseSequence s)) = 6
  /\ count_type rest (phaseSequence (buildPhaseSequence s)) = 4
  /\ count_type longRest (phaseSequence (buildPhaseSequence s)) = 1
  /\ totalWorkoutTime (buildPhaseSequence s) = 290.
Proof.
  intros s.
  pose proof (buildPhaseSequence_counts s) as H. cbv zeta in H.
  specialize (H ltac:(cbn; lia) ltac:(cbn; lia) ltac:(cbn; lia)).
  destruct H as ((Hw & Hr & _ & _ & _ & _ & Hl & Ht & Hsum) & _).
  rewrite Hw, Hr, Hl, Ht, Hsum. repeat split.
Defined.

Lemma In_optionalPhase p t d person :
  In p (optionalPhase t d person) ->
  0 < d /\ phase.type p = t /\ phase.duration p = d.
Proof.
  unfold optionalPhase. destruct (Z.ltb_spec 0 d); simpl; [|tauto].
  intros [<-|[]]. auto.
Qed.

Lemma In_roundsOrdering (c : Config) p :
  In p (roundsOrdering c) ->
  (phase.type p = work /\ phase.duration p = config.workDuration c)
  \/ (phase.type p = rest /\ phase.duration p = config.restDuration c
      /\ 0 < config.restDuration c)
  \/ (phase.type p = longRest /\ phase.duration p = config.longRestDuration c
      /\ 0 < config.longRestDuration c).
Proof.
  unfold roundsOrdering, roundOrdering.
  rewrite in_flat_map. intros (r & _ & Hp).
  apply in_app_or in Hp. destruct Hp as [Hp|Hp].
  - apply in_flat_map in Hp. destruct Hp as (s & _ & [<-|Hp]); [auto|].
    destruct (s <? config.setsPerRound c); simpl in Hp; [|tauto].
    destruct (Z.ltb_spec 0 (config.restDuration c)); simpl in Hp; [|tauto].
    destruct Hp as [<-|[]]. auto.
  - destruct (r <? config.numberOfRounds c); simpl in Hp; [|tauto].
    destruct (Z.ltb_spec 0 (config.longRestDuration c)); simpl in Hp; [|tauto].
    destruct Hp as [<-|[]]. auto.
Qed.

Lemma intervalOrdering_wellTimed (c : Config) p :
  0 < config.workDuration c -> In p (intervalOrdering c) -> wellTimed c p.
Proof.
  intros Hwork Hp. unfold intervalOrdering in Hp. unfold wellTimed.
  repeat (apply in_app_or in Hp; destruct Hp as [Hp|Hp]).
  - apply In_optionalPhase in Hp. destruct Hp as (? & -> & ->). simpl. lia.
  - apply In_optionalPhase in Hp. destruct Hp as (? & -> & ->). simpl. lia.
  - apply In_roundsOrdering in Hp.
    destruct Hp as [(-> & ->)|[(-> & -> & ?)|(-> & -> & ?)]]; simpl; lia.
Qed.

Lemma legacy_wellTimed (c : Config) p :
  0 < config.workDuration c -> In p (Legacy.intervalSequence c) -> wellTimed c p.
Proof.
  intros Hwork Hp. rewrite legacy_intervalSequence_ordering in Hp.
  unfold wellTimed. apply in_app_or in Hp; destruct Hp as [Hp|Hp].
  - apply In_optionalPhase in Hp. destruct Hp as (? & -> & ->). simpl. lia.
  - apply In_roundsOrdering in Hp.
    destruct Hp as [(-> & ->)|[(-> & -> & ?)|(-> & -> & ?)]]; simpl; lia.
Qed.

Lemma headToHeadOrdering_In (c : Config) p :
  In p (headToHeadOrdering c) ->
  (phase.type p = setup /\ phase.duration p = config.setupDuration c
   /\ 0 < config.setupDuration c)
  \/ (phase.type p = work /\ phase.duration p = config.workDuration c).
Proof.
  unfold headToHeadOrdering. intros Hp.
  apply in_app_or in Hp; destruct Hp as [Hp|Hp].
  - apply In_optionalPhase in Hp. left. tauto.
  - apply in_flat_map in Hp. destruct Hp as (r & _ & Hp).
    apply in_map_iff in Hp. destruct Hp as (q & <- & _). right. auto.
Qed.

Lemma headToHeadOrdering_wellTimed (c : Config) p :
  0 < config.workDuration c -> In p (headToHeadOrdering c) -> wellTimed c p.
Proof.
  intros Hwork Hp. apply headToHeadOrdering_In in Hp. unfold wellTimed.
  destruct Hp as [(-> & -> & ?)|(-> & ->)]; simpl; lia.
Qed.

Lemma breathingSequence_In (bc : BreathingConfig) p :
  In p (breathingSequence bc) ->
  0 < bphase.duration p
  /\ bphase.duration p = configuredBreath bc (bphase.type p).
Proof.
  unfold breathingSequence, push. cbv zeta.
  destruct (Z.ltb_spec 0 (breathingConfig.breathIn bc));
    destruct (Z.ltb_spec 0 (breathingConfig.inhaledHold bc));
    destruct (Z.ltb_spec 0 (breathingConfig.breathOut bc));
    destruct (Z.ltb_spec 0 (breathingConfig.exhaledHold bc));
    simpl; intros Hp;
    repeat (destruct Hp as [<-|Hp]; [simpl; auto|]); contradiction.
Qed.

Lemma count_type_zero t l :
  (forall p, In p l -> phase.type p <> t) -> count_type t l = 0.
Proof.
  unfold count_type, len. induction l as [|p l IH]; intros H; [reflexivity|].
  cbn [filter]. destruct (PhaseType_eqb (phase.type p) t) eqn:E.
  - exfalso. apply (H p); [simpl; auto|].
    destruct (phase.type p), t; simpl in E; congruence.
  - apply IH. intros q Hq. apply H. simpl; auto.
Qed.

Lemma accepted_work mode c : accepted mode c -> 0 < config.workDuration c.
Proof. destruct mode; simpl; unfold acceptedInterval, acceptedHeadToHead; tauto. Qed.

(** C6.  For a configuration that passes the checks of [startTimer], every
    phase that a builder emits (interval and head-to-head in the full
    variant, the interval builder of [script.js], and the breathing
    builder) carries the configured duration of its kind and that duration
    is strictly positive; hence a kind whose configured duration is 0 does
    not occur in the sequence at all. *)
Theorem emitted_phases_positive
        (mode : WorkoutMode) (c : Config) (bc : BreathingConfig) :
  accepted mode c ->
  (forall p, In p (builtSequence mode c) -> wellTimed c p)
  /\ (forall p, In p (Legacy.intervalSequence c) -> wellTimed c p)
  /\ (forall p, In p (breathingSequence bc) ->
        0 < bphase.duration p
        /\ bphase.duration p = configuredBreath bc (bphase.type p))
  /\ (forall t, configuredDuration c t = 0 ->
        count_type t (builtSequence mode c) = 0
        /\ count_type t (Legacy.intervalSequence c) = 0)
  /\ (forall t, configuredBreath bc t = 0 ->
        forall p, In p (breathingSequence bc) -> bphase.type p <> t).
Proof.
  intros Hacc. pose proof (accepted_work _ _ Hacc) as Hwork.
  assert (Hbuilt : forall p, In p (builtSequence mode c) -> wellTimed c p).
  { intros p Hp. destruct mode; simpl in Hp.
    - rewrite intervalSequence_ordering in Hp.
      now apply intervalOrdering_wellTimed.
    - rewrite headToHeadSequence_ordering in Hp.
      now apply headToHeadOrdering_wellTimed.
    - rewrite intervalSequence_ordering in Hp.
      now apply intervalOrdering_wellTimed. }
  assert (Hleg : forall p, In p (Legacy.intervalSequence c) -> wellTimed c p)
    by (intros p Hp; now apply legacy_wellTimed).
  split; [exact Hbuilt|]. split; [exact Hleg|].
  split; [apply breathingSequence_In|]. split.
  - intros t Ht. split; apply count_type_zero; intros p Hp E.
    + destruct (Hbuilt p Hp) as [Hpos Heq]. rewrite E in Heq. lia.
    + destruct (Hleg p Hp) as [Hpos Heq]. rewrite E in Heq. lia.
  - intros t Ht p Hp E. destruct (breathingSequence_In bc p Hp) as [Hpos Heq].
    rewrite E in Heq. lia.
Qed.

Lemma emitted_phases_positive_witness :
  accepted normal (config.mk 0 0 30 0 60 3 2 0)
  /\ count_type setup (builtSequence normal (config.mk 0 0 30 0 60 3 2 0)) = 0
  /\ count_type rest (builtSequence normal (config.mk 0 0 30 0 60 3 2 0)) = 0
  /\ Forall (wellTimed (config.mk 0 0 30 0 60 3 2 0))
            (builtSequence normal (config.mk 0 0 30 0 60 3 2 0)).
Proof.
  assert (Hacc : accepted normal (config.mk 0 0 30 0 60 3 2 0))
    by (simpl; unfold acceptedInterval; simpl; lia).
  destruct (emitted_phases_positive normal (config.mk 0 0 30 0 60 3 2 0)
              (breathingConfig.mk 4 0 4 0) Hacc) as (Hb & _ & _ & Hz & _).
  split; [exact Hacc|]. split; [|split].
  - apply (Hz setup). reflexivity.
  - apply (Hz rest). reflexivity.
  - apply Forall_forall. exact Hb.
Defined.

Lemma headToHeadOrdering_count_work (c : Config) :
  0 < config.numberOfPeople c -> 0 < config.numberOfRounds c ->
  count_type work (headToHeadOrdering c)
  = config.numberOfRounds c * config.numberOfPeople c.
Proof.
  intros HP HR. unfold headToHeadOrdering.
  rewrite count_type_weigh, weigh_app, weigh_optionalPhase.
  rewrite (weigh_flat_map_const _ _ _ (config.numberOfPeople c)).
  - unfold len. rewrite zrange_length, Z2Nat.id by lia.
    cbn [PhaseType_eqb]. destruct (0 <? config.setupDuration c); lia.
  - intros r _.
    assert (H : forall l,
               weigh (fun u _ => if PhaseType_eqb u work then 1 else 0)
                 (map (fun p => phase.mk work (config.workDuration c) r 0
                                  None (Some p)) l) = len l).
    { unfold len. induction l as [|x l IH]; [reflexivity|].
      cbn [map weigh List.length phase.type PhaseType_eqb]. lia. }
    rewrite H. unfold len. rewrite zrange_length, Z2Nat.id by lia. reflexivity.
Qed.

(** An accepted configuration always yields at least one work phase, so
    the empty-sequence check of [startTimer] never triggers after a
    successful validation. *)
Lemma builtSequence_nonempty mode c :
  accepted mode c -> builtSequence mode c <> [].
Proof.
  intros Hacc E.
  assert (Hcount : 0 < count_type work (builtSequence mode c)).
  { destruct mode; simpl in *;
      unfold acceptedInterval, acceptedHeadToHead in Hacc;
      destruct Hacc as (Hw & H1 & H2).
    - rewrite intervalSequence_ordering. unfold intervalOrdering.
      destruct (roundsOrdering_facts c H1 H2) as (Hc & _).
      rewrite !count_type_weigh, !weigh_app, !weigh_optionalPhase in *.
      rewrite Hc. cbn [PhaseType_eqb].
      destruct (0 <? config.setupDuration c), (0 <? config.warmupDuration c); nia.
    - rewrite headToHeadSequence_ordering, headToHeadOrdering_count_work by lia.
      nia.
    - rewrite intervalSequence_ordering. unfold intervalOrdering.
      destruct (roundsOrdering_facts c H1 H2) as (Hc & _).
      rewrite !count_type_weigh, !weigh_app, !weigh_optionalPhase in *.
      rewrite Hc. cbn [PhaseType_eqb].
      destruct (0 <? config.setupDuration c), (0 <? config.warmupDuration c); nia. }
  rewrite E in Hcount. cbn in Hcount. lia.
Qed.

(** C7.  For a head-to-head configuration with P > 0 people and R > 0
    rounds, the built sequence is the optional setup phase followed, round
    by round from 1 to R, by one work phase for each person from 1 to P in
    order; it holds R*P work phases and no rest and no long-rest phase.
    With 3 people, 2 rounds, work 20 and setup 5 it has 7 phases that add
    up to 125 seconds, persons 1, 2, 3 of round 1 and then persons 1, 2, 3
    of round 2. *)
Theorem headToHead_rotation (s : WorkoutState) :
  let c := config s in
  0 < config.numberOfPeople c -> 0 < config.numberOfRounds c ->
  let sequence := phaseSequence (buildHeadToHeadSequence s) in
  sequence = headToHeadOrdering c
  /\ count_type rest sequence = 0
  /\ count_type longRest sequence = 0
  /\ count_type work sequence = config.numberOfRounds c * config.numberOfPeople c
  /\ totalWorkoutTime (buildHeadToHeadSequence s) = sum_durations sequence
  /\ (let e := buildHeadToHeadSequence (set_config headToHeadExample s) in
      phaseSequence e
      = [ phase.mk setup 5 0 0 None (Some 0);
          phase.mk work 20 1 0 None (Some 1);
          phase.mk work 20 1 0 None (Some 2);
          phase.mk work 20 1 0 None (Some 3);
          phase.mk work 20 2 0 None (Some 1);
          phase.mk work 20 2 0 None (Some 2);
          phase.mk work 20 2 0 None (Some 3) ]
      /\ len (phaseSequence e) = 7
      /\ totalWorkoutTime e = 125).
Proof.
  intros c HP HR sequence.
  assert (Eseq : sequence = headToHeadOrdering c)
    by (subst sequence; cbn; apply headToHeadSequence_ordering).
  assert (Hkinds : forall p, In p sequence ->
                     phase.type p = setup \/ phase.type p = work).
  { intros p Hp. rewrite Eseq in Hp. apply headToHeadOrdering_In in Hp. tauto. }
  split; [exact Eseq|].
  split; [|split; [|split; [|split]]].
  - apply count_type_zero. intros p Hp E.
    destruct (Hkinds p Hp); congruence.
  - apply count_type_zero. intros p Hp E.
    destruct (Hkinds p Hp); congruence.
  - rewrite Eseq. now apply headToHeadOrdering_count_work.
  - subst sequence. cbn. apply reduce_duration_sum.
  - cbn. repeat split.
Qed.

Lemma headToHead_rotation_witness :
  let s := set_config headToHeadExample initialState in
  0 < config.numberOfPeople (config s) /\ 0 < config.numberOfRounds (config s)
  /\ count_type rest (phaseSequence (buildHeadToHeadSequence s)) = 0
  /\ count_type work (phaseSequence (buildHeadToHeadSequence s)) = 6.
Proof.
  intros s.
  assert (HP : 0 < config.numberOfPeople (config s)) by (cbn; lia).
  assert (HR : 0 < config.numberOfRounds (config s)) by (cbn; lia).
  destruct (headToHead_rotation s HP HR) as (_ & Hr & _ & Hw & _).
  split; [exact HP|]. split; [exact HR|]. split; [exact Hr|].
  rewrite Hw. reflexivity.
Defined.

(* ================================================================== *)
(** * Comparisons on the clocks                                         *)
(* ================================================================== *)

Lemma Qle_bool_false x y : Qle_bool x y = false <-> (y < x)%Q.
Proof.
  split; intros H.
  - apply Qnot_le_lt. intros Hle. apply Qle_bool_iff in Hle. congruence.
  - destruct (Qle_bool x y) eqn:E; [|reflexivity].
    apply Qle_bool_iff in E. exfalso. apply (Qlt_not_le _ _ H E).
Qed.

Lemma Qlt_bool_true x y : Qlt_bool x y = true <-> (x < y)%Q.
Proof.
  unfold Qlt_bool. rewrite negb_true_iff. apply Qle_bool_false.
Qed.

Lemma Qlt_bool_false x y : Qlt_bool x y = false <-> (y <= x)%Q.
Proof.
  unfold Qlt_bool. rewrite negb_false_iff. apply Qle_bool_iff.
Qed.

Lemma ticks_S k : (ticks (S k) == ticks k + 0.01)%Q.
Proof.
  unfold ticks. rewrite Nat2Z.inj_succ, <- Z.add_1_r, inject_Z_plus. ring.
Qed.

Lemma ticks_0 : (ticks 0 == 0)%Q.
Proof. reflexivity. Qed.

(* ================================================================== *)
(** * One call of [updateTimer]                                         *)
(* ================================================================== *)

Lemma WorkoutMode_eqb_eq a b : WorkoutMode_eqb a b = true <-> a = b.
Proof. destruct a, b; simpl; split; congruence. Qed.

Lemma WorkoutMode_eqb_neq a b : WorkoutMode_eqb a b = false <-> a <> b.
Proof. destruct a, b; simpl; split; congruence. Qed.

(** The guard: nothing happens unless running, not paused and not in the
    settle delay. *)
Lemma updateTimer_guard (w : World) :
  isRunning (state w) = false \/ isPaused (state w) = true
  \/ isTransitioning (state w) = true ->
  updateTimer w = w.
Proof.
  intros H. unfold updateTimer.
  destruct (isRunning (state w)), (isPaused (state w)),
    (isTransitioning (state w)); simpl; try reflexivity.
  destruct H as [H|[H|H]]; discriminate.
Qed.

Ltac open_tick w H :=
  destruct H as (Hrun & Hpause & Htrans & Hmode);
  unfold updateTimer; rewrite Hrun, Hpause, Htrans;
  apply WorkoutMode_eqb_neq in Hmode; rewrite Hmode;
  cbn [negb orb andb].

(** Above one quantum the tick only moves the two clocks. *)
Lemma updateTimer_countdown (w : World) :
  ticking w -> (0.01 < timeRemaining (state w))%Q ->
  updateTimer w
  = upd (set_elapsedTime (elapsedTime (state w) + 0.01)%Q)
      (upd (set_timeRemaining (timeRemaining (state w) - 0.01)%Q) w).
Proof.
  intros H Htr. open_tick w H.
  assert (E1 : Qle_bool (timeRemaining (state w)) 0 = false)
    by (apply Qle_bool_false; lra).
  rewrite E1. cbn.
  assert (E2 : Qlt_bool (timeRemaining (state w) - 0.01) 0 = false)
    by (apply Qlt_bool_false; lra).
  assert (E3 : Qle_bool (timeRemaining (state w) - 0.01) 0 = false)
    by (apply Qle_bool_false; lra).
  rewrite E2. cbn. rewrite E3. reflexivity.
Qed.

(** Within the last quantum the tick reaches zero and fires the phase
    completion: flag, beep, vibration, and the advance scheduled 500 ms
    later with the following index. *)
Lemma updateTimer_fire (w : World) :
  ticking w ->
  (0 < timeRemaining (state w))%Q -> (timeRemaining (state w) <= 0.01)%Q ->
  let w' := updateTimer w in
  isTransitioning (state w') = true
  /\ (timeRemaining (state w') == 0)%Q
  /\ elapsedTime (state w') = (elapsedTime (state w) + 0.01)%Q
  /\ set_isTransitioning false (frame (state w')) = frame (state w)
  /\ log w' = log w ++ [playBeep beepEnd; vibrate [100]]
  /\ timers w'
     = timers w ++ [mkTimer (nextTimerId w) (clock w + 500) None
                      (cbAdvancePhase (currentPhaseIndex (state w) + 1))]
  /\ nextTimerId w' = nextTimerId w + 1
  /\ clock w' = clock w /\ breathing w' = breathing w
  /\ dom w' = dom w /\ userConfirms w' = userConfirms w.
Proof.
  intros H Hpos Hle.
  assert (Htrans0 : isTransitioning (state w) = false) by apply H.
  open_tick w H.
  assert (E1 : Qle_bool (timeRemaining (state w)) 0 = false)
    by (apply Qle_bool_false; lra).
  rewrite E1. cbn beta iota zeta delta [negb andb].
  destruct (Qlt_bool (timeRemaining
              (state (upd (set_elapsedTime (elapsedTime (state w) + 0.01)%Q)
                 (upd (set_timeRemaining (timeRemaining (state w) - 0.01)%Q) w))))
              0) eqn:E2.
  - cbn. unfold push. rewrite <- app_assoc. cbn.
    repeat split; try reflexivity.
    destruct (state w); cbn in *; subst; reflexivity.
  - cbn in E2. apply Qlt_bool_false in E2.
    assert (E3 : Qle_bool (timeRemaining (state w) - 0.01) 0 = true)
      by (apply Qle_bool_iff; lra).
    cbn. rewrite E3. cbn. unfold push. rewrite <- app_assoc. cbn.
    repeat split; try reflexivity; try lra.
    destruct (state w); cbn in *; subst; reflexivity.
Qed.

(** At or below zero the tick emits nothing and schedules nothing; it
    leaves the world as it is when the remaining time is zero. *)
Lemma updateTimer_level (w : World) :
  ticking w -> (timeRemaining (state w) <= 0)%Q ->
  let w' := updateTimer w in
  log w' = log w /\ timers w' = timers w
  /\ isTransitioning (state w') = false
  /\ currentPhaseIndex (state w') = currentPhaseIndex (state w)
  /\ elapsedTime (state w') = elapsedTime (state w)
  /\ ((timeRemaining (state w) == 0)%Q -> w' = w)
  /\ ticking w' /\ (timeRemaining (state w') <= 0)%Q.
Proof.
  intros H Hle.
  assert (Htrans0 : isTransitioning (state w) = false) by apply H.
  assert (H0 := H). unfold ticking.
  open_tick w H.
  assert (E1 : Qle_bool (timeRemaining (state w)) 0 = true)
    by (apply Qle_bool_iff; lra).
  rewrite E1. cbn beta iota zeta delta [negb andb].
  destruct (Qlt_bool (timeRemaining (state w)) 0) eqn:E2; cbn.
  - repeat split; auto; try apply H0; try lra.
    intros Hz. apply Qlt_bool_true in E2. lra.
  - repeat split; auto; apply H0.
Qed.

(* ================================================================== *)
(** * Runs of ticks                                                     *)
(* ================================================================== *)

Lemma repeat_call_add f a b w :
  repeat_call f (a + b) w = repeat_call f b (repeat_call f a w).
Proof. revert w; induction a as [|a IH]; intros w; simpl; auto. Qed.

Lemma ticks_nonneg k : (0 <= ticks k)%Q.
Proof.
  unfold ticks.
  assert (H : (inject_Z 0 <= inject_Z (Z.of_nat k))%Q)
    by (rewrite <- Zle_Qle; lia).
  change (inject_Z 0) with 0%Q in H. lra.
Qed.

Lemma ticks_mono j k : (j <= k)%nat -> (ticks j <= ticks k)%Q.
Proof.
  intros H. unfold ticks.
  assert (Hz : (inject_Z (Z.of_nat j) <= inject_Z (Z.of_nat k))%Q)
    by (rewrite <- Zle_Qle; lia).
  lra.
Qed.

Lemma count_events_app p a b :
  count_events p (a ++ b) = (count_events p a + count_events p b)%nat.
Proof. unfold count_events. now rewrite filter_app, length_app. Qed.

(** While more than [k] ticks of time remain, [k] ticks only move the two
    clocks, by [k] quanta each. *)
Lemma repeat_countdown k :
  forall w,
    ticking w -> (ticks k < timeRemaining (state w))%Q ->
    let wk := repeat_call updateTimer k w in
    ticking wk
    /\ (timeRemaining (state wk) == timeRemaining (state w) - ticks k)%Q
    /\ (elapsedTime (state wk) == elapsedTime (state w) + ticks k)%Q
    /\ wframe wk = wframe w.
Proof.
  induction k as [|k IH]; intros w Hw Htr.
  - cbn. repeat split; try apply Hw; rewrite ticks_0; ring.
  - pose proof (ticks_nonneg k) as Hk. rewrite ticks_S in Htr.
    change (repeat_call updateTimer (S k) w)
      with (repeat_call updateTimer k (updateTimer w)).
    rewrite updateTimer_countdown by (auto; lra).
    set (w1 := upd _ (upd _ w)).
    assert (Hw1 : ticking w1) by exact Hw.
    assert (Htr1 : (ticks k < timeRemaining (state w1))%Q) by (cbn; lra).
    destruct (IH w1 Hw1 Htr1) as (Ht & Hr & He & Hf).
    cbv zeta. split; [exact Ht|]. rewrite Hr, He, Hf, ticks_S. cbn.
    repeat split; ring.
Qed.

Lemma wframe_fields a b :
  wframe a = wframe b ->
  log a = log b /\ timers a = timers b /\ nextTimerId a = nextTimerId b
  /\ clock a = clock b /\ breathing a = breathing b /\ dom a = dom b
  /\ userConfirms a = userConfirms b /\ frame (state a) = frame (state b).
Proof.
  intros H.
  pose proof (f_equal log H). pose proof (f_equal timers H).
  pose proof (f_equal nextTimerId H). pose proof (f_equal clock H).
  pose proof (f_equal breathing H). pose proof (f_equal dom H).
  pose proof (f_equal userConfirms H). pose proof (f_equal state H).
  cbn in *. tauto.
Qed.

Lemma frame_fields a b :
  frame a = frame b ->
  currentPhaseIndex a = currentPhaseIndex b
  /\ phaseSequence a = phaseSequence b
  /\ workoutMode a = workoutMode b
  /\ isRunning a = isRunning b /\ isPaused a = isPaused b
  /\ isTransitioning a = isTransitioning b
  /\ isCompleting a = isCompleting b
  /\ intervalId a = intervalId b
  /\ currentPhase a = currentPhase b
  /\ currentRound a = currentRound b.
Proof.
  intros H.
  pose proof (f_equal currentPhaseIndex H). pose proof (f_equal phaseSequence H).
  pose proof (f_equal workoutMode H). pose proof (f_equal isRunning H).
  pose proof (f_equal isPaused H). pose proof (f_equal isTransitioning H).
  pose proof (f_equal isCompleting H). pose proof (f_equal intervalId H).
  pose proof (f_equal currentPhase H). pose proof (f_equal currentRound H).
  cbn in *. tauto.
Qed.

(** Once in the settle delay, further ticks change nothing. *)
Lemma repeat_guard m w :
  isTransitioning (state w) = true -> repeat_call updateTimer m w = w.
Proof.
  intros H. induction m as [|m IH]; [reflexivity|].
  cbn. rewrite updateTimer_guard by auto. exact IH.
Qed.

Lemma repeat_call_snoc f k w :
  repeat_call f (S k) w = f (repeat_call f k w).
Proof.
  replace (S k) with (k + 1)%nat by lia. rewrite repeat_call_add. reflexivity.
Qed.

Lemma wframe_tick (w : World) (t e : Q) :
  wframe (upd (set_elapsedTime e) (upd (set_timeRemaining t) w)) = wframe w.
Proof. destruct w as [s b d u ts nid c l]. destruct s. reflexivity. Qed.

(** A countdown followed tick by tick: as long as the settle delay has
    not begun, only the two clocks have moved and time remains; once it
    has begun, the end beep has been played once, the remaining time is
    zero and the one advance is scheduled. *)
Lemma countdown_or_boundary (w : World) (k : nat) :
  ticking w -> (0 < timeRemaining (state w))%Q ->
  let wk := repeat_call updateTimer k w in
  (isTransitioning (state wk) = false /\ ticking wk
   /\ (0 < timeRemaining (state wk))%Q /\ wframe wk = wframe w)
  \/ (isTransitioning (state wk) = true
      /\ (timeRemaining (state wk) == 0)%Q
      /\ log wk = log w ++ [playBeep beepEnd; vibrate [100]]
      /\ timers wk
         = timers w ++ [mkTimer (nextTimerId w) (clock w + 500) None
                          (cbAdvancePhase (currentPhaseIndex (state w) + 1))]).
Proof.
  intros Hw Hpos. induction k as [|k IH]; cbv zeta.
  - left. cbn [repeat_call]. repeat split; try apply Hw; auto.
  - rewrite repeat_call_snoc. cbv zeta in IH.
    set (wk := repeat_call updateTimer k w) in *.
    destruct IH as [(Htr & Ht & Hp & Hf)|(Htr & Hz & Hl & Hts)].
    + destruct (Qlt_le_dec 0.01 (timeRemaining (state wk))) as [Hbig|Hsmall].
      * left. rewrite updateTimer_countdown by assumption.
        split; [exact Htr|]. split; [exact Ht|]. split; [cbn; lra|].
        rewrite wframe_tick. exact Hf.
      * right.
        destruct (updateTimer_fire wk Ht Hp Hsmall)
          as (F1 & F2 & _ & _ & F5 & F6 & _).
        destruct (wframe_fields _ _ Hf) as (G1 & G2 & G3 & G4 & _ & _ & _ & G8).
        destruct (frame_fields _ _ G8) as (I1 & _).
        split; [exact F1|]. split; [exact F2|].
        split; [rewrite F5, G1; reflexivity|].
        rewrite F6, G2, G3, G4, I1. reflexivity.
    + right. rewrite updateTimer_guard by auto. auto.
Qed.

Lemma repeat_level (w : World) :
  ticking w -> (timeRemaining (state w) <= 0)%Q ->
  forall j,
    log (repeat_call updateTimer j w) = log w
    /\ timers (repeat_call updateTimer j w) = timers w
    /\ isTransitioning (state (repeat_call updateTimer j w)) = false
    /\ currentPhaseIndex (state (repeat_call updateTimer j w))
       = currentPhaseIndex (state w).
Proof.
  intros Hw Hle j. revert w Hw Hle. induction j as [|j IH]; intros w Hw Hle.
  - cbn. repeat split; auto. apply Hw.
  - change (repeat_call updateTimer (S j) w)
      with (repeat_call updateTimer j (updateTimer w)).
    destruct (updateTimer_level w Hw Hle)
      as (L1 & L2 & L3 & L4 & L5 & L6 & Hw' & Hle').
    destruct (IH _ Hw' Hle') as (J1 & J2 & J3 & J4).
    rewrite J1, J2, J3, J4, L1, L2, L4. auto.
Qed.

(** C1.  Take a machine in a countdown mode that is running, not paused
    and not in the settle delay, with a positive remaining time, and
    call [updateTimer] any number [k] of times.  The log then holds one
    new end beep if the machine has entered the settle delay and none if
    it has not.  As long as it has not, time remains, the machine still
    counts down and nothing has been emitted or scheduled.  Once it has,
    the remaining time is zero, the end beep and the vibration have been
    emitted once, the one advance is scheduled, and every further tick
    leaves the whole world unchanged, however many there are.  A tick
    enters the settle delay exactly when it leaves no time: the tick that
    brings the remaining time from positive to zero is the one that
    fires.  Ticks on a machine whose remaining time is already at or
    below zero emit nothing and schedule nothing either. *)
Theorem phaseComplete_fires_once (w : World) (k : nat) :
  ticking w -> (0 < timeRemaining (state w))%Q ->
  let wk := repeat_call updateTimer k w in
  let fired := isTransitioning (state wk) in
  count_events isPhaseComplete (log wk)
  = (count_events isPhaseComplete (log w) + (if fired then 1 else 0))%nat
  /\ (fired = false ->
      (0 < timeRemaining (state wk))%Q /\ ticking wk
      /\ log wk = log w /\ timers wk = timers w)
  /\ (fired = true ->
      (timeRemaining (state wk) == 0)%Q
      /\ log wk = log w ++ [playBeep beepEnd; vibrate [100]]
      /\ timers wk
         = timers w ++ [mkTimer (nextTimerId w) (clock w + 500) None
                          (cbAdvancePhase (currentPhaseIndex (state w) + 1))]
      /\ forall m, repeat_call updateTimer m wk = wk)
  /\ (isTransitioning (state (updateTimer wk)) = true
      <-> (timeRemaining (state (updateTimer wk)) <= 0)%Q)
  /\ (forall w0 j,
        ticking w0 -> (timeRemaining (state w0) <= 0)%Q ->
        log (repeat_call updateTimer j w0) = log w0
        /\ timers (repeat_call updateTimer j w0) = timers w0
        /\ isTransitioning (state (repeat_call updateTimer j w0)) = false).
Proof.
  intros Hw Hpos wk fired.
  pose proof (countdown_or_boundary w k Hw Hpos) as Hk.
  pose proof (countdown_or_boundary w (S k) Hw Hpos) as Hk1.
  cbv zeta in Hk, Hk1. rewrite repeat_call_snoc in Hk1.
  fold wk in Hk, Hk1. subst fired.
  split; [|split; [|split; [|split]]].
  - destruct Hk as [(Htr & _ & _ & Hf)|(Htr & _ & Hl & _)]; rewrite Htr.
    + apply wframe_fields in Hf. destruct Hf as (-> & _). lia.
    + rewrite Hl, count_events_app. reflexivity.
  - intros Hno.
    destruct Hk as [(_ & Ht & Hp & Hf)|(Htr & _)]; [|congruence].
    apply wframe_fields in Hf. destruct Hf as (Hl & Hts & _). auto.
  - intros Hyes.
    destruct Hk as [(Htr & _)|(Htr & Hz & Hl & Hts)]; [congruence|].
    split; [exact Hz|]. split; [exact Hl|]. split; [exact Hts|].
    intros m. now apply repeat_guard.
  - destruct Hk1 as [(Htr & _ & Hp & _)|(Htr & Hz & _)]; rewrite Htr.
    + split; [discriminate|]. intros Hle. lra.
    + split; [intros _; rewrite Hz; apply Qle_refl|reflexivity].
  - intros w0 j Hw0 Hle. destruct (repeat_level w0 Hw0 Hle j) as (A & B & C & _).
    auto.
Qed.

Lemma phaseComplete_fires_once_witness :
  ticking (startTimer (page normal shortForm))
  /\ (0 < timeRemaining (state (startTimer (page normal shortForm))))%Q
  /\ count_events isPhaseComplete
       (log (repeat_call updateTimer 60 (startTimer (page normal shortForm))))
     = 0%nat
  /\ count_events isPhaseComplete
       (log (repeat_call updateTimer 150 (startTimer (page normal shortForm))))
     = 1%nat.
Proof.
  assert (Hw : ticking (startTimer (page normal shortForm)))
    by (repeat split; try reflexivity; discriminate).
  assert (Hpos : (0 < timeRemaining (state (startTimer (page normal shortForm))))%Q)
    by reflexivity.
  destruct (phaseComplete_fires_once _ 60 Hw Hpos) as (H60 & _).
  destruct (phaseComplete_fires_once _ 150 Hw Hpos) as (H150 & _).
  split; [exact Hw|]. split; [exact Hpos|]. split.
  - rewrite H60. vm_compute. reflexivity.
  - rewrite H150. vm_compute. reflexivity.
Defined.

(** A whole head-to-head run of two phases of 1 s on the clock.  Each
    boundary gets its one phase-completion cue from the tick that reaches
    zero; 500 ms after the first one the advance plays the end sound once
    more, as the cue for the switch to the next person, and 500 ms after
    the second one the run completes. *)
Example headToHead_run_log :
  log (after 3000 (startTimer (page headToHead duelForm)))
  = [phaseLoaded 0 (phase.mk work 1 1 0 None (Some 1));
     playBeep beepStart; vibrate [100];
     playBeep beepEnd; vibrate [100];
     playBeep beepEnd; vibrate [100];
     phaseLoaded 1 (phase.mk work 1 1 0 None (Some 2));
     playBeep beepEnd; vibrate [100];
     playBeep beepComplete; vibrate [300; 100; 300; 100; 300]]
  /\ log (after 1499 (startTimer (page headToHead duelForm)))
     = [phaseLoaded 0 (phase.mk work 1 1 0 None (Some 1));
        playBeep beepStart; vibrate [100];
        playBeep beepEnd; vibrate [100]].
Proof. vm_compute. split; reflexivity. Qed.

(** In stopwatch mode a tick only counts up. *)
Lemma updateTimer_stopwatch (w : World) :
  workoutMode (state w) = stopwatch ->
  isRunning (state w) = true -> isPaused (state w) = false ->
  isTransitioning (state w) = false ->
  updateTimer w = upd (set_elapsedTime (elapsedTime (state w) + 0.01)%Q) w.
Proof.
  intros Hmode Hrun Hpause Htrans. unfold updateTimer.
  rewrite Hrun, Hpause, Htrans, Hmode. reflexivity.
Qed.

(** C3 as stated fails in stopwatch mode: on a running stopwatch whose
    [timeRemaining] is 5, a tick leaves [timeRemaining] at 5. *)
Lemma stopwatch_tick_keeps_timeRemaining :
  isRunning (state stopwatchWithTime) = true
  /\ isPaused (state stopwatchWithTime) = false
  /\ isTransitioning (state stopwatchWithTime) = false
  /\ (0 < timeRemaining (state stopwatchWithTime))%Q
  /\ timeRemaining (state (updateTimer stopwatchWithTime)) = 5%Q
  /\ ~ (timeRemaining (state (updateTimer stopwatchWithTime))
        == timeRemaining (state stopwatchWithTime) - 0.01)%Q.
Proof.
  repeat split; try reflexivity. intros H. vm_compute in H. discriminate H.
Qed.

(** C3, amended.  In every mode [updateTimer] changes nothing when the
    machine is not running, is paused, or is in the settle delay.
    Otherwise, in the interval and head-to-head modes, the remaining time
    is never negative afterwards and, while it was positive, the tick
    adds exactly 0.01 to [elapsedTime] and takes exactly 0.01 from
    [timeRemaining], stopping at zero when less than 0.01 was left; in
    stopwatch mode the tick adds 0.01 to [elapsedTime] and leaves
    [timeRemaining] alone.  A remaining time that is not negative stays
    so in every case. *)
Theorem updateTimer_tick (w : World) :
  let s := state w in
  let s' := state (updateTimer w) in
  (isRunning s = false \/ isPaused s = true \/ isTransitioning s = true ->
   updateTimer w = w)
  /\ (isRunning s = true -> isPaused s = false -> isTransitioning s = false ->
      workoutMode s <> stopwatch ->
      (0 <= timeRemaining s')%Q
      /\ ((0 < timeRemaining s)%Q ->
          elapsedTime s' = (elapsedTime s + 0.01)%Q
          /\ ((0.01 <= timeRemaining s)%Q ->
              timeRemaining s' = (timeRemaining s - 0.01)%Q)
          /\ ((timeRemaining s < 0.01)%Q -> timeRemaining s' = 0%Q)))
  /\ (isRunning s = true -> isPaused s = false -> isTransitioning s = false ->
      workoutMode s = stopwatch ->
      elapsedTime s' = (elapsedTime s + 0.01)%Q
      /\ timeRemaining s' = timeRemaining s)
  /\ ((0 <= timeRemaining s)%Q -> (0 <= timeRemaining s')%Q).
Proof.
  intros s s'.
  assert (Hguard : isRunning s = false \/ isPaused s = true
                   \/ isTransitioning s = true -> updateTimer w = w)
    by apply updateTimer_guard.
  assert (Hrunning : isRunning s = true -> isPaused s = false ->
                     isTransitioning s = false -> workoutMode s <> stopwatch ->
      (0 <= timeRemaining s')%Q
      /\ ((0 < timeRemaining s)%Q ->
          elapsedTime s' = (elapsedTime s + 0.01)%Q
          /\ ((0.01 <= timeRemaining s)%Q ->
              timeRemaining s' = (timeRemaining s - 0.01)%Q)
          /\ ((timeRemaining s < 0.01)%Q -> timeRemaining s' = 0%Q))).
  { intros Hrun Hpause Htrans Hmode. subst s s'.
    apply WorkoutMode_eqb_neq in Hmode.
    unfold updateTimer. rewrite Hrun, Hpause, Htrans, Hmode.
    cbn beta iota zeta delta [negb orb andb].
    destruct (Qle_bool (timeRemaining (state w)) 0) eqn:E1;
      cbn beta iota zeta delta [negb orb andb].
    - apply Qle_bool_iff in E1.
      destruct (Qlt_bool (timeRemaining (state w)) 0) eqn:E2; cbn.
      + split; [lra|]. intros; lra.
      + apply Qlt_bool_false in E2. split; [lra|]. intros; lra.
    - apply Qle_bool_false in E1.
      destruct (Qlt_bool (timeRemaining
                  (state (upd (set_elapsedTime (elapsedTime (state w) + 0.01)%Q)
                     (upd (set_timeRemaining (timeRemaining (state w) - 0.01)%Q) w))))
                  0) eqn:E2.
      + cbn in E2. apply Qlt_bool_true in E2. cbn.
        split; [lra|]. intros _. repeat split; auto. intros; lra.
      + cbn in E2. apply Qlt_bool_false in E2. cbn.
        destruct (Qle_bool (timeRemaining (state w) - 0.01) 0); cbn;
          (split; [lra|]); intros _; repeat split; auto; intros; lra. }
  assert (Hstop : isRunning s = true -> isPaused s = false ->
                  isTransitioning s = false -> workoutMode s = stopwatch ->
                  elapsedTime s' = (elapsedTime s + 0.01)%Q
                  /\ timeRemaining s' = timeRemaining s).
  { intros Hrun Hpause Htrans Hmode. subst s s'.
    rewrite updateTimer_stopwatch by assumption. split; reflexivity. }
  split; [exact Hguard|]. split; [exact Hrunning|]. split; [exact Hstop|].
  intros Hnonneg.
  destruct (isRunning s) eqn:Hrun;
    [|subst s'; rewrite Hguard by auto; exact Hnonneg].
  destruct (isPaused s) eqn:Hpause;
    [subst s'; rewrite Hguard by auto; exact Hnonneg|].
  destruct (isTransitioning s) eqn:Htrans;
    [subst s'; rewrite Hguard by auto; exact Hnonneg|].
  destruct (WorkoutMode_eqb (workoutMode s) stopwatch) eqn:Hmode.
  - apply WorkoutMode_eqb_eq in Hmode.
    destruct (Hstop eq_refl eq_refl eq_refl Hmode) as (_ & ->). exact Hnonneg.
  - apply WorkoutMode_eqb_neq in Hmode.
    apply Hrunning; auto.
Qed.

Lemma updateTimer_tick_witness :
  workoutMode (state startedExample) <> stopwatch
  /\ timeRemaining (state (updateTimer startedExample)) = (10 - 0.01)%Q
  /\ elapsedTime (state (updateTimer startedExample)) = (0 + 0.01)%Q
  /\ timeRemaining (state (updateTimer stopwatchWithTime)) = 5%Q.
Proof.
  assert (Hmode : workoutMode (state startedExample) <> stopwatch)
    by discriminate.
  destruct (updateTimer_tick startedExample) as (_ & Hrun & _).
  destruct (Hrun eq_refl eq_refl eq_refl Hmode) as (_ & Hpos).
  destruct (Hpos ltac:(reflexivity)) as (He & Ht & _).
  destruct (updateTimer_tick stopwatchWithTime) as (_ & _ & Hstop & _).
  destruct (Hstop eq_refl eq_refl eq_refl eq_refl) as (_ & Hkeep).
  split; [exact Hmode|]. split; [|split].
  - rewrite Ht; [reflexivity|]. discriminate.
  - rewrite He. reflexivity.
  - rewrite Hkeep. reflexivity.
Defined.

(* ================================================================== *)
(** * Starting a run                                                    *)
(* ================================================================== *)

Lemma accepted_dec mode c : {accepted mode c} + {~ accepted mode c}.
Proof.
  destruct mode; simpl; unfold acceptedInterval, acceptedHeadToHead;
    destruct (Z_lt_dec 0 (config.workDuration c));
    try destruct (Z_lt_dec 0 (config.setsPerRound c));
    try destruct (Z_lt_dec 0 (config.numberOfPeople c));
    destruct (Z_lt_dec 0 (config.numberOfRounds c)); tauto.
Qed.

Lemma loadConfigFromForm_state (w : World) :
  loadConfigFromForm w
  = upd (set_config (config (state (loadConfigFromForm w)))) w.
Proof.
  unfold loadConfigFromForm.
  destruct (WorkoutMode_eqb (workoutMode (state w)) headToHead); reflexivity.
Qed.

(** What a start leaves behind once the validation has passed. *)
Lemma startValidated_ok (w : World) :
  let mode := workoutMode (state w) in
  let c := config (state w) in
  accepted mode c ->
  let w' := startValidated w in
  phaseSequence (state w') = builtSequence mode c
  /\ currentPhaseIndex (state w') = 0
  /\ elapsedTime (state w') = 0%Q
  /\ isRunning (state w') = true
  /\ isPaused (state w') = false
  /\ intervalId (state w') = Some (nextTimerId w)
  /\ timers w'
     = timers w ++ [mkTimer (nextTimerId w) (clock w + 10) (Some 10) cbUpdateTimer]
  /\ exists p0,
       index (phaseSequence (state w')) 0 = Some p0
       /\ timeRemaining (state w') = inject_Z (phase.duration p0)
       /\ currentPhase (state w') = inPhase (phase.type p0)
       /\ log w' = log w ++ [phaseLoaded 0 p0; playBeep beepStart; vibrate [100]].
Proof.
  intros mode c Hacc w'.
  pose proof (builtSequence_nonempty mode c Hacc) as Hne.
  assert (Hseq : phaseSequence
                   (state (if WorkoutMode_eqb (workoutMode (state w)) headToHead
                           then upd buildHeadToHeadSequence w
                           else upd buildPhaseSequence w))
                 = builtSequence mode c).
  { subst mode c. destruct (workoutMode (state w)); reflexivity. }
  subst w'. unfold startValidated.
  set (w1 := if WorkoutMode_eqb (workoutMode (state w)) headToHead
             then upd buildHeadToHeadSequence w
             else upd buildPhaseSequence w) in *.
  assert (Hw1 : timers w1 = timers w /\ nextTimerId w1 = nextTimerId w
                /\ clock w1 = clock w /\ log w1 = log w).
  { subst w1. destruct (WorkoutMode_eqb (workoutMode (state w)) headToHead);
      cbn; auto. }
  destruct Hw1 as (T1 & T2 & T3 & T4).
  clearbody w1.
  destruct (builtSequence mode c) as [|p0 tl] eqn:E; [congruence|].
  assert (Hlen : (len (phaseSequence (state w1)) =? 0) = false).
  { rewrite Hseq. unfold len. cbn [List.length]. apply Z.eqb_neq. lia. }
  rewrite Hlen.
  unfold loadCurrentPhase. cbn. rewrite Hseq.
  assert (Hlen' : (len (p0 :: tl) <=? 0) = false).
  { unfold len. cbn [List.length]. apply Z.leb_gt. lia. }
  rewrite Hlen'. cbn. rewrite T1, T2, T3, T4. unfold push.
  rewrite <- !app_assoc. cbn.
  rewrite !Hseq. repeat (split; [reflexivity|]). exists p0. repeat split.
Qed.

(** In the two countdown modes: what [startTimer] does with a rejected
    and with an accepted configuration. *)
Lemma startTimer_countdown_modes (w : World) :
  workoutMode (state w) <> stopwatch ->
  let mode := workoutMode (state w) in
  let c := config (state (loadConfigFromForm w)) in
  let w' := startTimer w in
  (~ accepted mode c \/ builtSequence mode c = [] ->
     (exists msg, log w' = log w ++ [alert msg])
     /\ state w' = set_config c (state w)
     /\ isRunning (state w') = isRunning (state w)
     /\ timers w' = timers w)
  /\ (accepted mode c ->
      builtSequence mode c <> []
      /\ phaseSequence (state w') = builtSequence mode c
      /\ currentPhaseIndex (state w') = 0
      /\ elapsedTime (state w') = 0%Q
      /\ isRunning (state w') = true
      /\ intervalId (state w') = Some (nextTimerId w)
      /\ timers w'
         = timers w
           ++ [mkTimer (nextTimerId w) (clock w + 10) (Some 10) cbUpdateTimer]
      /\ exists p0,
           index (phaseSequence (state w')) 0 = Some p0
           /\ timeRemaining (state w') = inject_Z (phase.duration p0)
           /\ currentPhase (state w') = inPhase (phase.type p0)
           /\ 0 < phase.duration p0).
Proof.
  intros Hmode mode c w'.
  assert (Hsw : WorkoutMode_eqb (workoutMode (state w)) stopwatch = false)
    by (now apply WorkoutMode_eqb_neq).
  set (w0 := loadConfigFromForm w) in *.
  assert (Hw0 : w0 = upd (set_config c) w) by apply loadConfigFromForm_state.
  assert (Hmode0 : workoutMode (state w0) = mode) by (rewrite Hw0; reflexivity).
  assert (Hstart : w' = if WorkoutMode_eqb mode headToHead then
      if config.workDuration c <=? 0
      then emit (alert "Work duration must be greater than 0") w0
      else if (config.numberOfPeople c <=? 0) || (config.numberOfRounds c <=? 0)
      then emit (alert "Number of people and number of rounds must be greater than 0") w0
      else startValidated w0
    else
      if config.workDuration c <=? 0
      then emit (alert "Work duration must be greater than 0") w0
      else if (config.setsPerRound c <=? 0) || (config.numberOfRounds c <=? 0)
      then emit (alert "Sets per round and number of rounds must be greater than 0") w0
      else startValidated w0).
  { subst w'. unfold startTimer. rewrite Hsw. cbv zeta. fold w0.
    rewrite Hmode0. reflexivity. }
  assert (Hfail : forall msg, w' = emit (alert msg) w0 ->
     (exists msg, log w' = log w ++ [alert msg])
     /\ state w' = set_config c (state w)
     /\ isRunning (state w') = isRunning (state w)
     /\ timers w' = timers w).
  { intros msg ->. rewrite Hw0. cbn. split; [now exists msg|auto]. }
  assert (Hcases :
     (accepted mode c /\ w' = startValidated w0)
     \/ (~ accepted mode c /\ exists msg, w' = emit (alert msg) w0)).
  { rewrite Hstart. clear Hstart Hfail.
    destruct mode eqn:Em; cbn [WorkoutMode_eqb accepted];
      unfold acceptedInterval, acceptedHeadToHead;
      destruct (Z.leb_spec (config.workDuration c) 0);
      try (right; split; [lia|eexists; reflexivity]);
      try destruct (Z.leb_spec (config.setsPerRound c) 0);
      try destruct (Z.leb_spec (config.numberOfPeople c) 0);
      destruct (Z.leb_spec (config.numberOfRounds c) 0);
      cbn [orb];
      try (right; split; [lia|eexists; reflexivity]);
      left; split; (lia || reflexivity). }
  split.
  - intros Hbad. destruct Hcases as [(Hacc & _)|(_ & msg & Hmsg)].
    + destruct Hbad as [Hbad|Hbad]; [contradiction|].
      exfalso. now apply (builtSequence_nonempty mode c).
    + now apply (Hfail msg).
  - intros Hacc. destruct Hcases as [(_ & Hok)|(Hbad & _)]; [|contradiction].
    split; [now apply builtSequence_nonempty|].
    assert (Hc0 : config (state w0) = c) by reflexivity.
    pose proof (startValidated_ok w0) as H. cbv zeta in H.
    rewrite Hmode0, Hc0 in H. specialize (H Hacc).
    rewrite <- Hok in H.
    assert (Hsame : timers w0 = timers w /\ nextTimerId w0 = nextTimerId w
                    /\ clock w0 = clock w)
      by (rewrite Hw0; cbn; auto).
    destruct Hsame as (S1 & S2 & S3). rewrite S1, S2, S3 in H.
    destruct H as (H1 & H2 & H3 & H4 & H5 & H6 & H7 & p0 & H8 & H9 & H10 & H11).
    repeat (split; [assumption|]).
    exists p0. repeat (split; [assumption|]).
    assert (Hin : In p0 (builtSequence mode c)).
    { rewrite <- H1. unfold index in H8. cbn in H8.
      destruct (phaseSequence (state w')); [discriminate|].
      inversion H8; subst. simpl; auto. }
    clear - Hin Hacc.
    pose proof (accepted_work _ _ Hacc) as Hwork.
    destruct mode; simpl in Hin.
    + rewrite intervalSequence_ordering in Hin.
      now apply (intervalOrdering_wellTimed c p0).
    + rewrite headToHeadSequence_ordering in Hin.
      now apply (headToHeadOrdering_wellTimed c p0).
    + rewrite intervalSequence_ordering in Hin.
      now apply (intervalOrdering_wellTimed c p0).
Qed.

(** A stopwatch started with a work duration of -5 both in the form and
    in the configuration: the first start, in interval mode, is rejected
    and leaves the configuration it has read; the mode is then switched
    and the second start, in stopwatch mode, raises no alert and marks
    the machine running. *)
Lemma stopwatch_start_skips_validation :
  let w := selectMode stopwatch (startTimer (page normal negativeWorkForm)) in
  workoutMode (state w) = stopwatch
  /\ config.workDuration (config (state w)) = -5
  /\ elements.workDuration (dom w) = "-5"%string
  /\ isRunning (state w) = false
  /\ isRunning (state (startTimer w)) = true
  /\ log (startTimer w) = log w ++ [playBeep beepStart; vibrate [100]]
  /\ timers (startTimer w) = [mkTimer 1 10 (Some 10) cbUpdateTimer].
Proof. vm_compute. repeat split. Qed.

(** C4.  With [c] the configuration that [startTimer] reads from the
    form.  In the two countdown modes: when [c] fails the validation
    (work duration, sets or people, or rounds not positive), and also in
    the case of an empty sequence, which no accepted configuration
    produces, [startTimer] only raises an alert: apart from the
    configuration just read the state is untouched, the machine is not
    marked running and no timer is registered; when [c] is accepted, the
    phase index and the elapsed time are 0, phase 0 is loaded with
    [timeRemaining] equal to its duration, and the machine is running
    with its 10 ms interval installed.  In stopwatch mode [startTimer]
    neither reads nor validates the form: it marks the machine running
    and installs the interval whatever the form and the configuration
    hold, raises no alert, loads no phase, and keeps the elapsed time,
    from which the first lap is counted. *)
Theorem startTimer_validation (w : World) :
  let mode := workoutMode (state w) in
  let c := config (state (loadConfigFromForm w)) in
  let w' := startTimer w in
  (mode <> stopwatch ->
   (~ accepted mode c \/ builtSequence mode c = [] ->
      (exists msg, log w' = log w ++ [alert msg])
      /\ state w' = set_config c (state w)
      /\ isRunning (state w') = isRunning (state w)
      /\ timers w' = timers w)
   /\ (accepted mode c ->
       builtSequence mode c <> []
       /\ phaseSequence (state w') = builtSequence mode c
       /\ currentPhaseIndex (state w') = 0
       /\ elapsedTime (state w') = 0%Q
       /\ isRunning (state w') = true
       /\ intervalId (state w') = Some (nextTimerId w)
       /\ timers w'
          = timers w
            ++ [mkTimer (nextTimerId w) (clock w + 10) (Some 10) cbUpdateTimer]
       /\ exists p0,
            index (phaseSequence (state w')) 0 = Some p0
            /\ timeRemaining (state w') = inject_Z (phase.duration p0)
            /\ currentPhase (state w') = inPhase (phase.type p0)
            /\ 0 < phase.duration p0))
  /\ (mode = stopwatch ->
      log w' = log w ++ [playBeep beepStart; vibrate [100]]
      /\ isRunning (state w') = true /\ isPaused (state w') = false
      /\ intervalId (state w') = Some (nextTimerId w)
      /\ timers w'
         = timers w
           ++ [mkTimer (nextTimerId w) (clock w + 10) (Some 10) cbUpdateTimer]
      /\ config (state w') = config (state w)
      /\ elapsedTime (state w') = elapsedTime (state w)
      /\ lapStartTime (state w') = elapsedTime (state w)
      /\ timeRemaining (state w') = timeRemaining (state w)
      /\ currentPhase (state w') = currentPhase (state w)
      /\ currentPhaseIndex (state w') = currentPhaseIndex (state w)
      /\ phaseSequence (state w') = phaseSequence (state w)).
Proof.
  intros mode c w'. split.
  - intros Hmode. exact (startTimer_countdown_modes w Hmode).
  - intros Hmode. subst w' mode. unfold startTimer. rewrite Hmode.
    cbn [WorkoutMode_eqb]. unfold startStopwatch. cbv zeta.
    destruct w as [s b d u ts nid cl l].
    destruct s as [f1 f2 f3 f4 f5 f6 f7 f8 f9 f10 f11 f12 f13 f14 f15 f16 f17 f18 f19].
    cbn. unfold push. rewrite <- app_assoc. repeat split.
Qed.

Lemma startTimer_validation_witness :
  workoutMode (state (page normal exampleForm)) <> stopwatch
  /\ isRunning (state (startTimer (page normal exampleForm))) = true
  /\ currentPhaseIndex (state (startTimer (page normal exampleForm))) = 0
  /\ timeRemaining (state (startTimer (page normal exampleForm))) = inject_Z 10
  /\ isRunning (state (startTimer (page headToHead negativeWorkForm))) = false
  /\ timers (startTimer (page headToHead negativeWorkForm)) = [].
Proof.
  assert (H1 : workoutMode (state (page normal exampleForm)) <> stopwatch)
    by discriminate.
  assert (H2 : workoutMode (state (page headToHead negativeWorkForm)) <> stopwatch)
    by discriminate.
  destruct (proj1 (startTimer_validation (page normal exampleForm)) H1)
    as (_ & Hok).
  destruct (proj1 (startTimer_validation (page headToHead negativeWorkForm)) H2)
    as (Hbad & _).
  destruct Hok as (_ & _ & Hidx & _ & Hrun & _ & _ & p0 & Hp0 & Htr & _).
  { vm_compute. repeat split. }
  destruct Hbad as (_ & _ & Hrun' & Htimers').
  { left. vm_compute. intros (H & _). discriminate H. }
  split; [exact H1|]. split; [exact Hrun|]. split; [exact Hidx|].
  split; [|split; [exact Hrun'|exact Htimers']].
  rewrite Htr. cbn in Hp0. inversion Hp0. reflexivity.
Defined.

(** What the form loader makes of an entered zero: the setup and work
    fields fall back to their defaults 10 and 30, the warm-up, rest and
    long-rest fields stay 0. *)
Example zero_fields_from_form :
  let e := {|
    elements.setupDuration := "0";
    elements.warmupDuration := "0";
    elements.workDuration := "0";
    elements.restDuration := "0";
    elements.longRestDuration := "0";
    elements.setsPerRound := "2";
    elements.numberOfRounds := "1";
    elements.numberOfPeople := "3";
    elements.workDurationHeadToHead := "20";
    elements.setupDurationHeadToHead := "0";
    elements.numberOfRoundsHeadToHead := "2";
    elements.breathInTime := "4";
    elements.inhaledHoldTime := "0";
    elements.breathOutTime := "4";
    elements.exhaledHoldTime := "0" |} in
  config (state (loadConfigFromForm (page normal e)))
  = config.mk 10 0 30 0 0 2 1 0
  /\ map phase.type (phaseSequence (state (startTimer (page normal e))))
     = [setup; work; work].
Proof. vm_compute. split; reflexivity. Qed.

(* ================================================================== *)
(** * Laps                                                              *)
(* ================================================================== *)

Example threeLaps_elapsed :
  map time (lapTimes (state threeLaps)) = [12.3; 27.0; 40.5]%Q.
Proof. reflexivity. Qed.

(** The run that [lapAt] abbreviates, on the clock: 300 ms after its
    start the stopwatch reads 0.3 s, and nothing but the elapsed time has
    changed. *)
Example stopwatch_after_300ms :
  let w := startTimer (page stopwatch exampleForm) in
  Qeq_bool (elapsedTime (state (after 300 w))) 0.3 = true
  /\ frame (state (after 300 w)) = frame (state w)
  /\ log (after 300 w) = log w.
Proof. vm_compute. repeat split. Qed.

(** C9.  [recordLap] changes nothing unless the mode is stopwatch and the
    machine is running.  When it is, it appends the record with lap
    number (number of laps so far) + 1, the current elapsed time, and the
    elapsed time minus the previous lap mark, and moves the lap mark to
    the elapsed time.  Laps taken at 12.3 s, 27.0 s and 40.5 s after a
    fresh start are numbered 1, 2, 3 and last 12.3 s, 14.7 s and 13.5 s. *)
Theorem recordLap_appends (w : World) :
  let s := state w in
  let s' := state (recordLap w) in
  (workoutMode s <> stopwatch \/ isRunning s = false -> recordLap w = w)
  /\ (workoutMode s = stopwatch -> isRunning s = true ->
      lapTimes s'
      = lapTimes s
        ++ [mkLap (len (lapTimes s) + 1) (elapsedTime s)
              (elapsedTime s - lapStartTime s)%Q]
      /\ lapStartTime s' = elapsedTime s
      /\ elapsedTime s' = elapsedTime s)
  /\ map lapNumber (lapTimes (state threeLaps)) = [1; 2; 3]
  /\ Qlist_eqb (map lapDuration (lapTimes (state threeLaps)))
       [12.3; 14.7; 13.5]%Q = true.
Proof.
  intros s s'. split; [|split; [|split]].
  - intros H. unfold recordLap. fold s.
    destruct H as [H|H].
    + apply WorkoutMode_eqb_neq in H. now rewrite H.
    + rewrite H. now rewrite orb_true_r.
  - intros Hmode Hrun. subst s'. unfold recordLap. fold s.
    rewrite Hmode, Hrun. cbn. auto.
  - vm_compute. reflexivity.
  - vm_compute. reflexivity.
Qed.

Lemma recordLap_appends_witness :
  let w := after 300 (startTimer (page stopwatch exampleForm)) in
  workoutMode (state w) = stopwatch /\ isRunning (state w) = true
  /\ map lapNumber (lapTimes (state (recordLap w))) = [1]
  /\ lapStartTime (state (recordLap w)) = elapsedTime (state w)
  /\ recordLap (page stopwatch exampleForm) = page stopwatch exampleForm.
Proof.
  intros w.
  assert (Hmode : workoutMode (state w) = stopwatch) by (vm_compute; reflexivity).
  assert (Hrun : isRunning (state w) = true) by (vm_compute; reflexivity).
  destruct (recordLap_appends w) as (_ & Happ & _).
  destruct (Happ Hmode Hrun) as (Hlaps & Hmark & _).
  destruct (recordLap_appends (page stopwatch exampleForm)) as (Hnop & _).
  split; [exact Hmode|]. split; [exact Hrun|]. split; [|split].
  - rewrite Hlaps. vm_compute. reflexivity.
  - exact Hmark.
  - apply Hnop. right. reflexivity.
Defined.

(* ================================================================== *)
(** * The breathing form                                                *)
(* ================================================================== *)

Lemma orDefault_nonzero v d : d <> 0 -> orDefault v d <> 0.
Proof. destruct v as [[| |]|]; simpl; intros; try assumption; discriminate. Qed.

Lemma loadBreathingConfig_fields (w : World) :
  let c := breathingConfig (breathing (loadBreathingConfigFromForm w)) in
  breathingConfig.breathIn c = orDefault (parseInt (elements.breathInTime (dom w))) 4
  /\ breathingConfig.breathOut c
     = orDefault (parseInt (elements.breathOutTime (dom w))) 4
  /\ log (loadBreathingConfigFromForm w) = log w.
Proof. cbn. auto. Qed.

Lemma breathingSequence_nonempty (c : BreathingConfig) :
  0 < breathingConfig.breathIn c \/ 0 < breathingConfig.breathOut c ->
  exists p tl, breathingSequence c = p :: tl.
Proof.
  intros H. unfold breathingSequence, push. cbv zeta.
  destruct (Z.ltb_spec 0 (breathingConfig.breathIn c));
    destruct (Z.ltb_spec 0 (breathingConfig.breathOut c));
    destruct (0 <? breathingConfig.inhaledHold c);
    destruct (0 <? breathingConfig.exhaledHold c);
    cbn; try (eexists; eexists; reflexivity); lia.
Qed.

(** What a successful breathing start leaves behind. *)
Lemma startBreathingTimer_ok (w : World) :
  let w0 := loadBreathingConfigFromForm w in
  let c := breathingConfig (breathing w0) in
  0 < breathingConfig.breathIn c \/ 0 < breathingConfig.breathOut c ->
  exists p tl,
    breathingSequence c = p :: tl
    /\ startBreathingTimer w
       = emit (vibrate [100]) (emit (playBeep beepStart)
           (updB (set_breathingIntervalId (Some (nextTimerId w)))
             (setInterval cbUpdateBreathingTimer 10
               (emit (breathingPhaseLoaded 0 p)
                 (updB (set_breathingTimeRemaining (inject_Z (bphase.duration p)))
                   (updB (set_currentBreathingPhase
                            (inBreathingPhase (bphase.type p)))
                     (updB (set_breathingIsTransitioning false)
                       (updB (set_currentBreathingPhaseIndex 0)
                         (updB (set_breathingIsPaused false)
                           (updB (set_breathingIsRunning true)
                             (updB buildBreathingSequence w0))))))))))).
Proof.
  intros w0 c Hpos.
  destruct (breathingSequence_nonempty c Hpos) as (p & tl & Hseq).
  exists p, tl. split; [exact Hseq|].
  unfold startBreathingTimer. fold w0. cbv zeta. fold c.
  assert (Hrej : (breathingConfig.breathIn c <=? 0)
                 && (breathingConfig.breathOut c <=? 0) = false).
  { destruct (Z.leb_spec (breathingConfig.breathIn c) 0);
      destruct (Z.leb_spec (breathingConfig.breathOut c) 0); cbn; auto; lia. }
  rewrite Hrej.
  set (w1 := updB buildBreathingSequence w0).
  assert (Hb : breathingPhaseSequence (breathing w1) = p :: tl)
    by (cbn; exact Hseq).
  assert (Hn : nextTimerId w1 = nextTimerId w) by reflexivity.
  clearbody w1.
  assert (Hlen : (len (breathingPhaseSequence (breathing w1)) =? 0) = false).
  { rewrite Hb. unfold len. cbn [List.length]. apply Z.eqb_neq. lia. }
  rewrite Hlen. unfold loadBreathingPhase. cbn. rewrite !Hb.
  assert (Hlen' : (len (p :: tl) <=? 0) = false).
  { unfold len. cbn [List.length]. apply Z.leb_gt. lia. }
  rewrite Hlen'. cbn. rewrite !Hb, <- Hn. reflexivity.
Qed.

(** C10.  Whatever the breathing inputs hold, the configuration read from
    them has [breathIn <> 0] and [breathOut <> 0]: a zero or a value that
    does not parse becomes 4.  So the start is rejected for "breath in or
    breath out" exactly when both fields are negative. *)
Theorem breathing_form_never_zero (w : World) :
  let c := breathingConfig (breathing (loadBreathingConfigFromForm w)) in
  breathingConfig.breathIn c <> 0
  /\ breathingConfig.breathOut c <> 0
  /\ (forall v, parseInt v = None \/ parseInt v = Some 0 ->
        orDefault (parseInt v) 4 = 4)
  /\ parseInt "0" = Some 0 /\ parseInt "" = None /\ parseInt "abc" = None
  /\ (breathingRejected w <->
      breathingConfig.breathIn c < 0 /\ breathingConfig.breathOut c < 0).
Proof.
  intros c.
  destruct (loadBreathingConfig_fields w) as (Hin & Hout & Hlog). fold c in Hin, Hout.
  assert (Nin : breathingConfig.breathIn c <> 0)
    by (rewrite Hin; apply orDefault_nonzero; lia).
  assert (Nout : breathingConfig.breathOut c <> 0)
    by (rewrite Hout; apply orDefault_nonzero; lia).
  split; [exact Nin|]. split; [exact Nout|]. split.
  { intros v [-> | ->]; reflexivity. }
  split; [reflexivity|]. split; [reflexivity|]. split; [reflexivity|].
  unfold breathingRejected. split.
  - intros Hrej.
    destruct (Z_lt_dec (breathingConfig.breathIn c) 0) as [Hi|Hi];
      destruct (Z_lt_dec (breathingConfig.breathOut c) 0) as [Ho|Ho];
      try (split; assumption); exfalso.
    all: assert (Hpos : 0 < breathingConfig.breathIn c
                        \/ 0 < breathingConfig.breathOut c) by lia.
    all: destruct (startBreathingTimer_ok w Hpos) as (p & tl & _ & Hstart).
    all: rewrite Hstart in Hrej; cbn in Hrej; unfold push in Hrej.
    all: rewrite <- !app_assoc in Hrej; apply app_inv_head in Hrej.
    all: discriminate Hrej.
  - intros (Hi & Ho). unfold startBreathingTimer. cbv zeta. fold c.
    destruct (Z.leb_spec (breathingConfig.breathIn c) 0); [|lia].
    destruct (Z.leb_spec (breathingConfig.breathOut c) 0); [|lia].
    cbn. reflexivity.
Qed.

Lemma breathing_form_never_zero_witness :
  breathingRejected (page normal negativeWorkForm)
  /\ breathingConfig.breathIn
       (breathingConfig (breathing
          (loadBreathingConfigFromForm (page normal zeroBreathForm)))) = 4
  /\ breathingConfig.breathOut
       (breathingConfig (breathing
          (loadBreathingConfigFromForm (page normal zeroBreathForm)))) = 4
  /\ ~ breathingRejected (page normal zeroBreathForm).
Proof.
  destruct (breathing_form_never_zero (page normal negativeWorkForm))
    as (_ & _ & _ & _ & _ & _ & Hneg).
  destruct (breathing_form_never_zero (page normal zeroBreathForm))
    as (_ & _ & _ & _ & _ & _ & Hzero).
  split; [|split; [reflexivity|split; [reflexivity|]]].
  - apply Hneg. vm_compute. split; reflexivity.
  - intros H. apply Hzero in H. destruct H as (H & _). vm_compute in H.
    discriminate H.
Defined.

(* ================================================================== *)
(** * Reset during the settle delay                                     *)
(* ================================================================== *)

(** On a machine that is not running, the scheduled advance only clears
    the transition flag; after a reset it changes nothing at all. *)
Lemma advancePhase_not_running (nextIndex : Z) (w : World) :
  isRunning (state w) = false ->
  advancePhase nextIndex w = upd (set_isTransitioning false) w.
Proof. intros H. unfold advancePhase. now rewrite H. Qed.

Lemma resetTimer_ready (w : World) :
  let s := state (resetTimer w) in
  isRunning s = false /\ isTransitioning s = false /\ currentPhase s = ready
  /\ currentPhaseIndex s = 0 /\ log (resetTimer w) = log w.
Proof.
  unfold resetTimer. destruct (intervalId (state w)); cbn; auto.
Qed.

Lemma reset_cancels_advance (nextIndex : Z) (w : World) :
  advancePhase nextIndex (resetTimer w) = resetTimer w.
Proof.
  destruct (resetTimer_ready w) as (Hrun & Htrans & _).
  rewrite advancePhase_not_running by exact Hrun.
  destruct (resetTimer w) as [s b d u t n c l]. cbn in *.
  unfold upd. cbn. f_equal. destruct s. cbn in *. subst. reflexivity.
Qed.

(** Without a new start the reset run stays reset when the delay ends. *)
Example reset_alone_stays_ready :
  state (after 400 resetInSettle) = state resetInSettle
  /\ log (after 400 resetInSettle) = log resetInSettle
  /\ currentPhase (state resetInSettle) = ready
  /\ timers (after 400 resetInSettle) = [].
Proof. vm_compute. repeat split. Qed.

(** C2, at the failing input.  The first run ends its 1 s setup phase at
    1000 ms and schedules the advance to phase 1 for 1500 ms; it is reset
    at 1100 ms and a new run is started at 1300 ms.  At 1500 ms the
    advance scheduled by the first run finds [isRunning] set again: it
    moves the new run, 0.2 s into its setup phase, to phase 1 and emits
    the round-start cue and the phase load. *)
Theorem stale_advance_hits_new_run :
  map callback (timers atBoundary) = [cbUpdateTimer; cbAdvancePhase 1]
  /\ currentPhase (state resetInSettle) = ready
  /\ map callback (timers resetInSettle) = [cbAdvancePhase 1]
  /\ currentPhaseIndex (state restarted) = 0
  /\ currentPhase (state restarted) = inPhase setup
  /\ map callback (timers restarted) = [cbAdvancePhase 1; cbUpdateTimer]
  /\ clock settleOver = 1500
  /\ currentPhaseIndex (state settleOver) = 1
  /\ currentPhase (state settleOver) = inPhase work
  /\ Qeq_bool (elapsedTime (state settleOver)) 0.2 = true
  /\ log settleOver
     = log restarted
       ++ [playBeep beepRoundStart; vibrate [200; 100; 200];
           phaseLoaded 1 (phase.mk work 30 1 1 None None)].
Proof. vm_compute. repeat split. Qed.

(* ================================================================== *)
(** * The event loop, one millisecond at a time                         *)
(* ================================================================== *)

(** The effect primitives on a world written out. *)
Lemma upd_mk f s b d u ts nid c l :
  upd f (mkWorld s b d u ts nid c l) = mkWorld (f s) b d u ts nid c l.
Proof. reflexivity. Qed.

Lemma updB_mk f s b d u ts nid c l :
  updB f (mkWorld s b d u ts nid c l) = mkWorld s (f b) d u ts nid c l.
Proof. reflexivity. Qed.

Lemma emit_mk e s b d u ts nid c l :
  emit e (mkWorld s b d u ts nid c l) = mkWorld s b d u ts nid c (l ++ [e]).
Proof. reflexivity. Qed.

Lemma setTimeout_mk cb delay s b d u ts nid c l :
  setTimeout cb delay (mkWorld s b d u ts nid c l)
  = mkWorld s b d u (ts ++ [mkTimer nid (c + delay) None cb]) (nid + 1) c l.
Proof. reflexivity. Qed.

Lemma setInterval_mk cb period s b d u ts nid c l :
  setInterval cb period (mkWorld s b d u ts nid c l)
  = mkWorld s b d u (ts ++ [mkTimer nid (c + period) (Some period) cb])
      (nid + 1) c l.
Proof. reflexivity. Qed.

Lemma clearInterval_mk id s b d u ts nid c l :
  clearInterval id (mkWorld s b d u ts nid c l)
  = mkWorld s b d u (filter (fun t => negb (timerId t =? id)) ts) nid c l.
Proof. reflexivity. Qed.


Lemma elapse_add a b w : elapse (a + b) w = elapse b (elapse a w).
Proof. revert w; induction a as [|a IH]; intros w; simpl; auto. Qed.

Lemma elapse_snoc n w : elapse (S n) w = step_ms (elapse n w).
Proof.
  revert w; induction n as [|n IH]; intros w; [reflexivity|].
  cbn [elapse] in *. now rewrite IH.
Qed.



Lemma filter_none {A} (f : A -> bool) (l : list A) :
  (forall x, In x l -> f x = false) -> filter f l = [].
Proof.
  induction l as [|x l IH]; intros H; [reflexivity|].
  cbn. rewrite H by (simpl; auto). apply IH. intros y Hy. apply H. simpl; auto.
Qed.

(** No timer is due: only the clock moves. *)
Lemma step_idle (w : World) :
  (forall x, In x (timers w) -> clock w + 1 < due x) ->
  step_ms w = set_clock (clock w + 1) w.
Proof.
  intros H. unfold step_ms. cbv zeta.
  rewrite filter_none; [reflexivity|].
  intros x Hx. cbn in Hx |- *. apply Z.leb_gt. now apply H.
Qed.

Lemma elapse_idle (n : nat) :
  forall w,
    (forall x, In x (timers w) -> clock w + Z.of_nat n < due x) ->
    elapse n w = set_clock (clock w + Z.of_nat n) w.
Proof.
  induction n as [|n IH]; intros w H.
  - cbn [elapse Z.of_nat]. rewrite Z.add_0_r. destruct w; reflexivity.
  - rewrite Nat2Z.inj_succ in *.
    cbn [elapse]. rewrite step_idle by (intros x Hx; specialize (H x Hx); lia).
    rewrite IH
      by (intros x Hx; specialize (H x Hx);
          cbn [clock set_clock timers] in *; lia).
    destruct w as [s b d u ts nid c l]; unfold set_clock;
      cbn [clock state breathing dom userConfirms timers nextTimerId log].
    f_equal. lia.
Qed.

(** The head of the table is an interval that is due now, and nothing
    else is: its callback runs on the table with the interval re-armed. *)
Lemma step_interval (w : World) (I : Timer) (others : list Timer) (period : Z) :
  timers w = I :: others ->
  due I = clock w + 1 -> every I = Some period ->
  (forall x, In x others -> clock w + 1 < due x /\ timerId x <> timerId I) ->
  step_ms w
  = runCallback (callback I)
      (set_timers (mkTimer (timerId I) (due I + period) (Some period) (callback I)
                   :: others)
         (set_clock (clock w + 1) w)).
Proof.
  intros Ht Hdue Hevery Hothers. unfold step_ms. cbv zeta.
  cbn [timers set_clock clock]. rewrite Ht. cbn [filter].
  assert (E : (due I <=? clock w + 1) = true) by (apply Z.leb_le; lia).
  rewrite E.
  rewrite (filter_none _ others)
    by (intros x Hx; apply Z.leb_gt; now apply Hothers).
  cbn [map fire]. unfold findTimer. cbn [timers set_clock].
  rewrite Ht. cbn [find]. rewrite Z.eqb_refl.
  unfold rearm. cbn [timers set_clock]. rewrite Ht. cbn [flat_map].
  rewrite Z.eqb_refl, Hevery.
  assert (Eo : flat_map (fun u => if timerId u =? timerId I then
                 match every u with
                 | Some p => [mkTimer (timerId u) (due u + p) (every u) (callback u)]
                 | None => []
                 end else [u]) others = others).
  { clear - Hothers. induction others as [|x l IH]; [reflexivity|].
    cbn [flat_map].
    destruct (Z.eqb_spec (timerId x) (timerId I)) as [E|_].
    - exfalso. apply (Hothers x); simpl; auto.
    - rewrite IH by (intros y Hy; apply Hothers; simpl; auto). reflexivity. }
  rewrite Eo. destruct w; reflexivity.
Qed.

(* ================================================================== *)
(** * One call of [updateBreathingTimer]                                *)
(* ================================================================== *)

Lemma updateBreathingTimer_guard (w : World) :
  breathingIsRunning (breathing w) = false
  \/ breathingIsPaused (breathing w) = true
  \/ breathingIsTransitioning (breathing w) = true ->
  updateBreathingTimer w = w.
Proof.
  intros H. unfold updateBreathingTimer.
  destruct (breathingIsRunning (breathing w)), (breathingIsPaused (breathing w)),
    (breathingIsTransitioning (breathing w)); simpl; try reflexivity.
  destruct H as [H|[H|H]]; discriminate.
Qed.




Lemma index_Some {A} (l : list A) (i : Z) :
  0 <= i < len l -> exists x, index l i = Some x /\ In x l.
Proof.
  intros H. unfold index, len in *.
  destruct (Z.ltb_spec i 0); [lia|].
  destruct (nth_error l (Z.to_nat i)) eqn:E.
  - exists a. split; [reflexivity|]. eapply nth_error_In; eauto.
  - apply nth_error_None in E. lia.
Qed.

Lemma index_range {A} (l : list A) (i : Z) (x : A) :
  index l i = Some x -> 0 <= i < len l.
Proof.
  unfold index, len. destruct (Z.ltb_spec i 0) as [|Hi]; [discriminate|].
  intros Hx. assert (Hn : nth_error l (Z.to_nat i) <> None) by congruence.
  apply nth_error_Some in Hn. lia.
Qed.

(* ================================================================== *)
(** * A breathing phase on the clock                                    *)
(* ================================================================== *)




Section BreathingCycle.
Variable base : World.
Variable id : Z.


Lemma ticks_Z (z : Z) : 0 <= z -> (ticks (Z.to_nat z) == inject_Z z * 0.01)%Q.
Proof. intros H. unfold ticks. now rewrite Z2Nat.id. Qed.








End BreathingCycle.

(* ================================================================== *)
(** * The breathing cycle never ends                                    *)
(* ================================================================== *)




(* ================================================================== *)
(** * No callback stops the breathing machine                           *)
(* ================================================================== *)

Lemma breathing_upd f w : breathing (upd f w) = breathing w.
Proof. reflexivity. Qed.

Lemma breathing_emit e w : breathing (emit e w) = breathing w.
Proof. reflexivity. Qed.

Lemma breathing_setTimeout cb d w : breathing (setTimeout cb d w) = breathing w.
Proof. reflexivity. Qed.

Lemma breathing_setInterval cb d w : breathing (setInterval cb d w) = breathing w.
Proof. reflexivity. Qed.

Lemma breathing_resetTimer w : breathing (resetTimer w) = breathing w.
Proof. unfold resetTimer. destruct (intervalId (state w)); reflexivity. Qed.

Lemma breathing_completeWorkout w : breathing (completeWorkout w) = breathing w.
Proof.
  unfold completeWorkout. destruct (isCompleting (state w)); [reflexivity|].
  cbn. destruct (intervalId (state w)); reflexivity.
Qed.

Lemma breathing_loadCurrentPhase w : breathing (loadCurrentPhase w) = breathing w.
Proof.
  unfold loadCurrentPhase.
  destruct ((currentPhaseIndex (state w) <? 0)
            || (len (phaseSequence (state w)) <=? currentPhaseIndex (state w)));
    [apply breathing_completeWorkout|].
  destruct (index (phaseSequence (state w)) (currentPhaseIndex (state w)));
    [reflexivity|apply breathing_completeWorkout].
Qed.

Lemma breathing_updateTimer w : breathing (updateTimer w) = breathing w.
Proof.
  unfold updateTimer.
  repeat match goal with
         | |- context [if ?c then _ else _] => destruct c
         end; reflexivity.
Qed.

Lemma breathing_advancePhase n w : breathing (advancePhase n w) = breathing w.
Proof.
  unfold advancePhase.
  destruct (negb (isRunning (state w))); [reflexivity|]. cbv zeta.
  match goal with
  | |- context [if ?c then _ else _] => destruct c
  end; [|now rewrite breathing_completeWorkout].
  match goal with
  | |- context [match ?x with Some _ => _ | None => _ end] => destruct x
  end; [|now rewrite breathing_completeWorkout].
  rewrite breathing_loadCurrentPhase.
  repeat match goal with
         | |- context [if ?c then _ else _] => destruct c
         end; reflexivity.
Qed.

Lemma breathing_startTimer w : breathing (startTimer w) = breathing w.
Proof.
  assert (Hload : forall v, breathing (loadConfigFromForm v) = breathing v).
  { intros v. unfold loadConfigFromForm.
    destruct (WorkoutMode_eqb (workoutMode (state v)) headToHead); reflexivity. }
  assert (Hval : forall v, breathing (startValidated v) = breathing v).
  { intros v. unfold startValidated.
    set (v1 := if WorkoutMode_eqb (workoutMode (state v)) headToHead
               then upd buildHeadToHeadSequence v
               else upd buildPhaseSequence v).
    assert (Hv1 : breathing v1 = breathing v)
      by (subst v1; destruct (WorkoutMode_eqb (workoutMode (state v)) headToHead);
          reflexivity).
    clearbody v1.
    destruct (len (phaseSequence (state v1)) =? 0); [exact Hv1|].
    cbn [breathing emit upd set_log set_state setInterval set_nextTimerId
         set_timers].
    rewrite breathing_loadCurrentPhase. exact Hv1. }
  unfold startTimer.
  destruct (WorkoutMode_eqb (workoutMode (state w)) stopwatch); [reflexivity|].
  cbv zeta.
  repeat match goal with
         | |- context [if ?c then _ else _] => destruct c
         end;
    rewrite ?Hval; try apply Hload; reflexivity.
Qed.

Lemma breathing_completionPrompt w :
  breathing (completionPrompt w) = breathing w.
Proof.
  unfold completionPrompt. cbv zeta.
  match goal with
  | |- context [if ?c then _ else _] => destruct c
  end;
    rewrite ?breathing_setTimeout, breathing_resetTimer, breathing_upd,
      breathing_emit; reflexivity.
Qed.

Section Alive.
Variable seq : list BreathingPhase.
Hypothesis seq_nonempty : seq <> [].

Lemma alive_updateBreathingTimer w :
  breathingAlive seq w -> breathingAlive seq (updateBreathingTimer w).
Proof.
  intros (Hrun & Hseq). unfold breathingAlive, updateBreathingTimer.
  repeat match goal with
         | |- context [if ?c then _ else _] => destruct c
         end; cbn; auto.
Qed.

Lemma alive_loadBreathingPhase w :
  breathingAlive seq w -> breathingAlive seq (loadBreathingPhase w).
Proof.
  intros (Hrun & Hseq). unfold loadBreathingPhase.
  set (w1 := if (currentBreathingPhaseIndex (breathing w) <? 0)
                || (len (breathingPhaseSequence (breathing w))
                    <=? currentBreathingPhaseIndex (breathing w))
             then updB (set_currentBreathingPhaseIndex 0) w else w).
  assert (H1 : breathingAlive seq w1
               /\ 0 <= currentBreathingPhaseIndex (breathing w1) < len seq).
  { subst w1. rewrite Hseq.
    assert (Hlen : 0 < len seq).
    { unfold len. destruct seq; [congruence|]. cbn [List.length]. lia. }
    destruct (Z.ltb_spec (currentBreathingPhaseIndex (breathing w)) 0);
      destruct (Z.leb_spec (len seq) (currentBreathingPhaseIndex (breathing w)));
      cbn; unfold breathingAlive; cbn; repeat split; auto; lia. }
  destruct H1 as ((Hrun1 & Hseq1) & Hrange). clearbody w1. cbv zeta.
  rewrite Hseq1.
  destruct (index_Some seq _ Hrange) as (p & Hp & _). rewrite Hp.
  unfold breathingAlive. cbn. auto.
Qed.

Lemma alive_runCallback cb w :
  breathingAlive seq w -> breathingAlive seq (runCallback cb w).
Proof.
  intros H. destruct cb; cbn [runCallback].
  - unfold breathingAlive. now rewrite breathing_updateTimer.
  - unfold breathingAlive. now rewrite breathing_advancePhase.
  - unfold breathingAlive. now rewrite breathing_completionPrompt.
  - unfold breathingAlive. now rewrite breathing_startTimer.
  - now apply alive_updateBreathingTimer.
  - unfold advanceBreathingPhase. destruct H as (Hrun & Hseq).
    rewrite Hrun. cbn [negb]. cbv zeta.
    apply alive_loadBreathingPhase. split; assumption.
Qed.

Lemma alive_fire ids : forall w,
  breathingAlive seq w -> breathingAlive seq (fire ids w).
Proof.
  induction ids as [|i ids IH]; intros w H; [exact H|].
  cbn [fire]. destruct (findTimer i w); [|now apply IH].
  apply IH. now apply alive_runCallback.
Qed.

Lemma alive_elapse ms : forall w,
  breathingAlive seq w -> breathingAlive seq (elapse ms w).
Proof.
  induction ms as [|ms IH]; intros w H; [exact H|].
  cbn [elapse]. apply IH. unfold step_ms. now apply alive_fire.
Qed.
End Alive.


(* ================================================================== *)
(** * The index follows the phases loaded                               *)
(* ================================================================== *)



Section Cycling.
Variable seq : list BreathingPhase.
Variable id : Z.
Variables loads0 beeps0 : nat.
Hypothesis seq_nonempty : seq <> [].








End Cycling.
(* ================================================================== *)
(** * The 4/0/4/0 breathing run                                         *)
(* ================================================================== *)











(** Three phases of 1 s each, by running the event loop: the index moves
    0, 1, 0, 1, and each phase ends with one beep before the next is
    loaded. *)
Example breathing_short_run :
  let w := startBreathingTimer (page normal shortForm) in
  map (fun ms => currentBreathingPhaseIndex (breathing (after ms w)))
      [1000; 2000; 3500; 5000] = [0; 1; 0; 1]
  /\ map isPhaseComplete (log (after 3200 w))
     = [false; false; false; true; false; false; true; false; false].
Proof. vm_compute. repeat split. Qed.

(** * Reset during the settle delay, without a new start *)

Lemma set_isTransitioning_same (s : WorkoutState) :
  isTransitioning s = false -> set_isTransitioning false s = s.
Proof. intros H. destruct s. cbn in *. subst. reflexivity. Qed.

(** A stopped machine with at most the stale advance pending stays as it
    is for ever: the state does not change and nothing is emitted. *)
Lemma stale_advance_alone (ms : nat) :
  forall w,
    isRunning (state w) = false -> isTransitioning (state w) = false ->
    (timers w = []
     \/ exists id d n, timers w = [mkTimer id d None (cbAdvancePhase n)]) ->
    state (elapse ms w) = state w /\ log (elapse ms w) = log w.
Proof.
  induction ms as [|ms IH]; intros w Hrun Htrans Htimers; [auto|].
  cbn [elapse].
  assert (Hstep : state (step_ms w) = state w /\ log (step_ms w) = log w
                  /\ (timers (step_ms w) = []
                      \/ exists id d n,
                           timers (step_ms w)
                           = [mkTimer id d None (cbAdvancePhase n)])).
  { destruct Htimers as [Hnil|(id & d & n & Hone)].
    - rewrite step_idle by (rewrite Hnil; intros x []).
      cbn. auto.
    - destruct (Z.leb_spec d (clock w + 1)) as [Hdue|Hlater].
      + unfold step_ms. cbv zeta. cbn [timers set_clock clock].
        rewrite Hone. cbn [filter due].
        assert (E : (d <=? clock w + 1) = true) by (now apply Z.leb_le).
        rewrite E. cbn [map timerId fire].
        unfold findTimer. cbn [timers set_clock]. rewrite Hone.
        cbn [find timerId]. rewrite Z.eqb_refl.
        unfold rearm. cbn [timers set_clock]. rewrite Hone.
        cbn [flat_map timerId every app callback runCallback].
        rewrite Z.eqb_refl.
        rewrite advancePhase_not_running by exact Hrun.
        cbn [state upd set_state set_timers set_clock log timers].
        rewrite set_isTransitioning_same by exact Htrans. auto.
      + rewrite step_idle.
        * cbn. split; [reflexivity|]. split; [reflexivity|].
          right. exists id, d, n. exact Hone.
        * rewrite Hone. intros x [<-|[]]. cbn. lia. }
  destruct Hstep as (Hs & Hl & Ht).
  destruct (IH (step_ms w)) as (Hs' & Hl'); try assumption.
  - now rewrite Hs.
  - now rewrite Hs.
  - rewrite Hs', Hl'. auto.
Qed.

(** A reset during the settle delay, with the advance as the only timer
    left, therefore leaves the machine in [ready] for good. *)
Lemma reset_in_settle_is_final (w : World) (ms : nat) :
  (exists id d n, timers (resetTimer w) = [mkTimer id d None (cbAdvancePhase n)]) ->
  state (elapse ms (resetTimer w)) = state (resetTimer w)
  /\ currentPhase (state (elapse ms (resetTimer w))) = ready
  /\ currentPhaseIndex (state (elapse ms (resetTimer w))) = 0
  /\ log (elapse ms (resetTimer w)) = log w.
Proof.
  intros Htimers.
  destruct (resetTimer_ready w) as (Hrun & Htrans & Hready & Hidx & Hlog).
  destruct (stale_advance_alone ms (resetTimer w) Hrun Htrans (or_intror Htimers))
    as (Hs & Hl).
  rewrite Hs, Hl. auto.
Qed.


(* ================================================================== *)
(** * Numbers written out and read back                                 *)
(* ================================================================== *)

Lemma digit_cases (d : Z) :
  0 <= d < 10 ->
  d = 0 \/ d = 1 \/ d = 2 \/ d = 3 \/ d = 4 \/ d = 5 \/ d = 6 \/ d = 7
  \/ d = 8 \/ d = 9.
Proof. lia. Qed.

Ltac each_digit d H :=
  destruct (digit_cases d H) as [->|[->|[->|[->|[->|[->|[->|[->|[->| ->]]]]]]]]].

Lemma digitValue_digitChar (d : Z) :
  0 <= d < 10 -> digitValue (digitChar d) = Some d.
Proof. intros H. each_digit d H; reflexivity. Qed.

Lemma isWhiteSpace_digitChar (d : Z) :
  0 <= d < 10 -> isWhiteSpace (digitChar d) = false.
Proof. intros H. each_digit d H; reflexivity. Qed.

Lemma digitsOf_S (fuel : nat) (n : Z) (acc : string) :
  digitsOf (S fuel) n acc
  = if n <? 10 then String (digitChar (n mod 10)) acc
    else digitsOf fuel (n / 10) (String (digitChar (n mod 10)) acc).
Proof. reflexivity. Qed.

Lemma readDigits_digit (d : Z) (s : string) (acc : option Z) :
  0 <= d < 10 ->
  readDigits 10 (String (digitChar d) s) acc
  = readDigits 10 s (Some (10 * accValue acc + d)).
Proof.
  intros H. cbn [readDigits]. rewrite digitValue_digitChar by exact H.
  assert (E : (d <? 10) = true) by (apply Z.ltb_lt; lia).
  rewrite E. destruct acc; reflexivity.
Qed.

(** Reading the digits of [n] shifts the value read so far and adds [n]. *)
Lemma readDigits_digitsOf (fuel : nat) :
  forall n rest acc,
    0 <= n < 2 ^ Z.of_nat (S fuel) ->
    exists k,
      0 <= k
      /\ readDigits 10 (digitsOf (S fuel) n rest) acc
         = readDigits 10 rest (Some (accValue acc * 10 ^ k + n)).
Proof.
  induction fuel as [|fuel IH]; intros n rest acc Hn.
  - change (2 ^ Z.of_nat 1) with 2 in Hn.
    exists 1. split; [lia|]. rewrite digitsOf_S.
    assert (E : (n <? 10) = true) by (apply Z.ltb_lt; lia).
    rewrite E, Z.mod_small by lia.
    rewrite readDigits_digit by lia. do 2 f_equal. lia.
  - rewrite (digitsOf_S (S fuel)).
    destruct (Z.ltb_spec n 10) as [Hlt|Hge].
    + exists 1. split; [lia|]. rewrite Z.mod_small by lia.
      rewrite readDigits_digit by lia. do 2 f_equal. lia.
    + assert (Hdiv : 0 <= n / 10 < 2 ^ Z.of_nat (S fuel)).
      { split; [apply Z.div_pos; lia|].
        apply Z.div_lt_upper_bound; [lia|].
        rewrite (Nat2Z.inj_succ (S fuel)), Z.pow_succ_r in Hn by lia.
        assert (0 < 2 ^ Z.of_nat (S fuel)) by (apply Z.pow_pos_nonneg; lia).
        lia. }
      destruct (IH (n / 10) (String (digitChar (n mod 10)) rest) acc Hdiv)
        as (k & Hk & Hread).
      exists (k + 1). split; [lia|].
      rewrite Hread.
      rewrite readDigits_digit by (apply Z.mod_pos_bound; lia).
      cbn [accValue]. do 2 f_equal.
      rewrite Z.pow_add_r, Z.pow_1_r by lia.
      pose proof (Z.div_mod n 10 ltac:(lia)). lia.
Qed.

Lemma digitsOf_digitString (fuel : nat) :
  forall n rest,
    0 <= n -> rest = EmptyString \/ digitString rest ->
    digitString (digitsOf (S fuel) n rest).
Proof.
  induction fuel as [|fuel IH]; intros n rest Hn Hrest.
  - rewrite digitsOf_S. cbn [digitsOf].
    assert (Hd : 0 <= n mod 10 < 10) by (apply Z.mod_pos_bound; lia).
    destruct Hrest as [->|Hrest]; destruct (n <? 10);
      try (now apply digitString_one); now apply digitString_more.
  - rewrite (digitsOf_S (S fuel)).
    assert (Hd : 0 <= n mod 10 < 10) by (apply Z.mod_pos_bound; lia).
    assert (Hnext : digitString (String (digitChar (n mod 10)) rest)).
    { destruct Hrest as [->|Hrest];
        [now apply digitString_one|now apply digitString_more]. }
    destruct (n <? 10); [exact Hnext|].
    apply IH; [apply Z.div_pos; lia|now right].
Qed.

(** [parseInt] on a string of digits: no white space, no sign and no
    hexadecimal prefix to take off. *)
Lemma parseInt_digitString (s : string) :
  digitString s ->
  parseInt s = readDigits 10 s None /\ parseInt (String "-" s)
  = match readDigits 10 s None with
    | None => None
    | Some m => Some (- 1 * m)
    end.
Proof.
  intros Hs.
  assert (Hresult : forall (r : option Z),
            match r with None => None | Some m => Some (1 * m) end = r).
  { intros [m|]; [|reflexivity]. f_equal. lia. }
  destruct Hs as [d Hd|d s Hd Hs].
  - each_digit d Hd; split; reflexivity.
  - destruct Hs as [d' Hd'|d' s' Hd' Hs'].
    + each_digit d Hd; each_digit d' Hd'; split; reflexivity.
    + each_digit d Hd; each_digit d' Hd';
        (split;
         [unfold parseInt; cbn [trimStart isWhiteSpace nat_of_ascii digitChar];
          cbn; apply Hresult
         |unfold parseInt; cbn; reflexivity]).
Qed.

Lemma fuel_enough (n : Z) : 0 <= n -> 0 <= n < 2 ^ Z.of_nat (S (Z.to_nat (Z.log2 n))).
Proof.
  intros Hn. split; [exact Hn|].
  rewrite Nat2Z.inj_succ, Z2Nat.id by apply Z.log2_nonneg.
  destruct (Z.eq_dec n 0) as [->|Hne]; [reflexivity|].
  apply Z.log2_spec. lia.
Qed.

(** Writing an integer into a field and reading the field gives the
    integer back. *)
Lemma parseInt_numberToString (n : Z) : parseInt (numberToString n) = Some n.
Proof.
  unfold numberToString. destruct (Z.ltb_spec n 0) as [Hneg|Hpos].
  - set (m := - n). assert (Hm : 0 <= m) by (subst m; lia).
    pose proof (digitsOf_digitString (Z.to_nat (Z.log2 m)) m EmptyString Hm
                  (or_introl eq_refl)) as Hds.
    destruct (parseInt_digitString _ Hds) as (_ & Hparse). rewrite Hparse.
    destruct (readDigits_digitsOf (Z.to_nat (Z.log2 m)) m EmptyString None
                (fuel_enough m Hm)) as (k & _ & Hread).
    rewrite Hread. cbn [readDigits accValue]. f_equal. subst m. lia.
  - pose proof (digitsOf_digitString (Z.to_nat (Z.log2 n)) n EmptyString Hpos
                  (or_introl eq_refl)) as Hds.
    destruct (parseInt_digitString _ Hds) as (Hparse & _). rewrite Hparse.
    destruct (readDigits_digitsOf (Z.to_nat (Z.log2 n)) n EmptyString None
                (fuel_enough n Hpos)) as (k & _ & Hread).
    rewrite Hread. cbn [readDigits accValue]. f_equal; lia.
Qed.

Lemma orDefault_parse (n d : Z) :
  orDefault (parseInt (numberToString (orDefault (Some n) d))) d
  = orDefault (Some n) d.
Proof.
  rewrite parseInt_numberToString.
  destruct n; cbn [orDefault]; try reflexivity; destruct d; reflexivity.
Qed.

(* ================================================================== *)
(** * The workout form                                                  *)
(* ================================================================== *)

Lemma orDefault_idem (v : option Z) (d : Z) :
  orDefault (Some (orDefault v d)) d = orDefault v d.
Proof. destruct v as [[| |]|]; destruct d; reflexivity. Qed.

Lemma orDefault_round_trip (v : option Z) (d : Z) :
  orDefault (parseInt (numberToString (orDefault (Some (orDefault v d)) d))) d
  = orDefault v d.
Proof. now rewrite orDefault_parse, orDefault_idem. Qed.

Lemma orUndefined_round_trip (v : option Z) (d : Z) :
  orDefault (parseInt (numberToString (orUndefined (Some (orDefault v d)) d))) d
  = orDefault v d.
Proof.
  cbn [orUndefined]. rewrite parseInt_numberToString. apply orDefault_idem.
Qed.

Lemma zero_round_trip :
  orDefault (parseInt (numberToString (orDefault (Some 0) 0))) 0 = 0.
Proof. reflexivity. Qed.

(** X1.  The workout counterpart of the breathing form: the configuration
    read from the form never holds a zero setup or work duration, a zero
    number of rounds, or a zero number of sets (of people, in head-to-head
    mode), because an entered 0 is replaced by the default like an
    unreadable entry.  So the validation of [startTimer] fails exactly
    when one of the numbers it checks was entered negative, and the setup
    phase is left out only for a negative entry. *)
Theorem workout_form_never_zero (w : World) :
  let mode := workoutMode (state w) in
  let c := config (state (loadConfigFromForm w)) in
  config.setupDuration c <> 0
  /\ config.workDuration c <> 0
  /\ config.numberOfRounds c <> 0
  /\ (if WorkoutMode_eqb mode headToHead
      then config.numberOfPeople c <> 0
      else config.setsPerRound c <> 0)
  /\ (accepted mode c <->
      0 <= config.workDuration c /\ 0 <= config.numberOfRounds c
      /\ if WorkoutMode_eqb mode headToHead
         then 0 <= config.numberOfPeople c
         else 0 <= config.setsPerRound c).
Proof.
  intros mode c. subst mode c. unfold loadConfigFromForm.
  assert (N10 : (10 <> 0)) by lia. assert (N30 : (30 <> 0)) by lia.
  assert (N3 : (3 <> 0)) by lia. assert (N1 : (1 <> 0)) by lia.
  destruct (workoutMode (state w)) eqn:Emode;
    cbn [WorkoutMode_eqb accepted upd state set_state config set_config
         config.setupDuration config.workDuration config.numberOfRounds
         config.numberOfPeople config.setsPerRound workoutMode];
    rewrite ?Emode; cbn [accepted];
    unfold acceptedInterval, acceptedHeadToHead;
    cbn [config.setupDuration config.workDuration config.numberOfRounds
         config.numberOfPeople config.setsPerRound];
    match goal with
    | |- ?A <> 0 /\ ?B <> 0 /\ ?C <> 0 /\ ?D <> 0 /\ _ =>
        assert (HA : A <> 0) by (now apply orDefault_nonzero);
        assert (HB : B <> 0) by (now apply orDefault_nonzero);
        assert (HC : C <> 0) by (now apply orDefault_nonzero);
        assert (HD : D <> 0) by (now apply orDefault_nonzero)
    end;
    repeat (split; [assumption|]); lia.
Qed.

Lemma workout_form_never_zero_witness :
  let c := config (state (loadConfigFromForm (page normal negativeWorkForm))) in
  config.workDuration c <> 0 /\ ~ accepted normal c.
Proof.
  destruct (workout_form_never_zero (page normal negativeWorkForm))
    as (_ & Hwork & _ & _ & Hacc).
  split; [exact Hwork|].
  intros H. apply Hacc in H. vm_compute in H. destruct H as (H & _).
  now apply H.
Defined.

(* ================================================================== *)
(** * A preset, saved and loaded                                        *)
(* ================================================================== *)

Lemma loadConfigFromForm_frame (w : World) :
  workoutMode (state (loadConfigFromForm w)) = workoutMode (state w)
  /\ log (loadConfigFromForm w) = log w
  /\ dom (loadConfigFromForm w) = dom w.
Proof.
  unfold loadConfigFromForm.
  destruct (WorkoutMode_eqb (workoutMode (state w)) headToHead); cbn; auto.
Qed.

(** The configuration that the form loader reads back from a form that
    [populateFormFromConfig] has filled with a configuration the loader
    had produced in the same mode. *)
Lemma populate_then_load (w0 w : World) :
  workoutMode (state w) = workoutMode (state w0) ->
  config (state
    (loadConfigFromForm
       (set_dom
          (populateFormFromConfig
             (presetOf (config (state (loadConfigFromForm w0)))
                       (workoutMode (state w0)))
             (workoutMode (state w0)) (dom w)) w)))
  = config (state (loadConfigFromForm w0)).
Proof.
  intros Hmode. unfold loadConfigFromForm.
  cbn [state set_dom dom]. rewrite Hmode.
  unfold populateFormFromConfig, presetOf.
  destruct (WorkoutMode_eqb (workoutMode (state w0)) headToHead);
    cbn [upd state set_state config set_config
         stored.setupDuration stored.warmupDuration stored.workDuration
         stored.restDuration stored.longRestDuration stored.setsPerRound
         stored.numberOfRounds stored.numberOfPeople
         elements.setupDuration elements.warmupDuration elements.workDuration
         elements.restDuration elements.longRestDuration elements.setsPerRound
         elements.numberOfRounds elements.numberOfPeople
         elements.workDurationHeadToHead elements.setupDurationHeadToHead
         elements.numberOfRoundsHeadToHead
         config.setupDuration config.warmupDuration config.workDuration
         config.restDuration config.longRestDuration config.setsPerRound
         config.numberOfRounds config.numberOfPeople];
    rewrite ?orDefault_round_trip, ?orUndefined_round_trip; reflexivity.
Qed.

Lemma getPreset_setPreset (name : string) (v : StoredConfig) (presets : Presets) :
  getPreset name (setPreset name v presets) = Some v.
Proof.
  induction presets as [|[k v'] tl IH]; cbn [setPreset getPreset].
  - now rewrite String.eqb_refl.
  - destruct (String.eqb k name) eqn:E; cbn [getPreset]; rewrite E; auto.
Qed.

Lemma getPreset_setPreset_other (name other : string) (v : StoredConfig)
      (presets : Presets) :
  other <> name ->
  getPreset other (setPreset name v presets) = getPreset other presets.
Proof.
  intros Hne.
  assert (Hno : String.eqb name other = false)
    by (apply String.eqb_neq; congruence).
  induction presets as [|[k v'] tl IH]; cbn [setPreset getPreset].
  - now rewrite Hno.
  - destruct (String.eqb k name) eqn:E; cbn [getPreset].
    + apply String.eqb_eq in E. subst k. now rewrite Hno.
    + rewrite IH. reflexivity.
Qed.

(** X2.  Saving and loading a preset is a round trip.  Let [c] be the
    configuration that the form of a page holds in its mode, made of safe
    integers, and save it under a name that is neither empty nor
    [__proto__] (the key that an assignment does not store).  [savePreset]
    then puts the numbers of [c] and the mode under that name, leaves the
    presets under other names as they are, and says so in one alert.
    Loading that name on a machine that is not running switches to the
    preset's mode and leaves exactly [c] as the configuration, and raises
    no dialog of its own.  Without a name nothing is stored.  (The
    integers of the model print as their digits whatever their size; the
    guard on [c] keeps to the numbers that JavaScript prints so.) *)
Theorem preset_round_trip (name : string) (presets : Presets) (w0 w : World) :
  let mode := workoutMode (state w0) in
  let c := config (state (loadConfigFromForm w0)) in
  let saved := savePreset name presets w0 in
  name <> EmptyString -> name <> "__proto__"%string ->
  safeConfig c ->
  isRunning (state w) = false ->
  let w' := loadPreset (getPreset name (fst saved)) w in
  getPreset name (fst saved) = Some (presetOf c mode)
  /\ (forall other, other <> name ->
        getPreset other (fst saved) = getPreset other presets)
  /\ log (snd saved)
     = log w0 ++ [alert ("Preset " ++ quote ++ name ++ quote ++ " saved!")]
  /\ config (state (snd saved)) = c
  /\ workoutMode (state w') = mode /\ config (state w') = c /\ log w' = log w
  /\ fst (savePreset EmptyString presets w0) = presets.
Proof.
  intros mode c saved Hname _ _ Hrun w'.
  assert (Hno : String.eqb name EmptyString = false)
    by (now apply String.eqb_neq).
  destruct (loadConfigFromForm_frame w0) as (Hm0 & Hl0 & _).
  assert (Hsaved : saved
    = (setPreset name (presetOf c mode) presets,
       emit (alert ("Preset " ++ quote ++ name ++ quote ++ " saved!"))
         (loadConfigFromForm w0))).
  { subst saved. unfold savePreset. rewrite Hno, Hm0. reflexivity. }
  assert (Hget : getPreset name (fst saved) = Some (presetOf c mode)).
  { rewrite Hsaved. apply getPreset_setPreset. }
  split; [exact Hget|]. split; [|split; [|split]].
  - intros other Hother. rewrite Hsaved.
    now apply getPreset_setPreset_other.
  - rewrite Hsaved, <- Hl0. cbn [snd].
    generalize (loadConfigFromForm w0). intros [s b d u ts nid t l].
    reflexivity.
  - rewrite Hsaved. cbn [snd]. subst c.
    generalize (loadConfigFromForm w0). intros [s b d u ts nid t l].
    reflexivity.
  - subst w'. rewrite Hget. unfold loadPreset. rewrite Hrun.
    cbn [stored.mode presetOf].
    set (w1 := upd (set_workoutMode mode) w).
    assert (Hmode1 : workoutMode (state w1) = workoutMode (state w0)) by reflexivity.
    assert (Hdom1 : dom w1 = dom w) by reflexivity.
    assert (Hlog1 : log w1 = log w) by reflexivity.
    clearbody w1.
    set (w2 := set_dom (populateFormFromConfig (presetOf c mode) mode (dom w1)) w1).
    destruct (loadConfigFromForm_frame w2) as (Hm & Hl & _).
    split; [rewrite Hm; exact Hmode1|]. split; [|split; [rewrite Hl; exact Hlog1|]].
    + subst w2 c mode. apply populate_then_load. exact Hmode1.
    + unfold savePreset. reflexivity.
Qed.

Lemma preset_round_trip_witness :
  let c := config (state (loadConfigFromForm (page headToHead exampleForm))) in
  let saved := savePreset "duel" [] (page headToHead exampleForm) in
  c = config.mk 5 0 20 0 0 0 2 3
  /\ fst saved = [("duel"%string, presetOf c headToHead)]
  /\ config (state (loadPreset (getPreset "duel" (fst saved))
                      (page normal shortForm))) = c.
Proof.
  cbv zeta. split; [reflexivity|]. split; [reflexivity|].
  assert (Hsafe : safeConfig
            (config (state (loadConfigFromForm (page headToHead exampleForm))))).
  { unfold safeConfig, safeInteger, MAX_SAFE_INTEGER. vm_compute.
    repeat split; discriminate. }
  destruct (preset_round_trip "duel" [] (page headToHead exampleForm)
              (page normal shortForm))
    as (_ & _ & _ & _ & _ & Hc & _);
    [discriminate|discriminate|exact Hsafe|reflexivity|exact Hc].
Defined.

(** A preset does not load into a running machine unless the user lets
    it reset the timer. *)
Lemma loadPreset_declined (preset : option StoredConfig) (w : World) :
  isRunning (state w) = true -> userConfirms w = false ->
  state (loadPreset preset w) = state w /\ dom (loadPreset preset w) = dom w
  /\ timers (loadPreset preset w) = timers w.
Proof.
  intros Hrun Hno. unfold loadPreset. destruct preset as [p|]; [|now cbn].
  rewrite Hrun. cbn [userConfirms emit set_log]. rewrite Hno. now cbn.
Qed.

(* ================================================================== *)
(** * Breathing presets                                                 *)
(* ================================================================== *)

Lemma loadBreathingPreset_idle (p : BreathingPreset) (w : World) :
  breathingIsRunning (breathing w) = false ->
  loadBreathingPreset (Some p) w
  = loadBreathingConfigFromForm
      (set_dom (populateBreathingFormFromPreset p (dom w)) w).
Proof. intros Hrun. unfold loadBreathingPreset. now rewrite Hrun. Qed.

(** The breathing configuration read from a form that
    [populateBreathingFormFromPreset] has filled. *)
Lemma populate_then_load_breathing (p : BreathingPreset) (w : World) :
  breathingConfig
    (breathing
       (loadBreathingConfigFromForm
          (set_dom (populateBreathingFormFromPreset p (dom w)) w)))
  = breathingConfig.mk
      (orDefault (bpreset.breathIn p) 4) (orDefault (bpreset.inhaledHold p) 0)
      (orDefault (bpreset.breathOut p) 4) (orDefault (bpreset.exhaledHold p) 0).
Proof.
  unfold loadBreathingConfigFromForm, populateBreathingFormFromPreset.
  cbn [updB breathing set_breathing set_dom dom breathingConfig
       set_breathingConfig elements.breathInTime elements.inhaledHoldTime
       elements.breathOutTime elements.exhaledHoldTime].
  rewrite !parseInt_numberToString.
  f_equal; apply orDefault_idem.
Qed.

Lemma loadBreathingConfigFromForm_again (w : World) :
  breathingConfig (breathing (loadBreathingConfigFromForm (loadBreathingConfigFromForm w)))
  = breathingConfig (breathing (loadBreathingConfigFromForm w)).
Proof. reflexivity. Qed.

(** X3.  Loading a breathing preset is a round trip on its four numbers.
    For a preset of safe integers whose breath-in and breath-out times
    are not zero, loaded on an idle breathing timer, the breathing
    configuration afterwards is the preset's own four numbers; starting
    the timer then reads the same numbers again from the form.  (A zero
    or missing breath-in or breath-out would come back as 4.) *)
Theorem breathing_preset_round_trip (p : BreathingPreset) (w : World) (i h o x : Z) :
  bpreset.breathIn p = Some i -> bpreset.inhaledHold p = Some h ->
  bpreset.breathOut p = Some o -> bpreset.exhaledHold p = Some x ->
  i <> 0 -> o <> 0 ->
  safeInteger i -> safeInteger h -> safeInteger o -> safeInteger x ->
  breathingIsRunning (breathing w) = false ->
  let w' := loadBreathingPreset (Some p) w in
  breathingConfig (breathing w') = breathingConfig.mk i h o x
  /\ breathingConfig (breathing (loadBreathingConfigFromForm w'))
     = breathingConfig.mk i h o x
  /\ log w' = log w.
Proof.
  intros Hi Hh Ho Hx Hi0 Ho0 _ _ _ _ Hrun w'. subst w'.
  rewrite loadBreathingPreset_idle by exact Hrun.
  assert (Hc : breathingConfig.mk
                 (orDefault (bpreset.breathIn p) 4)
                 (orDefault (bpreset.inhaledHold p) 0)
                 (orDefault (bpreset.breathOut p) 4)
                 (orDefault (bpreset.exhaledHold p) 0)
               = breathingConfig.mk i h o x).
  { rewrite Hi, Hh, Ho, Hx.
    destruct i; [contradiction| |]; destruct o; try contradiction;
      destruct h, x; reflexivity. }
  rewrite loadBreathingConfigFromForm_again, populate_then_load_breathing, Hc.
  repeat split.
Qed.

Lemma breathing_preset_round_trip_witness :
  breathingConfig
    (breathing
       (loadBreathingPreset
          (Some (builtIn Sleep "4-7-8 Breathing" 4 7 8 0
                   "Sleep induction" "Falling asleep"))
          (page normal exampleForm)))
  = breathingConfig.mk 4 7 8 0.
Proof.
  apply (breathing_preset_round_trip
           (builtIn Sleep "4-7-8 Breathing" 4 7 8 0
              "Sleep induction" "Falling asleep")
           (page normal exampleForm) 4 7 8 0);
    try reflexivity; try discriminate;
    unfold safeInteger, MAX_SAFE_INTEGER; cbn; lia.
Defined.

(** The thirteen built-in presets: the numbers of each. *)
Lemma builtIn_numbers (p : BreathingPreset) :
  In p (getBuiltInBreathingPresets None) ->
  exists i h o x,
    bpreset.breathIn p = Some i /\ bpreset.inhaledHold p = Some h
    /\ bpreset.breathOut p = Some o /\ bpreset.exhaledHold p = Some x
    /\ 3 <= i <= 6 /\ 0 <= h <= 7 /\ 3 <= o <= 10 /\ 0 <= x <= 5.
Proof.
  cbn [getBuiltInBreathingPresets map List.concat BUILT_IN_BREATHING_PRESETS app In].
  intros H.
  repeat (destruct H as [<-|H];
          [do 4 eexists; repeat (split; [reflexivity|]); lia|]).
  destruct H.
Qed.

(** X4.  Every built-in breathing preset is one the timer accepts.  For
    each of the presets that [getBuiltInBreathingPresets] returns without
    a category filter, loaded on an idle breathing timer and started, the
    breathing configuration is the preset's four numbers, the timer runs,
    and the sequence built has breath-in as its first phase and a phase
    for each of the four numbers that is not zero. *)
Theorem builtin_presets_start (p : BreathingPreset) (w : World) :
  In p (getBuiltInBreathingPresets None) ->
  breathingIsRunning (breathing w) = false ->
  let w' := startBreathingTimer (loadBreathingPreset (Some p) w) in
  let c := breathingConfig (breathing w') in
  Some (breathingConfig.breathIn c) = bpreset.breathIn p
  /\ Some (breathingConfig.inhaledHold c) = bpreset.inhaledHold p
  /\ Some (breathingConfig.breathOut c) = bpreset.breathOut p
  /\ Some (breathingConfig.exhaledHold c) = bpreset.exhaledHold p
  /\ breathingIsRunning (breathing w') = true
  /\ breathingPhaseSequence (breathing w') = breathingSequence c
  /\ currentBreathingPhase (breathing w') = inBreathingPhase breathIn
  /\ breathingTimeRemaining (breathing w') = inject_Z (breathingConfig.breathIn c).
Proof.
  intros Hin Hrun w' c.
  destruct (builtIn_numbers p Hin)
    as (i & h & o & x & Hi & Hh & Ho & Hx & Ri & Rh & Ro & Rx).
  set (w1 := loadBreathingPreset (Some p) w) in *.
  assert (Hc1 : breathingConfig (breathing (loadBreathingConfigFromForm w1))
                = breathingConfig.mk i h o x).
  { subst w1. rewrite loadBreathingPreset_idle by exact Hrun.
    rewrite loadBreathingConfigFromForm_again, populate_then_load_breathing.
    rewrite Hi, Hh, Ho, Hx.
    destruct i; try lia; destruct o; try lia; destruct h, x; reflexivity. }
  destruct (startBreathingTimer_ok w1) as (p0 & tl & Hseq & Hstart).
  { rewrite Hc1. cbn. lia. }
  rewrite Hc1 in Hseq.
  assert (Hp0 : p0 = bphase.mk breathIn i).
  { unfold breathingSequence, push in Hseq. cbv zeta in Hseq.
    cbn [breathingConfig.breathIn] in Hseq.
    assert (E : (0 <? i) = true) by (apply Z.ltb_lt; lia).
    rewrite E in Hseq. cbn [app] in Hseq.
    destruct (0 <? breathingConfig.inhaledHold (breathingConfig.mk i h o x)),
      (0 <? breathingConfig.breathOut (breathingConfig.mk i h o x)),
      (0 <? breathingConfig.exhaledHold (breathingConfig.mk i h o x));
      cbn in Hseq; congruence. }
  assert (Hcfg : c = breathingConfig.mk i h o x).
  { subst c w'. rewrite Hstart. cbn. exact Hc1. }
  assert (Hfields :
    breathingIsRunning (breathing w') = true
    /\ breathingPhaseSequence (breathing w')
       = breathingSequence (breathingConfig (breathing (loadBreathingConfigFromForm w1)))
    /\ currentBreathingPhase (breathing w') = inBreathingPhase (bphase.type p0)
    /\ breathingTimeRemaining (breathing w') = inject_Z (bphase.duration p0)).
  { subst w'. rewrite Hstart. cbn. auto. }
  destruct Hfields as (F1 & F2 & F3 & F4).
  rewrite Hcfg. cbn [breathingConfig.breathIn breathingConfig.inhaledHold
                     breathingConfig.breathOut breathingConfig.exhaledHold].
  rewrite Hi, Hh, Ho, Hx, F2, F3, F4, Hc1, Hp0.
  repeat split; assumption.
Qed.

Lemma builtin_presets_start_witness :
  let p := builtIn Calming "Box Breathing" 4 4 4 4
             "Stress reduction, emotional control" "Anxiety, grounding" in
  let w' := startBreathingTimer
              (loadBreathingPreset (Some p) (page normal zeroBreathForm)) in
  breathingIsRunning (breathing w') = true
  /\ len (breathingPhaseSequence (breathing w')) = 4.
Proof.
  intros p w'.
  destruct (builtin_presets_start p (page normal zeroBreathForm))
    as (_ & _ & _ & _ & Hrun & _); [cbn; auto|reflexivity|].
  split; [exact Hrun|reflexivity].
Defined.

(* ================================================================== *)
(** * Person colours                                                    *)
(* ================================================================== *)

Lemma getPersonColor_palette (n : Z) :
  1 <= n -> getPersonColor n = index PERSON_COLORS ((n - 1) mod 10).
Proof.
  intros Hn. unfold getPersonColor.
  assert (E : (n <? 1) = false) by (apply Z.ltb_ge; lia).
  rewrite E. change (len PERSON_COLORS) with 10.
  now rewrite Z.rem_mod_nonneg by lia.
Qed.

(** X5.  [getPersonColor] always answers with a colour of the palette
    (never [undefined]), also for a person number below 1, which gets the
    first colour; from person 1 on the colours repeat with period 10, so
    person 11 has the colour of person 1; and persons 1 to 10 have ten
    different colours. *)
Theorem getPersonColor_cycles :
  (forall n, exists c, getPersonColor n = Some c /\ In c PERSON_COLORS)
  /\ (forall n, n < 1 -> getPersonColor n = getPersonColor 1)
  /\ (forall n, 1 <= n -> getPersonColor (n + 10) = getPersonColor n)
  /\ (forall a b, 1 <= a -> a < b -> b <= 10 ->
        getPersonColor a <> getPersonColor b).
Proof.
  split; [|split; [|split]].
  - intros n. destruct (Z.ltb_spec n 1) as [Hlt|Hge].
    + unfold getPersonColor.
      assert (E : (n <? 1) = true) by (apply Z.ltb_lt; lia).
      rewrite E. eexists. split; [reflexivity|]. simpl; auto.
    + rewrite getPersonColor_palette by lia.
      assert (Hr : 0 <= (n - 1) mod 10 < 10) by (apply Z.mod_pos_bound; lia).
      each_digit ((n - 1) mod 10) Hr; eexists; (split; [reflexivity|]);
        simpl; tauto.
  - intros n Hn. unfold getPersonColor.
    assert (E : (n <? 1) = true) by (apply Z.ltb_lt; lia).
    rewrite E. reflexivity.
  - intros n Hn. rewrite !getPersonColor_palette by lia. f_equal.
    replace (n + 10 - 1) with (n - 1 + 1 * 10) by lia.
    apply Z_mod_plus_full.
  - intros a b Ha Hab Hb.
    rewrite !getPersonColor_palette by lia.
    rewrite (Z.mod_small (a - 1)), (Z.mod_small (b - 1)) by lia.
    remember (a - 1) as x eqn:Ex. remember (b - 1) as y eqn:Ey.
    assert (Cx : 0 <= x < 10) by lia. assert (Cy : 0 <= y < 10) by lia.
    assert (Hxy : x < y) by lia. clear - Cx Cy Hxy.
    each_digit x Cx; each_digit y Cy; try (exfalso; lia); discriminate.
Qed.

Lemma getPersonColor_cycles_witness :
  getPersonColor 11 = Some "#4CAF50"%string
  /\ getPersonColor 2 <> getPersonColor 7.
Proof.
  destruct getPersonColor_cycles as (_ & _ & Hcycle & Hdiff).
  split.
  - apply (Hcycle 1). lia.
  - apply Hdiff; lia.
Defined.

(* ================================================================== *)
(** * Time as text                                                      *)
(* ================================================================== *)














(* ================================================================== *)
(** * The progress bar and the breathing circle                         *)
(* ================================================================== *)

Lemma Qdiv_unit_range (r d : Q) :
  (0 < d)%Q -> (0 <= r)%Q -> (r <= d)%Q -> (0 <= r / d)%Q /\ (r / d <= 1)%Q.
Proof.
  intros Hd H0 H1. split.
  - apply Qle_shift_div_l; [exact Hd|lra].
  - apply Qle_shift_div_r; [exact Hd|lra].
Qed.

Lemma inject_Z_pos (z : Z) : 0 < z -> (0 < inject_Z z)%Q.
Proof. intros H. change 0%Q with (inject_Z 0). now rewrite <- Zlt_Qlt. Qed.

(** X7.  The width [updateProgressBar] gives the progress bar: 0 when no
    workout has been built (total time 0; nothing is divided); between 0
    and 100 percent whenever the elapsed time is not negative; exactly
    the elapsed share of the total while the elapsed time is below the
    total; and 100 percent from there on. *)
Theorem progress_bar_bounds (s : WorkoutState) :
  (totalWorkoutTime s = 0 -> updateProgressBar s = 0%Q)
  /\ (0 <= totalWorkoutTime s -> (0 <= elapsedTime s)%Q ->
      (0 <= updateProgressBar s)%Q /\ (updateProgressBar s <= 100)%Q)
  /\ (0 < totalWorkoutTime s ->
      (elapsedTime s < inject_Z (totalWorkoutTime s))%Q ->
      updateProgressBar s
      = (elapsedTime s / inject_Z (totalWorkoutTime s) * 100)%Q
      /\ (updateProgressBar s < 100)%Q)
  /\ (0 < totalWorkoutTime s ->
      (inject_Z (totalWorkoutTime s) <= elapsedTime s)%Q ->
      (updateProgressBar s == 100)%Q).
Proof.
  unfold updateProgressBar.
  set (T := totalWorkoutTime s). set (e := elapsedTime s).
  split; [|split; [|split]].
  - intros ->. reflexivity.
  - intros HT He. destruct (Z.eqb_spec T 0) as [_|Hne]; [lra|].
    assert (Hpos : (0 < inject_Z T)%Q) by (apply inject_Z_pos; lia).
    assert (Hx : (0 <= e / inject_Z T)%Q)
      by (apply Qle_shift_div_l; [exact Hpos|lra]).
    destruct (Qle_bool (e / inject_Z T * 100) 100) eqn:E.
    + apply Qle_bool_iff in E. lra.
    + lra.
  - intros HT He. destruct (Z.eqb_spec T 0) as [H0|_]; [lia|].
    assert (Hpos : (0 < inject_Z T)%Q) by (apply inject_Z_pos; lia).
    assert (Hx : (e / inject_Z T < 1)%Q)
      by (apply Qlt_shift_div_r; [exact Hpos|lra]).
    assert (E : Qle_bool (e / inject_Z T * 100) 100 = true)
      by (apply Qle_bool_iff; lra).
    rewrite E. split; [reflexivity|lra].
  - intros HT He. destruct (Z.eqb_spec T 0) as [H0|_]; [lia|].
    assert (Hpos : (0 < inject_Z T)%Q) by (apply inject_Z_pos; lia).
    assert (Hx : (1 <= e / inject_Z T)%Q)
      by (apply Qle_shift_div_l; [exact Hpos|lra]).
    destruct (Qle_bool (e / inject_Z T * 100) 100) eqn:E.
    + apply Qle_bool_iff in E. lra.
    + reflexivity.
Qed.

Lemma progress_bar_bounds_witness :
  updateProgressBar
    (set_elapsedTime 72.5 (set_totalWorkoutTime 290 initialState))
  = (72.5 / inject_Z 290 * 100)%Q.
Proof.
  apply (progress_bar_bounds
           (set_elapsedTime 72.5 (set_totalWorkoutTime 290 initialState)));
    reflexivity.
Defined.

(** X8.  The size [updateBreathingGraphic] gives the circle.  With the
    current phase [p] of positive duration [d] and a remaining time
    between 0 and [d], the size stays between 130 and 280 pixels.  It
    grows from 130 (remaining [d]) to 280 (remaining 0) during breath-in,
    holds 280 during the inhaled hold, shrinks from 280 to 130 during
    breath-out and holds 130 during the exhaled hold: around the cycle
    the size a phase ends with is the size the next one starts with. *)
Theorem breathing_circle_size (b : BreathingState) (p : BreathingPhase) :
  index (breathingPhaseSequence b) (currentBreathingPhaseIndex b) = Some p ->
  0 < bphase.duration p ->
  let d := inject_Z (bphase.duration p) in
  let r := breathingTimeRemaining b in
  let size := graphic.circleSize (updateBreathingGraphic b) in
  ((0 <= r)%Q -> (r <= d)%Q -> (130 <= size)%Q /\ (size <= 280)%Q)
  /\ (currentBreathingPhase b = inBreathingPhase breathIn ->
      ((r == d)%Q -> (size == 130)%Q) /\ ((r == 0)%Q -> (size == 280)%Q))
  /\ (currentBreathingPhase b = inBreathingPhase inhaledHold -> size = 280%Q)
  /\ (currentBreathingPhase b = inBreathingPhase breathOut ->
      ((r == d)%Q -> (size == 280)%Q) /\ ((r == 0)%Q -> (size == 130)%Q))
  /\ (currentBreathingPhase b = inBreathingPhase exhaledHold -> size = 130%Q).
Proof.
  intros Hp Hd d r size.
  assert (Hdur : orDefault
                   (option_map bphase.duration
                      (index (breathingPhaseSequence b)
                             (currentBreathingPhaseIndex b))) 4
                 = bphase.duration p).
  { rewrite Hp. cbn [option_map orDefault].
    destruct (bphase.duration p); try lia; reflexivity. }
  assert (Hpos : (0 < d)%Q) by (apply inject_Z_pos; exact Hd).
  subst size. unfold updateBreathingGraphic. cbv zeta.
  cbn [graphic.circleSize]. rewrite Hdur. fold d. fold r.
  assert (Hfull : (r == d)%Q -> (r / d == 1)%Q).
  { intros E. rewrite E. field. lra. }
  assert (Hnone : (r == 0)%Q -> (r / d == 0)%Q).
  { intros E. rewrite E. field. lra. }
  split; [|split; [|split; [|split]]].
  - intros H0 H1. destruct (Qdiv_unit_range r d Hpos H0 H1) as (Hlo & Hhi).
    destruct (currentBreathingPhase b) as [|[| | |]]; lra.
  - intros ->. split; intros E;
      [rewrite (Hfull E)|rewrite (Hnone E)]; reflexivity.
  - intros ->. reflexivity.
  - intros ->. split; intros E;
      [rewrite (Hfull E)|rewrite (Hnone E)]; reflexivity.
  - intros ->. reflexivity.
Qed.

Lemma breathing_circle_size_witness :
  let b := set_breathingTimeRemaining 1
             (breathing (startBreathingTimer (page normal exampleForm))) in
  (130 <= graphic.circleSize (updateBreathingGraphic b))%Q
  /\ (graphic.circleSize (updateBreathingGraphic b) <= 280)%Q.
Proof.
  intros b.
  apply (proj1 (breathing_circle_size b (bphase.mk breathIn 4) eq_refl eq_refl));
    unfold Qle; cbn; lia.
Defined.

(* ================================================================== *)
(** * What the engine functions leave in the state                      *)
(* ================================================================== *)

(** The state after [resetTimer]: the configuration, the mode, the total
    time and the phase sequence stay; everything else is as on a fresh
    page. *)
Lemma resetTimer_state (w : World) :
  state (resetTimer w)
  = mkWorkoutState (config (state w)) (workoutMode (state w)) ready 0 0 0 0
      0%Q (totalWorkoutTime (state w)) 0%Q [] 0%Q None false false false
      false (phaseSequence (state w)) 0.
Proof.
  destruct w as [s b d u ts nid c l].
  destruct s as [f1 f2 f3 f4 f5 f6 f7 f8 f9 f10 f11 f12 [id|] f14 f15 f16 f17 f18 f19];
    cbn; reflexivity.
Qed.

Lemma resetTimer_world (w : World) :
  resetTimer w
  = mkWorld (state (resetTimer w)) (breathing w) (dom w) (userConfirms w)
      (match intervalId (state w) with
       | Some id => filter (fun t => negb (timerId t =? id)) (timers w)
       | None => timers w
       end)
      (nextTimerId w) (clock w) (log w).
Proof.
  destruct w as [s b d u ts nid c l].
  destruct s as [f1 f2 f3 f4 f5 f6 f7 f8 f9 f10 f11 f12 [id|] f14 f15 f16 f17 f18 f19];
    cbn; reflexivity.
Qed.

(** [loadCurrentPhase] with a phase at the current index. *)
Lemma loadCurrentPhase_ok (w : World) (p : Phase) :
  index (phaseSequence (state w)) (currentPhaseIndex (state w)) = Some p ->
  loadCurrentPhase w
  = emit (phaseLoaded (currentPhaseIndex (state w)) p)
      (upd (set_currentPerson (orDefault (phase.person p) 0))
        (upd (set_nextSet (orDefault (phase.nextSet p) 0))
          (upd (set_currentSet (phase.set p))
            (upd (set_currentRound (phase.round p))
              (upd (set_timeRemaining (inject_Z (phase.duration p)))
                (upd (set_currentPhase (inPhase (phase.type p))) w)))))).
Proof.
  intros Hp. pose proof (index_range _ _ _ Hp) as Hrange.
  unfold loadCurrentPhase. cbv zeta.
  assert (E1 : (currentPhaseIndex (state w) <? 0) = false)
    by (apply Z.ltb_ge; lia).
  assert (E2 : (len (phaseSequence (state w)) <=? currentPhaseIndex (state w))
               = false) by (apply Z.leb_gt; lia).
  rewrite E1, E2, Hp. reflexivity.
Qed.

(** [loadCurrentPhase] with an index outside the sequence. *)
Lemma loadCurrentPhase_out_of_range (w : World) :
  currentPhaseIndex (state w) < 0
  \/ len (phaseSequence (state w)) <= currentPhaseIndex (state w) ->
  loadCurrentPhase w = completeWorkout w.
Proof.
  intros H. unfold loadCurrentPhase. cbv zeta.
  destruct (Z.ltb_spec (currentPhaseIndex (state w)) 0); [reflexivity|].
  destruct (Z.leb_spec (len (phaseSequence (state w)))
                       (currentPhaseIndex (state w))); [reflexivity|lia].
Qed.

(* ================================================================== *)
(** * What the display shows                                            *)
(* ================================================================== *)

Lemma updateProgressBar_start (s : WorkoutState) :
  elapsedTime s = 0%Q -> (updateProgressBar s == 0)%Q.
Proof.
  intros He. unfold updateProgressBar. rewrite He.
  destruct (totalWorkoutTime s =? 0); [reflexivity|].
  assert (E : (0 / inject_Z (totalWorkoutTime s) * 100 == 0)%Q)
    by (unfold Qdiv; ring).
  destruct (Qle_bool (0 / inject_Z (totalWorkoutTime s) * 100) 100) eqn:Eb.
  - exact E.
  - apply Qle_bool_false in Eb. lra.
Qed.

(** X9.  The display right after [resetTimer], which ends with a call of
    [updateDisplay]: the timer shows 00:00.00 and the progress bar is
    empty in every mode.  In head-to-head and stopwatch mode the round
    and set captions are cleared; in interval mode no branch assigns
    them in the ready state, so they keep the text they had before the
    reset. *)
Theorem display_after_reset (w : World) (d : Display) :
  let d' := updateDisplay (state (resetTimer w)) d in
  display.timerDisplay d' = "00:00.00"%string
  /\ (display.progressBarWidth d' == 0)%Q
  /\ (workoutMode (state w) = normal ->
      display.phaseIndicator d' = "Ready"%string
      /\ display.roundInfo d' = display.roundInfo d
      /\ display.setInfo d' = display.setInfo d)
  /\ (workoutMode (state w) = headToHead ->
      display.phaseIndicator d' = "Ready"%string
      /\ display.roundInfo d' = ""%string /\ display.setInfo d' = ""%string
      /\ display.backgroundColor d' = ""%string)
  /\ (workoutMode (state w) = stopwatch ->
      display.phaseIndicator d' = "Stopwatch"%string
      /\ display.roundInfo d' = ""%string /\ display.setInfo d' = ""%string).
Proof.
  intros d'. subst d'.
  pose proof (updateProgressBar_start (state (resetTimer w))) as Hbar.
  rewrite resetTimer_state in *. specialize (Hbar eq_refl).
  unfold updateDisplay.
  cbn [workoutMode currentPhase currentRound elapsedTime timeRemaining
       isReady isComplete isPhase orb].
  destruct (workoutMode (state w)) eqn:Emode;
    cbn [WorkoutMode_eqb Z.ltb Z.compare andb display.timerDisplay
         display.progressBarWidth display.phaseIndicator display.roundInfo
         display.setInfo display.backgroundColor phaseLabel];
    (split; [reflexivity|]);
    (split; [first [exact Hbar|reflexivity]|]);
    repeat split; intros; congruence.
Qed.

Lemma display_after_reset_witness :
  let d := display.mk "00:03.20" "Rest" "timer-section phase-rest" ""
             "none" "" "Round 2 of 2" "Rest before Set 3 of 3" 40 in
  let d' := updateDisplay (state (resetTimer startedExample)) d in
  display.phaseIndicator d' = "Ready"%string
  /\ display.roundInfo d' = "Round 2 of 2"%string
  /\ display.setInfo d' = "Rest before Set 3 of 3"%string.
Proof.
  intros d d'.
  destruct (display_after_reset startedExample d) as (_ & _ & Hnormal & _).
  apply Hnormal. reflexivity.
Defined.

(** The phases of an interval sequence, with their round and set
    numbers. *)
Lemma In_intervalOrdering_shape (c : Config) (p : Phase) :
  In p (intervalOrdering c) ->
  ((phase.type p = setup \/ phase.type p = warmup) /\ phase.round p = 0)
  \/ (phase.type p = work
      /\ 1 <= phase.round p <= config.numberOfRounds c
      /\ 1 <= phase.set p <= config.setsPerRound c)
  \/ (phase.type p = rest
      /\ 1 <= phase.round p <= config.numberOfRounds c
      /\ 1 <= phase.set p < config.setsPerRound c
      /\ phase.nextSet p = Some (phase.set p + 1))
  \/ (phase.type p = longRest
      /\ 1 <= phase.round p < config.numberOfRounds c).
Proof.
  unfold intervalOrdering. intros Hp.
  apply in_app_or in Hp. destruct Hp as [Hp|Hp].
  { unfold optionalPhase in Hp. destruct (0 <? config.setupDuration c);
      [|destruct Hp]. destruct Hp as [<-|[]]. left. cbn. auto. }
  apply in_app_or in Hp. destruct Hp as [Hp|Hp].
  { unfold optionalPhase in Hp. destruct (0 <? config.warmupDuration c);
      [|destruct Hp]. destruct Hp as [<-|[]]. left. cbn. auto. }
  right. unfold roundsOrdering, roundOrdering in Hp.
  apply in_flat_map in Hp. destruct Hp as (r & Hr & Hp).
  apply zrange_In in Hr.
  apply in_app_or in Hp. destruct Hp as [Hp|Hp].
  - apply in_flat_map in Hp. destruct Hp as (s & Hs & Hp).
    apply zrange_In in Hs. destruct Hp as [<-|Hp].
    + left. cbn. repeat split; lia.
    + destruct (Z.ltb_spec s (config.setsPerRound c)); cbn in Hp; [|tauto].
      destruct (0 <? config.restDuration c); cbn in Hp; [|tauto].
      destruct Hp as [<-|[]]. right. left. cbn. repeat split; lia.
  - destruct (Z.ltb_spec r (config.numberOfRounds c)); cbn in Hp; [|tauto].
    destruct (0 <? config.longRestDuration c); cbn in Hp; [|tauto].
    destruct Hp as [<-|[]]. right. right. cbn. repeat split; lia.
Qed.

Lemma index_In {A} (l : list A) (i : Z) (x : A) : index l i = Some x -> In x l.
Proof.
  unfold index. destruct (i <? 0); [discriminate|]. apply nth_error_In.
Qed.

(** X10.  The captions of an interval run.  When [loadCurrentPhase] has
    loaded a phase of the sequence built from the configuration, the
    display names the phase and shows its whole duration; for a work
    phase it reads Round r of R and Set k of S with k between 1 and S;
    for a rest phase it reads Rest before Set k+1 of S with k+1 at most
    S, so the fallback caption of the rest branch is never shown; a long
    rest reads Rest between rounds; setup and warm-up show no round and
    no set. *)
Theorem captions_of_loaded_phase (w : World) (p : Phase) (d : Display) :
  workoutMode (state w) = normal ->
  phaseSequence (state w) = intervalSequence (config (state w)) ->
  index (phaseSequence (state w)) (currentPhaseIndex (state w)) = Some p ->
  let c := config (state w) in
  let d' := updateDisplay (state (loadCurrentPhase w)) d in
  let ofRounds :=
    ("Round " ++ numberToString (phase.round p) ++ " of "
     ++ numberToString (config.numberOfRounds c))%string in
  let ofSets := (" of " ++ numberToString (config.setsPerRound c))%string in
  display.phaseIndicator d' = phaseLabel (inPhase (phase.type p))
  /\ display.timerDisplay d'
     = formatTimeWithMilliseconds (inject_Z (phase.duration p))
  /\ match phase.type p with
     | setup | warmup =>
         display.roundInfo d' = ""%string /\ display.setInfo d' = ""%string
     | work =>
         display.roundInfo d' = ofRounds
         /\ display.setInfo d'
            = ("Set " ++ numberToString (phase.set p) ++ ofSets)%string
         /\ 1 <= phase.set p <= config.setsPerRound c
         /\ 1 <= phase.round p <= config.numberOfRounds c
     | rest =>
         display.roundInfo d' = ofRounds
         /\ display.setInfo d'
            = ("Rest before Set " ++ numberToString (phase.set p + 1)
               ++ ofSets)%string
         /\ phase.set p + 1 <= config.setsPerRound c
     | longRest =>
         display.roundInfo d' = ofRounds
         /\ display.setInfo d' = "Rest between rounds"%string
     end.
Proof.
  intros Hmode Hseq Hp c d' ofRounds ofSets.
  pose proof (index_In _ _ _ Hp) as Hin.
  rewrite Hseq, intervalSequence_ordering in Hin.
  apply In_intervalOrdering_shape in Hin. fold c in Hin.
  set (s1 := state (loadCurrentPhase w)) in *.
  assert (F : workoutMode s1 = normal
              /\ currentPhase s1 = inPhase (phase.type p)
              /\ timeRemaining s1 = inject_Z (phase.duration p)
              /\ currentRound s1 = phase.round p
              /\ config s1 = c
              /\ index (phaseSequence s1) (currentPhaseIndex s1) = Some p).
  { subst s1. rewrite (loadCurrentPhase_ok w p Hp). cbn.
    repeat split; auto. }
  destruct F as (F1 & F2 & F3 & F4 & F5 & F6).
  subst d'. unfold updateDisplay.
  rewrite F1, F2, F3, F4, F5, F6.
  cbn [WorkoutMode_eqb isReady isComplete orb phaseLabel].
  destruct Hin as [(Ht & Hr)|[(Ht & Hr & Hs)|[(Ht & Hr & Hs & Hn)|(Ht & Hr)]]];
    [destruct Ht as [Ht|Ht]| | |]; rewrite Ht; cbn [isPhase PhaseType_eqb orb];
    try (repeat split; reflexivity).
  - assert (E : (0 <? phase.round p) = true) by (apply Z.ltb_lt; lia).
    rewrite E.
    cbn [display.phaseIndicator display.timerDisplay display.roundInfo
         display.setInfo].
    repeat split; try reflexivity; lia.
  - assert (E : (0 <? phase.round p) = true) by (apply Z.ltb_lt; lia).
    rewrite E, Hn.
    assert (En : orDefault (Some (phase.set p + 1)) (nextSet s1)
                 = phase.set p + 1).
    { destruct (phase.set p + 1) eqn:Ez; try reflexivity; lia. }
    rewrite En.
    assert (E1 : (0 <? phase.set p + 1) = true) by (apply Z.ltb_lt; lia).
    assert (E2 : (phase.set p + 1 <=? config.setsPerRound c) = true)
      by (apply Z.leb_le; lia).
    rewrite E1, E2.
    cbn [andb display.phaseIndicator display.timerDisplay display.roundInfo
         display.setInfo].
    repeat split; try reflexivity; lia.
  - assert (E : (0 <? phase.round p) = true) by (apply Z.ltb_lt; lia).
    rewrite E.
    cbn [display.phaseIndicator display.timerDisplay display.roundInfo
         display.setInfo].
    repeat split; reflexivity.
Qed.

Lemma captions_of_loaded_phase_witness :
  let w := upd (set_currentPhaseIndex 2) startedExample in
  let d := updateDisplay (state (loadCurrentPhase w))
             (display.mk "" "" "" "" "" "" "" "" 0) in
  display.roundInfo d = "Round 1 of 2"%string
  /\ display.setInfo d = "Rest before Set 2 of 3"%string.
Proof.
  intros w d.
  pose proof (captions_of_loaded_phase w
                (phase.mk rest 10 1 1 (Some 2) None)
                (display.mk "" "" "" "" "" "" "" "" 0)
                eq_refl eq_refl eq_refl) as H.
  cbv zeta in H. destruct H as (_ & _ & Hround & Hset & _).
  split; [exact Hround|exact Hset].
Defined.

(* ================================================================== *)
(** * Pause and resume                                                  *)
(* ================================================================== *)

Lemma rearm_frame (t : Timer) (w : World) :
  state (rearm t w) = state w /\ breathing (rearm t w) = breathing w
  /\ log (rearm t w) = log w /\ clock (rearm t w) = clock w
  /\ nextTimerId (rearm t w) = nextTimerId w /\ dom (rearm t w) = dom w
  /\ userConfirms (rearm t w) = userConfirms w.
Proof. unfold rearm. cbn. repeat split. Qed.

Lemma rearm_callbacks (P : Callback -> Prop) (t : Timer) (w : World) :
  (forall u, In u (timers w) -> P (callback u)) ->
  forall u, In u (timers (rearm t w)) -> P (callback u).
Proof.
  intros H u Hu. unfold rearm in Hu. cbn [timers set_timers] in Hu.
  apply in_flat_map in Hu. destruct Hu as (v & Hv & Hu).
  destruct (timerId v =? timerId t).
  - destruct (every v); [|destruct Hu]. destruct Hu as [<-|[]]. cbn.
    now apply H.
  - destruct Hu as [<-|[]]. now apply H.
Qed.

Lemma findTimer_In (id : Z) (w : World) (t : Timer) :
  findTimer id w = Some t -> In t (timers w).
Proof. unfold findTimer. intros H. now apply find_some in H. Qed.

(** While every registered callback leaves a world as it is, firing
    changes the timer table at most. *)
Lemma fire_inert (P : Callback -> Prop) (G : World -> Prop) :
  (forall cb w, P cb -> G w -> runCallback cb w = w) ->
  (forall t w, G w -> G (rearm t w)) ->
  forall ids w,
    G w -> (forall u, In u (timers w) -> P (callback u)) ->
    let w' := fire ids w in
    G w' /\ state w' = state w /\ breathing w' = breathing w /\ log w' = log w
    /\ clock w' = clock w
    /\ (forall u, In u (timers w') -> P (callback u)).
Proof.
  intros Hcb Hre ids. induction ids as [|id ids IH]; intros w HG HP; cbn [fire].
  - repeat split; auto.
  - destruct (findTimer id w) as [t|] eqn:Ef; [|now apply IH].
    pose proof (findTimer_In _ _ _ Ef) as Hin.
    rewrite Hcb; [|now apply HP|now apply Hre].
    destruct (rearm_frame t w) as (F1 & F2 & F3 & F4 & _).
    destruct (IH (rearm t w) (Hre t w HG) (rearm_callbacks P t w HP))
      as (I0 & I1 & I2 & I3 & I4 & I5).
    rewrite F1 in I1. rewrite F2 in I2. rewrite F3 in I3. rewrite F4 in I4.
    repeat split; assumption.
Qed.

Lemma elapse_inert (P : Callback -> Prop) (G : World -> Prop) :
  (forall cb w, P cb -> G w -> runCallback cb w = w) ->
  (forall t w, G w -> G (rearm t w)) ->
  (forall c w, G w -> G (set_clock c w)) ->
  forall ms w,
    G w -> (forall u, In u (timers w) -> P (callback u)) ->
    let w' := elapse ms w in
    G w' /\ state w' = state w /\ breathing w' = breathing w /\ log w' = log w
    /\ clock w' = clock w + Z.of_nat ms
    /\ (forall u, In u (timers w') -> P (callback u)).
Proof.
  intros Hcb Hre Hck ms. induction ms as [|ms IH]; intros w HG HP.
  - cbn [elapse]. repeat split; auto. cbn. lia.
  - cbn [elapse].
    assert (Hstep : let w1 := step_ms w in
              G w1 /\ state w1 = state w /\ breathing w1 = breathing w
              /\ log w1 = log w /\ clock w1 = clock w + 1
              /\ (forall u, In u (timers w1) -> P (callback u))).
    { unfold step_ms. cbv zeta.
      pose proof (fire_inert P G Hcb Hre
                    (map timerId
                       (filter (fun t => due t <=? clock (set_clock (clock w + 1) w))
                          (timers (set_clock (clock w + 1) w))))
                    (set_clock (clock w + 1) w) (Hck _ w HG) HP) as Hf.
      cbv zeta in Hf. exact Hf. }
    destruct Hstep as (S0 & S1 & S2 & S3 & S4 & S5).
    destruct (IH (step_ms w) S0 S5) as (I0 & I1 & I2 & I3 & I4 & I5).
    rewrite S1 in I1. rewrite S2 in I2. rewrite S3 in I3. rewrite S4 in I4.
    repeat split; try assumption. lia.
Qed.

Lemma pause_resume_state (s : WorkoutState) :
  isPaused s = false -> set_isPaused false (set_isPaused true s) = s.
Proof. intros H. destruct s. cbn in *. subst. reflexivity. Qed.

(** X11.  Pausing holds the countdown for as long as the pause lasts.  On
    a running, unpaused machine that is not waiting for a phase change
    (the timer table holds tick intervals only), the pause button sets
    [isPaused]; from then on no amount of time changes the state or the
    log, although the interval keeps firing; and the next press of the
    button gives back exactly the state the machine was paused in.  On a
    machine that is not running the two functions do nothing. *)
Theorem pause_holds_the_clock (w : World) (ms : nat) :
  (isRunning (state w) = true -> isPaused (state w) = false ->
   (forall t, In t (timers w) -> callback t = cbUpdateTimer) ->
   let paused := pauseClick w in
   isPaused (state paused) = true
   /\ state (elapse ms paused) = state paused
   /\ log (elapse ms paused) = log w
   /\ state (pauseClick (elapse ms paused)) = state w)
  /\ (isRunning (state w) = false -> pauseTimer w = w /\ resumeTimer w = w).
Proof.
  split.
  - intros Hrun Hpause Htimers paused.
    assert (Hpaused : paused = upd (set_isPaused true) w).
    { subst paused. unfold pauseClick, pauseTimer. now rewrite Hpause, Hrun. }
    destruct (elapse_inert (fun cb => cb = cbUpdateTimer)
                (fun w => isPaused (state w) = true)) with (ms := ms) (w := paused)
      as (E0 & E1 & _ & E3 & _ & _).
    + intros cb w0 -> Hg. cbn [runCallback]. apply updateTimer_guard. auto.
    + intros t w0 Hg. exact Hg.
    + intros c w0 Hg. exact Hg.
    + rewrite Hpaused. reflexivity.
    + rewrite Hpaused. exact Htimers.
    + split; [rewrite Hpaused; reflexivity|]. split; [exact E1|].
      split; [rewrite E3, Hpaused; reflexivity|].
      unfold pauseClick. rewrite E0. unfold resumeTimer. rewrite E1.
      assert (Hr : isRunning (state paused) = true)
        by (rewrite Hpaused; exact Hrun).
      rewrite Hr. cbn [negb state upd set_state]. rewrite E1, Hpaused.
      cbn [state upd set_state]. now apply pause_resume_state.
  - intros Hrun. unfold pauseTimer, resumeTimer. now rewrite Hrun.
Qed.

Lemma pause_holds_the_clock_witness :
  let paused := pauseClick (after 300 startedExample) in
  timeRemaining (state (elapse 5000 paused)) = timeRemaining (state paused)
  /\ state (pauseClick (elapse 5000 paused)) = state (after 300 startedExample).
Proof.
  intros paused.
  destruct (pause_holds_the_clock (after 300 startedExample) 5000)
    as (H & _).
  destruct H as (_ & Hstate & _ & Hback).
  - reflexivity.
  - reflexivity.
  - vm_compute. intros t [<-|[]]. reflexivity.
  - split; [exact (f_equal timeRemaining Hstate)|exact Hback].
Defined.

Lemma breathing_pause_resume_state (b : BreathingState) :
  breathingIsPaused b = false ->
  set_breathingIsPaused false (set_breathingIsPaused true b) = b.
Proof. intros H. destruct b. cbn in *. subst. reflexivity. Qed.

(** X12.  The breathing timer pauses the same way: on a running, unpaused
    breathing timer outside the settle delay, [pauseBreathingTimer] sets
    the pause flag, no amount of time then changes the breathing state
    or the log, and the next press of the button gives back exactly the
    state that was paused.  On a timer that is not running the two
    functions do nothing. *)
Theorem breathing_pause_holds_the_clock (w : World) (ms : nat) :
  (breathingIsRunning (breathing w) = true ->
   breathingIsPaused (breathing w) = false ->
   (forall t, In t (timers w) -> callback t = cbUpdateBreathingTimer) ->
   let paused := breathingPauseClick w in
   breathingIsPaused (breathing paused) = true
   /\ breathing (elapse ms paused) = breathing paused
   /\ log (elapse ms paused) = log w
   /\ breathing (breathingPauseClick (elapse ms paused)) = breathing w)
  /\ (breathingIsRunning (breathing w) = false ->
      pauseBreathingTimer w = w /\ resumeBreathingTimer w = w).
Proof.
  split.
  - intros Hrun Hpause Htimers paused.
    assert (Hpaused : paused = updB (set_breathingIsPaused true) w).
    { subst paused. unfold breathingPauseClick, pauseBreathingTimer.
      now rewrite Hpause, Hrun. }
    destruct (elapse_inert (fun cb => cb = cbUpdateBreathingTimer)
                (fun w => breathingIsPaused (breathing w) = true))
      with (ms := ms) (w := paused) as (E0 & _ & E2 & E3 & _ & _).
    + intros cb w0 -> Hg. cbn [runCallback].
      apply updateBreathingTimer_guard. auto.
    + intros t w0 Hg. exact Hg.
    + intros c w0 Hg. exact Hg.
    + rewrite Hpaused. reflexivity.
    + rewrite Hpaused. exact Htimers.
    + split; [rewrite Hpaused; reflexivity|]. split; [exact E2|].
      split; [rewrite E3, Hpaused; reflexivity|].
      unfold breathingPauseClick. rewrite E0. unfold resumeBreathingTimer.
      rewrite E2.
      assert (Hr : breathingIsRunning (breathing paused) = true)
        by (rewrite Hpaused; exact Hrun).
      rewrite Hr. cbn [negb breathing updB set_breathing]. rewrite E2, Hpaused.
      cbn [breathing updB set_breathing].
      now apply breathing_pause_resume_state.
  - intros Hrun. unfold pauseBreathingTimer, resumeBreathingTimer.
    now rewrite Hrun.
Qed.

Lemma breathing_pause_holds_the_clock_witness :
  let paused := breathingPauseClick (after 300 breathingExample) in
  breathing (elapse 5000 paused) = breathing paused
  /\ breathing (breathingPauseClick (elapse 5000 paused))
     = breathing (after 300 breathingExample).
Proof.
  intros paused.
  destruct (breathing_pause_holds_the_clock (after 300 breathingExample) 5000)
    as (H & _).
  destruct H as (_ & Hstate & _ & Hback).
  - reflexivity.
  - reflexivity.
  - vm_compute. intros t [<-|[]]. reflexivity.
  - split; [exact Hstate|exact Hback].
Defined.

(* ================================================================== *)
(** * Start, reset and completion as state transformers                 *)
(* ================================================================== *)

(** After an accepted configuration [startTimer] is [startValidated]. *)
Lemma startTimer_accepted (w : World) :
  workoutMode (state w) <> stopwatch ->
  accepted (workoutMode (state w)) (config (state (loadConfigFromForm w))) ->
  startTimer w = startValidated (loadConfigFromForm w).
Proof.
  intros Hmode Hacc. unfold startTimer.
  apply WorkoutMode_eqb_neq in Hmode. rewrite Hmode. cbv zeta.
  destruct (loadConfigFromForm_frame w) as (Hm & _).
  rewrite Hm.
  destruct (workoutMode (state w)); cbn [WorkoutMode_eqb accepted] in *;
    try discriminate;
    unfold acceptedInterval, acceptedHeadToHead in Hacc;
    destruct Hacc as (H1 & H2 & H3);
    repeat match goal with
    | |- context [?a <=? 0] =>
        let E := fresh "E" in
        assert (E : (a <=? 0) = false) by (apply Z.leb_gt; lia); rewrite E
    end; reflexivity.
Qed.


Lemma upd_built (w : World) :
  (if WorkoutMode_eqb (workoutMode (state w)) headToHead
   then upd buildHeadToHeadSequence w
   else upd buildPhaseSequence w)
  = upd built w.
Proof.
  unfold upd, built, buildHeadToHeadSequence, buildPhaseSequence, builtSequence.
  destruct (workoutMode (state w)) eqn:E; cbn [WorkoutMode_eqb]; reflexivity.
Qed.

(** The world a successful start leaves. *)
Lemma startValidated_world (w : World) (p0 : Phase) :
  index (builtSequence (workoutMode (state w)) (config (state w))) 0 = Some p0 ->
  startValidated w
  = mkWorld (started (state w) p0 (nextTimerId w)) (breathing w) (dom w)
      (userConfirms w)
      (timers w ++ [workoutInterval (nextTimerId w) (clock w + 10)])
      (nextTimerId w + 1) (clock w)
      (log w ++ [phaseLoaded 0 p0; playBeep beepStart; vibrate [100]]).
Proof.
  intros Hp0. pose proof (index_range _ _ _ Hp0) as Hrange.
  unfold startValidated. rewrite upd_built.
  set (seq := builtSequence (workoutMode (state w)) (config (state w))) in *.
  assert (Hseq : phaseSequence (state (upd built w)) = seq) by reflexivity.
  assert (Hlen : (len (phaseSequence (state (upd built w))) =? 0) = false)
    by (rewrite Hseq; apply Z.eqb_neq; lia).
  rewrite Hlen. cbv zeta.
  rewrite (loadCurrentPhase_ok _ p0) by exact Hp0.
  destruct w as [s b d u ts nid c l]. unfold started, withPhase.
  cbn [state nextTimerId].
  rewrite !upd_mk, emit_mk, setInterval_mk, upd_mk, !emit_mk, <- !app_assoc.
  reflexivity.
Qed.

Lemma loadConfigFromForm_config (w1 w2 : World) :
  dom w1 = dom w2 -> workoutMode (state w1) = workoutMode (state w2) ->
  config (state (loadConfigFromForm w1)) = config (state (loadConfigFromForm w2)).
Proof.
  intros Hd Hm. unfold loadConfigFromForm. rewrite Hd, Hm.
  destruct (WorkoutMode_eqb (workoutMode (state w2)) headToHead); reflexivity.
Qed.

Lemma resetTimer_frame (w : World) :
  dom (resetTimer w) = dom w /\ nextTimerId (resetTimer w) = nextTimerId w
  /\ clock (resetTimer w) = clock w /\ log (resetTimer w) = log w
  /\ breathing (resetTimer w) = breathing w
  /\ userConfirms (resetTimer w) = userConfirms w.
Proof. rewrite resetTimer_world. cbn. repeat split. Qed.

Lemma resetTimer_idempotent (w : World) : resetTimer (resetTimer w) = resetTimer w.
Proof.
  rewrite (resetTimer_world (resetTimer w)), (resetTimer_world w).
  rewrite !resetTimer_state.
  cbn [state breathing dom userConfirms timers nextTimerId clock log
       intervalId config workoutMode totalWorkoutTime phaseSequence].
  reflexivity.
Qed.

Lemma accepted_first_phase (mode : WorkoutMode) (c : Config) :
  accepted mode c -> exists p0, index (builtSequence mode c) 0 = Some p0.
Proof.
  intros Hacc. pose proof (builtSequence_nonempty mode c Hacc) as Hne.
  destruct (builtSequence mode c) as [|p0 tl]; [congruence|].
  exists p0. reflexivity.
Qed.

(** The state a start leaves after a reset. *)
Lemma start_after_reset (w1 w : World) (p0 : Phase) :
  workoutMode (state w1) <> stopwatch ->
  accepted (workoutMode (state w1)) (config (state (loadConfigFromForm w1))) ->
  dom w = dom w1 -> workoutMode (state w) = workoutMode (state w1) ->
  nextTimerId w = nextTimerId w1 ->
  index (builtSequence (workoutMode (state w1))
           (config (state (loadConfigFromForm w1)))) 0 = Some p0 ->
  state (startTimer (resetTimer w))
  = started
      (set_config (config (state (loadConfigFromForm w1)))
         (mkWorkoutState (config (state w)) (workoutMode (state w1))
            ready 0 0 0 0 0%Q (totalWorkoutTime (state w)) 0%Q
            [] 0%Q None false false false false
            (phaseSequence (state w)) 0))
      p0 (nextTimerId w1).
Proof.
  intros Hsw Hacc Hd Hm Hn Hp0.
  rewrite (resetTimer_world w), (resetTimer_state w), Hd, Hm, Hn.
  match goal with |- state (startTimer ?W) = _ => set (R := W) end.
  assert (Hc : config (state (loadConfigFromForm R))
               = config (state (loadConfigFromForm w1)))
    by (apply loadConfigFromForm_config; reflexivity).
  rewrite startTimer_accepted
    by (subst R; cbn [state workoutMode]; rewrite ?Hc; assumption).
  rewrite (loadConfigFromForm_state R), Hc.
  subst R. rewrite upd_mk.
  rewrite (startValidated_world _ p0); [reflexivity|exact Hp0].
Qed.

(** X13.  A reset wipes the past.  [resetTimer] is idempotent, and in the
    two countdown modes a start that follows a reset leaves a state that
    depends only on the form, the mode and the identifier the new
    interval gets: two machines with whatever history, reset and started
    on the same accepted form, are in the same state. *)
Theorem restart_forgets_the_past (w1 w2 : World) :
  dom w1 = dom w2 ->
  workoutMode (state w1) = workoutMode (state w2) ->
  nextTimerId w1 = nextTimerId w2 ->
  workoutMode (state w1) <> stopwatch ->
  accepted (workoutMode (state w1)) (config (state (loadConfigFromForm w1))) ->
  resetTimer (resetTimer w1) = resetTimer w1
  /\ isRunning (state (startTimer (resetTimer w1))) = true
  /\ state (startTimer (resetTimer w1)) = state (startTimer (resetTimer w2)).
Proof.
  intros Hdom Hmode Hnid Hsw Hacc.
  split; [apply resetTimer_idempotent|].
  destruct (accepted_first_phase _ _ Hacc) as (p0 & Hp0).
  rewrite (start_after_reset w1 w1 p0 Hsw Hacc eq_refl eq_refl eq_refl Hp0).
  rewrite (start_after_reset w1 w2 p0 Hsw Hacc (eq_sym Hdom) (eq_sym Hmode)
             (eq_sym Hnid) Hp0).
  split.
  - unfold started, withPhase. cbn. reflexivity.
  - unfold started, built, withPhase. cbn. reflexivity.
Qed.

Lemma restart_forgets_the_past_witness :
  state (startTimer (resetTimer (after 30 startedExample)))
  = state (startTimer (resetTimer (set_nextTimerId 2 (page normal exampleForm)))).
Proof.
  apply (restart_forgets_the_past (after 30 startedExample)
           (set_nextTimerId 2 (page normal exampleForm))).
  - vm_compute. reflexivity.
  - vm_compute. reflexivity.
  - vm_compute. reflexivity.
  - vm_compute. discriminate.
  - vm_compute. repeat split.
Defined.

(* ================================================================== *)
(** * A workout phase on the clock                                      *)
(* ================================================================== *)

Lemma emit_wworld e base s t ts nid lg :
  emit e (wworld base s t ts nid lg) = wworld base s t ts nid (lg ++ [e]).
Proof. reflexivity. Qed.

Lemma upd_wworld f base s t ts nid lg :
  upd f (wworld base s t ts nid lg) = wworld base (f s) t ts nid lg.
Proof. reflexivity. Qed.

Lemma setTimeout_wworld cb delay base s t ts nid lg :
  setTimeout cb delay (wworld base s t ts nid lg)
  = wworld base s t (ts ++ [mkTimer nid (t + delay) None cb]) (nid + 1) lg.
Proof. reflexivity. Qed.

Lemma clearInterval_wworld id base s t ts nid lg :
  clearInterval id (wworld base s t ts nid lg)
  = wworld base s t (filter (fun x => negb (timerId x =? id)) ts) nid lg.
Proof. reflexivity. Qed.

Lemma wworld_ext base s s' t t' ts ts' nid nid' lg lg' :
  s = s' -> t = t' -> ts = ts' -> nid = nid' -> lg = lg' ->
  wworld base s t ts nid lg = wworld base s' t' ts' nid' lg'.
Proof. congruence. Qed.

Lemma wworld_self (w : World) :
  w = wworld w (state w) (clock w) (timers w) (nextTimerId w) (log w).
Proof. destruct w; reflexivity. Qed.

(** One call of [updateTimer] on a state that counts down. *)
Lemma updateTimer_countdown_w base s t ts nid lg :
  tickingS s -> (0.01 < timeRemaining s)%Q ->
  updateTimer (wworld base s t ts nid lg)
  = wworld base
      (set_elapsedTime (elapsedTime s + 0.01)%Q
         (set_timeRemaining (timeRemaining s - 0.01)%Q s)) t ts nid lg.
Proof.
  intros Hs Htr. rewrite updateTimer_countdown; [reflexivity|exact Hs|exact Htr].
Qed.

(** The call that reaches zero. *)
Lemma updateTimer_fire_w base s t ts nid lg :
  tickingS s -> (0 < timeRemaining s)%Q -> (timeRemaining s <= 0.01)%Q ->
  exists t',
    (t' == 0)%Q
    /\ updateTimer (wworld base s t ts nid lg)
       = wworld base
           (set_isTransitioning true
              (set_elapsedTime (elapsedTime s + 0.01)%Q
                 (set_timeRemaining t' s)))
           t (ts ++ [mkTimer nid (t + 500) None
                       (cbAdvancePhase (currentPhaseIndex s + 1))])
           (nid + 1) (lg ++ [playBeep beepEnd; vibrate [100]]).
Proof.
  intros (Hrun & Hpause & Htrans & Hmode) Hpos Hle.
  unfold updateTimer. cbn [state wworld].
  rewrite Hrun, Hpause, Htrans.
  apply WorkoutMode_eqb_neq in Hmode. rewrite Hmode.
  cbn [negb orb andb].
  assert (E1 : Qle_bool (timeRemaining s) 0 = false)
    by (apply Qle_bool_false; lra).
  rewrite E1. cbn [negb andb]. cbv zeta.
  rewrite !upd_wworld. cbn [state wworld].
  destruct (Qlt_bool
              (timeRemaining
                 (set_elapsedTime (elapsedTime s + 0.01)%Q
                    (set_timeRemaining (timeRemaining s - 0.01)%Q s))) 0) eqn:E2.
  - exists 0%Q. split; [reflexivity|].
    rewrite upd_wworld. cbn [state wworld].
    assert (E3 : Qle_bool
                   (timeRemaining
                      (set_timeRemaining 0
                         (set_elapsedTime (elapsedTime s + 0.01)%Q
                            (set_timeRemaining (timeRemaining s - 0.01)%Q s)))) 0
                 = true) by reflexivity.
    rewrite E3.
    rewrite ?upd_wworld, !emit_wworld, setTimeout_wworld, <- app_assoc.
    cbn [state wworld]. apply wworld_ext; try reflexivity; destruct s; reflexivity.
  - cbn in E2. apply Qlt_bool_false in E2.
    exists (timeRemaining s - 0.01)%Q. split; [lra|].
    assert (E3 : Qle_bool
                   (timeRemaining
                      (set_elapsedTime (elapsedTime s + 0.01)%Q
                         (set_timeRemaining (timeRemaining s - 0.01)%Q s))) 0
                 = true) by (cbn; apply Qle_bool_iff; lra).
    cbn [state wworld]. rewrite E3.
    rewrite ?upd_wworld, !emit_wworld, setTimeout_wworld, <- app_assoc.
    cbn [state wworld]. apply wworld_ext; try reflexivity; destruct s; reflexivity.
Qed.

Section WorkoutCycle.
Variable base : World.
Variable id : Z.

(** Ten milliseconds with the interval due at their end, and nothing else
    due: one call of [updateTimer]. *)
Lemma workout_ten_ms s t others nid lg :
  (forall x, In x others -> t + 10 < due x /\ timerId x <> id) ->
  elapse 10 (wworld base s t (workoutInterval id (t + 10) :: others) nid lg)
  = updateTimer
      (wworld base s (t + 10) (workoutInterval id (t + 20) :: others) nid lg).
Proof.
  intros Hothers.
  rewrite (elapse_snoc 9).
  match goal with
  | |- step_ms (elapse 9 ?W) = _ => rewrite (elapse_idle 9 W)
  end.
  2:{ intros x [<-|Hx]; [cbn; lia|]. specialize (Hothers x Hx). cbn. lia. }
  match goal with
  | |- step_ms ?W = _ =>
      rewrite (step_interval W (workoutInterval id (t + 10)) others 10 eq_refl)
  end.
  - cbn [callback workoutInterval runCallback timerId due].
    f_equal. unfold wworld, set_timers, set_clock.
    cbn [state breathing dom userConfirms timers nextTimerId clock log].
    replace (t + 10 + 10) with (t + 20) by lia.
    replace (t + Z.of_nat 9 + 1) with (t + 10) by lia. reflexivity.
  - unfold wworld, set_clock. cbn [clock due workoutInterval]. lia.
  - reflexivity.
  - intros x Hx. specialize (Hothers x Hx).
    unfold wworld, set_clock. cbn [clock timerId workoutInterval]. lia.
Qed.

(** While more than [k] ticks of time remain, [10 * k] ms only move the
    clock, the interval and the two times. *)
Lemma workout_countdown_ms (k : nat) :
  forall s t nid lg,
    tickingS s -> (ticks k < timeRemaining s)%Q ->
    exists t' e',
      (t' == timeRemaining s - ticks k)%Q
      /\ (e' == elapsedTime s + ticks k)%Q
      /\ elapse (10 * k)
           (wworld base s t [workoutInterval id (t + 10)] nid lg)
         = wworld base (set_elapsedTime e' (set_timeRemaining t' s))
             (t + 10 * Z.of_nat k)
             [workoutInterval id (t + 10 * Z.of_nat k + 10)] nid lg.
Proof.
  induction k as [|k IH]; intros s t nid lg Hs Htr.
  - exists (timeRemaining s), (elapsedTime s).
    split; [rewrite ticks_0; ring|]. split; [rewrite ticks_0; ring|].
    change (10 * 0)%nat with 0%nat. change (Z.of_nat 0) with 0.
    cbn [elapse]. rewrite Z.mul_0_r, Z.add_0_r.
    destruct s; reflexivity.
  - pose proof (ticks_nonneg k) as Hk. rewrite ticks_S in Htr.
    replace (10 * S k)%nat with (10 + 10 * k)%nat by lia.
    rewrite (elapse_add 10 (10 * k)), workout_ten_ms by (intros x []).
    rewrite updateTimer_countdown_w by (try exact Hs; lra).
    set (s1 := set_elapsedTime (elapsedTime s + 0.01)%Q
                 (set_timeRemaining (timeRemaining s - 0.01)%Q s)).
    assert (Hs1 : tickingS s1) by exact Hs.
    assert (Htr1 : (ticks k < timeRemaining s1)%Q) by (cbn; lra).
    replace (t + 20) with (t + 10 + 10) by lia.
    destruct (IH s1 (t + 10) nid lg Hs1 Htr1) as (t' & e' & Ht' & He' & Hrun).
    exists t', e'.
    split; [rewrite Ht', ticks_S; cbn; ring|].
    split; [rewrite He', ticks_S; cbn; ring|].
    rewrite Hrun. rewrite Nat2Z.inj_succ.
    apply wworld_ext; try reflexivity; try lia.
    unfold workoutInterval. do 2 f_equal. lia.
Qed.

(** The tick that ends the phase, on the clock. *)
Lemma workout_fire_ms s t nid lg :
  tickingS s -> (0 < timeRemaining s)%Q -> (timeRemaining s <= 0.01)%Q ->
  exists t',
    (t' == 0)%Q
    /\ elapse 10 (wworld base s t [workoutInterval id (t + 10)] nid lg)
       = wworld base
           (set_isTransitioning true
              (set_elapsedTime (elapsedTime s + 0.01)%Q (set_timeRemaining t' s)))
           (t + 10)
           [workoutInterval id (t + 20);
            mkTimer nid (t + 10 + 500) None
              (cbAdvancePhase (currentPhaseIndex s + 1))]
           (nid + 1) (lg ++ [playBeep beepEnd; vibrate [100]]).
Proof.
  intros Hs Hpos Hle. rewrite workout_ten_ms by (intros x []).
  destruct (updateTimer_fire_w base s (t + 10) [workoutInterval id (t + 20)]
              nid lg Hs Hpos Hle) as (t' & Ht' & Hfire).
  exists t'. split; [exact Ht'|]. rewrite Hfire. reflexivity.
Qed.

(** During the settle delay the ticks pass without effect. *)
Lemma workout_settle_ms (j : nat) :
  forall s t P nid lg,
    isTransitioning s = true ->
    timerId P <> id -> t + 10 * Z.of_nat j < due P ->
    elapse (10 * j)
      (wworld base s t [workoutInterval id (t + 10); P] nid lg)
    = wworld base s (t + 10 * Z.of_nat j)
        [workoutInterval id (t + 10 * Z.of_nat j + 10); P] nid lg.
Proof.
  induction j as [|j IH]; intros s t P nid lg Hs Hid Hdue.
  - change (10 * 0)%nat with 0%nat. change (Z.of_nat 0) with 0.
    cbn [elapse]. now rewrite Z.mul_0_r, Z.add_0_r.
  - replace (10 * S j)%nat with (10 + 10 * j)%nat by lia.
    rewrite (elapse_add 10 (10 * j)), workout_ten_ms.
    2:{ intros x [<-|[]]. split; [lia|assumption]. }
    rewrite updateTimer_guard by (cbn; auto).
    replace (t + 20) with (t + 10 + 10) by lia.
    rewrite IH by (auto; lia).
    rewrite Nat2Z.inj_succ.
    replace (t + 10 + 10 * Z.of_nat j) with (t + 10 * Z.succ (Z.of_nat j)) by lia.
    reflexivity.
Qed.

(** The millisecond in which the interval and the advance are both due:
    the tick is still held back by the flag, then the advance runs on a
    table that holds only the interval again. *)
Lemma workout_both_due s t pid nextIndex nid lg :
  isTransitioning s = true -> pid <> id ->
  step_ms
    (wworld base s t
       [workoutInterval id (t + 1);
        mkTimer pid (t + 1) None (cbAdvancePhase nextIndex)] nid lg)
  = advancePhase nextIndex
      (wworld base s (t + 1) [workoutInterval id (t + 1 + 10)] nid lg).
Proof.
  intros Htrans Hid.
  assert (E1 : (pid =? id) = false) by (now apply Z.eqb_neq).
  assert (E2 : (id =? pid) = false) by (apply Z.eqb_neq; congruence).
  set (I := workoutInterval id (t + 1)).
  set (P := mkTimer pid (t + 1) None (cbAdvancePhase nextIndex)).
  set (W0 := wworld base s (t + 1) [I; P] nid lg).
  set (W1 := wworld base s (t + 1) [workoutInterval id (t + 1 + 10); P] nid lg).
  set (W2 := wworld base s (t + 1) [workoutInterval id (t + 1 + 10)] nid lg).
  assert (Hstep : step_ms (wworld base s t [I; P] nid lg) = fire [id; pid] W0).
  { unfold step_ms, wworld, set_clock. subst I P W0.
    cbn [state breathing dom userConfirms timers nextTimerId clock log
         filter due map timerId workoutInterval].
    rewrite Z.leb_refl. reflexivity. }
  assert (Hf1 : findTimer id W0 = Some I).
  { unfold findTimer. subst W0 I. cbn [timers wworld find timerId workoutInterval].
    now rewrite Z.eqb_refl. }
  assert (Hr1 : rearm I W0 = W1).
  { unfold rearm. subst W0 W1 I P.
    cbn [timers wworld flat_map timerId workoutInterval every due callback].
    rewrite Z.eqb_refl, E1. reflexivity. }
  assert (Hu : updateTimer W1 = W1)
    by (apply updateTimer_guard; subst W1; cbn; auto).
  assert (Hf2 : findTimer pid W1 = Some P).
  { unfold findTimer. subst W1 P. cbn [timers wworld find timerId workoutInterval].
    now rewrite E2, Z.eqb_refl. }
  assert (Hr2 : rearm P W1 = W2).
  { unfold rearm. subst W1 W2 P.
    cbn [timers wworld flat_map timerId workoutInterval every due callback].
    rewrite E2, Z.eqb_refl. reflexivity. }
  rewrite Hstep. cbn [fire]. rewrite Hf1, Hr1.
  change (runCallback (callback I) W1) with (updateTimer W1).
  rewrite Hu, Hf2, Hr2. reflexivity.
Qed.

Lemma workout_advance_ms s t pid nextIndex nid lg :
  isTransitioning s = true -> pid <> id ->
  elapse 10
    (wworld base s t
       [workoutInterval id (t + 10);
        mkTimer pid (t + 10) None (cbAdvancePhase nextIndex)] nid lg)
  = advancePhase nextIndex
      (wworld base s (t + 10) [workoutInterval id (t + 20)] nid lg).
Proof.
  intros Htrans Hid.
  rewrite (elapse_snoc 9).
  match goal with
  | |- step_ms (elapse 9 ?W) = _ => rewrite (elapse_idle 9 W)
  end.
  2:{ intros x [<-|[<-|[]]]; cbn; lia. }
  replace (t + 10) with (t + 9 + 1) by lia.
  replace (t + 20) with (t + 9 + 1 + 10) by lia.
  rewrite <- (workout_both_due s (t + 9) pid nextIndex nid lg Htrans Hid).
  reflexivity.
Qed.

(** The advance to a phase that exists: cue, then load. *)
Lemma advancePhase_next s t ts nid lg (n : Z) (p' : Phase) :
  isRunning s = true -> index (phaseSequence s) n = Some p' ->
  advancePhase n (wworld base s t ts nid lg)
  = wworld base (loaded s n p') t ts nid
      (lg ++ transitionCue (workoutMode s) (currentRound s) p'
          ++ [phaseLoaded n p']).
Proof.
  intros Hrun Hp'. pose proof (index_range _ _ _ Hp') as Hrange.
  unfold advancePhase. cbn [state wworld]. rewrite Hrun. cbn [negb].
  cbv zeta. rewrite !upd_wworld. cbn [state wworld].
  set (s1 := set_isTransitioning false (set_currentPhaseIndex n s)).
  assert (F : currentPhaseIndex s1 = n /\ phaseSequence s1 = phaseSequence s
              /\ workoutMode s1 = workoutMode s
              /\ currentRound s1 = currentRound s) by (repeat split).
  destruct F as (F1 & F2 & F3 & F4). rewrite F1, F2, F3, F4, Hp'.
  assert (E : (n <? len (phaseSequence s)) = true) by (apply Z.ltb_lt; lia).
  rewrite E.
  assert (Hload : forall lg',
            loadCurrentPhase (wworld base s1 t ts nid lg')
            = wworld base (loaded s n p') t ts nid (lg' ++ [phaseLoaded n p'])).
  { intros lg'. rewrite (loadCurrentPhase_ok _ p')
      by (cbn [state wworld]; rewrite F1, F2; exact Hp').
    rewrite !upd_wworld, emit_wworld. cbn [state wworld]. rewrite F1.
    reflexivity. }
  unfold transitionCue.
  destruct (WorkoutMode_eqb (workoutMode s) headToHead
            && PhaseType_eqb (phase.type p') work).
  - rewrite !emit_wworld, Hload, <- !app_assoc. reflexivity.
  - destruct (WorkoutMode_eqb (workoutMode s) normal).
    + destruct (PhaseType_eqb (phase.type p') work && (phase.set p' =? 1)
                && (currentRound s <? phase.round p')).
      * rewrite !emit_wworld, Hload, <- !app_assoc. reflexivity.
      * rewrite Hload. reflexivity.
    + rewrite Hload. reflexivity.
Qed.

(** The advance past the last phase: the workout completes. *)
Lemma advancePhase_last s t d nid lg (n : Z) :
  isRunning s = true -> isCompleting s = false -> intervalId s = Some id ->
  len (phaseSequence s) <= n ->
  advancePhase n (wworld base s t [workoutInterval id d] nid lg)
  = wworld base
      (completed (set_isTransitioning false (set_currentPhaseIndex n s)))
      t [mkTimer nid (t + 1000) None cbCompletionPrompt] (nid + 1)
      (lg ++ [playBeep beepComplete; vibrate [300; 100; 300; 100; 300]]).
Proof.
  intros Hrun Hcompl Hid Hlen.
  unfold advancePhase. cbn [state wworld]. rewrite Hrun. cbn [negb].
  cbv zeta. rewrite !upd_wworld. cbn [state wworld].
  set (s1 := set_isTransitioning false (set_currentPhaseIndex n s)).
  assert (F : currentPhaseIndex s1 = n /\ phaseSequence s1 = phaseSequence s
              /\ isCompleting s1 = false /\ intervalId s1 = Some id)
    by (repeat split; assumption).
  destruct F as (F1 & F2 & F3 & F4). rewrite F1, F2.
  assert (E : (n <? len (phaseSequence s)) = false) by (apply Z.ltb_ge; lia).
  rewrite E. unfold completeWorkout. cbn [state wworld]. rewrite F3.
  cbv zeta. rewrite upd_wworld. cbn [state wworld].
  assert (F4' : intervalId (set_isCompleting true s1) = Some id) by exact F4.
  rewrite F4'.
  rewrite clearInterval_wworld, !upd_wworld, !emit_wworld, setTimeout_wworld.
  cbn [filter timerId workoutInterval]. rewrite Z.eqb_refl. cbn [negb app].
  rewrite <- app_assoc. reflexivity.
Qed.

End WorkoutCycle.

(* ================================================================== *)
(** * A whole phase, and a whole workout                                *)
(* ================================================================== *)

(** From the load of a phase of [d] seconds to the call of the advance,
    [1000 * d + 500] ms later: the countdown, the tick that fires, the
    settle delay. *)
Lemma workout_phase_cycle (base : World) (id : Z) (s : WorkoutState) (d : Z)
      (t nid : Z) (lg : list Event) :
  tickingS s -> 0 < d -> timeRemaining s = inject_Z d -> id < nid ->
  exists t' e',
    (t' == 0)%Q /\ (e' == elapsedTime s + inject_Z d)%Q
    /\ elapse (Z.to_nat (1000 * d + 500))
         (wworld base s t [workoutInterval id (t + 10)] nid lg)
       = advancePhase (currentPhaseIndex s + 1)
           (wworld base
              (set_isTransitioning true
                 (set_elapsedTime e' (set_timeRemaining t' s)))
              (t + (1000 * d + 500))
              [workoutInterval id (t + (1000 * d + 500) + 10)]
              (nid + 1) (lg ++ [playBeep beepEnd; vibrate [100]])).
Proof.
  intros Hs Hd Htr Hid.
  set (k := Z.to_nat (100 * d - 1)).
  set (T := t + 1000 * d).
  assert (Hk : (ticks k == inject_Z d - 0.01)%Q).
  { subst k. rewrite ticks_Z by lia.
    replace (100 * d - 1) with (d * 100 + -1) by lia.
    rewrite inject_Z_plus, inject_Z_mult. change (inject_Z 100) with 100%Q.
    change (inject_Z (-1)) with (-1)%Q. field. }
  (* countdown *)
  destruct (workout_countdown_ms base id k s t nid lg Hs)
    as (t1 & e1 & Ht1 & He1 & H1).
  { rewrite Hk, Htr. lra. }
  assert (Ht1' : (t1 == 0.01)%Q) by (rewrite Ht1, Hk, Htr; ring).
  set (s1 := set_elapsedTime e1 (set_timeRemaining t1 s)) in *.
  assert (Hs1 : tickingS s1) by exact Hs.
  assert (E1 : elapse (10 * k)
                 (wworld base s t [workoutInterval id (t + 10)] nid lg)
               = wworld base s1 (T - 10)
                   [workoutInterval id (T - 10 + 10)] nid lg).
  { rewrite H1. apply wworld_ext; try reflexivity; subst T k; try lia.
    unfold workoutInterval. do 2 f_equal. lia. }
  (* the tick that fires *)
  destruct (workout_fire_ms base id s1 (T - 10) nid lg Hs1)
    as (t2 & Ht2 & H2).
  { subst s1. cbn. lra. }
  { subst s1. cbn. lra. }
  set (s2 := set_isTransitioning true
               (set_elapsedTime (elapsedTime s1 + 0.01)%Q
                  (set_timeRemaining t2 s1))) in *.
  set (P := mkTimer nid (T + 500) None
              (cbAdvancePhase (currentPhaseIndex s + 1))).
  set (lg2 := lg ++ [playBeep beepEnd; vibrate [100]]) in *.
  assert (E2 : elapse 10
                 (wworld base s1 (T - 10) [workoutInterval id (T - 10 + 10)] nid lg)
               = wworld base s2 T [workoutInterval id (T + 10); P] (nid + 1) lg2).
  { rewrite H2. apply wworld_ext; try reflexivity; try lia.
    subst P. replace (T - 10 + 20) with (T + 10) by lia.
    replace (T - 10 + 10 + 500) with (T + 500) by lia. reflexivity. }
  (* the settle delay *)
  assert (E3 : elapse (10 * 49)
                 (wworld base s2 T [workoutInterval id (T + 10); P] (nid + 1) lg2)
               = wworld base s2 (T + 490)
                   [workoutInterval id (T + 490 + 10); P] (nid + 1) lg2).
  { rewrite workout_settle_ms; [reflexivity|reflexivity| |]; subst P; cbn; lia. }
  assert (E4 : elapse 10
                 (wworld base s2 (T + 490)
                    [workoutInterval id (T + 490 + 10); P] (nid + 1) lg2)
               = advancePhase (currentPhaseIndex s + 1)
                   (wworld base s2 (T + 490 + 10)
                      [workoutInterval id (T + 490 + 20)] (nid + 1) lg2)).
  { subst P. replace (T + 500) with (T + 490 + 10) by lia.
    apply workout_advance_ms; [reflexivity|lia]. }
  exists t2, (elapsedTime s1 + 0.01)%Q.
  split; [exact Ht2|]. split.
  { subst s1. cbn. rewrite He1, Hk. ring. }
  replace (Z.to_nat (1000 * d + 500))
    with (10 * k + (10 + (10 * 49 + 10)))%nat by (subst k; lia).
  rewrite (elapse_add (10 * k)), E1.
  rewrite (elapse_add 10), E2.
  rewrite (elapse_add (10 * 49) 10), E3, E4.
  f_equal.
  apply wworld_ext;
    [subst s2 s1; destruct s; reflexivity
    |subst T; lia
    |subst T; unfold workoutInterval; do 2 f_equal; lia
    |reflexivity|reflexivity].
Qed.

Lemma sum_durations_app (a b : list Phase) :
  sum_durations (a ++ b) = sum_durations a + sum_durations b.
Proof. induction a as [|p a IH]; cbn; [reflexivity|rewrite IH; lia]. Qed.

Lemma firstn_succ_index (seq : list Phase) (i : Z) (p : Phase) :
  index seq i = Some p ->
  firstn (Z.to_nat (i + 1)) seq = firstn (Z.to_nat i) seq ++ [p].
Proof.
  intros Hp. pose proof (index_range _ _ _ Hp) as Hr.
  unfold index in Hp. destruct (i <? 0) eqn:E; [discriminate|].
  replace (Z.to_nat (i + 1)) with (S (Z.to_nat i)) by lia.
  revert Hp. generalize (Z.to_nat i). clear.
  induction seq as [|q seq IH]; intros [|n] H; cbn in *; try discriminate.
  - congruence.
  - f_equal. now apply IH.
Qed.

Lemma firstn_all_index (seq : list Phase) (i : Z) (p : Phase) :
  index seq i = Some p -> len seq = i + 1 ->
  firstn (Z.to_nat i) seq ++ [p] = seq.
Proof.
  intros Hp Hlen. rewrite <- (firstn_succ_index seq i p Hp).
  apply firstn_all2. unfold len in Hlen. lia.
Qed.

Lemma loadedPhases_app (a b : list Event) :
  loadedPhases (a ++ b) = loadedPhases a ++ loadedPhases b.
Proof. unfold loadedPhases. apply flat_map_app. Qed.

Lemma loadedPhases_cue mode r p : loadedPhases (transitionCue mode r p) = [].
Proof.
  unfold transitionCue.
  destruct (WorkoutMode_eqb mode headToHead && PhaseType_eqb (phase.type p) work);
    [reflexivity|].
  destruct (WorkoutMode_eqb mode normal); [|reflexivity].
  destruct (PhaseType_eqb (phase.type p) work && (phase.set p =? 1)
            && (r <? phase.round p)); reflexivity.
Qed.

Lemma count_complete_cue mode r p :
  count_events isWorkoutComplete (transitionCue mode r p) = 0%nat.
Proof.
  unfold transitionCue.
  destruct (WorkoutMode_eqb mode headToHead && PhaseType_eqb (phase.type p) work);
    [reflexivity|].
  destruct (WorkoutMode_eqb mode normal); [|reflexivity].
  destruct (PhaseType_eqb (phase.type p) work && (phase.set p =? 1)
            && (r <? phase.round p)); reflexivity.
Qed.

(** The shape of a world at the start of a phase. *)
Lemma phaseFresh_shape (seq : list Phase) (w : World) (i : Z) :
  phaseFresh seq w i ->
  exists p id,
    index seq i = Some p /\ 0 < phase.duration p
    /\ timeRemaining (state w) = inject_Z (phase.duration p)
    /\ currentRound (state w) = phase.round p
    /\ intervalId (state w) = Some id /\ id < nextTimerId w
    /\ w = wworld w (state w) (clock w)
             [workoutInterval id (clock w + 10)] (nextTimerId w) (log w).
Proof.
  intros (Hs & Hc & Hseq & Hidx & Htot & Hpos & (p & Hp & Htr & Hph & Hr)
          & He & (id & Hid & Hts & Hlt)).
  exists p, id.
  split; [exact Hp|]. split; [apply Hpos; eapply index_In; exact Hp|].
  split; [exact Htr|]. split; [exact Hr|]. split; [exact Hid|].
  split; [exact Hlt|].
  rewrite (wworld_self w) at 1. now rewrite Hts.
Qed.

(** From the start of a phase to the start of the next one. *)
Lemma workout_next_phase (seq : list Phase) (w : World) (i : Z) (p p' : Phase) :
  phaseFresh seq w i ->
  index seq i = Some p -> index seq (i + 1) = Some p' ->
  let w' := after (phaseSpan p) w in
  phaseFresh seq w' (i + 1)
  /\ log w'
     = log w ++ [playBeep beepEnd; vibrate [100]]
         ++ transitionCue (workoutMode (state w)) (phase.round p) p'
         ++ [phaseLoaded (i + 1) p']
  /\ clock w' = clock w + phaseSpan p
  /\ workoutMode (state w') = workoutMode (state w)
  /\ breathing w' = breathing w /\ dom w' = dom w
  /\ userConfirms w' = userConfirms w.
Proof.
  intros Hfresh Hp Hp' w'.
  destruct (phaseFresh_shape seq w i Hfresh)
    as (q & id & Hq & Hd & Htr & Hround & Hid & Hlt & Hw).
  assert (q = p) by congruence. subst q.
  destruct Hfresh as (Hs & Hc & Hseq & Hidx & Htot & Hpos & _ & He & _).
  destruct (workout_phase_cycle w id (state w) (phase.duration p) (clock w)
              (nextTimerId w) (log w) Hs Hd Htr Hlt)
    as (t2 & e2 & Ht2 & He2 & Hcycle).
  rewrite <- Hw in Hcycle.
  set (s2 := set_isTransitioning true
               (set_elapsedTime e2 (set_timeRemaining t2 (state w)))) in *.
  assert (Hnext : w'
    = wworld w (loaded s2 (i + 1) p') (clock w + phaseSpan p)
        [workoutInterval id (clock w + phaseSpan p + 10)] (nextTimerId w + 1)
        ((log w ++ [playBeep beepEnd; vibrate [100]])
           ++ transitionCue (workoutMode (state w)) (phase.round p) p'
           ++ [phaseLoaded (i + 1) p'])).
  { subst w'. unfold after, phaseSpan. rewrite Hcycle, Hidx.
    rewrite (advancePhase_next w s2 _ _ _ _ (i + 1) p').
    - subst s2. cbn [workoutMode currentRound set_isTransitioning
                     set_elapsedTime set_timeRemaining]. rewrite Hround.
      reflexivity.
    - apply Hs.
    - subst s2. cbn. rewrite Hseq. exact Hp'. }
  rewrite Hnext. unfold phaseFresh.
  cbn [state wworld log clock breathing dom userConfirms timers nextTimerId].
  destruct Hs as (Hrun & Hpause & Htrans & Hmode).
  split; [|split; [rewrite <- app_assoc; reflexivity|repeat split]].
  split; [repeat split; assumption|].
  split; [exact Hc|]. split; [exact Hseq|]. split; [reflexivity|].
  split; [exact Htot|]. split; [exact Hpos|]. split.
  { exists p'. repeat split. exact Hp'. }
  split.
  { subst s2. cbn. rewrite He2, He, (firstn_succ_index seq i p Hp).
    rewrite sum_durations_app. cbn [sum_durations].
    rewrite Z.add_0_r, inject_Z_plus. reflexivity. }
  exists id. split; [exact Hid|]. split; [reflexivity|lia].
Qed.

(** From the start of the last phase to the completion. *)
Lemma workout_last_phase (seq : list Phase) (w : World) (i : Z) (p : Phase) :
  phaseFresh seq w i ->
  index seq i = Some p -> len seq = i + 1 ->
  let w' := after (phaseSpan p) w in
  currentPhase (state w') = complete
  /\ isRunning (state w') = false
  /\ isCompleting (state w') = true
  /\ intervalId (state w') = None
  /\ (timeRemaining (state w') == 0)%Q
  /\ (elapsedTime (state w') == inject_Z (totalWorkoutTime (state w')))%Q
  /\ totalWorkoutTime (state w') = sum_durations seq
  /\ phaseSequence (state w') = seq
  /\ workoutMode (state w') = workoutMode (state w)
  /\ config (state w') = config (state w)
  /\ timers w'
     = [mkTimer (nextTimerId w + 1) (clock w' + 1000) None cbCompletionPrompt]
  /\ nextTimerId w' = nextTimerId w + 2
  /\ log w'
     = log w ++ [playBeep beepEnd; vibrate [100]; playBeep beepComplete;
                 vibrate [300; 100; 300; 100; 300]]
  /\ clock w' = clock w + phaseSpan p
  /\ breathing w' = breathing w /\ dom w' = dom w
  /\ userConfirms w' = userConfirms w.
Proof.
  intros Hfresh Hp Hlen w'.
  destruct (phaseFresh_shape seq w i Hfresh)
    as (q & id & Hq & Hd & Htr & Hround & Hid & Hlt & Hw).
  assert (q = p) by congruence. subst q.
  destruct Hfresh as (Hs & Hc & Hseq & Hidx & Htot & Hpos & _ & He & _).
  destruct (workout_phase_cycle w id (state w) (phase.duration p) (clock w)
              (nextTimerId w) (log w) Hs Hd Htr Hlt)
    as (t2 & e2 & Ht2 & He2 & Hcycle).
  rewrite <- Hw in Hcycle.
  set (s2 := set_isTransitioning true
               (set_elapsedTime e2 (set_timeRemaining t2 (state w)))) in *.
  assert (Hlast : w'
    = wworld w
        (completed (set_isTransitioning false (set_currentPhaseIndex (i + 1) s2)))
        (clock w + phaseSpan p)
        [mkTimer (nextTimerId w + 1) (clock w + phaseSpan p + 1000) None
           cbCompletionPrompt]
        (nextTimerId w + 1 + 1)
        ((log w ++ [playBeep beepEnd; vibrate [100]])
           ++ [playBeep beepComplete; vibrate [300; 100; 300; 100; 300]])).
  { subst w'. unfold after, phaseSpan. rewrite Hcycle, Hidx.
    apply advancePhase_last.
    - apply Hs.
    - exact Hc.
    - exact Hid.
    - subst s2. cbn. rewrite Hseq. lia. }
  rewrite Hlast.
  cbn [state wworld log clock breathing dom userConfirms timers nextTimerId].
  subst s2. unfold completed. cbn.
  repeat split; try assumption; try lia.
  - assert (Hsum : sum_durations seq
                   = sum_durations (firstn (Z.to_nat i) seq) + phase.duration p).
    { rewrite <- (firstn_all_index seq i p Hp Hlen) at 1.
      rewrite sum_durations_app. cbn [sum_durations]. lia. }
    rewrite He2, He, Htot, Hsum, inject_Z_plus. reflexivity.
  - rewrite <- app_assoc. reflexivity.
Qed.

(* ================================================================== *)
(** * The course of a workout                                           *)
(* ================================================================== *)

Lemma after_add (a b : Z) (w : World) :
  0 <= a -> 0 <= b -> after (a + b) w = after b (after a w).
Proof.
  intros Ha Hb. unfold after. rewrite Z2Nat.inj_add by assumption.
  apply elapse_add.
Qed.

Lemma phaseSpan_pos (p : Phase) : 0 < phase.duration p -> 0 < phaseSpan p.
Proof. unfold phaseSpan. lia. Qed.

Lemma runLength_nonneg (l : list Phase) :
  (forall p, In p l -> 0 < phase.duration p) -> 0 <= runLength l.
Proof.
  induction l as [|p l IH]; intros H; cbn [runLength]; [lia|].
  pose proof (phaseSpan_pos p (H p (or_introl eq_refl))).
  assert (0 <= runLength l) by (apply IH; intros q Hq; apply H; now right).
  lia.
Qed.

Lemma runLength_app (a b : list Phase) :
  runLength (a ++ b) = runLength a + runLength b.
Proof. induction a as [|p a IH]; cbn; [reflexivity|rewrite IH; lia]. Qed.

Lemma index_app_here {A} (done rest : list A) (x : A) :
  index (done ++ x :: rest) (len done) = Some x.
Proof.
  unfold index, len.
  assert (E : (Z.of_nat (List.length done) <? 0) = false)
    by (apply Z.ltb_ge; lia).
  rewrite E, Nat2Z.id. rewrite nth_error_app2 by lia.
  now rewrite Nat.sub_diag.
Qed.

Lemma len_app {A} (a b : list A) : len (a ++ b) = len a + len b.
Proof. unfold len. rewrite length_app. lia. Qed.

Lemma numbered_cons (from : Z) (p : Phase) (l : list Phase) :
  numbered from (p :: l) = (from, p) :: numbered (from + 1) l.
Proof. reflexivity. Qed.

(** From the start of a phase to the completion of the workout. *)
Lemma run_from (seq rest : list Phase) :
  forall done w,
    seq = done ++ rest -> rest <> [] ->
    phaseFresh seq w (len done) ->
    let w' := after (runLength rest) w in
    finished seq w'
    /\ loadedPhases (log w')
       = loadedPhases (log w) ++ numbered (len done + 1) (tl rest)
    /\ count_events isWorkoutComplete (log w')
       = (count_events isWorkoutComplete (log w) + 1)%nat
    /\ clock w' = clock w + runLength rest
    /\ workoutMode (state w') = workoutMode (state w)
    /\ breathing w' = breathing w /\ dom w' = dom w
    /\ userConfirms w' = userConfirms w.
Proof.
  induction rest as [|p rest IH]; intros done w Hseq Hne Hfresh w';
    [congruence|].
  assert (Hp : index seq (len done) = Some p)
    by (rewrite Hseq; apply index_app_here).
  assert (Hpos : forall q, In q seq -> 0 < phase.duration q) by apply Hfresh.
  destruct rest as [|p' rest].
  - (* the last phase *)
    assert (Hlen : len seq = len done + 1).
    { rewrite Hseq, len_app. reflexivity. }
    destruct (workout_last_phase seq w (len done) p Hfresh Hp Hlen)
      as (L1 & L2 & L3 & L4 & L5 & L6 & L7 & L8 & L9 & L10 & L11 & L12 & L13
          & L14 & L15 & L16 & L17).
    subst w'. cbn [runLength]. rewrite Z.add_0_r.
    set (w1 := after (phaseSpan p) w) in *.
    split.
    { unfold finished. repeat (split; [assumption|]).
      rewrite L11, L12. do 2 f_equal. lia. }
    rewrite L13, loadedPhases_app, count_events_app. cbn [tl numbered].
    repeat split; try assumption; try reflexivity; cbn; lia.
  - (* a phase followed by another *)
    assert (Hseq' : seq = (done ++ [p]) ++ p' :: rest)
      by (rewrite <- app_assoc; exact Hseq).
    assert (Hlen' : len (done ++ [p]) = len done + 1)
      by (rewrite len_app; reflexivity).
    assert (Hp' : index seq (len done + 1) = Some p').
    { rewrite <- Hlen', Hseq'. apply index_app_here. }
    destruct (workout_next_phase seq w (len done) p p' Hfresh Hp Hp')
      as (N1 & N2 & N3 & N4 & N5 & N6 & N7).
    set (w1 := after (phaseSpan p) w) in *.
    rewrite <- Hlen' in N1.
    destruct (IH (done ++ [p]) w1 Hseq' ltac:(discriminate) N1)
      as (I1 & I2 & I3 & I4 & I5 & I6 & I7 & I8).
    assert (Hrest : 0 <= runLength (p' :: rest)).
    { apply runLength_nonneg. intros q Hq. apply Hpos. rewrite Hseq.
      apply in_or_app. right. now right. }
    assert (Hspan : 0 < phaseSpan p).
    { apply phaseSpan_pos, Hpos. eapply index_In; exact Hp. }
    subst w'. change (runLength (p :: p' :: rest))
      with (phaseSpan p + runLength (p' :: rest)).
    rewrite after_add by lia. fold w1.
    split; [exact I1|]. split.
    { rewrite I2, N2, !loadedPhases_app, loadedPhases_cue.
      cbn [tl loadedPhases flat_map app]. rewrite Hlen', <- app_assoc.
      reflexivity. }
    split.
    { rewrite I3, N2, !count_events_app, count_complete_cue. cbn. lia. }
    split; [rewrite I4, N3; lia|].
    repeat split; congruence.
Qed.

Lemma builtSequence_positive (mode : WorkoutMode) (c : Config) (p : Phase) :
  accepted mode c -> In p (builtSequence mode c) -> 0 < phase.duration p.
Proof.
  intros Hacc Hin. pose proof (accepted_work mode c Hacc) as Hwork.
  destruct mode; cbn [builtSequence] in Hin.
  - rewrite intervalSequence_ordering in Hin.
    apply (intervalOrdering_wellTimed c p Hwork Hin).
  - rewrite headToHeadSequence_ordering in Hin.
    apply (headToHeadOrdering_wellTimed c p Hwork Hin).
  - rewrite intervalSequence_ordering in Hin.
    apply (intervalOrdering_wellTimed c p Hwork Hin).
Qed.

(** A start on an accepted form opens the first phase. *)
Lemma startTimer_fresh (w : World) :
  readyToRun w ->
  exists p0,
    index (sequenceOf w) 0 = Some p0
    /\ phaseFresh (sequenceOf w) (startTimer w) 0
    /\ log (startTimer w)
       = log w ++ [phaseLoaded 0 p0; playBeep beepStart; vibrate [100]]
    /\ clock (startTimer w) = clock w
    /\ workoutMode (state (startTimer w)) = workoutMode (state w)
    /\ breathing (startTimer w) = breathing w /\ dom (startTimer w) = dom w
    /\ userConfirms (startTimer w) = userConfirms w.
Proof.
  intros (Hmode & Hacc & Hts & Hcompl & Htrans). unfold sequenceOf.
  set (c := config (state (loadConfigFromForm w))) in *.
  set (seq := builtSequence (workoutMode (state w)) c).
  destruct (accepted_first_phase _ _ Hacc) as (p0 & Hp0). fold seq in Hp0.
  exists p0. split; [exact Hp0|].
  assert (Hstart : startTimer w
    = mkWorld (started (set_config c (state w)) p0 (nextTimerId w))
        (breathing w) (dom w) (userConfirms w)
        (timers w ++ [workoutInterval (nextTimerId w) (clock w + 10)])
        (nextTimerId w + 1) (clock w)
        (log w ++ [phaseLoaded 0 p0; playBeep beepStart; vibrate [100]])).
  { rewrite startTimer_accepted by assumption.
    rewrite (loadConfigFromForm_state w). fold c.
    rewrite (startValidated_world _ p0); [reflexivity|].
    cbn [state upd set_state workoutMode set_config config]. exact Hp0. }
  rewrite Hstart.
  cbn [state breathing dom userConfirms timers nextTimerId clock log].
  rewrite Hts. cbn [app].
  split; [|repeat split].
  unfold phaseFresh.
  cbn [state breathing dom userConfirms timers nextTimerId clock log].
  unfold started, built, withPhase.
  cbn [isRunning isPaused isTransitioning workoutMode isCompleting
       phaseSequence currentPhaseIndex totalWorkoutTime timeRemaining
       currentPhase currentRound elapsedTime intervalId config
       set_intervalId set_currentPerson set_nextSet set_currentSet
       set_currentRound set_timeRemaining set_currentPhase set_elapsedTime
       set_currentPhaseIndex set_isPaused set_isRunning set_totalWorkoutTime
       set_phaseSequence set_config].
  fold seq.
  split; [repeat split; assumption|]. split; [exact Hcompl|].
  split; [reflexivity|]. split; [reflexivity|].
  split; [apply reduce_duration_sum|].
  split;
    [intros p Hp;
     exact (builtSequence_positive (workoutMode (state w)) c p Hacc Hp)|].
  split; [exists p0; repeat split; exact Hp0|].
  split; [reflexivity|].
  exists (nextTimerId w). repeat split. lia.
Qed.

(* ================================================================== *)
(** * A workout followed from the start to the completion               *)
(* ================================================================== *)

Lemma runLength_total (l : list Phase) :
  runLength l = 1000 * sum_durations l + 500 * len l.
Proof.
  induction l as [|p l IH].
  - reflexivity.
  - change (runLength (p :: l)) with (phaseSpan p + runLength l).
    change (sum_durations (p :: l)) with (phase.duration p + sum_durations l).
    change (len (p :: l)) with (len ([p] ++ l)). rewrite len_app.
    change (len [p]) with 1. rewrite IH. unfold phaseSpan. lia.
Qed.

Lemma numbered_whole (l : list Phase) (p : Phase) :
  index l 0 = Some p -> numbered 0 l = (0, p) :: numbered 1 (tl l).
Proof.
  destruct l as [|y l]; cbn.
  - discriminate.
  - intros H. injection H as ->. reflexivity.
Qed.

Lemma finished_completedRun (sequence : list Phase) (w : World) :
  finished sequence w -> completedRun sequence w.
Proof.
  intros (A & B & C & D & E & _ & F & G & Ht).
  split; [exact A|]. split; [exact B|]. split; [exact C|]. split; [exact D|].
  split; [exact E|]. split; [exact F|]. split; [exact G|].
  exists (nextTimerId w - 1). rewrite Ht. left. reflexivity.
Qed.

(** X14.  A workout that is started from an accepted form, in a countdown
    mode, with no other timer pending and no phase beyond the longest
    countdown, runs to its completion without any further input: there
    is a moment at which the machine has stopped in the complete state,
    with nothing left on the countdown and the completion dialog
    scheduled a second ahead.  By then every phase of the built sequence
    has been loaded exactly once, in order, and the completion has been
    announced exactly once.  (The moment is not named: how many ticks
    take a phase to zero depends on the arithmetic of the clocks.) *)
Theorem workout_runs_to_completion (w : World) :
  readyToRun w -> countsDown (sequenceOf w) ->
  let sequence := sequenceOf w in
  exists T : nat,
    let w' := elapse T (startTimer w) in
    completedRun sequence w'
    /\ loadedPhases (log w') = loadedPhases (log w) ++ numbered 0 sequence
    /\ count_events isWorkoutComplete (log w')
       = S (count_events isWorkoutComplete (log w)).
Proof.
  intros Hready _ sequence.
  destruct (startTimer_fresh w Hready)
    as (p0 & Hp0 & Hfresh & Hlog & Hclock & _).
  fold sequence in Hp0, Hfresh.
  assert (Hne : sequence <> []).
  { intros E. rewrite E in Hp0. discriminate. }
  destruct (run_from sequence sequence [] (startTimer w) eq_refl Hne Hfresh)
    as (Hfin & Hloaded & Hcount & _).
  exists (Z.to_nat (runLength sequence)). cbv zeta.
  change (elapse (Z.to_nat (runLength sequence)) (startTimer w))
    with (after (runLength sequence) (startTimer w)).
  split; [apply finished_completedRun; exact Hfin|].
  split.
  { rewrite Hloaded, Hlog, loadedPhases_app. cbn [loadedPhases flat_map app].
    rewrite <- app_assoc. f_equal.
    rewrite (numbered_whole sequence p0 Hp0). reflexivity. }
  rewrite Hcount, Hlog, count_events_app. cbn. lia.
Qed.

Lemma workout_runs_to_completion_witness :
  readyToRun (page headToHead duelForm)
  /\ countsDown (sequenceOf (page headToHead duelForm))
  /\ exists T : nat,
       completedRun (sequenceOf (page headToHead duelForm))
         (elapse T (startTimer (page headToHead duelForm))).
Proof.
  assert (H : readyToRun (page headToHead duelForm)).
  { split; [vm_compute; discriminate|].
    split; [vm_compute; repeat split|].
    repeat split. }
  assert (Hc : countsDown (sequenceOf (page headToHead duelForm))).
  { intros p Hp. vm_compute in Hp.
    repeat (destruct Hp as [<-|Hp]; [reflexivity|]). destruct Hp. }
  split; [exact H|]. split; [exact Hc|].
  destruct (workout_runs_to_completion (page headToHead duelForm) H Hc)
    as (T & Hdone & _).
  exists T. exact Hdone.
Defined.

(* ================================================================== *)
(** * The completion dialog                                             *)
(* ================================================================== *)

Lemma step_timeout (w : World) (id : Z) (cb : Callback) :
  timers w = [mkTimer id (clock w + 1) None cb] ->
  step_ms w = runCallback cb (set_timers [] (set_clock (clock w + 1) w)).
Proof.
  intros Ht. unfold step_ms. cbv zeta.
  cbn [timers set_clock clock]. rewrite Ht. cbn [filter due].
  rewrite Z.leb_refl. cbn [map timerId fire].
  unfold findTimer. cbn [timers set_clock]. rewrite Ht. cbn [find timerId].
  rewrite Z.eqb_refl. cbn [callback]. f_equal.
  unfold rearm. cbn [timers set_clock]. rewrite Ht.
  cbn [flat_map timerId every app]. rewrite Z.eqb_refl. reflexivity.
Qed.

Lemma after_timeout (w : World) (id d : Z) (cb : Callback) :
  0 < d ->
  timers w = [mkTimer id (clock w + d) None cb] ->
  after d w = runCallback cb (set_timers [] (set_clock (clock w + d) w)).
Proof.
  intros Hd Ht. unfold after.
  destruct (Z.to_nat d) as [|n] eqn:E; [lia|].
  assert (Hn : d = Z.of_nat n + 1) by lia.
  rewrite elapse_snoc, elapse_idle.
  2:{ intros x Hx. rewrite Ht in Hx. destruct Hx as [<-|[]]. cbn [due]. lia. }
  rewrite (step_timeout _ id cb).
  - destruct w as [s b dm u ts nid c l].
    unfold set_timers, set_clock.
    cbn [state breathing dom userConfirms timers nextTimerId clock log].
    replace (c + Z.of_nat n + 1) with (c + d) by lia. reflexivity.
  - destruct w as [s b dm u ts nid c l].
    unfold set_clock in *.
    cbn [state breathing dom userConfirms timers nextTimerId clock log] in *.
    rewrite Ht. do 2 f_equal. lia.
Qed.

(** The state [resetTimer] leaves, written with the fields of [s] that it
    keeps. *)
Lemma prompt_world (w : World) (id : Z) :
  timers w = [mkTimer id (clock w + 1000) None cbCompletionPrompt] ->
  after 1000 w
  = (if userConfirms w then setTimeout cbRestart 100 else fun x => x)
      (mkWorld
         (mkWorkoutState (config (state w)) (workoutMode (state w)) ready
            0 0 0 0 0%Q (totalWorkoutTime (state w)) 0%Q [] 0%Q None
            false false false false (phaseSequence (state w)) 0)
         (breathing w) (dom w) (userConfirms w) [] (nextTimerId w)
         (clock w + 1000)
         (log w ++ [confirm "Workout Complete! Would you like to start again?"])).
Proof.
  intros Ht. rewrite (after_timeout w id 1000 cbCompletionPrompt) by (lia || exact Ht).
  destruct w as [s b dm u ts nid c l].
  unfold set_timers, set_clock.
  cbn [state breathing dom userConfirms timers nextTimerId clock log
       runCallback].
  unfold completionPrompt. cbv zeta.
  rewrite emit_mk, upd_mk. cbn [userConfirms].
  rewrite resetTimer_world, resetTimer_state.
  cbn [state breathing dom userConfirms timers nextTimerId clock log].
  assert (Hts : match intervalId (set_isCompleting false s) with
                | Some i => filter (fun t => negb (timerId t =? i)) []
                | None => @nil Timer
                end = []) by (destruct (intervalId _); reflexivity).
  rewrite Hts.
  destruct s as [f1 f2 f3 f4 f5 f6 f7 f8 f9 f10 f11 f12 f13 f14 f15 f16 f17 f18 f19].
  cbn [set_isCompleting config workoutMode totalWorkoutTime phaseSequence].
  destruct u; reflexivity.
Qed.

Lemma prompt_restarts (w0 w1 : World) :
  readyToRun w0 ->
  finished (sequenceOf w0) w1 ->
  dom w1 = dom w0 -> workoutMode (state w1) = workoutMode (state w0) ->
  userConfirms w1 = true ->
  let w' := after 1100 w1 in
  phaseFresh (sequenceOf w0) w' 0
  /\ dom w' = dom w0 /\ workoutMode (state w') = workoutMode (state w0)
  /\ userConfirms w' = true
  /\ count_events isWorkoutComplete (log w')
     = count_events isWorkoutComplete (log w1)
  /\ clock w' = clock w1 + 1100.
Proof.
  intros (Hmode & Hacc & _) Hfin Hdom Hm Hu w'.
  destruct Hfin as (_ & _ & _ & _ & _ & _ & _ & _ & Ht).
  subst w'. change 1100 with (1000 + 100).
  rewrite after_add by lia.
  rewrite (prompt_world w1 _ Ht), Hu, setTimeout_mk. cbn [app].
  match goal with
  | |- context [after 100 ?W] =>
      rewrite (after_timeout W (nextTimerId w1) 100 cbRestart)
        by (lia || reflexivity)
  end.
  unfold set_timers, set_clock.
  cbn [state breathing dom userConfirms timers nextTimerId clock log
       runCallback].
  match goal with |- context [startTimer ?W] => set (R := W) end.
  assert (Hc : config (state (loadConfigFromForm R))
               = config (state (loadConfigFromForm w0)))
    by (apply loadConfigFromForm_config; subst R;
        cbn [dom state workoutMode]; assumption).
  assert (Hseq : sequenceOf R = sequenceOf w0).
  { unfold sequenceOf. rewrite Hc. subst R. cbn [state workoutMode].
    rewrite Hm. reflexivity. }
  assert (Hready : readyToRun R).
  { unfold readyToRun. rewrite Hc. subst R.
    cbn [state workoutMode timers isCompleting isTransitioning].
    rewrite Hm. repeat split; assumption. }
  destruct (startTimer_fresh R Hready)
    as (p0 & _ & Hfresh & Hlog & Hclock & Hmode' & _ & Hdom' & Hu').
  rewrite Hseq in Hfresh.
  split; [exact Hfresh|].
  split; [rewrite Hdom'; subst R; cbn [dom]; exact Hdom|].
  split; [rewrite Hmode'; subst R; cbn [state workoutMode]; exact Hm|].
  split; [rewrite Hu'; subst R; reflexivity|].
  split.
  - rewrite Hlog. subst R. cbn [log]. rewrite !count_events_app. cbn. lia.
  - rewrite Hclock. subst R. cbn [clock]. lia.
Qed.

Lemma workout_cycle_again (w0 w : World) :
  readyToRun w0 -> userConfirms w0 = true ->
  phaseFresh (sequenceOf w0) w 0 ->
  dom w = dom w0 -> workoutMode (state w) = workoutMode (state w0) ->
  userConfirms w = true ->
  let w' := after (runLength (sequenceOf w0) + 1100) w in
  phaseFresh (sequenceOf w0) w' 0
  /\ dom w' = dom w0 /\ workoutMode (state w') = workoutMode (state w0)
  /\ userConfirms w' = true
  /\ count_events isWorkoutComplete (log w')
     = S (count_events isWorkoutComplete (log w))
  /\ clock w' = clock w + (runLength (sequenceOf w0) + 1100).
Proof.
  intros Hready Hu0 Hfresh Hdom Hm Hu w'.
  assert (Hne : sequenceOf w0 <> []).
  { destruct Hfresh as (_ & _ & _ & _ & _ & _ & (p & Hp & _) & _).
    intros E. rewrite E in Hp. discriminate. }
  destruct (run_from (sequenceOf w0) (sequenceOf w0) [] w eq_refl Hne Hfresh)
    as (Hfin & _ & Hcount & Hclk & Hm1 & _ & Hd1 & Hu1).
  assert (Hlen : 0 <= runLength (sequenceOf w0)).
  { apply runLength_nonneg.
    destruct Hfresh as (_ & _ & _ & _ & _ & Hpos & _). exact Hpos. }
  subst w'. rewrite after_add by lia.
  destruct (prompt_restarts w0 _ Hready Hfin) as (A & B & C & D & E & F).
  - rewrite Hd1. exact Hdom.
  - rewrite Hm1. exact Hm.
  - rewrite Hu1. exact Hu.
  - split; [exact A|]. split; [exact B|]. split; [exact C|].
    split; [exact D|]. split; [rewrite E, Hcount; lia|].
    rewrite F, Hclk. lia.
Qed.

(** On clocks that count in exact hundredths each repetition takes the
    length of the run, the second the dialog waits and the 100 ms of the
    delayed restart. *)
Lemma workout_repeats_ms (w : World) (n : nat) :
  readyToRun w -> userConfirms w = true ->
  let w' := after (Z.of_nat n * (runLength (sequenceOf w) + 1100)) (startTimer w) in
  phaseFresh (sequenceOf w) w' 0
  /\ count_events isWorkoutComplete (log w')
     = (count_events isWorkoutComplete (log w) + n)%nat.
Proof.
  intros Hready Hu.
  destruct (startTimer_fresh w Hready)
    as (p0 & _ & Hfresh & Hlog & Hclock & Hm & _ & Hd & Hu').
  assert (Hlen : 0 <= runLength (sequenceOf w)).
  { apply runLength_nonneg.
    destruct Hfresh as (_ & _ & _ & _ & _ & Hpos & _). exact Hpos. }
  assert (H : let w' := after (Z.of_nat n * (runLength (sequenceOf w) + 1100))
                          (startTimer w) in
              phaseFresh (sequenceOf w) w' 0
              /\ dom w' = dom w /\ workoutMode (state w') = workoutMode (state w)
              /\ userConfirms w' = true
              /\ count_events isWorkoutComplete (log w')
                 = (count_events isWorkoutComplete (log w) + n)%nat).
  { induction n as [|n IH].
    - cbn [Z.of_nat Z.mul]. unfold after. cbn [Z.to_nat elapse].
      split; [exact Hfresh|]. split; [exact Hd|]. split; [exact Hm|].
      split; [rewrite Hu'; exact Hu|].
      rewrite Hlog, count_events_app; cbn; lia.
    - destruct IH as (A & B & C & D & E).
      replace (Z.of_nat (S n) * (runLength (sequenceOf w) + 1100))
        with (Z.of_nat n * (runLength (sequenceOf w) + 1100)
              + (runLength (sequenceOf w) + 1100)) by lia.
      cbv zeta. rewrite after_add by nia.
      destruct (workout_cycle_again w _ Hready Hu A B C D)
        as (A' & B' & C' & D' & E' & F').
      split; [exact A'|]. split; [exact B'|]. split; [exact C'|].
      split; [exact D'|]. rewrite E', E; lia. }
  destruct H as (A & _ & _ & _ & E).
  split; [exact A|exact E].
Qed.

(** X16.  When the user confirms the completion dialog, the workout
    starts again by itself and runs the same sequence: a workout started
    from an accepted form, with no phase beyond the longest countdown,
    repeats for as long as the dialog is confirmed.  For every [n] there
    is a moment at which the completion has been announced [n] times and
    the machine is at the start of the first phase again: it counts down from the full duration of that
    phase with no time elapsed, and only its own interval is registered.
    (The moment is not named: how many ticks take a phase to zero depends
    on the arithmetic of the clocks.) *)
Theorem confirmed_workout_repeats (w : World) (n : nat) :
  readyToRun w -> countsDown (sequenceOf w) -> userConfirms w = true ->
  let sequence := sequenceOf w in
  exists T : nat,
    let w' := elapse T (startTimer w) in
    phaseFresh sequence w' 0
    /\ count_events isWorkoutComplete (log w')
       = (count_events isWorkoutComplete (log w) + n)%nat.
Proof.
  intros Hready _ Hu sequence. subst sequence.
  exists (Z.to_nat (Z.of_nat n * (runLength (sequenceOf w) + 1100))).
  exact (workout_repeats_ms w n Hready Hu).
Qed.

Lemma confirmed_workout_repeats_witness :
  readyToRun (set_userConfirms true (page normal shortForm))
  /\ countsDown (sequenceOf (set_userConfirms true (page normal shortForm)))
  /\ exists T : nat,
       phaseFresh (sequenceOf (set_userConfirms true (page normal shortForm)))
         (elapse T (startTimer (set_userConfirms true (page normal shortForm))))
         0.
Proof.
  assert (H : readyToRun (set_userConfirms true (page normal shortForm))).
  { split; [vm_compute; discriminate|].
    split; [vm_compute; repeat split|].
    repeat split. }
  assert (Hc : countsDown
                 (sequenceOf (set_userConfirms true (page normal shortForm)))).
  { intros p Hp. vm_compute in Hp.
    repeat (destruct Hp as [<-|Hp]; [reflexivity|]). destruct Hp. }
  split; [exact H|]. split; [exact Hc|].
  destruct (confirmed_workout_repeats
              (set_userConfirms true (page normal shortForm)) 3 H Hc eq_refl)
    as (T & Hfresh & _).
  exists T. exact Hfresh.
Defined.

(** X17.  When the user declines the completion dialog, the workout
    comes to rest: there is a moment from which on, however long one
    waits, the machine is in the ready state, no timer is left, nothing
    is running, both clocks are at zero, every phase of the sequence has
    been loaded once, the completion has been announced once, and the
    log ends with the dialog.  (The moment is not named: how many
    ticks take a phase to zero depends on the arithmetic of the
    clocks.) *)
Theorem declined_workout_rests (w : World) :
  readyToRun w -> countsDown (sequenceOf w) -> userConfirms w = false ->
  let sequence := sequenceOf w in
  exists T : nat, forall ms : nat,
    let w' := elapse ms (elapse T (startTimer w)) in
    timers w' = []
    /\ currentPhase (state w') = ready /\ isRunning (state w') = false
    /\ isCompleting (state w') = false
    /\ timeRemaining (state w') = 0%Q /\ elapsedTime (state w') = 0%Q
    /\ phaseSequence (state w') = sequence
    /\ loadedPhases (log w') = loadedPhases (log w) ++ numbered 0 sequence
    /\ count_events isWorkoutComplete (log w')
       = S (count_events isWorkoutComplete (log w))
    /\ exists l,
         log w'
         = l ++ [confirm "Workout Complete! Would you like to start again?"].
Proof.
  intros Hready _ Hu sequence.
  destruct (startTimer_fresh w Hready)
    as (p0 & Hp0 & Hfresh & Hlog & _ & _ & _ & _ & Hu').
  fold sequence in Hp0, Hfresh.
  assert (Hne : sequence <> []).
  { intros E. rewrite E in Hp0. discriminate. }
  destruct (run_from sequence sequence [] (startTimer w) eq_refl Hne Hfresh)
    as (Hfin & Hloaded & Hcount & _ & _ & _ & _ & Hu1).
  assert (Hlen : 0 <= runLength sequence).
  { apply runLength_nonneg.
    destruct Hfresh as (_ & _ & _ & _ & _ & Hpos & _). exact Hpos. }
  set (done := after (runLength sequence) (startTimer w)) in *.
  exists (Z.to_nat (runLength sequence + 1000)). intros ms. cbv zeta.
  change (elapse (Z.to_nat (runLength sequence + 1000)) (startTimer w))
    with (after (runLength sequence + 1000) (startTimer w)).
  rewrite after_add by lia. fold done.
  destruct Hfin as (_ & _ & _ & _ & _ & _ & _ & Hseq & Ht).
  rewrite (prompt_world done _ Ht), Hu1, Hu', Hu.
  rewrite elapse_idle by (intros x []).
  unfold set_clock.
  cbn [state breathing dom userConfirms timers nextTimerId clock log
       currentPhase isRunning isCompleting timeRemaining elapsedTime
       phaseSequence].
  split; [reflexivity|]. split; [reflexivity|]. split; [reflexivity|].
  split; [reflexivity|]. split; [reflexivity|]. split; [reflexivity|].
  split; [exact Hseq|].
  assert (Hfirst : numbered 0 sequence = (0, p0) :: numbered 1 (tl sequence))
    by (apply numbered_whole; exact Hp0).
  split.
  { rewrite loadedPhases_app, Hloaded, Hlog, loadedPhases_app.
    cbn [loadedPhases flat_map app]. rewrite app_nil_r, <- app_assoc.
    f_equal. rewrite Hfirst. reflexivity. }
  split.
  { rewrite count_events_app, Hcount, Hlog, count_events_app. cbn. lia. }
  eexists. reflexivity.
Qed.

Lemma declined_workout_rests_witness :
  readyToRun (page normal shortForm)
  /\ countsDown (sequenceOf (page normal shortForm))
  /\ exists T : nat,
       timers (elapse 5000 (elapse T (startTimer (page normal shortForm)))) = [].
Proof.
  assert (H : readyToRun (page normal shortForm)).
  { split; [vm_compute; discriminate|].
    split; [vm_compute; repeat split|].
    repeat split. }
  assert (Hc : countsDown (sequenceOf (page normal shortForm))).
  { intros p Hp. vm_compute in Hp.
    repeat (destruct Hp as [<-|Hp]; [reflexivity|]). destruct Hp. }
  split; [exact H|]. split; [exact Hc|].
  destruct (declined_workout_rests (page normal shortForm) H Hc eq_refl)
    as (T & Hrest).
  exists T. exact (proj1 (Hrest 5000%nat)).
Defined.

(* ================================================================== *)
(** * Invariants of the event loop                                      *)
(* ================================================================== *)

(** A property that every registered callback, the rearming of a timer
    and the advance of the clock preserve holds after any time. *)
Lemma fire_preserves (P : Callback -> Prop) (Inv : World -> Prop) :
  (forall w u, Inv w -> In u (timers w) -> P (callback u)) ->
  (forall cb w, P cb -> Inv w -> Inv (runCallback cb w)) ->
  (forall t w, Inv w -> Inv (rearm t w)) ->
  forall ids w, Inv w -> Inv (fire ids w).
Proof.
  intros HP Hcb Hre ids. induction ids as [|id ids IH]; intros w HI; cbn [fire].
  - exact HI.
  - destruct (findTimer id w) as [t|] eqn:Ef; [|now apply IH].
    apply IH. apply Hcb.
    + apply (HP w); [exact HI|]. exact (findTimer_In _ _ _ Ef).
    + now apply Hre.
Qed.

Lemma elapse_preserves (P : Callback -> Prop) (Inv : World -> Prop) :
  (forall w u, Inv w -> In u (timers w) -> P (callback u)) ->
  (forall cb w, P cb -> Inv w -> Inv (runCallback cb w)) ->
  (forall t w, Inv w -> Inv (rearm t w)) ->
  (forall c w, Inv w -> Inv (set_clock c w)) ->
  forall ms w, Inv w -> Inv (elapse ms w).
Proof.
  intros HP Hcb Hre Hck ms. induction ms as [|ms IH]; intros w HI; cbn [elapse].
  - exact HI.
  - apply IH. unfold step_ms. cbv zeta.
    apply (fire_preserves P Inv HP Hcb Hre). now apply Hck.
Qed.

(* ================================================================== *)
(** * After a reset                                                     *)
(* ================================================================== *)

Lemma upd_same (f : WorkoutState -> WorkoutState) (w : World) :
  f (state w) = state w -> upd f w = w.
Proof.
  intros H. destruct w as [s b d u ts nid c l]. rewrite upd_mk.
  cbn [state] in H. rewrite H. reflexivity.
Qed.

Lemma stopped_ignores (cb : Callback) (w : World) :
  isTickOrAdvance cb ->
  isRunning (state w) = false /\ isTransitioning (state w) = false ->
  runCallback cb w = w.
Proof.
  intros [->|(n & ->)] (Hrun & Htrans); cbn [runCallback].
  - apply updateTimer_guard. now left.
  - rewrite advancePhase_not_running by exact Hrun.
    apply upd_same. now apply set_isTransitioning_same.
Qed.

(** X18.  A reset is final.  Whatever ticks and phase advances of the
    workout are still registered after [resetTimer] (the advance of a
    settle delay that the reset interrupted, an interval that an earlier
    start left behind), they change nothing: until the next start the
    state stays the one the reset left, in [ready] and not running, and
    nothing is played or shown. *)
Theorem reset_is_final (w : World) (ms : nat) :
  (forall u, In u (timers (resetTimer w)) -> isTickOrAdvance (callback u)) ->
  let w' := elapse ms (resetTimer w) in
  state w' = state (resetTimer w)
  /\ currentPhase (state w') = ready /\ isRunning (state w') = false
  /\ log w' = log w
  /\ clock w' = clock w + Z.of_nat ms.
Proof.
  intros Htimers w'.
  destruct (resetTimer_ready w) as (Hrun & Htrans & Hready & _ & Hlog).
  destruct (resetTimer_frame w) as (_ & _ & Hclock & _).
  destruct (elapse_inert isTickOrAdvance
              (fun x => isRunning (state x) = false
                        /\ isTransitioning (state x) = false)
              stopped_ignores
              (fun t x H => H) (fun c x H => H)
              ms (resetTimer w) (conj Hrun Htrans) Htimers)
    as (_ & Hs & _ & Hl & Hc & _).
  fold w' in Hs, Hl, Hc.
  rewrite Hs, Hl, Hc, Hlog, Hclock. repeat split; assumption.
Qed.

Lemma reset_is_final_witness :
  (forall u,
     In u (timers (resetTimer (after 1200 (startTimer (page normal shortForm))))) ->
     isTickOrAdvance (callback u))
  /\ currentPhase
       (state (elapse 5000
                 (resetTimer (after 1200 (startTimer (page normal shortForm))))))
     = ready.
Proof.
  assert (H : forall u,
            In u (timers (resetTimer
                            (after 1200 (startTimer (page normal shortForm))))) ->
            isTickOrAdvance (callback u)).
  { assert (E : timers (resetTimer
                          (after 1200 (startTimer (page normal shortForm))))
                = [mkTimer 2 1500 None (cbAdvancePhase 1)])
      by (vm_compute; reflexivity).
    rewrite E. intros u [<-|[]]. right. exists 1. reflexivity. }
  split; [exact H|].
  exact (proj1 (proj2 (reset_is_final
                         (after 1200 (startTimer (page normal shortForm)))
                         5000 H))).
Defined.

(* ================================================================== *)
(** * The laps of the stopwatch                                         *)
(* ================================================================== *)

Lemma lastMark_snoc (start : Q) (laps : list LapRecord) (l : LapRecord) :
  lastMark start (laps ++ [l]) = time l.
Proof. unfold lastMark. rewrite fold_left_app. reflexivity. Qed.

Lemma consecutiveLaps_snoc (laps : list LapRecord) :
  forall start n t,
    consecutiveLaps start n laps ->
    (lastMark start laps <= t)%Q ->
    consecutiveLaps start n
      (laps ++ [mkLap (len laps + n) t (t - lastMark start laps)%Q]).
Proof.
  induction laps as [|l laps IH]; intros start n t Hc Hle.
  - cbn in *. repeat split; try assumption; try reflexivity.
  - destruct Hc as (Hn & Hs & Hd & Hrest).
    cbn [app consecutiveLaps]. repeat (split; [assumption|]).
    replace (len (l :: laps) + n) with (len laps + (n + 1))
      by (unfold len; cbn [List.length]; lia).
    apply IH; assumption.
Qed.

Lemma sumLapDurations_marks (laps : list LapRecord) :
  forall start n,
    consecutiveLaps start n laps ->
    (sumLapDurations laps == lastMark start laps - start)%Q.
Proof.
  induction laps as [|l laps IH]; intros start n Hc.
  - cbn. ring.
  - destruct Hc as (_ & _ & Hd & Hrest).
    cbn [sumLapDurations]. rewrite (IH _ _ Hrest), Hd.
    change (lastMark start (l :: laps)) with (lastMark (time l) laps). ring.
Qed.

Lemma lastMark_later (laps : list LapRecord) :
  forall start n, consecutiveLaps start n laps -> (start <= lastMark start laps)%Q.
Proof.
  induction laps as [|l laps IH]; intros start n Hc.
  - cbn. apply Qle_refl.
  - destruct Hc as (_ & Hs & _ & Hrest).
    change (lastMark start (l :: laps)) with (lastMark (time l) laps).
    eapply Qle_trans; [exact Hs|]. exact (IH _ _ Hrest).
Qed.

Lemma stopwatch_tick (start : Q) (L : list LapRecord) (w : World) :
  stopwatchRunning start w /\ lapTimes (state w) = L ->
  stopwatchRunning start (updateTimer w)
  /\ lapTimes (state (updateTimer w)) = L.
Proof.
  intros ((Hm & Hr & Hc & Hl & Hle & Ht) & HL).
  destruct (isPaused (state w)) eqn:Ep;
    [rewrite updateTimer_guard by auto; repeat split; assumption|].
  destruct (isTransitioning (state w)) eqn:Et;
    [rewrite updateTimer_guard by auto; repeat split; assumption|].
  rewrite updateTimer_stopwatch by assumption.
  destruct w as [s b d u ts nid c l].
  destruct s as [f1 f2 f3 f4 f5 f6 f7 f8 f9 el laps lapStart f13 f14 f15 f16 f17 f18 f19].
  unfold stopwatchRunning in *. cbn in *.
  repeat split; try assumption.
  eapply Qle_trans; [exact Hle|].
  rewrite <- (Qplus_0_r el) at 1.
  apply Qplus_le_r. discriminate.
Qed.

Lemma stopwatch_waits (start : Q) (ms : nat) (w : World) :
  stopwatchRunning start w ->
  stopwatchRunning start (elapse ms w)
  /\ lapTimes (state (elapse ms w)) = lapTimes (state w).
Proof.
  intros H.
  apply (elapse_preserves (fun cb => cb = cbUpdateTimer)
           (fun x => stopwatchRunning start x
                     /\ lapTimes (state x) = lapTimes (state w))).
  - intros x u ((_ & _ & _ & _ & _ & Ht) & _) Hu. now apply Ht.
  - intros cb x -> Hx. cbn [runCallback]. now apply stopwatch_tick.
  - intros t x ((Hm & Hr & Hc & Hl & Hle & Ht) & HL).
    split; [|exact HL].
    unfold stopwatchRunning. repeat split; try assumption.
    exact (rearm_callbacks (fun cb => cb = cbUpdateTimer) t x Ht).
  - intros c x Hx. exact Hx.
  - split; [exact H|reflexivity].
Qed.

Lemma stopwatch_pause (start : Q) (w : World) :
  stopwatchRunning start w ->
  stopwatchRunning start (pauseClick w)
  /\ lapTimes (state (pauseClick w)) = lapTimes (state w).
Proof.
  intros (Hm & Hr & Hc & Hl & Hle & Ht).
  unfold pauseClick, resumeTimer, pauseTimer. rewrite Hr. cbn [negb].
  destruct (isPaused (state w)); destruct w as [s b d u ts nid c l];
    destruct s; unfold stopwatchRunning in *; cbn in *;
    repeat split; assumption.
Qed.

Lemma stopwatch_lap (start : Q) (w : World) :
  stopwatchRunning start w ->
  stopwatchRunning start (recordLap w)
  /\ List.length (lapTimes (state (recordLap w)))
     = S (List.length (lapTimes (state w))).
Proof.
  intros (Hm & Hr & Hc & Hl & Hle & Ht).
  unfold recordLap. rewrite Hm, Hr. cbn [WorkoutMode_eqb negb orb]. cbv zeta.
  destruct w as [s b d u ts nid c l]. rewrite !upd_mk, !emit_mk.
  destruct s as [f1 f2 f3 f4 f5 f6 f7 f8 f9 f10 laps lapStart f13 f14 f15 f16 f17 f18 f19].
  unfold stopwatchRunning in *.
  cbn [state timers workoutMode isRunning lapTimes lapStartTime elapsedTime
       set_lapTimes set_lapStartTime] in *.
  unfold push. split.
  - split; [exact Hm|]. split; [exact Hr|].
    split.
    { rewrite Hl. apply consecutiveLaps_snoc; [exact Hc|].
      rewrite <- Hl. exact Hle. }
    split; [rewrite lastMark_snoc; reflexivity|].
    split; [apply Qle_refl|exact Ht].
  - rewrite length_app. cbn. lia.
Qed.

Lemma stopwatchRun_laps (start : Q) (actions : list StopwatchAction) :
  forall w,
    stopwatchRunning start w ->
    stopwatchRunning start (stopwatchRun actions w)
    /\ List.length (lapTimes (state (stopwatchRun actions w)))
       = (List.length (lapTimes (state w))
          + List.length (filter isPressLap actions))%nat.
Proof.
  induction actions as [|a actions IH]; intros w H.
  - cbn. split; [exact H|lia].
  - change (stopwatchRun (a :: actions) w)
      with (stopwatchRun actions (stopwatchStep w a)).
    destruct a as [| |ms]; cbn [stopwatchStep filter isPressLap].
    + destruct (stopwatch_pause start w H) as (H1 & H2).
      destruct (IH _ H1) as (I1 & I2). split; [exact I1|].
      rewrite I2, H2. reflexivity.
    + destruct (stopwatch_lap start w H) as (H1 & H2).
      destruct (IH _ H1) as (I1 & I2). split; [exact I1|].
      rewrite I2, H2. cbn [List.length]. lia.
    + destruct (stopwatch_waits start ms w H) as (H1 & H2).
      destruct (IH _ H1) as (I1 & I2). split; [exact I1|].
      rewrite I2, H2. reflexivity.
Qed.

Lemma startStopwatch_running (w : World) :
  workoutMode (state w) = stopwatch ->
  lapTimes (state w) = [] -> timers w = [] ->
  stopwatchRunning (elapsedTime (state w)) (startTimer w).
Proof.
  intros Hm Hl Ht. unfold startTimer. rewrite Hm. cbn [WorkoutMode_eqb].
  unfold startStopwatch. cbv zeta.
  destruct w as [s b d u ts nid c l].
  rewrite !upd_mk. cbn [nextTimerId]. rewrite setInterval_mk, upd_mk, !emit_mk.
  destruct s as [f1 f2 f3 f4 f5 f6 f7 f8 f9 f10 laps lapStart f13 f14 f15 f16 f17 f18 f19].
  unfold stopwatchRunning. cbn in *. subst.
  repeat split; try reflexivity.
  - apply Qle_refl.
  - intros x [<-|[]]. reflexivity.
Qed.

(** X19.  The laps of the stopwatch are in order whatever is pressed.
    From the start of the stopwatch (with no lap recorded and no timer
    pending) through any sequence of pause or resume presses, lap presses
    and waits: every lap press records a lap, also while the stopwatch is
    paused; the laps are numbered 1, 2, 3, ...; the mark of each lap is
    not before the mark of the one before it, and its duration is the
    difference of the two marks, counted for the first lap from the
    reading at the start; the durations add up to the last mark less
    that reading; and the last mark is not after the present reading. *)
Theorem stopwatch_laps_in_order (w : World) (actions : list StopwatchAction) :
  workoutMode (state w) = stopwatch ->
  lapTimes (state w) = [] -> timers w = [] ->
  let start := elapsedTime (state w) in
  let s' := state (stopwatchRun actions (startTimer w)) in
  List.length (lapTimes s') = List.length (filter isPressLap actions)
  /\ consecutiveLaps start 1 (lapTimes s')
  /\ (sumLapDurations (lapTimes s') == lastMark start (lapTimes s') - start)%Q
  /\ lapStartTime s' = lastMark start (lapTimes s')
  /\ (lastMark start (lapTimes s') <= elapsedTime s')%Q
  /\ isRunning s' = true.
Proof.
  intros Hm Hl Ht start s'.
  pose proof (startStopwatch_running w Hm Hl Ht) as H0.
  destruct (stopwatchRun_laps start actions (startTimer w) H0)
    as ((_ & Hr & Hc & Hls & Hle & _) & Hlen).
  fold s' in Hr, Hc, Hls, Hle, Hlen.
  assert (Hl0 : lapTimes (state (startTimer w)) = []).
  { unfold startTimer. rewrite Hm. cbn [WorkoutMode_eqb].
    unfold startStopwatch. cbv zeta.
    destruct w as [s b d u ts nid c l]. cbn in *. exact Hl. }
  rewrite Hl0 in Hlen. cbn [List.length Nat.add] in Hlen.
  split; [exact Hlen|]. split; [exact Hc|].
  split; [exact (sumLapDurations_marks _ _ _ Hc)|].
  split; [exact Hls|]. split; [rewrite <- Hls; exact Hle|exact Hr].
Qed.

Lemma stopwatch_laps_in_order_witness :
  List.length
    (lapTimes
       (state (stopwatchRun [letPass 25; pressLap; pressPause; pressLap;
                             letPass 40; pressPause; letPass 30; pressLap]
                 (startTimer (page stopwatch exampleForm)))))
  = 3%nat.
Proof.
  exact (proj1 (stopwatch_laps_in_order (page stopwatch exampleForm)
                  [letPass 25; pressLap; pressPause; pressLap;
                   letPass 40; pressPause; letPass 30; pressLap]
                  eq_refl eq_refl eq_refl)).
Defined.

(* ================================================================== *)
(** * A start on top of a running workout                               *)
(* ================================================================== *)

Lemma tickingS_tick (s : WorkoutState) : tickingS s -> tickingS (countdownTick s).
Proof. destruct s. unfold tickingS, countdownTick. cbn. auto. Qed.

Lemma tickingS_tickIf (b : bool) (s : WorkoutState) :
  tickingS s -> tickingS (tickIf b s).
Proof. destruct b; [apply tickingS_tick|auto]. Qed.

Lemma timeRemaining_tick (s : WorkoutState) :
  timeRemaining (countdownTick s) = (timeRemaining s - 0.01)%Q.
Proof. destruct s. reflexivity. Qed.

Lemma elapsedTime_tick (s : WorkoutState) :
  elapsedTime (countdownTick s) = (elapsedTime s + 0.01)%Q.
Proof. destruct s. reflexivity. Qed.

Lemma dueBy_range (e t : Z) : 0 <= dueBy e t <= 1.
Proof. unfold dueBy. destruct (e <=? t); lia. Qed.

Lemma dueBy_mono (e t t' : Z) : t <= t' -> dueBy e t <= dueBy e t'.
Proof.
  intros H. unfold dueBy.
  destruct (Z.leb_spec e t), (Z.leb_spec e t'); lia.
Qed.

(** In a window shorter than its period an interval runs at most once. *)
Lemma dueBy_split (e t n : Z) :
  t < e -> 0 <= n -> t + (n + 1) < e + 10 ->
  dueBy (e + 10 * dueBy e (t + 1)) (t + 1 + n) + dueBy e (t + 1)
  = dueBy e (t + (n + 1)).
Proof.
  intros H1 H2 H3. unfold dueBy.
  destruct (Z.leb_spec e (t + 1)), (Z.leb_spec e (t + (n + 1)));
    match goal with
    | |- context [?a <=? ?b] => destruct (Z.leb_spec a b)
    end; lia.
Qed.

Lemma due_bound (a b : Z) (x : Q) :
  a <= b -> (inject_Z b * 0.01 < x)%Q -> (inject_Z a * 0.01 < x)%Q.
Proof.
  intros H Hb. assert (inject_Z a <= inject_Z b)%Q by (rewrite <- Zle_Qle; lia).
  lra.
Qed.

Lemma timeRemaining_tickIf (b1 b2 : bool) (s : WorkoutState) :
  (timeRemaining (tickIf b2 (tickIf b1 s))
   == timeRemaining s
      - inject_Z ((if b1 then 1 else 0) + (if b2 then 1 else 0)) * 0.01)%Q.
Proof.
  destruct b1, b2; cbn [tickIf]; rewrite ?timeRemaining_tick.
  - change (inject_Z (1 + 1)) with 2%Q. ring.
  - change (inject_Z (1 + 0)) with 1%Q. ring.
  - change (inject_Z (0 + 1)) with 1%Q. ring.
  - change (inject_Z (0 + 0)) with 0%Q. ring.
Qed.

Lemma tickIf_twice (a b a' b' c c' : bool) (s : WorkoutState) :
  ((if a then 1 else 0) + (if a' then 1 else 0) = (if c then 1 else 0) :> Z) ->
  ((if b then 1 else 0) + (if b' then 1 else 0) = (if c' then 1 else 0) :> Z) ->
  tickIf b' (tickIf a' (tickIf b (tickIf a s))) = tickIf c' (tickIf c s).
Proof. destruct a, a', c, b, b', c'; intros; try lia; reflexivity. Qed.

Section TwoIntervals.

Variable base : World.
Variables id1 id2 : Z.
Hypothesis Hids : id1 <> id2.

Lemma find_second (e1 e2 : Z) :
  find (fun x => timerId x =? id2)
    [workoutInterval id1 e1; workoutInterval id2 e2]
  = Some (workoutInterval id2 e2).
Proof.
  cbn [find timerId workoutInterval].
  assert (E : (id1 =? id2) = false) by (now apply Z.eqb_neq).
  rewrite E, Z.eqb_refl. reflexivity.
Qed.

Lemma rearm_first s t e1 e2 nid lg :
  rearm (workoutInterval id1 e1)
    (wworld base s t [workoutInterval id1 e1; workoutInterval id2 e2] nid lg)
  = wworld base s t
      [workoutInterval id1 (e1 + 10); workoutInterval id2 e2] nid lg.
Proof.
  unfold rearm.
  cbn [timers wworld flat_map timerId workoutInterval every due callback app].
  assert (E : (id2 =? id1) = false) by (apply Z.eqb_neq; congruence).
  rewrite E, Z.eqb_refl. reflexivity.
Qed.

Lemma rearm_second s t e1 e2 nid lg :
  rearm (workoutInterval id2 e2)
    (wworld base s t [workoutInterval id1 e1; workoutInterval id2 e2] nid lg)
  = wworld base s t
      [workoutInterval id1 e1; workoutInterval id2 (e2 + 10)] nid lg.
Proof.
  unfold rearm.
  cbn [timers wworld flat_map timerId workoutInterval every due callback app].
  assert (E : (id1 =? id2) = false) by (now apply Z.eqb_neq).
  rewrite E, Z.eqb_refl. reflexivity.
Qed.

(** One millisecond with two workout intervals registered, neither of
    which brings the countdown to zero. *)
Lemma step_two_intervals s t e1 e2 nid lg :
  tickingS s ->
  (inject_Z (dueBy e1 (t + 1) + dueBy e2 (t + 1)) * 0.01 < timeRemaining s)%Q ->
  step_ms
    (wworld base s t [workoutInterval id1 e1; workoutInterval id2 e2] nid lg)
  = wworld base (tickIf (e2 <=? t + 1) (tickIf (e1 <=? t + 1) s)) (t + 1)
      [workoutInterval id1 (e1 + 10 * dueBy e1 (t + 1));
       workoutInterval id2 (e2 + 10 * dueBy e2 (t + 1))] nid lg.
Proof.
  intros Hs Htr. unfold step_ms. cbv zeta.
  change (set_clock
            (clock (wworld base s t
                      [workoutInterval id1 e1; workoutInterval id2 e2] nid lg) + 1)
            (wworld base s t
               [workoutInterval id1 e1; workoutInterval id2 e2] nid lg))
    with (wworld base s (t + 1)
            [workoutInterval id1 e1; workoutInterval id2 e2] nid lg).
  cbn [timers wworld clock filter due workoutInterval].
  unfold dueBy in *.
  destruct (e1 <=? t + 1) eqn:E1; destruct (e2 <=? t + 1) eqn:E2;
    cbn [map timerId fire tickIf].
  - unfold findTimer at 1.
    cbn [timers wworld find timerId]. rewrite Z.eqb_refl.
    fold (workoutInterval id1 e1). fold (workoutInterval id2 e2).
    rewrite rearm_first. cbn [callback workoutInterval runCallback].
    fold (workoutInterval id1 (e1 + 10)). fold (workoutInterval id2 e2).
    rewrite updateTimer_countdown_w;
      [|exact Hs|change (inject_Z (1 + 1)) with 2%Q in Htr; lra].
    fold (countdownTick s).
    unfold findTimer. cbn [timers wworld]. rewrite find_second.
    rewrite rearm_second. cbn [callback workoutInterval runCallback].
    fold (workoutInterval id1 (e1 + 10)). fold (workoutInterval id2 (e2 + 10)).
    rewrite updateTimer_countdown_w;
      [|apply tickingS_tick; exact Hs
       |rewrite timeRemaining_tick;
        change (inject_Z (1 + 1)) with 2%Q in Htr; lra].
    fold (countdownTick (countdownTick s)).
    change (10 * 1) with 10. change (10 * 0) with 0. rewrite ?Z.add_0_r.
    reflexivity.
  - unfold findTimer.
    cbn [timers wworld find timerId]. rewrite Z.eqb_refl.
    fold (workoutInterval id1 e1). fold (workoutInterval id2 e2).
    rewrite rearm_first. cbn [callback workoutInterval runCallback].
    fold (workoutInterval id1 (e1 + 10)). fold (workoutInterval id2 e2).
    rewrite updateTimer_countdown_w;
      [|exact Hs|change (inject_Z (1 + 0)) with 1%Q in Htr; lra].
    fold (countdownTick s).
    change (10 * 1) with 10. change (10 * 0) with 0. rewrite ?Z.add_0_r.
    reflexivity.
  - unfold findTimer. cbn [timers wworld].
    fold (workoutInterval id1 e1). fold (workoutInterval id2 e2).
    rewrite find_second, rearm_second.
    cbn [callback workoutInterval runCallback].
    fold (workoutInterval id1 e1). fold (workoutInterval id2 (e2 + 10)).
    rewrite updateTimer_countdown_w;
      [|exact Hs|change (inject_Z (0 + 1)) with 1%Q in Htr; lra].
    fold (countdownTick s).
    change (10 * 1) with 10. change (10 * 0) with 0. rewrite ?Z.add_0_r.
    reflexivity.
  - change (10 * 0) with 0. rewrite !Z.add_0_r. reflexivity.
Qed.

(** A window in which each of the two intervals runs at most once. *)
Lemma two_intervals_run (n : nat) nid lg :
  forall s t e1 e2,
    tickingS s -> t < e1 -> t < e2 ->
    t + Z.of_nat n < e1 + 10 -> t + Z.of_nat n < e2 + 10 ->
    (inject_Z (dueBy e1 (t + Z.of_nat n) + dueBy e2 (t + Z.of_nat n)) * 0.01
     < timeRemaining s)%Q ->
    elapse n
      (wworld base s t [workoutInterval id1 e1; workoutInterval id2 e2] nid lg)
    = wworld base
        (tickIf (e2 <=? t + Z.of_nat n) (tickIf (e1 <=? t + Z.of_nat n) s))
        (t + Z.of_nat n)
        [workoutInterval id1 (e1 + 10 * dueBy e1 (t + Z.of_nat n));
         workoutInterval id2 (e2 + 10 * dueBy e2 (t + Z.of_nat n))] nid lg.
Proof.
  induction n as [|n IH]; intros s t e1 e2 Hs H1 H2 H3 H4 Htr.
  - cbn [elapse Z.of_nat]. unfold dueBy. rewrite !Z.add_0_r.
    assert (E1 : (e1 <=? t) = false) by (apply Z.leb_gt; lia).
    assert (E2 : (e2 <=? t) = false) by (apply Z.leb_gt; lia).
    rewrite E1, E2. cbn [tickIf]. change (10 * 0) with 0.
    rewrite !Z.add_0_r. reflexivity.
  - rewrite Nat2Z.inj_succ in *. unfold Z.succ in *. cbn [elapse].
    pose proof (dueBy_mono e1 (t + 1) (t + (Z.of_nat n + 1))) as M1.
    pose proof (dueBy_mono e2 (t + 1) (t + (Z.of_nat n + 1))) as M2.
    pose proof (dueBy_split e1 t (Z.of_nat n) H1) as S1.
    pose proof (dueBy_split e2 t (Z.of_nat n) H2) as S2.
    pose proof (dueBy_range e1 (t + 1)) as R1.
    pose proof (dueBy_range e2 (t + 1)) as R2.
    rewrite step_two_intervals;
      [|exact Hs|eapply due_bound; [|exact Htr]; lia].
    rewrite IH; try lia.
    + apply wworld_ext; try reflexivity; try lia.
      * apply tickIf_twice.
        -- specialize (S1 ltac:(lia) ltac:(lia)).
           change (dueBy e1 (t + 1)
                   + dueBy (e1 + 10 * dueBy e1 (t + 1)) (t + 1 + Z.of_nat n)
                   = dueBy e1 (t + (Z.of_nat n + 1))). lia.
        -- specialize (S2 ltac:(lia) ltac:(lia)).
           change (dueBy e2 (t + 1)
                   + dueBy (e2 + 10 * dueBy e2 (t + 1)) (t + 1 + Z.of_nat n)
                   = dueBy e2 (t + (Z.of_nat n + 1))). lia.
      * specialize (S1 ltac:(lia) ltac:(lia)).
        specialize (S2 ltac:(lia) ltac:(lia)).
        assert (X1 : e1 + 10 * dueBy e1 (t + 1)
                     + 10 * dueBy (e1 + 10 * dueBy e1 (t + 1)) (t + 1 + Z.of_nat n)
                     = e1 + 10 * dueBy e1 (t + (Z.of_nat n + 1))) by lia.
        assert (X2 : e2 + 10 * dueBy e2 (t + 1)
                     + 10 * dueBy (e2 + 10 * dueBy e2 (t + 1)) (t + 1 + Z.of_nat n)
                     = e2 + 10 * dueBy e2 (t + (Z.of_nat n + 1))) by lia.
        rewrite X1, X2. reflexivity.
    + apply tickingS_tickIf, tickingS_tickIf, Hs.
    + unfold dueBy at 1. destruct (Z.leb_spec e1 (t + 1)); lia.
    + unfold dueBy at 1. destruct (Z.leb_spec e2 (t + 1)); lia.
    + rewrite timeRemaining_tickIf.
      fold (dueBy e1 (t + 1)). fold (dueBy e2 (t + 1)).
      specialize (S1 ltac:(lia) ltac:(lia)).
      specialize (S2 ltac:(lia) ltac:(lia)).
      assert (Hsum : (inject_Z (dueBy (e1 + 10 * dueBy e1 (t + 1)) (t + 1 + Z.of_nat n)
                                + dueBy (e2 + 10 * dueBy e2 (t + 1)) (t + 1 + Z.of_nat n))
                      + inject_Z (dueBy e1 (t + 1) + dueBy e2 (t + 1))
                      == inject_Z (dueBy e1 (t + (Z.of_nat n + 1))
                                   + dueBy e2 (t + (Z.of_nat n + 1))))%Q).
      { rewrite <- inject_Z_plus. apply inject_Z_injective. lia. }
      lra.
Qed.

(** [k] windows of 10 ms: each takes two ticks off the countdown. *)
Lemma two_intervals_windows (k : nat) nid lg :
  forall s t e1 e2,
    tickingS s -> t < e1 <= t + 10 -> t < e2 <= t + 10 ->
    (inject_Z (2 * Z.of_nat k) * 0.01 < timeRemaining s)%Q ->
    exists s',
      elapse (10 * k)
        (wworld base s t [workoutInterval id1 e1; workoutInterval id2 e2] nid lg)
      = wworld base s' (t + 10 * Z.of_nat k)
          [workoutInterval id1 (e1 + 10 * Z.of_nat k);
           workoutInterval id2 (e2 + 10 * Z.of_nat k)] nid lg
      /\ tickingS s'
      /\ (timeRemaining s' == timeRemaining s - inject_Z (2 * Z.of_nat k) * 0.01)%Q
      /\ (elapsedTime s' == elapsedTime s + inject_Z (2 * Z.of_nat k) * 0.01)%Q
      /\ currentPhaseIndex s' = currentPhaseIndex s
      /\ isCompleting s' = isCompleting s.
Proof.
  induction k as [|k IH]; intros s t e1 e2 Hs H1 H2 Htr.
  - exists s. cbn [Nat.mul elapse Z.of_nat]. change (10 * 0) with 0.
    rewrite !Z.add_0_r. change (inject_Z (2 * 0)) with 0%Q.
    repeat split; try reflexivity; try apply Hs; ring.
  - replace (10 * S k)%nat with (10 + 10 * k)%nat by lia.
    rewrite elapse_add.
    assert (Hk : (inject_Z (2 * Z.of_nat (S k))
                  == 2 + inject_Z (2 * Z.of_nat k))%Q).
    { change 2%Q with (inject_Z 2). rewrite <- inject_Z_plus.
      apply inject_Z_injective. lia. }
    assert (Hk0 : (0 <= inject_Z (2 * Z.of_nat k))%Q).
    { change 0%Q with (inject_Z 0). rewrite <- Zle_Qle. lia. }
    assert (D1 : dueBy e1 (t + Z.of_nat 10) = 1).
    { unfold dueBy. destruct (Z.leb_spec e1 (t + Z.of_nat 10)); lia. }
    assert (D2 : dueBy e2 (t + Z.of_nat 10) = 1).
    { unfold dueBy. destruct (Z.leb_spec e2 (t + Z.of_nat 10)); lia. }
    assert (L1 : (e1 <=? t + Z.of_nat 10) = true) by (apply Z.leb_le; lia).
    assert (L2 : (e2 <=? t + Z.of_nat 10) = true) by (apply Z.leb_le; lia).
    rewrite (two_intervals_run 10 nid lg s t e1 e2 Hs); try lia.
    2:{ rewrite D1, D2. change (inject_Z (1 + 1)) with 2%Q. lra. }
    rewrite D1, D2, L1, L2. cbn [tickIf].
    destruct (IH (countdownTick (countdownTick s)) (t + Z.of_nat 10)
                 (e1 + 10 * 1) (e2 + 10 * 1))
      as (s' & Hrun & Hs' & Htr' & Hel' & Hidx & Hcompl); try lia.
    + apply tickingS_tick, tickingS_tick, Hs.
    + rewrite !timeRemaining_tick. lra.
    + exists s'. rewrite Hrun.
      rewrite !timeRemaining_tick in Htr'. rewrite !elapsedTime_tick in Hel'.
      split.
      { apply wworld_ext; try reflexivity; try lia.
        replace (e1 + 10 * 1 + 10 * Z.of_nat k)
          with (e1 + 10 * Z.of_nat (S k)) by lia.
        replace (e2 + 10 * 1 + 10 * Z.of_nat k)
          with (e2 + 10 * Z.of_nat (S k)) by lia. reflexivity. }
      split; [exact Hs'|].
      split; [rewrite Htr'; lra|].
      split; [rewrite Hel'; lra|].
      split; [rewrite Hidx; destruct s; reflexivity|].
      rewrite Hcompl. destruct s; reflexivity.
Qed.

End TwoIntervals.

Lemma startTimer_world (w : World) (p0 : Phase) :
  workoutMode (state w) <> stopwatch ->
  accepted (workoutMode (state w)) (config (state (loadConfigFromForm w))) ->
  index (sequenceOf w) 0 = Some p0 ->
  startTimer w
  = wworld w
      (started (set_config (config (state (loadConfigFromForm w))) (state w))
         p0 (nextTimerId w))
      (clock w)
      (timers w ++ [workoutInterval (nextTimerId w) (clock w + 10)])
      (nextTimerId w + 1)
      (log w ++ [phaseLoaded 0 p0; playBeep beepStart; vibrate [100]]).
Proof.
  intros Hmode Hacc Hp0. unfold sequenceOf in Hp0.
  rewrite startTimer_accepted by assumption.
  rewrite (loadConfigFromForm_state w).
  rewrite (startValidated_world _ p0); [reflexivity|].
  cbn [state upd set_state workoutMode set_config config]. exact Hp0.
Qed.

(** X20.  [startTimer] neither checks that a workout is running nor
    clears its interval.  A start on top of a running workout therefore
    registers a second interval beside the first; from then on the
    countdown loses 0.02 s every 10 ms, twice the pace of the clock, for
    as long as the phase lasts; and a reset clears only the interval of
    the second start, so that the first one stays registered. *)
Theorem second_start_doubles_the_pace (w : World) (id d : Z) (k : nat) :
  workoutMode (state w) <> stopwatch ->
  accepted (workoutMode (state w)) (config (state (loadConfigFromForm w))) ->
  isTransitioning (state w) = false ->
  timers w = [workoutInterval id d] ->
  clock w < d <= clock w + 10 -> id < nextTimerId w ->
  let w2 := startTimer w in
  (inject_Z (2 * Z.of_nat k) * 0.01 < timeRemaining (state w2))%Q ->
  timers w2
  = [workoutInterval id d; workoutInterval (nextTimerId w) (clock w + 10)]
  /\ (timeRemaining (state (elapse (10 * k) w2))
      == timeRemaining (state w2) - inject_Z (2 * Z.of_nat k) * 0.01)%Q
  /\ (elapsedTime (state (elapse (10 * k) w2))
      == inject_Z (2 * Z.of_nat k) * 0.01)%Q
  /\ currentPhaseIndex (state (elapse (10 * k) w2)) = 0
  /\ timers (resetTimer w2) = [workoutInterval id d].
Proof.
  intros Hmode Hacc Htrans Hts Hd Hid w2.
  destruct (accepted_first_phase _ _ Hacc) as (p0 & Hp0).
  assert (Hw2 : w2 = startTimer w) by reflexivity. clearbody w2.
  rewrite (startTimer_world w p0 Hmode Hacc Hp0), Hts in Hw2. cbn [app] in Hw2.
  set (s2 := started (set_config (config (state (loadConfigFromForm w)))
                        (state w)) p0 (nextTimerId w)) in *.
  assert (Hticking : tickingS s2).
  { subst s2. unfold tickingS, started, built, withPhase. cbn.
    repeat split; assumption. }
  assert (Hel : elapsedTime s2 = 0%Q) by reflexivity.
  assert (Hidx : currentPhaseIndex s2 = 0) by reflexivity.
  assert (Hint : intervalId s2 = Some (nextTimerId w)) by reflexivity.
  intros Htr. subst w2. cbn [state wworld timers] in *.
  split; [reflexivity|].
  assert (Hne : id <> nextTimerId w) by lia.
  destruct (two_intervals_windows w id (nextTimerId w) Hne k
              (nextTimerId w + 1)
              (log w ++ [phaseLoaded 0 p0; playBeep beepStart; vibrate [100]])
              s2 (clock w) d (clock w + 10) Hticking Hd ltac:(lia) Htr)
    as (s' & Hrun & _ & Htr' & Hel' & Hidx' & _).
  rewrite Hrun. cbn [state wworld].
  split; [exact Htr'|].
  split; [rewrite Hel', Hel; ring|].
  split; [rewrite Hidx'; exact Hidx|].
  rewrite resetTimer_world. cbn [state wworld timers]. rewrite Hint.
  cbn [filter timerId workoutInterval].
  assert (E : (id =? nextTimerId w) = false) by (now apply Z.eqb_neq).
  rewrite E, Z.eqb_refl. reflexivity.
Qed.

Lemma second_start_doubles_the_pace_witness :
  (timeRemaining
     (state (elapse (10 * 3) (startTimer (after 30 startedExample))))
   == timeRemaining (state (startTimer (after 30 startedExample)))
      - inject_Z (2 * Z.of_nat 3) * 0.01)%Q.
Proof.
  refine (proj1 (proj2 (second_start_doubles_the_pace
                          (after 30 startedExample) 1 40 3 _ _ _ _ _ _ _))).
  - vm_compute. discriminate.
  - vm_compute. repeat split.
  - vm_compute. reflexivity.
  - vm_compute. reflexivity.
  - vm_compute. split; [reflexivity|discriminate].
  - vm_compute. reflexivity.
  - vm_compute. reflexivity.
Defined.

(* ================================================================== *)
(** * Sessions on the workout tab                                       *)
(* ================================================================== *)

Ltac open_world w :=
  let s := fresh "s" in
  destruct w as [s ?b ?d ?u ?ts ?nid ?c ?l];
  destruct s as [?cfg ?mode ?ph ?rnd ?cset ?nset ?pers ?tr ?total ?el ?laps
                 ?lapStart ?iid ?paused ?running ?completing ?transitioning
                 ?sequence ?idx].

Ltac fields :=
  cbn [state breathing dom userConfirms timers nextTimerId clock log
       config workoutMode currentPhase currentRound currentSet nextSet
       currentPerson timeRemaining totalWorkoutTime elapsedTime lapTimes
       lapStartTime intervalId isPaused isRunning isCompleting
       isTransitioning phaseSequence currentPhaseIndex
       set_config set_workoutMode set_currentPhase set_currentRound
       set_currentSet set_nextSet set_currentPerson set_timeRemaining
       set_totalWorkoutTime set_elapsedTime set_lapTimes set_lapStartTime
       set_intervalId set_isPaused set_isRunning set_isCompleting
       set_isTransitioning set_phaseSequence set_currentPhaseIndex
       set_state set_dom set_userConfirms set_timers set_nextTimerId
       set_clock set_log] in *.

Lemma In_filter_callbacks (P : Callback -> Prop) (f : Timer -> bool)
      (ts : list Timer) :
  (forall u, In u ts -> P (callback u)) ->
  forall u, In u (filter f ts) -> P (callback u).
Proof. intros H u Hu. apply filter_In in Hu. now apply H. Qed.

Lemma In_snoc_callbacks (P : Callback -> Prop) (ts : list Timer) (t : Timer) :
  (forall u, In u ts -> P (callback u)) -> P (callback t) ->
  forall u, In u (ts ++ [t]) -> P (callback u).
Proof.
  intros H Ht u Hu. apply in_app_or in Hu.
  destruct Hu as [Hu|[<-|[]]]; [now apply H|exact Ht].
Qed.

Lemma resetTimer_sound (w : World) : soundClocks w -> soundClocks (resetTimer w).
Proof.
  intros (Htr & Hel & Hseq & Hts). unfold soundClocks.
  rewrite resetTimer_world, resetTimer_state.
  fields.
  repeat split; try (apply Qle_refl); try exact Hseq.
  destruct (intervalId (state w)); [|exact Hts].
  now apply In_filter_callbacks.
Qed.

Lemma completeWorkout_sound (w : World) :
  soundClocks w -> soundClocks (completeWorkout w).
Proof.
  intros (Htr & Hel & Hseq & Hts). unfold completeWorkout.
  open_world w. unfold soundClocks in *.
  fields.
  destruct completing; [repeat split; assumption|].
  rewrite upd_mk. fields.
  destruct iid as [id|];
    rewrite ?clearInterval_mk, !upd_mk, !emit_mk, setTimeout_mk;
    fields;
    repeat split; try assumption;
    apply (In_snoc_callbacks workoutCallback); try exact I;
    try (now apply In_filter_callbacks); exact Hts.
Qed.

Lemma loadCurrentPhase_sound (w : World) :
  soundClocks w -> soundClocks (loadCurrentPhase w).
Proof.
  intros H. unfold loadCurrentPhase. cbv zeta.
  destruct ((currentPhaseIndex (state w) <? 0)
            || (len (phaseSequence (state w)) <=? currentPhaseIndex (state w)));
    [now apply completeWorkout_sound|].
  destruct (index (phaseSequence (state w)) (currentPhaseIndex (state w)))
    as [p|] eqn:Ep; [|now apply completeWorkout_sound].
  destruct H as (Htr & Hel & Hseq & Hts).
  pose proof (Hseq p (index_In _ _ _ Ep)) as Hp.
  open_world w. rewrite !upd_mk, emit_mk. unfold soundClocks in *.
  fields.
  repeat split; try assumption.
  change 0%Q with (inject_Z 0). rewrite <- Zle_Qle. lia.
Qed.

Lemma emit_sound (e : Event) (w : World) : soundClocks w -> soundClocks (emit e w).
Proof. intros H. open_world w. rewrite emit_mk. exact H. Qed.

Lemma advancePhase_sound (nextIndex : Z) (w : World) :
  soundClocks w -> soundClocks (advancePhase nextIndex w).
Proof.
  intros H. unfold advancePhase.
  destruct (negb (isRunning (state w))).
  { open_world w. rewrite upd_mk. exact H. }
  cbv zeta.
  assert (H1 : soundClocks
                 (upd (set_isTransitioning false)
                    (upd (set_currentPhaseIndex nextIndex) w))).
  { open_world w. rewrite !upd_mk. exact H. }
  set (w1 := upd (set_isTransitioning false)
               (upd (set_currentPhaseIndex nextIndex) w)) in *.
  clearbody w1.
  destruct (currentPhaseIndex (state w1) <? len (phaseSequence (state w1)));
    [|now apply completeWorkout_sound].
  destruct (index (phaseSequence (state w1)) (currentPhaseIndex (state w1)))
    as [p|]; [|now apply completeWorkout_sound].
  apply loadCurrentPhase_sound.
  destruct (WorkoutMode_eqb (workoutMode (state w1)) headToHead
            && PhaseType_eqb (phase.type p) work);
    [now apply emit_sound, emit_sound|].
  destruct (WorkoutMode_eqb (workoutMode (state w1)) normal); [|exact H1].
  destruct (PhaseType_eqb (phase.type p) work && (phase.set p =? 1)
            && (currentRound (state w1) <? phase.round p));
    [now apply emit_sound, emit_sound|exact H1].
Qed.

Ltac sound_leaf :=
  unfold soundClocks in *; fields;
  match goal with
  | H : _ /\ _ /\ _ /\ _ |- _ => destruct H as (Htr & Hel & Hseq & Hts)
  end;
  repeat split; try assumption; try apply Qle_refl; try lra;
  try (apply (In_snoc_callbacks workoutCallback); [assumption|exact I]).

Lemma updateTimer_sound (w : World) : soundClocks w -> soundClocks (updateTimer w).
Proof.
  intros H. unfold updateTimer. open_world w. fields.
  destruct (negb running || paused || transitioning); [exact H|].
  destruct (WorkoutMode_eqb mode stopwatch).
  { rewrite upd_mk. sound_leaf. }
  cbv zeta.
  destruct (Qle_bool tr 0) eqn:E1; cbn [negb andb]; fields.
  - destruct (Qlt_bool tr 0) eqn:E2; [rewrite upd_mk|]; sound_leaf.
  - rewrite !upd_mk. fields.
    destruct (Qlt_bool (tr - 0.01) 0) eqn:E2.
    + rewrite upd_mk. fields.
      destruct (Qle_bool 0 0);
        rewrite ?upd_mk, ?emit_mk, ?setTimeout_mk; sound_leaf.
    + apply Qlt_bool_false in E2. fields.
      destruct (Qle_bool (tr - 0.01) 0);
        rewrite ?upd_mk, ?emit_mk, ?setTimeout_mk; sound_leaf.
Qed.

Lemma upd_sound (f : WorkoutState -> WorkoutState) (w : World) :
  timeRemaining (f (state w)) = timeRemaining (state w) ->
  elapsedTime (f (state w)) = elapsedTime (state w) ->
  phaseSequence (f (state w)) = phaseSequence (state w) ->
  soundClocks w -> soundClocks (upd f w).
Proof.
  intros E1 E2 E3 (Htr & Hel & Hseq & Hts).
  destruct w as [s b d u ts nid c l]. rewrite upd_mk.
  unfold soundClocks in *. cbn [state timers] in *.
  rewrite E1, E2, E3. repeat split; assumption.
Qed.

Lemma startStopwatch_sound (w : World) :
  soundClocks w -> soundClocks (startStopwatch w).
Proof.
  intros H. unfold startStopwatch. cbv zeta. open_world w.
  rewrite !upd_mk. cbn [nextTimerId].
  rewrite setInterval_mk, upd_mk, !emit_mk. sound_leaf.
Qed.

Lemma startValidated_sound (w : World) :
  accepted (workoutMode (state w)) (config (state w)) ->
  soundClocks w -> soundClocks (startValidated w).
Proof.
  intros Hacc (Htr & Hel & Hseq & Hts).
  destruct (accepted_first_phase _ _ Hacc) as (p0 & Hp0).
  rewrite (startValidated_world w p0 Hp0).
  pose proof (builtSequence_positive _ _ p0 Hacc (index_In _ _ _ Hp0)) as Hp.
  unfold soundClocks, started, built, withPhase. fields.
  split; [change 0%Q with (inject_Z 0); rewrite <- Zle_Qle; lia|].
  split; [apply Qle_refl|].
  split; [intros p; apply builtSequence_positive; exact Hacc|].
  apply (In_snoc_callbacks workoutCallback); [exact Hts|exact I].
Qed.

Lemma startTimer_sound (w : World) : soundClocks w -> soundClocks (startTimer w).
Proof.
  intros H. unfold startTimer.
  destruct (WorkoutMode_eqb (workoutMode (state w)) stopwatch);
    [now apply startStopwatch_sound|].
  cbv zeta.
  assert (H0 : soundClocks (loadConfigFromForm w)).
  { rewrite loadConfigFromForm_state. apply upd_sound; try exact H;
      destruct (state w); reflexivity. }
  set (w0 := loadConfigFromForm w) in *. clearbody w0.
  destruct (WorkoutMode_eqb (workoutMode (state w0)) headToHead) eqn:Eh.
  - apply WorkoutMode_eqb_eq in Eh.
    destruct (Z.leb_spec (config.workDuration (config (state w0))) 0);
      [now apply emit_sound|].
    destruct (Z.leb_spec (config.numberOfPeople (config (state w0))) 0);
      [now apply emit_sound|].
    destruct (Z.leb_spec (config.numberOfRounds (config (state w0))) 0);
      [now apply emit_sound|].
    cbn [orb]. apply startValidated_sound; [|exact H0].
    rewrite Eh. cbn [accepted]. unfold acceptedHeadToHead. lia.
  - apply WorkoutMode_eqb_neq in Eh.
    destruct (Z.leb_spec (config.workDuration (config (state w0))) 0);
      [now apply emit_sound|].
    destruct (Z.leb_spec (config.setsPerRound (config (state w0))) 0);
      [now apply emit_sound|].
    destruct (Z.leb_spec (config.numberOfRounds (config (state w0))) 0);
      [now apply emit_sound|].
    cbn [orb]. apply startValidated_sound; [|exact H0].
    destruct (workoutMode (state w0)); [|congruence|];
      cbn [accepted]; unfold acceptedInterval; lia.
Qed.

Lemma setTimeout_sound (cb : Callback) (delay : Z) (w : World) :
  workoutCallback cb -> soundClocks w -> soundClocks (setTimeout cb delay w).
Proof.
  intros Hcb (Htr & Hel & Hseq & Hts).
  destruct w as [s b d u ts nid c l]. rewrite setTimeout_mk.
  unfold soundClocks in *. cbn [state timers] in *.
  repeat split; try assumption.
  apply (In_snoc_callbacks workoutCallback); assumption.
Qed.

Lemma completionPrompt_sound (w : World) :
  soundClocks w -> soundClocks (completionPrompt w).
Proof.
  intros H. unfold completionPrompt. cbv zeta.
  assert (H1 : soundClocks
                 (resetTimer
                    (upd (set_isCompleting false)
                       (emit (confirm "Workout Complete! Would you like to start again?")
                          w)))).
  { apply resetTimer_sound, upd_sound;
      try (now apply emit_sound);
      destruct (state (emit _ w)); reflexivity. }
  destruct (userConfirms (emit _ w)); [|exact H1].
  apply setTimeout_sound; [exact I|exact H1].
Qed.

Lemma runCallback_sound (cb : Callback) (w : World) :
  workoutCallback cb -> soundClocks w -> soundClocks (runCallback cb w).
Proof.
  destruct cb; cbn [workoutCallback runCallback]; intros Hcb H;
    try contradiction.
  - now apply updateTimer_sound.
  - now apply advancePhase_sound.
  - now apply completionPrompt_sound.
  - now apply startTimer_sound.
Qed.

Lemma elapse_sound (ms : nat) (w : World) :
  soundClocks w -> soundClocks (elapse ms w).
Proof.
  apply (elapse_preserves workoutCallback soundClocks).
  - intros x u (_ & _ & _ & Hts) Hu. now apply Hts.
  - exact runCallback_sound.
  - intros t x (Htr & Hel & Hseq & Hts). unfold soundClocks.
    destruct (rearm_frame t x) as (-> & _).
    repeat split; try assumption.
    exact (rearm_callbacks workoutCallback t x Hts).
  - intros c x H. exact H.
Qed.

Lemma set_dom_sound (e : Elements) (w : World) :
  soundClocks w -> soundClocks (set_dom e w).
Proof. intros H. destruct w. exact H. Qed.

Lemma loadConfigFromForm_sound (w : World) :
  soundClocks w -> soundClocks (loadConfigFromForm w).
Proof.
  intros H. rewrite loadConfigFromForm_state.
  apply upd_sound; try exact H; destruct (state w); reflexivity.
Qed.

Lemma loadPreset_sound (found : option StoredConfig) (w : World) :
  soundClocks w -> soundClocks (loadPreset found w).
Proof.
  intros H. unfold loadPreset.
  destruct found as [preset|]; [|now apply emit_sound].
  cbv zeta.
  assert (Hload : forall x m,
            soundClocks x ->
            soundClocks
              (loadConfigFromForm
                 (set_dom (populateFormFromConfig preset m
                             (dom (upd (set_workoutMode m) x)))
                    (upd (set_workoutMode m) x)))).
  { intros x m Hx. apply loadConfigFromForm_sound, set_dom_sound.
    apply upd_sound; try exact Hx; destruct (state x); reflexivity. }
  destruct (isRunning (state w)); [|now apply Hload].
  destruct (userConfirms (emit _ w)); [|now apply emit_sound].
  now apply Hload, resetTimer_sound, emit_sound.
Qed.

Lemma act_sound (a : UserAction) (w : World) :
  soundClocks w -> soundClocks (act w a).
Proof.
  intros H. destruct a as [| | | |mode|found| |e|yes|ms]; cbn [act].
  - now apply startTimer_sound.
  - unfold pauseClick, resumeTimer, pauseTimer.
    destruct (isPaused (state w)), (negb (isRunning (state w)));
      try exact H; apply upd_sound; try exact H;
      destruct (state w); reflexivity.
  - unfold recordLap. cbv zeta.
    destruct (negb (WorkoutMode_eqb (workoutMode (state w)) stopwatch)
              || negb (isRunning (state w))); [exact H|].
    apply emit_sound, emit_sound.
    apply upd_sound; [destruct (state (upd _ w)); reflexivity ..|].
    apply upd_sound; [destruct (state w); reflexivity ..|exact H].
  - unfold resetClick. cbv zeta.
    destruct (isRunning (state w)); [|now apply resetTimer_sound].
    destruct (userConfirms (emit _ w));
      [now apply resetTimer_sound, emit_sound|now apply emit_sound].
  - unfold selectMode. cbv zeta.
    destruct (isRunning (state w)).
    + destruct (userConfirms (emit _ w)); [|now apply emit_sound].
      apply upd_sound;
        [destruct (state (resetTimer _)); reflexivity ..|].
      now apply resetTimer_sound, emit_sound.
    + apply upd_sound; [destruct (state w); reflexivity ..|exact H].
  - now apply loadPreset_sound.
  - cbn [switchTab]. cbv zeta.
    destruct (isRunning (state w)); [|exact H].
    destruct (userConfirms (emit _ w));
      [now apply resetTimer_sound, emit_sound|now apply emit_sound].
  - destruct w. exact H.
  - destruct w. exact H.
  - now apply elapse_sound.
Qed.

(** X21.  Whatever the user does on the workout tab, in whatever order
    (starting, pausing and resuming, recording laps, resetting, choosing
    a mode or a preset, leaving for the breathing tab, editing the form,
    answering the dialogs either way, waiting), the countdown never shows a
    negative time, the elapsed time is never negative, and every phase of
    the sequence the machine holds lasts at least a second. *)
Theorem clocks_never_negative (mode : WorkoutMode) (e : Elements)
        (actions : list UserAction) :
  let s := state (session actions (page mode e)) in
  (0 <= timeRemaining s)%Q /\ (0 <= elapsedTime s)%Q
  /\ (forall p, In p (phaseSequence s) -> 1 <= phase.duration p).
Proof.
  assert (H : forall l w, soundClocks w -> soundClocks (session l w)).
  { induction l as [|a l IH]; intros w Hw; [exact Hw|].
    change (session (a :: l) w) with (session l (act w a)).
    now apply IH, act_sound. }
  assert (H0 : soundClocks (page mode e)).
  { unfold soundClocks, page. cbn. repeat split; try discriminate.
    - intros p [].
    - intros u []. }
  destruct (H actions _ H0) as (Htr & Hel & Hseq & _).
  cbv zeta. split; [exact Htr|]. split; [exact Hel|].
  intros p Hp. specialize (Hseq p Hp). lia.
Qed.
(* ================================================================== *)
(** * A pause during the settle delay                                   *)
(* ================================================================== *)

Section PausedSettle.
Variable base : World.
Variables id pid : Z.
Variable n : Z.
Variable dd : Z.
Hypothesis pid_other : pid <> id.

(** One millisecond on a machine whose ticks are held back, with the
    advance pending: the interval is armed again when it is due, and the
    advance runs when its time has come. *)
Lemma held_step s t e nid lg :
  isRunning s = false \/ isPaused s = true \/ isTransitioning s = true ->
  step_ms
    (wworld base s t
       [workoutInterval id e; mkTimer pid dd None (cbAdvancePhase n)] nid lg)
  = let e' := if e <=? t + 1 then e + 10 else e in
    if dd <=? t + 1
    then advancePhase n (wworld base s (t + 1) [workoutInterval id e'] nid lg)
    else wworld base s (t + 1)
           [workoutInterval id e'; mkTimer pid dd None (cbAdvancePhase n)]
           nid lg.
Proof.
  intros Hheld.
  assert (E1 : (pid =? id) = false) by (now apply Z.eqb_neq).
  assert (E2 : (id =? pid) = false) by (apply Z.eqb_neq; congruence).
  set (P := mkTimer pid dd None (cbAdvancePhase n)).
  set (W := fun x => wworld base s (t + 1) [workoutInterval id x; P] nid lg).
  assert (Hg : forall x, updateTimer (W x) = W x).
  { intros x. apply updateTimer_guard. exact Hheld. }
  assert (Hf1 : forall x, findTimer id (W x) = Some (workoutInterval id x)).
  { intros x. unfold findTimer. subst W.
    cbn [timers wworld find timerId workoutInterval].
    now rewrite Z.eqb_refl. }
  assert (Hr1 : forall x, rearm (workoutInterval id x) (W x) = W (x + 10)).
  { intros x. unfold rearm. subst W P.
    cbn [timers wworld flat_map timerId workoutInterval every due callback].
    rewrite Z.eqb_refl, E1. reflexivity. }
  assert (Hf2 : forall x, findTimer pid (W x) = Some P).
  { intros x. unfold findTimer. subst W P.
    cbn [timers wworld find timerId workoutInterval].
    now rewrite E2, Z.eqb_refl. }
  assert (Hr2 : forall x, rearm P (W x)
                          = wworld base s (t + 1) [workoutInterval id x] nid lg).
  { intros x. unfold rearm. subst W P.
    cbn [timers wworld flat_map timerId workoutInterval every due callback].
    rewrite E2, Z.eqb_refl. reflexivity. }
  assert (Hstep : step_ms (wworld base s t [workoutInterval id e; P] nid lg)
                  = fire ((if e <=? t + 1 then [id] else [])
                          ++ (if dd <=? t + 1 then [pid] else [])) (W e)).
  { unfold step_ms, wworld, set_clock. subst W P.
    cbn [state breathing dom userConfirms timers nextTimerId clock log
         filter due map timerId workoutInterval].
    destruct (e <=? t + 1); destruct (dd <=? t + 1); reflexivity. }
  rewrite Hstep. cbv zeta.
  destruct (e <=? t + 1); destruct (dd <=? t + 1); cbn [app fire].
  - rewrite Hf1, Hr1.
    change (runCallback (callback (workoutInterval id e)) (W (e + 10)))
      with (updateTimer (W (e + 10))).
    rewrite Hg, Hf2, Hr2. reflexivity.
  - rewrite Hf1, Hr1.
    change (runCallback (callback (workoutInterval id e)) (W (e + 10)))
      with (updateTimer (W (e + 10))).
    rewrite Hg. reflexivity.
  - rewrite Hf2, Hr2. reflexivity.
  - reflexivity.
Qed.

(** While the advance is not due the ticks pass without effect. *)
Lemma held_settle (k : nat) :
  forall s t e nid lg,
    isRunning s = false \/ isPaused s = true \/ isTransitioning s = true ->
    t + Z.of_nat k < dd ->
    exists e',
      elapse k
        (wworld base s t
           [workoutInterval id e; mkTimer pid dd None (cbAdvancePhase n)]
           nid lg)
      = wworld base s (t + Z.of_nat k)
          [workoutInterval id e'; mkTimer pid dd None (cbAdvancePhase n)]
          nid lg.
Proof.
  induction k as [|k IH]; intros s t e nid lg Hheld Hlt.
  - exists e. cbn [elapse Z.of_nat]. now rewrite Z.add_0_r.
  - cbn [elapse]. rewrite held_step by exact Hheld. cbv zeta.
    assert (Ed : (dd <=? t + 1) = false) by (apply Z.leb_gt; lia).
    rewrite Ed.
    destruct (IH s (t + 1) (if e <=? t + 1 then e + 10 else e) nid lg Hheld)
      as (e' & He'); [lia|].
    exists e'. rewrite He'. f_equal. lia.
Qed.

(** When its time has come the advance runs, on a table that holds only
    the interval. *)
Lemma held_advance s t e nid lg :
  isRunning s = false \/ isPaused s = true \/ isTransitioning s = true ->
  t < dd ->
  exists e',
    after (dd - t)
      (wworld base s t
         [workoutInterval id e; mkTimer pid dd None (cbAdvancePhase n)]
         nid lg)
    = advancePhase n (wworld base s dd [workoutInterval id e'] nid lg).
Proof.
  intros Hheld Hlt. unfold after.
  replace (Z.to_nat (dd - t)) with (S (Z.to_nat (dd - t - 1))) by lia.
  rewrite elapse_snoc.
  destruct (held_settle (Z.to_nat (dd - t - 1)) s t e nid lg Hheld)
    as (e1 & He1); [lia|].
  rewrite He1, held_step by exact Hheld. cbv zeta.
  replace (t + Z.of_nat (Z.to_nat (dd - t - 1)) + 1) with dd by lia.
  rewrite Z.leb_refl. eexists. reflexivity.
Qed.

End PausedSettle.

(** X22.  A pause pressed during the 500 ms between the end of a phase
    and the start of the next one does not hold back the phase change.
    Take a running machine in that delay: the ticks are held back by the
    transition flag, and the table holds the interval and the advance to
    phase [n] of the sequence.  When the pause button is pressed and the
    advance comes due, the next phase is loaded, with its cue, on the
    paused machine, which then shows the full duration of the new phase
    and keeps its state for as long as the pause lasts. *)
Theorem pause_in_settle_lets_the_phase_change
        (w : World) (id pid e dd n : Z) (p' : Phase) (ms : nat) :
  isRunning (state w) = true -> isPaused (state w) = false ->
  isTransitioning (state w) = true ->
  timers w = [workoutInterval id e; mkTimer pid dd None (cbAdvancePhase n)] ->
  pid <> id -> clock w < dd ->
  index (phaseSequence (state w)) n = Some p' ->
  let pressed := pauseClick w in
  let w' := after (dd - clock w) pressed in
  isTransitioning (state pressed) = true /\ isPaused (state pressed) = true
  /\ isRunning (state w') = true
  /\ isPaused (state w') = true /\ isTransitioning (state w') = false
  /\ currentPhaseIndex (state w') = n
  /\ currentPhase (state w') = inPhase (phase.type p')
  /\ timeRemaining (state w') = inject_Z (phase.duration p')
  /\ log w'
     = log w ++ transitionCue (workoutMode (state w)) (currentRound (state w)) p'
         ++ [phaseLoaded n p']
  /\ state (elapse ms w') = state w'.
Proof.
  intros Hrun Hpause Htrans Hts Hpid Hlt Hp' pressed w'.
  set (s1 := set_isPaused true (state w)).
  assert (Hpressed : pressed
    = wworld w s1 (clock w)
        [workoutInterval id e; mkTimer pid dd None (cbAdvancePhase n)]
        (nextTimerId w) (log w)).
  { subst pressed s1. unfold pauseClick, pauseTimer.
    rewrite Hpause, Hrun. cbn [negb].
    destruct w as [s b dm u ts nid c l].
    cbn [timers] in Hts. subst ts. rewrite upd_mk. reflexivity. }
  destruct (held_advance w id pid n dd Hpid s1 (clock w) e (nextTimerId w)
              (log w)) as (e' & Hadv); [right; left; reflexivity|exact Hlt|].
  assert (Hw' : w'
    = wworld w (loaded s1 n p') dd [workoutInterval id e'] (nextTimerId w)
        (log w ++ transitionCue (workoutMode (state w))
                    (currentRound (state w)) p'
               ++ [phaseLoaded n p'])).
  { subst w'. rewrite Hpressed, Hadv.
    rewrite (advancePhase_next w _ _ _ _ _ n p');
      [reflexivity|exact Hrun|exact Hp']. }
  split; [rewrite Hpressed; exact Htrans|].
  split; [rewrite Hpressed; reflexivity|].
  destruct (elapse_inert (fun cb => cb = cbUpdateTimer)
              (fun x => isPaused (state x) = true)) with (ms := ms) (w := w')
    as (_ & E1 & _).
  - intros cb x -> Hg. cbn [runCallback]. apply updateTimer_guard. auto.
  - intros t x Hg. exact Hg.
  - intros c x Hg. exact Hg.
  - rewrite Hw'. reflexivity.
  - rewrite Hw'. intros u [<-|[]]. reflexivity.
  - rewrite E1, Hw'. cbn [state wworld log].
    unfold loaded, withPhase.
    split; [exact Hrun|]. repeat split.
Qed.

Lemma pause_in_settle_lets_the_phase_change_witness :
  let w := after 1200 (startTimer (page normal shortForm)) in
  isTransitioning (state w) = true
  /\ isPaused (state (after (1500 - clock w) (pauseClick w))) = true
  /\ currentPhaseIndex (state (after (1500 - clock w) (pauseClick w))) = 1.
Proof.
  cbv zeta.
  set (w := after 1200 (startTimer (page normal shortForm))).
  assert (Hw : w = after 1200 (startTimer (page normal shortForm)))
    by reflexivity.
  assert (H1 : isRunning (state w) = true) by (rewrite Hw; vm_compute; reflexivity).
  assert (H2 : isPaused (state w) = false) by (rewrite Hw; vm_compute; reflexivity).
  assert (H3 : isTransitioning (state w) = true)
    by (rewrite Hw; vm_compute; reflexivity).
  assert (H4 : timers w = [workoutInterval 1 1210;
                           mkTimer 2 1500 None (cbAdvancePhase 1)])
    by (rewrite Hw; vm_compute; reflexivity).
  assert (H5 : clock w < 1500) by (rewrite Hw; vm_compute; reflexivity).
  assert (H6 : index (phaseSequence (state w)) 1
               = Some (phase.mk work 30 1 1 None None))
    by (rewrite Hw; vm_compute; reflexivity).
  clearbody w.
  destruct (pause_in_settle_lets_the_phase_change w 1 2 1210 1500 1
              (phase.mk work 30 1 1 None None) 0 H1 H2 H3 H4)
    as (_ & _ & _ & A & _ & B & _);
    [discriminate|exact H5|exact H6|].
  split; [exact H3|]. split; [exact A|exact B].
Defined.

(* ================================================================== *)
(** * After a reset of the breathing timer                              *)
(* ================================================================== *)

Lemma updB_same (f : BreathingState -> BreathingState) (w : World) :
  f (breathing w) = breathing w -> updB f w = w.
Proof.
  intros H. destruct w as [s b d u ts nid c l]. rewrite updB_mk.
  cbn [breathing] in H. rewrite H. reflexivity.
Qed.

Lemma breathing_stopped_ignores (cb : Callback) (w : World) :
  isBreathingTickOrAdvance cb ->
  breathingIsRunning (breathing w) = false
  /\ breathingIsTransitioning (breathing w) = false ->
  runCallback cb w = w.
Proof.
  intros [->|(n & ->)] (Hrun & Htrans); cbn [runCallback].
  - apply updateBreathingTimer_guard. now left.
  - unfold advanceBreathingPhase. rewrite Hrun. cbn [negb].
    apply updB_same. destruct (breathing w). cbn in *. subst. reflexivity.
Qed.

Lemma resetBreathingTimer_ready (w : World) :
  let b := breathing (resetBreathingTimer w) in
  breathingIsRunning b = false /\ breathingIsTransitioning b = false
  /\ breathingIsPaused b = false
  /\ currentBreathingPhase b = breathingReady
  /\ (breathingTimeRemaining b == 0)%Q
  /\ log (resetBreathingTimer w) = log w
  /\ clock (resetBreathingTimer w) = clock w
  /\ state (resetBreathingTimer w) = state w.
Proof.
  unfold resetBreathingTimer.
  destruct w as [s b d u ts nid c l]. destruct b as [f1 f2 f3 f4 f5 [id|] f7 f8 f9];
    cbn; repeat split; reflexivity.
Qed.

(** X23.  A reset of the breathing timer is final.  Whatever ticks and
    phase advances of the breathing timer are still registered after
    [resetBreathingTimer], they change nothing: until the next start the
    breathing state stays the one the reset left, in [ready], not running
    and with no time on the clock, and nothing is played or shown. *)
Theorem breathing_reset_is_final (w : World) (ms : nat) :
  (forall u, In u (timers (resetBreathingTimer w)) ->
             isBreathingTickOrAdvance (callback u)) ->
  let w' := elapse ms (resetBreathingTimer w) in
  breathing w' = breathing (resetBreathingTimer w)
  /\ currentBreathingPhase (breathing w') = breathingReady
  /\ breathingIsRunning (breathing w') = false
  /\ (breathingTimeRemaining (breathing w') == 0)%Q
  /\ log w' = log w /\ state w' = state w.
Proof.
  intros Htimers w'.
  destruct (resetBreathingTimer_ready w)
    as (Hrun & Htrans & _ & Hready & Htr & Hlog & _ & Hstate).
  destruct (elapse_inert isBreathingTickOrAdvance
              (fun x => breathingIsRunning (breathing x) = false
                        /\ breathingIsTransitioning (breathing x) = false)
              breathing_stopped_ignores
              (fun t x H => H) (fun c x H => H)
              ms (resetBreathingTimer w) (conj Hrun Htrans) Htimers)
    as (_ & Hs & Hb & Hl & _).
  fold w' in Hs, Hb, Hl.
  rewrite Hb, Hl, Hs, Hlog, Hstate. repeat split; assumption.
Qed.

Lemma breathing_reset_is_final_witness :
  (forall u,
     In u (timers (resetBreathingTimer
                     (after 1200 (startBreathingTimer (page normal shortForm))))) ->
     isBreathingTickOrAdvance (callback u))
  /\ currentBreathingPhase
       (breathing
          (elapse 5000
             (resetBreathingTimer
                (after 1200 (startBreathingTimer (page normal shortForm))))))
     = breathingReady.
Proof.
  assert (H : forall u,
            In u (timers (resetBreathingTimer
                            (after 1200
                               (startBreathingTimer (page normal shortForm))))) ->
            isBreathingTickOrAdvance (callback u)).
  { assert (E : timers (resetBreathingTimer
                          (after 1200
                             (startBreathingTimer (page normal shortForm))))
                = [mkTimer 2 1500 None (cbAdvanceBreathingPhase 1)])
      by (vm_compute; reflexivity).
    rewrite E. intros u [<-|[]]. right. exists 1. reflexivity. }
  split; [exact H|].
  exact (proj1 (proj2 (breathing_reset_is_final
                         (after 1200 (startBreathingTimer (page normal shortForm)))
                         5000 H))).
Defined.
